(** * DegreeVerify upload file: fixed-width encoder and record assembler

    A shallow embedding of [DegreeVerify_create_upload_file.py].  Python
    strings are Rocq strings (one character stands for one code point; only
    length, prefix, substring and concatenation are used), Python ints are
    [Z], a pandas cell is a [value], a row is a finite map from column names
    to cells, and a file is the sequence of chunks passed to [f.write]. *)

From Stdlib Require Import ZArith Lia List Ascii.
From stdpp Require Import gmap strings list sorting pretty.

Local Open Scope Z_scope.

(** ** Python string primitives *)

Module Py.

(** [len(s)] *)
Definition len (s : string) : Z := Z.of_nat (String.length s).

(** [n] blanks *)
Fixpoint spaces (n : nat) : string :=
  match n with
  | O => ""
  | S n' => String " "%char (spaces n')
  end.

(** [s[:k]]: the first [k] characters, or all but the last [-k] when [k]
    is negative. *)
Definition slice_to (s : string) (k : Z) : string :=
  if 0 <=? k then String.substring 0 (Z.to_nat k) s
  else String.substring 0 (Z.to_nat (len s + k)) s.

(** [s.ljust(width)] *)
Definition ljust (s : string) (width : Z) : string :=
  s +:+ spaces (Z.to_nat (width - len s)).

(** [sub in s] *)
Fixpoint contains (sub s : string) : bool :=
  String.prefix sub s
  || match s with
     | "" => false
     | String _ s' => contains sub s'
     end.

(** [s.startswith(p)] *)
Definition startswith (s p : string) : bool := String.prefix p s.

(** [str(n)] for an int *)
Definition str (n : Z) : string := pretty n.

(** the one-character string ["\n"] *)
Definition newline : string := String "010"%char "".

(** [s.replace(old, new)] for a non-empty [old]: occurrences are replaced
    from the left and do not overlap; [skip] counts the characters of an
    occurrence still to be passed over. *)
Fixpoint replace_go (old new : string) (skip : nat) (s : string) : string :=
  match s with
  | "" => ""
  | String a s' =>
      match skip with
      | S k => replace_go old new k s'
      | O =>
          if String.prefix old s
          then new +:+ replace_go old new (String.length old - 1) s'
          else String a (replace_go old new 0 s')
      end
  end.

Definition replace (s old new : string) : string := replace_go old new 0 s.

End Py.

(** ** Exceptions and results *)

(** The exceptions of Python that the program can meet; [OtherError] stands
    for one raised outside the program and pandas (by the database driver
    or the spreadsheet writer), by the name of its class. *)
Inductive exn : Type :=
| KeyError (key : string)
| TypeError
| ValueError
| AttributeError
| OtherError (name : string).

Inductive result (A : Type) : Type :=
| Ok (a : A)
| Raise (e : exn).
Arguments Ok {A} a.
Arguments Raise {A} e.

#[global] Instance result_ret : MRet result := fun A a => Ok a.

#[global] Instance result_bind : MBind result := fun A B k m =>
  match m with
  | Ok a => k a
  | Raise e => Raise e
  end.

(** ** Cells, rows and frames *)

(** A cell of an object column: a Python [str], an [int], or the missing
    marker [NaN] (a float). *)
Inductive value : Type :=
| VStr (s : string)
| VInt (n : Z)
| VNaN.

#[global] Instance value_eq_dec : EqDecision value.
Proof. solve_decision. Defined.

(** A frame has an ordered list of column labels and a list of rows.  The
    cell of row [r] in a column [c] of the frame is [cell r c]; entries of
    [r] under labels that are not columns of the frame are never read. *)
Record DataFrame : Type := {
  columns : list string;
  data : list (gmap string value)
}.

Definition cell (r : gmap string value) (c : string) : value :=
  default VNaN (r !! c).

Definition has_column (df : DataFrame) (c : string) : bool :=
  bool_decide (c ∈ columns df).

(** [row[c]] for a row yielded by [df.iterrows()] *)
Definition getitem (df : DataFrame) (r : gmap string value) (c : string)
  : result value :=
  if has_column df c then Ok (cell r c) else Raise (KeyError c).

(** ** Files *)

Inductive file_mode : Type := mode_w | mode_a.

(** The chunks a file holds right after [open(fpath, f_mode)]. *)
Definition open_file (fs : gmap string (list string)) (fpath : string)
    (f_mode : file_mode) : list string :=
  match f_mode with
  | mode_w => []
  | mode_a => default [] (fs !! fpath)
  end.

(** ** write_fw *)

(** One entry of [specs]: column name and [[max_len, start, end]]. *)
Definition field_spec : Type := string * (Z * Z * Z).

Definition is_filler (c : string) : bool := Py.contains "Filler" c.

(** Lines 486-489: cut or pad [s] to [max_len]. *)
Definition fit (s : string) (max_len : Z) : string :=
  if Py.len s >? max_len then Py.slice_to s max_len
  else if Py.len s <? max_len then Py.ljust s max_len
  else s.

(** What the body of the row loop does with one row. *)
Inductive row_outcome : Type :=
| Line (line : string)
| Return0
| Raised (e : exn).

(** The inner loop [for c, v in specs.items()], started with [line]. *)
Fixpoint encode_fields (df : DataFrame) (row : gmap string value)
    (specs : list field_spec) (line : string) : row_outcome :=
  match specs with
  | [] => Line line
  | (c, (max_len, start, end_)) :: rest =>
      match (if is_filler c then Ok (VStr " ") else getitem df row c) with
      | Raise e => Raised e
      | Ok s =>
          if negb (start + (max_len - 1) =? end_) then Return0
          else
            match s with
            | VStr s => encode_fields df row rest (line +:+ fit s max_len)
            | VInt _ | VNaN => Raised TypeError
            end
      end
  end.

(** The outer loop [for index, row in df.iterrows()], with the file chunks
    [f] and the counter [lw]. *)
Fixpoint write_rows (df : DataFrame) (rows : list (gmap string value))
    (specs : list field_spec) (f : list string) (lw : Z)
  : result Z * list string :=
  match rows with
  | [] => (Ok lw, f)
  | row :: rest =>
      match encode_fields df row specs "" with
      | Line line => write_rows df rest specs (f ++ [line; Py.newline]) (lw + 1)
      | Return0 => (Ok 0, f)
      | Raised e => (Raise e, f)
      end
  end.

Definition write_fw (fs : gmap string (list string)) (fpath : string)
    (f_mode : file_mode) (df : DataFrame) (specs : list field_spec)
  : result Z * gmap string (list string) :=
  let '(r, f) := write_rows df (data df) specs (open_file fs fpath f_mode) 0 in
  (r, <[fpath := f]> fs).

(** [pd.DataFrame(data=d)] for a dict [d] of one-element lists: one row, the
    columns in the order of the dict. *)
Definition single_row_frame (d : list (string * value)) : DataFrame :=
  {| columns := d.*1; data := [list_to_map d] |}.

(** ** Header, data and trailer sections *)

Definition dv_hdr_def : list field_spec :=
  [ ("Record Type",          (   3,   1,    3));
    ("School Code",          (   6,   4,    9));
    ("Branch Code",          (   2,  10,   11));
    ("Official School Name", (  80,  12,   91));
    ("Filler01",             (  15,  92,  106));
    ("Standard Report Flag", (   1, 107,  107));
    ("Transmission Date",    (   8, 108,  115));
    ("Degree Period",        (  80, 116,  195));
    ("Filler02",             (3645, 196, 3840)) ].

Definition header_data (transmission_date degree_period : string)
  : list (string * value) :=
  [ ("Record Type",          VStr "DH1");
    ("School Code",          VStr "002795");
    ("Branch Code",          VStr "00");
    ("Official School Name", VStr "PAUL SMITH'S COLLEGE OF THE ADIRONDACKS");
    ("Filler01",             VStr " ");
    ("Standard Report Flag", VStr "D");
    ("Transmission Date",    VStr transmission_date);
    ("Degree Period",        VStr degree_period);
    ("Filler02",             VStr " ") ].

Definition write_DV_header (fs : gmap string (list string)) (out_fn : string)
    (transmission_date degree_period : string)
  : result Z * gmap string (list string) :=
  let hdr_df := single_row_frame (header_data transmission_date degree_period) in
  write_fw fs out_fn mode_w hdr_df dv_hdr_def.

Definition dv_col_def : list field_spec :=
  [ ("Record Type", (3, 1, 3));
    ("Student SSN", (9, 4, 12));
    ("First Name", (40, 13, 52));
    ("Middle Name", (40, 53, 92));
    ("Last Name", (40, 93, 132));
    ("Name Suffix", (5, 133, 137));
    ("Previous Last Name", (40, 138, 177));
    ("Previous First Name", (40, 178, 217));
    ("Date of Birth", (8, 218, 225));
    ("College Student ID", (20, 226, 245));
    ("Filler1", (59, 246, 304));
    ("Degree Level Indicator", (1, 305, 305));
    ("Degree, Certificate, or Credential Title", (80, 306, 385));
    ("School/College/Division Awarding Degree", (50, 386, 435));
    ("Joint Institution/College/School/Division Name", (60, 436, 495));
    ("Date Degree, Credential, or Certificate Awarded", (8, 496, 503));
    ("Filler02", (80, 504, 583));
    ("Major Course of Study 1", (80, 584, 663));
    ("Major Course of Study 2", (80, 664, 743));
    ("Major Course of Study 3", (80, 744, 823));
    ("Major Course of Study 4", (80, 824, 903));
    ("Filler03", (160, 904, 1063));
    ("Minor Course of Study 1", (80, 1064, 1143));
    ("Minor Course of Study 2", (80, 1144, 1223));
    ("Minor Course of Study 3", (80, 1224, 1303));
    ("Minor Course of Study 4", (80, 1304, 1383));
    ("Filler04", (160, 1384, 1543));
    ("Major Option 1", (80, 1544, 1623));
    ("Major Option 2", (80, 1624, 1703));
    ("Filler05", (160, 1704, 1863));
    ("Major Concentration 1", (80, 1864, 1943));
    ("Major Concentration 2", (80, 1944, 2023));
    ("Major Concentration 3", (80, 2024, 2103));
    ("Filler06", (280, 2104, 2383));
    ("NCES CIP Code for Major 1", (6, 2384, 2389));
    ("NCES CIP Code for Major 2", (6, 2390, 2395));
    ("NCES CIP Code for Major 3", (6, 2396, 2401));
    ("NCES CIP Code for Major 4", (6, 2402, 2407));
    ("Filler07", (20, 2408, 2427));
    ("NCES CIP Code for Minor 1", (6, 2428, 2433));
    ("NCES CIP Code for Minor 2", (6, 2434, 2439));
    ("NCES CIP Code for Minor 3", (6, 2440, 2445));
    ("NCES CIP Code for Minor 4", (6, 2446, 2451));
    ("Filler08", (120, 2452, 2571));
    ("Academic Honors", (50, 2572, 2621));
    ("Filler09", (196, 2622, 2817));
    ("Honors Program", (50, 2818, 2867));
    ("Filler10", (100, 2868, 2967));
    ("Other Honors", (150, 2968, 3117));
    ("Attendance From Date", (8, 3118, 3125));
    ("Attendance To Date", (8, 3126, 3133));
    ("FERPA Block", (1, 3134, 3134));
    ("School Financial Block", (1, 3135, 3135));
    ("Filler11", (100, 3136, 3235));
    ("Name of Institution Granting Degree", (50, 3236, 3285));
    ("Reverse Transfer Flag", (1, 3286, 3286));
    ("Certificate Type", (1, 3287, 3287));
    ("Filler12", (553, 3288, 3840)) ].

Definition write_DV_data (fs : gmap string (list string)) (dv_df : DataFrame)
    (out_fn : string) : result Z * gmap string (list string) :=
  write_fw fs out_fn mode_a dv_df dv_col_def.

Definition dv_tlr_def : list field_spec :=
  [ ("Record Type",        (   3,  1,    3));
    ("Total Record Count", (  10,  4,   13));
    ("Filler01",           (3827, 14, 3840)) ].

Definition trailer_data (detail_record_count : Z) : list (string * value) :=
  let total_record_count := detail_record_count + 2 in
  [ ("Record Type",        VStr "DT1");
    ("Total Record Count", VStr (Py.str total_record_count));
    ("Filler01",           VStr " ") ].

Definition write_DV_trailer (fs : gmap string (list string)) (out_fn : string)
    (detail_record_count : Z) : result Z * gmap string (list string) :=
  let tlr_df := single_row_frame (trailer_data detail_record_count) in
  write_fw fs out_fn mode_a tlr_df dv_tlr_def.

(** ** Vocabulary for statements about field specifications *)

Definition field_name (f : field_spec) : string := f.1.
Definition field_width (f : field_spec) : Z := f.2.1.1.
Definition field_start (f : field_spec) : Z := f.2.1.2.
Definition field_end (f : field_spec) : Z := f.2.2.

(** The check of line 483, for one field and for a whole specification. *)
Definition field_consistent (f : field_spec) : Prop :=
  field_start f + (field_width f - 1) = field_end f.

#[global] Instance field_consistent_dec f : Decision (field_consistent f).
Proof. unfold field_consistent. apply _. Defined.

Definition consistent (specs : list field_spec) : Prop :=
  Forall field_consistent specs.

Definition total_width (specs : list field_spec) : Z :=
  foldr (fun f acc => field_width f + acc) 0 specs.

(** The largest end position of a specification (0 for the empty one). *)
Definition max_end (specs : list field_spec) : Z :=
  foldr (fun f acc => Z.max (field_end f) acc) 0 specs.

(** The chunks written for a list of lines: each line, then a newline. *)
Definition chunks (lines : list string) : list string :=
  flat_map (fun line => [line; Py.newline]) lines.

(** The text of one field of an encoded row: a blank for a filler, the cell
    otherwise, cut or padded to the width. *)
Definition field_text (c : string) (s : string) (max_len : Z) : string :=
  fit (if is_filler c then " " else s) max_len.

(** The Python string held by a cell, if it is one. *)
Definition cell_str (v : value) : string :=
  match v with
  | VStr s => s
  | VInt _ | VNaN => ""
  end.

Definition is_str (v : value) : bool :=
  match v with
  | VStr _ => true
  | VInt _ | VNaN => false
  end.

(** The text a row contributes for a list of fields, when every field can
    be encoded. *)
Fixpoint row_text (row : gmap string value) (specs : list field_spec)
  : string :=
  match specs with
  | [] => ""
  | (c, (max_len, _, _)) :: rest =>
      field_text c (cell_str (cell row c)) max_len +:+ row_text row rest
  end.

(** A row can be encoded against a specification when each field that is
    not a filler names a column of the frame whose cell is a [str]. *)
Definition field_present (df : DataFrame) (row : gmap string value)
    (f : field_spec) : Prop :=
  is_filler (field_name f) = false ->
  has_column df (field_name f) = true
  /\ exists s, cell row (field_name f) = VStr s.

Definition row_complete (df : DataFrame) (row : gmap string value)
    (specs : list field_spec) : Prop :=
  Forall (field_present df row) specs.

(** Whether the inner loop, run on [row], gets as far as the check of the
    first inconsistent field: each field before it is a filler or has a
    [str] cell, and that field itself is a filler or names a column. *)
Fixpoint reaches_check (df : DataFrame) (row : gmap string value)
    (specs : list field_spec) : bool :=
  match specs with
  | [] => false
  | (c, (max_len, start, end_)) :: rest =>
      if start + (max_len - 1) =? end_ then
        (is_filler c || (has_column df c && is_str (cell row c)))
        && reaches_check df row rest
      else is_filler c || has_column df c
  end.

(** ** Frame operations used by the record assembler *)

(** [df[c] = v] for a scalar [v]: every row gets [v] in column [c]; a new
    column goes last. *)
Definition set_column (c : string) (v : value) (df : DataFrame) : DataFrame :=
  {| columns := if has_column df c then columns df else columns df ++ [c];
     data := map (fun r => <[c := v]> r) (data df) |}.

(** Element tests that build a boolean mask from a column.  [isin] and
    [isna] answer on every cell; [.str.startswith] answers only on a [str]
    and leaves a missing value in the mask otherwise. *)
Definition isin (vals : list string) (v : value) : option bool :=
  match v with
  | VStr s => Some (bool_decide (s ∈ vals))
  | VInt _ | VNaN => Some false
  end.

Definition isna (v : value) : option bool :=
  match v with
  | VNaN => Some true
  | VStr _ | VInt _ => Some false
  end.

Definition str_startswith (p : string) (v : value) : option bool :=
  match v with
  | VStr s => Some (Py.startswith s p)
  | VInt _ | VNaN => None
  end.

(** [df.loc[test(df[src]), target] = v].  Reading a column that does not
    exist raises [KeyError]; a mask with a missing value cannot index;
    a new [target] column cannot be added to a frame without rows; in a
    new column the rows outside the mask hold [NaN]. *)
Definition loc_set (src : string) (test : value -> option bool)
    (target : string) (v : value) (df : DataFrame) : result DataFrame :=
  if negb (has_column df src) then Raise (KeyError src)
  else if negb (forallb (fun r => bool_decide (is_Some (test (cell r src))))
                  (data df))
  then Raise ValueError
  else
    let selected r := default false (test (cell r src)) in
    if has_column df target then
      Ok {| columns := columns df;
            data := map (fun r => if selected r then <[target := v]> r else r)
                      (data df) |}
    else
      match data df with
      | [] => Raise ValueError
      | _ :: _ =>
          Ok {| columns := columns df ++ [target];
                data := map (fun r =>
                          <[target := if selected r then v else VNaN]> r)
                          (data df) |}
      end.

(** [df.rename(columns={old: new})] for one label; a label that is not a
    column is ignored. *)
Definition rename_column (old new : string) (df : DataFrame) : DataFrame :=
  if has_column df old then
    {| columns := map (fun c => if decide (c = old) then new else c)
                    (columns df);
       data := map (fun r => <[new := cell r old]> (delete old r)) (data df) |}
  else df.

(** [df.rename(columns=mapping)], for a mapping whose new labels are not
    among its old ones (so that the order of renaming is immaterial). *)
Definition rename (mapping : list (string * string)) (df : DataFrame)
  : DataFrame :=
  foldl (fun df '(old, new) => rename_column old new df) df mapping.

(** [for f in fields: if f not in df.columns: df[f] = v] *)
Definition add_missing_columns (fields : list string) (v : value)
    (df : DataFrame) : DataFrame :=
  foldl (fun df f => if has_column df f then df else set_column f v df)
    df fields.

(** [df[cols] = df[cols].fillna(v)] *)
Definition fillna_row (cols : list string) (v : value)
    (r : gmap string value) : gmap string value :=
  foldr (fun c r => if decide (cell r c = VNaN) then <[c := v]> r else r)
    r cols.

Definition fillna (cols : list string) (v : value) (df : DataFrame)
  : result DataFrame :=
  match filter (fun c => has_column df c = false) cols with
  | c :: _ => Raise (KeyError c)
  | [] => Ok {| columns := columns df;
                data := map (fillna_row cols v) (data df) |}
  end.

(** [df.loc[~(df[c].isna()), :]] *)
Definition drop_missing (c : string) (df : DataFrame) : result DataFrame :=
  if has_column df c then
    Ok {| columns := columns df;
          data := filter (fun r => cell r c <> VNaN) (data df) |}
  else Raise (KeyError c).

(** *** Sorting *)

(** The order [sort_values] puts cells in: strings by code point, ints by
    value, missing values last; between a string and an int this
    comparison puts the int first, as a sort on several keys does. *)
Definition value_leb (v w : value) : bool :=
  match v, w with
  | _, VNaN => true
  | VNaN, _ => false
  | VStr s, VStr t => String.leb s t
  | VInt m, VInt n => m <=? n
  | VInt _, VStr _ => true
  | VStr _, VInt _ => false
  end.

(** Rows compared on a list of key columns, the first column first. *)
Fixpoint key_leb (by_ : list string) (r1 r2 : gmap string value) : bool :=
  match by_ with
  | [] => true
  | c :: rest =>
      if decide (cell r1 c = cell r2 c) then key_leb rest r1 r2
      else value_leb (cell r1 c) (cell r2 c)
  end.

(** A stable sort: [x] is put in front of the first element it does not
    exceed, and the rows are inserted from the last to the first. *)
Fixpoint insert_sorted {A : Type} (leb : A -> A -> bool) (x : A) (l : list A)
  : list A :=
  match l with
  | [] => [x]
  | y :: l' => if leb x y then x :: y :: l' else y :: insert_sorted leb x l'
  end.

Definition stable_sort {A : Type} (leb : A -> A -> bool) (l : list A) : list A :=
  foldr (insert_sorted leb) [] l.

Definition mixed_column (c : string) (df : DataFrame) : bool :=
  existsb (fun r => is_str (cell r c)) (data df)
  && existsb (fun r => match cell r c with VInt _ => true | _ => false end)
       (data df).

(** A column of numbers (with or without missing values): it holds an int
    and no string. *)
Definition numeric_column (c : string) (df : DataFrame) : bool :=
  existsb (fun r => match cell r c with VInt _ => true | _ => false end)
    (data df)
  && negb (existsb (fun r => is_str (cell r c)) (data df)).

(** [df.sort_values(by_)].  With one key the cells are compared with one
    another, which a column mixing strings and ints does not allow; with
    several keys each column is ordered by its distinct values, ints
    before strings, and no mix is refused. *)
Definition sort_values (by_ : list string) (df : DataFrame)
  : result DataFrame :=
  match filter (fun c => has_column df c = false) by_ with
  | c :: _ => Raise (KeyError c)
  | [] =>
      if (length by_ =? 1)%nat && existsb (fun c => mixed_column c df) by_
      then Raise TypeError
      else Ok {| columns := columns df;
                 data := stable_sort (key_leb by_) (data df) |}
  end.

(** ** The record assembler *)

Definition unused_fields : list string :=
  [ "School/College/Division Awarding Degree";
    "Joint Institution/College/School/Division Name";
    "Major Course of Study 2";
    "Major Course of Study 3";
    "Major Course of Study 4";
    "Minor Course of Study 1";
    "Minor Course of Study 2";
    "Minor Course of Study 3";
    "Minor Course of Study 4";
    "Major Option 1";
    "Major Option 2";
    "Major Concentration 1";
    "Major Concentration 2";
    "Major Concentration 3";
    "NCES CIP Code for Major 1";
    "NCES CIP Code for Major 2";
    "NCES CIP Code for Major 3";
    "NCES CIP Code for Major 4";
    "NCES CIP Code for Minor 1";
    "NCES CIP Code for Minor 2";
    "NCES CIP Code for Minor 3";
    "NCES CIP Code for Minor 4";
    "Honors Program";
    "Other Honors";
    "Name of Institution Granting Degree";
    "Reverse Transfer Flag";
    "Certificate Type";
    "Filler01";
    "Filler02";
    "Filler03";
    "Filler04";
    "Filler05";
    "Filler06";
    "Filler07";
    "Filler08";
    "Filler09";
    "Filler10";
    "Filler11";
    "Filler12" ].

Definition fill_list : list string :=
  [ "Minor Course of Study 1";
    "Minor Course of Study 2";
    "Minor Course of Study 3";
    "Minor Course of Study 4";
    "Academic Honors";
    "Certificate Type";
    "NCES CIP Code for Major 1";
    "Attendance From Date";
    "Attendance To Date" ].

Definition report_names : list (string * string) :=
  [ ("GOVERNMENT_ID", "Student SSN");
    ("FIRST_NAME", "First Name");
    ("MIDDLE_NAME", "Middle Name");
    ("LAST_NAME", "Last Name");
    ("SUFFIX", "Name Suffix");
    ("BIRTH_DATE", "Date of Birth");
    ("PEOPLE_CODE_ID", "College Student ID");
    ("GRADUATION_DATE", "Date Degree, Credential, or Certificate Awarded");
    ("LONG_DESC", "Degree, Certificate, or Credential Title");
    ("FORMAL_TITLE", "Major Course of Study 1");
    ("START_DATE", "Attendance From Date");
    ("END_DATE", "Attendance To Date");
    ("CipCode", "NCES CIP Code for Major 1") ].

(** [create_DV_df] from line 339 on, applied to the frame [df] that the
    chain of left merges (lines 300-337) has built. *)
Definition create_DV_df (df : DataFrame) : result DataFrame :=
  let df := set_column "Record Type" (VStr "DD1") df in
  df ← loc_set "DEGREE" (isin ["BS"; "BA"; "BPS"])
         "Degree Level Indicator" (VStr "B") df;
  df ← loc_set "DEGREE" (isin ["AS"; "AAS"; "AA"; "AOS"])
         "Degree Level Indicator" (VStr "A") df;
  df ← loc_set "DEGREE" (isin ["MS"; "MPS"])
         "Degree Level Indicator" (VStr "M") df;
  df ← loc_set "DEGREE" (isin ["CERTIF"])
         "Degree Level Indicator" (VStr "C") df;
  df ← loc_set "DEGREE" (isin ["GCERT"])
         "Degree Level Indicator" (VStr "T") df;
  df ← loc_set "HONORS" (isin ["CUM"]) "Academic Honors" (VStr "Cum Laude") df;
  df ← loc_set "HONORS" (isin ["MAGNA"])
         "Academic Honors" (VStr "Magna Cum Laude") df;
  df ← loc_set "HONORS" (isin ["SUMMA"])
         "Academic Honors" (VStr "Summa Cum Laude") df;
  df ← loc_set "DEGREE" (isin ["CERTIF"]) "Certificate Type" (VStr "2") df;
  let df := set_column "FERPA Block" (VStr "N") df in
  df ← loc_set "RELEASE_INFO" (isin ["NORL"]) "FERPA Block" (VStr "Y") df;
  let df := set_column "School Financial Block" (VStr "N") df in
  df ← loc_set "STOP_REASON" (isin ["BURS"; "COLL"; "STAC"])
         "School Financial Block" (VStr "Y") df;
  let df := rename report_names df in
  let df := add_missing_columns unused_fields (VStr " ") df in
  df ← fillna fill_list (VStr " ") df;
  df ← drop_missing "Student SSN" df;
  df ← loc_set "Student SSN" (str_startswith "000")
         "Student SSN" (VStr "NO SSN") df;
  df ← loc_set "Student SSN" (str_startswith "888")
         "Student SSN" (VStr "NO SSN") df;
  df ← loc_set "Student SSN" (str_startswith "999")
         "Student SSN" (VStr "NO SSN") df;
  df ← loc_set "First Name" isna "First Name" (VStr "NFN") df;
  sort_values
    ["Student SSN"; "Date Degree, Credential, or Certificate Awarded"] df.

(** ** Vocabulary for statements about the assembler *)

(** [r'] agrees with [r] outside the columns [touched]. *)
Definition keeps (touched : list string) (r r' : gmap string value) : Prop :=
  forall c, c ∉ touched -> cell r' c = cell r c.

(** What the three SSN assignments make of a string. *)
Definition normal_ssn (s : string) : string :=
  if Py.startswith s "000" || Py.startswith s "888" || Py.startswith s "999"
  then "NO SSN" else s.

(** The row that [loc_set] makes of [r]; [b] tells whether the target
    column exists already. *)
Definition loc_set_row (b : bool) (src : string) (test : value -> option bool)
    (target : string) (v : value) (r : gmap string value)
  : gmap string value :=
  let selected := default false (test (cell r src)) in
  if b then (if selected then <[target := v]> r else r)
  else <[target := if selected then v else VNaN]> r.

(** [df'] is [df] with each row rewritten, the cells outside [touched]
    left alone, and no column outside [touched] lost. *)
Definition row_step (touched : list string) (df df' : DataFrame) : Prop :=
  exists f,
    data df' = map f (data df)
    /\ (forall r, keeps touched r (f r))
    /\ (forall c, c ∉ touched -> has_column df c = true ->
          has_column df' c = true).

(** All labels that [rename report_names] reads or writes. *)
Definition renamed_labels (mapping : list (string * string)) : list string :=
  flat_map (fun '(old, new) => [old; new]) mapping.

(** Every row of [df'] comes from a row of [df] and agrees with it outside
    [touched]. *)
Definition rows_from (touched : list string) (df df' : DataFrame) : Prop :=
  forall r', r' ∈ data df' -> exists r, r ∈ data df /\ keeps touched r r'.

(** The level table of lines 341-345, read off a DEGREE cell; [VNaN] is
    what a new column holds where no rule applies. *)
Definition level_of (degree : value) : value :=
  match degree with
  | VStr d =>
      if bool_decide (d ∈ ["BS"; "BA"; "BPS"]) then VStr "B"
      else if bool_decide (d ∈ ["AS"; "AAS"; "AA"; "AOS"]) then VStr "A"
      else if bool_decide (d ∈ ["MS"; "MPS"]) then VStr "M"
      else if bool_decide (d ∈ ["CERTIF"]) then VStr "C"
      else if bool_decide (d ∈ ["GCERT"]) then VStr "T"
      else VNaN
  | VInt _ | VNaN => VNaN
  end.

(** The derived columns of lines 339-357 are set without touching any
    other column. *)
Definition derived_labels : list string :=
  [ "Record Type"; "Degree Level Indicator"; "Academic Honors";
    "Certificate Type"; "FERPA Block"; "School Financial Block" ].

(** Every label that the assembler writes, renames or fills. *)
Definition assembler_labels : list string :=
  derived_labels ++ renamed_labels report_names ++ unused_fields ++ fill_list
  ++ ["Student SSN"; "First Name"].

(** Whether a call returned, and the frame it returned (the empty frame
    stands in when it raised). *)
Definition is_ok {A : Type} (r : result A) : bool :=
  match r with
  | Ok _ => true
  | Raise _ => false
  end.

Definition frame_of (r : result DataFrame) : DataFrame :=
  match r with
  | Ok df => df
  | Raise _ => {| columns := []; data := [] |}
  end.

(** ** Frames on which the assembler returns *)

(** The columns of the merged frame that the assembler reads. *)
Definition merged_labels : list string :=
  [ "DEGREE"; "HONORS"; "RELEASE_INFO"; "STOP_REASON"; "GOVERNMENT_ID";
    "FIRST_NAME"; "GRADUATION_DATE"; "START_DATE"; "END_DATE" ].

Definition is_int (v : value) : bool :=
  match v with
  | VInt _ => true
  | VStr _ | VNaN => false
  end.

(** A merged frame with at least one row, the columns that the assembler
    reads, and no number as government ID or graduation date. *)
Definition well_formed_merged (df : DataFrame) : Prop :=
  data df <> []
  /\ Forall (fun c => has_column df c = true) merged_labels
  /\ Forall (fun r => is_int (cell r "GOVERNMENT_ID") = false
                      /\ is_int (cell r "GRADUATION_DATE") = false)
       (data df).

Definition awarded : string :=
  "Date Degree, Credential, or Certificate Awarded".

(** The state of the frame between the SSN filter and the sort. *)
Definition ssn_ready (df : DataFrame) : Prop :=
  has_column df "Student SSN" = true
  /\ has_column df "First Name" = true
  /\ has_column df awarded = true
  /\ Forall (fun r => is_str (cell r "Student SSN") = true
                      /\ is_int (cell r awarded) = false) (data df).

(** ** The run *)

(** What [main] calls beside the functions of this file: the date parser
    of numpy, the reads and joins at the head of [create_DV_df], and the
    spreadsheet writer of pandas.  Each may end with an exception; the
    statements about [main] hold whatever they compute.  The files [fs]
    are those written through [open] and the spreadsheet writer; the sink
    of the logger is not among them. *)
Class Runtime : Type := {
  date : Type;
  (** [np.datetime64(s)] *)
  datetime64 : string -> result date;
  (** Lines 270-337 of [create_DV_df(start_date, end_date)]: the frames
      read from the database and joined to the degrees. *)
  merged_frame : date -> date -> result DataFrame;
  (** [with pd.ExcelWriter(path) as writer:
         df.to_excel(writer, sheet_name=sheet)] *)
  to_excel :
    gmap string (list string) -> string -> string -> DataFrame ->
    result unit * gmap string (list string)
}.

(** [main]; [today_str] and [today_ymd] are the two renderings of the
    current time.  An exception raised by one step ends the run; a run
    that completes returns [None]. *)
Definition main `{Runtime} (fs : gmap string (list string))
    (today_str today_ymd start_date_str end_date_str : string)
  : result unit * gmap string (list string) :=
  match datetime64 start_date_str with
  | Raise e => (Raise e, fs)
  | Ok start_date =>
  match datetime64 end_date_str with
  | Raise e => (Raise e, fs)
  | Ok end_date =>
  let dataset_description :=
    "Degree Completions " +:+ start_date_str +:+ " to " +:+ end_date_str in
  match merged_frame start_date end_date ≫= create_DV_df with
  | Raise e => (Raise e, fs)
  | Ok df =>
  let base_fn := "PaulSmithsCollege_DegreeVerify_" +:+ today_str in
  let xl_output := base_fn +:+ ".xlsx" in
  match to_excel fs xl_output "DV_file" df with
  | (Raise e, fs) => (Raise e, fs)
  | (Ok _, fs) =>
  match write_DV_header fs (base_fn +:+ ".txt") today_ymd
          dataset_description with
  | (Raise e, fs) => (Raise e, fs)
  | (Ok lw, fs) =>
  match write_DV_data fs df (base_fn +:+ ".txt") with
  | (Raise e, fs) => (Raise e, fs)
  | (Ok lw, fs) =>
  match write_DV_trailer fs (base_fn +:+ ".txt") lw with
  | (Raise e, fs) => (Raise e, fs)
  | (Ok lw, fs) => (Ok tt, fs)
  end end end end end end end.

(** ** Vocabulary for statements about the run *)

(** The three writes of lines 674-678 on their own, with the value that
    the trailer write returns. *)
Definition write_DV_sections (fs : gmap string (list string))
    (today_str today_ymd start_date_str end_date_str : string) (df : DataFrame)
  : result Z * gmap string (list string) :=
  let dataset_description :=
    "Degree Completions " +:+ start_date_str +:+ " to " +:+ end_date_str in
  let base_fn := "PaulSmithsCollege_DegreeVerify_" +:+ today_str in
  let out_fn := base_fn +:+ ".txt" in
  match write_DV_header fs out_fn today_ymd dataset_description with
  | (Raise e, fs) => (Raise e, fs)
  | (Ok _, fs) =>
      match write_DV_data fs df out_fn with
      | (Raise e, fs) => (Raise e, fs)
      | (Ok lw, fs) => write_DV_trailer fs out_fn lw
      end
  end.

(** The name of the spreadsheet of a run started at [today_str]. *)
Definition spreadsheet_file (today_str : string) : string :=
  ("PaulSmithsCollege_DegreeVerify_" +:+ today_str) +:+ ".xlsx".

(** The two dates parse, and the reads and joins give [merged]. *)
Definition joined `{Runtime} (start_date_str end_date_str : string)
    (merged : DataFrame) : Prop :=
  exists start_date end_date,
    datetime64 start_date_str = Ok start_date
    /\ datetime64 end_date_str = Ok end_date
    /\ merged_frame start_date end_date = Ok merged.

(** The run gets as far as the text file: the reads and joins give
    [merged], the assembler makes the records [df] of it, and the
    spreadsheet write returns and leaves the files [fs1]. *)
Definition assembled `{Runtime} (fs : gmap string (list string))
    (today_str start_date_str end_date_str : string)
    (merged df : DataFrame) (fs1 : gmap string (list string)) : Prop :=
  joined start_date_str end_date_str merged
  /\ create_DV_df merged = Ok df
  /\ to_excel fs (spreadsheet_file today_str) "DV_file" df = (Ok tt, fs1).

(** ** Frame operations used by the minor pivot *)

(** [df.loc[df[c] == v, :]] *)
Definition select_eq (c : string) (v : value) (df : DataFrame)
  : result DataFrame :=
  if has_column df c then
    Ok {| columns := columns df;
          data := filter (fun r => cell r c = v) (data df) |}
  else Raise (KeyError c).

(** Two rows agree on the columns [subset]. *)
Definition same_on (subset : list string) (r1 r2 : gmap string value) : Prop :=
  Forall (fun c => cell r1 c = cell r2 c) subset.

#[global] Instance same_on_dec subset r1 r2 : Decision (same_on subset r1 r2).
Proof. unfold same_on. apply _. Defined.

(** [df.drop_duplicates(subset, keep="last")]: a row stays when no later
    row agrees with it on [subset]. *)
Fixpoint drop_duplicates_rows (subset : list string)
    (rows : list (gmap string value)) : list (gmap string value) :=
  match rows with
  | [] => []
  | r :: rest =>
      if decide (Exists (same_on subset r) rest)
      then drop_duplicates_rows subset rest
      else r :: drop_duplicates_rows subset rest
  end.

Definition drop_duplicates (subset : list string) (df : DataFrame)
  : result DataFrame :=
  match filter (fun c => has_column df c = false) subset with
  | c :: _ => Raise (KeyError c)
  | [] => Ok {| columns := columns df;
                data := drop_duplicates_rows subset (data df) |}
  end.

(** [df.groupby([g])[v].rank(method="first")] for one row: one more than
    the number of rows of its group that come first, that is, hold a
    smaller value, or the same value in an earlier row.  A row with a
    missing group key or a missing value has no rank. *)
Definition rank_first_row (g v : string)
    (before after : list (gmap string value)) (r : gmap string value)
  : option Z :=
  if decide (cell r g = VNaN \/ cell r v = VNaN) then None
  else
    let in_group x := cell x g = cell r g /\ cell x v <> VNaN in
    Some (1
          + Z.of_nat (length (filter (fun x =>
                in_group x /\ value_leb (cell x v) (cell r v) = true) before))
          + Z.of_nat (length (filter (fun x =>
                in_group x /\ value_leb (cell r v) (cell x v) = false) after))).

Fixpoint rank_first_rows (g v : string)
    (before rows : list (gmap string value)) : list (option Z) :=
  match rows with
  | [] => []
  | r :: after =>
      rank_first_row g v before after r
      :: rank_first_rows g v (before ++ [r]) after
  end.

(** [df[target] = df.groupby([g])[v].rank(method="first").astype(int)];
    the cast fails on a missing rank. *)
Definition assign_rank_first (g v target : string) (df : DataFrame)
  : result DataFrame :=
  if negb (has_column df g) then Raise (KeyError g)
  else if negb (has_column df v) then Raise (KeyError v)
  else if mixed_column v df then Raise TypeError
  else
    match mapM id (rank_first_rows g v [] (data df)) with
    | None => Raise ValueError
    | Some ranks =>
        Ok {| columns := if has_column df target then columns df
                         else columns df ++ [target];
              data := zip_with (fun r k => <[target := VInt k]> r)
                        (data df) ranks |}
    end.

(** [df.loc[df[c] <= n]] on a column of ints *)
Definition int_leb (v : value) (n : Z) : bool :=
  match v with
  | VInt k => k <=? n
  | VStr _ | VNaN => false
  end.

Definition select_le (c : string) (n : Z) (df : DataFrame) : result DataFrame :=
  if has_column df c then
    Ok {| columns := columns df;
          data := filter (fun r => int_leb (cell r c) n = true) (data df) |}
  else Raise (KeyError c).

(** [astype(str)] on one cell *)
Definition astype_str (v : value) : string :=
  match v with
  | VStr s => s
  | VInt k => Py.str k
  | VNaN => "nan"
  end.

(** [df[target] = prefix + df[c].astype(str)] *)
Definition assign_label (target prefix c : string) (df : DataFrame)
  : result DataFrame :=
  if has_column df c then
    Ok {| columns := if has_column df target then columns df
                     else columns df ++ [target];
          data := map (fun r =>
                    <[target := VStr (prefix +:+ astype_str (cell r c))]> r)
                    (data df) |}
  else Raise (KeyError c).

(** [s.str.replace(old, new).replace(whole, new')] on one cell: the first
    replaces inside a string (and gives a missing value for anything else),
    the second replaces a cell that equals [whole].  The [.str] accessor is
    refused, with [AttributeError], on a column of numbers; a column of
    strings, of strings and numbers, of missing values only or without
    rows is accepted (the columns are those of a database read, which
    hold Python objects). *)
Definition replace_cell (old new whole new' : string) (v : value) : value :=
  match v with
  | VStr s =>
      let s' := Py.replace s old new in
      if decide (s' = whole) then VStr new' else VStr s'
  | VInt _ | VNaN => VNaN
  end.

Definition assign_replaced (c old new whole new' : string) (df : DataFrame)
  : result DataFrame :=
  if negb (has_column df c) then Raise (KeyError c)
  else if numeric_column c df then Raise AttributeError
  else
    Ok {| columns := columns df;
          data := map (fun r =>
                    <[c := replace_cell old new whole new' (cell r c)]> r)
                    (data df) |}.

(** *** Pivot *)

(** The rows of [rows] with the index cells of [k] and the label [c]. *)
Definition pivot_entries (index : list string) (col : string)
    (rows : list (gmap string value)) (k : gmap string value) (c : value)
  : list (gmap string value) :=
  filter (fun r => same_on index k r /\ cell r col = c) rows.

(** The rows that are the first with their index cells; [seen] holds the
    rows passed already. *)
Fixpoint distinct_keys (index : list string)
    (seen rows : list (gmap string value)) : list (gmap string value) :=
  match rows with
  | [] => []
  | r :: rest =>
      if decide (Exists (same_on index r) seen)
      then distinct_keys index seen rest
      else r :: distinct_keys index (r :: seen) rest
  end.

(** The labels found in column [col], each once, in ascending order. *)
Definition pivot_labels (col : string) (rows : list (gmap string value))
  : list value :=
  stable_sort value_leb (remove_dups (map (fun r => cell r col) rows)).

(** The cell of the pivot table for the index of [k] and the label [c]:
    the value of the one entry, a missing value when there is none; two
    entries cannot be reshaped. *)
Definition pivot_cell (index : list string) (col values : string)
    (rows : list (gmap string value)) (k : gmap string value) (c : value)
  : result value :=
  match pivot_entries index col rows k c with
  | [] => Ok VNaN
  | [r] => Ok (cell r values)
  | _ :: _ :: _ => Raise ValueError
  end.

(** One row of the pivot table: the index cells of [k], then one cell per
    label, missing values replaced by [fill]. *)
Fixpoint pivot_row (index : list string) (col values : string) (fill : value)
    (rows : list (gmap string value)) (k : gmap string value)
    (labels : list value) : result (gmap string value) :=
  match labels with
  | [] => Ok (list_to_map (map (fun i => (i, cell k i)) index))
  | c :: labels' =>
      v ← pivot_cell index col values rows k c;
      r ← pivot_row index col values fill rows k labels';
      Ok (<[astype_str c := if decide (v = VNaN) then fill else v]> r)
  end.

(** [df.pivot(index=index, columns=col, values=[values]).fillna(fill)
      .droplevel(0, axis=1).reset_index()]: one row per distinct index, in
    ascending order of the index, and one column per label, in ascending
    order of the labels. *)
Definition pivot (index : list string) (col values : string) (fill : value)
    (df : DataFrame) : result DataFrame :=
  match filter (fun c => has_column df c = false) (index ++ [col; values]) with
  | c :: _ => Raise (KeyError c)
  | [] =>
      let labels := pivot_labels col (data df) in
      let keys :=
        distinct_keys index [] (stable_sort (key_leb index) (data df)) in
      rows ← mapM (fun k =>
                pivot_row index col values fill (data df) k labels) keys;
      Ok {| columns := index ++ map astype_str labels; data := rows |}
  end.

(** ** minor_data *)

(** Lines 234-237: the minors, sorted by student and graduation date, one
    row per student, date and curriculum. *)
Definition minor_rows (df_td : DataFrame) : result DataFrame :=
  df_minor ← select_eq "DEGREE" (VStr "MINOR") df_td;
  df_minor ← sort_values ["PEOPLE_CODE_ID"; "GRADUATION_DATE"] df_minor;
  drop_duplicates
    ["PEOPLE_CODE_ID"; "GRADUATION_DATE"; "DEGREE"; "CURRICULUM"] df_minor.

(** Lines 234-242: the minors in long form, ranked and labelled. *)
Definition minor_long (df_td : DataFrame) : result DataFrame :=
  df_minor ← minor_rows df_td;
  df_minor ← assign_rank_first "PEOPLE_CODE_ID" "GRADUATION_DATE" "rank"
    df_minor;
  df_minor ← select_le "rank" 4 df_minor;
  df_minor ← assign_label "col" "Minor Course of Study " "rank" df_minor;
  assign_replaced "FORMAL_TITLE" " Minor" "" "Minor" "" df_minor.

(** The whole function: the long form pivoted to one row per student and
    graduation date. *)
Definition minor_data (df_td : DataFrame) : result DataFrame :=
  df_minor ← minor_long df_td;
  pivot ["PEOPLE_CODE_ID"; "GRADUATION_DATE"] "col" "FORMAL_TITLE" (VStr " ")
    df_minor.

(** ** Vocabulary for statements about the ranking *)

(** The place of [r] among the rows that agree with it on [group], counted
    from 1, when the rows [before] precede it. *)
Definition position_in_group (group : list string)
    (before : list (gmap string value)) (r : gmap string value) : Z :=
  1 + Z.of_nat (length (filter (same_on group r) before)).

(** Each row of [rows] with its place in its group, the rows [before]
    coming first. *)
Fixpoint with_positions (group : list string)
    (before rows : list (gmap string value))
  : list (gmap string value * Z) :=
  match rows with
  | [] => []
  | r :: rest =>
      (r, position_in_group group before r)
      :: with_positions group (before ++ [r]) rest
  end.

(** What lines 239-242 make of a minor whose rank is [k]. *)
Definition ranked_minor (m : gmap string value) (k : Z) : gmap string value :=
  let r := <["rank" := VInt k]> m in
  let r := <["col" := VStr ("Minor Course of Study " +:+ Py.str k)]> r in
  <["FORMAL_TITLE" :=
      replace_cell " Minor" "" "Minor" "" (cell r "FORMAL_TITLE")]> r.

(** [leb] as a relation, and a list in ascending order for it. *)
Definition leb_rel {A : Type} (leb : A -> A -> bool) (x y : A) : Prop :=
  leb x y = true.

Definition ascending {A : Type} (leb : A -> A -> bool) (l : list A) : Prop :=
  StronglySorted (leb_rel leb) l.

(** A degree table that [minor_data] accepts: the columns it reads, at
    least one minor, and a string as student, as graduation date and as
    formal title in every minor. *)
Definition well_formed_degrees (df_td : DataFrame) : Prop :=
  Forall (fun c => has_column df_td c = true)
    [ "DEGREE"; "PEOPLE_CODE_ID"; "GRADUATION_DATE"; "CURRICULUM";
      "FORMAL_TITLE" ]
  /\ Exists (fun r => cell r "DEGREE" = VStr "MINOR") (data df_td)
  /\ Forall (fun r => cell r "DEGREE" = VStr "MINOR" ->
                      is_str (cell r "PEOPLE_CODE_ID") = true
                      /\ is_str (cell r "GRADUATION_DATE") = true
                      /\ is_str (cell r "FORMAL_TITLE") = true)
       (data df_td).

(** ** Attendance dates *)

(** [df.drop(columns=cols)]; a label that is not a column raises. *)
Definition drop_columns (cols : list string) (df : DataFrame)
  : result DataFrame :=
  match filter (fun c => has_column df c = false) cols with
  | c :: _ => Raise (KeyError c)
  | [] => Ok {| columns := filter (fun c => c ∉ cols) (columns df);
                data := data df |}
  end.

(** [df[[cols]]] *)
Definition project (cols : list string) (df : DataFrame) : result DataFrame :=
  match filter (fun c => has_column df c = false) cols with
  | c :: _ => Raise (KeyError c)
  | [] => Ok {| columns := cols; data := data df |}
  end.

Inductive keep : Type := keep_first | keep_last.

(** [df.drop_duplicates(subset, keep=k)]: with ["first"] a row stays when
    no earlier row agrees with it on [subset]. *)
Definition drop_duplicates_keep (subset : list string) (k : keep)
    (df : DataFrame) : result DataFrame :=
  match filter (fun c => has_column df c = false) subset with
  | c :: _ => Raise (KeyError c)
  | [] =>
      Ok {| columns := columns df;
            data := match k with
                    | keep_last => drop_duplicates_rows subset (data df)
                    | keep_first =>
                        rev (drop_duplicates_rows subset (rev (data df)))
                    end |}
  end.

(** The operations of pandas on grouped frames, joins and datetime columns
    that [academic_cal_data] and [academic_data] call, and the helper of
    the powercampus package; the statements about these two functions hold
    whatever they compute. *)
Class FrameOps : Type := {
  (** [df.groupby(by).agg({c: [f], ...}).reset_index().droplevel(1, axis=1)] *)
  groupby_agg :
    list string -> list (string * string) -> DataFrame -> result DataFrame;
  (** [df[target] = df[cols].max(axis=1)] *)
  assign_row_max : string -> list string -> DataFrame -> result DataFrame;
  (** [left.merge(right, how='left', on=on)] *)
  merge_left : list string -> DataFrame -> DataFrame -> result DataFrame;
  (** [df.groupby(by).first().reset_index()] *)
  groupby_first : list string -> DataFrame -> result DataFrame;
  (** [df[c] = df[c].dt.strftime(fmt)] *)
  assign_strftime : string -> string -> DataFrame -> result DataFrame;
  (** [pc.add_col_yearterm_sort(df)] *)
  add_col_yearterm_sort : DataFrame -> result DataFrame
}.

(** A step that reads the database: from a state of the source, the
    outcome (a value, or the exception that ends the step) and the state
    after it. *)
Definition reading (db A : Type) : Type := db -> result A * db.

#[global] Instance reading_ret {db : Type} : MRet (reading db) :=
  fun A a s => (Ok a, s).

#[global] Instance reading_bind {db : Type} : MBind (reading db) :=
  fun A B f m s =>
    match m s with
    | (Ok a, s') => f a s'
    | (Raise e, s') => (Raise e, s')
    end.

(** A step of pandas: it leaves the source alone. *)
Definition pandas {db A : Type} (r : result A) : reading db A :=
  fun s => (r, s).

(** A data source answers [pc.select(table, fields=..., where=...)] with a
    frame, or the query fails with an exception. *)
Definition data_source (db : Type) : Type :=
  string -> list string -> string -> reading db DataFrame.

(** The first query of [academic_data] (lines 68-74). *)
Definition first_query_fields : list string :=
  [ "PEOPLE_CODE_ID"; "ACADEMIC_YEAR"; "ACADEMIC_TERM"; "ACADEMIC_SESSION";
    "PROGRAM"; "DEGREE"; "CURRICULUM"; "COLLEGE";
    "ADMIT_YEAR"; "ADMIT_TERM"; "ADMIT_DATE" ].

Definition first_query_where : string :=
  "ACADEMIC_SESSION = '' and PRIMARY_FLAG = 'Y' and CREDITS > 0 "
  +:+ "and ADMIT_DATE IS NOT NULL and ADMIT_DATE > '1899-01-01' and ADMIT_DATE < '2100-01-01'".

(** The second query (lines 75-80). *)
Definition second_query_fields : list string :=
  [ "PEOPLE_CODE_ID"; "ACADEMIC_YEAR"; "ACADEMIC_TERM"; "ACADEMIC_SESSION";
    "ENROLL_SEPARATION" ].

Definition second_query_where : string :=
  "ACADEMIC_SESSION = '' and PRIMARY_FLAG = 'Y' and CREDITS > 0 "
  +:+ "and ACADEMIC_YEAR > 1999 and ACADEMIC_TERM NOT IN ('Transfer', 'JTERM') and ENROLL_SEPARATION = 'ENRL' ".

Section AcademicData.

Context `{ops : FrameOps} {db : Type}.

Definition academic_cal_data (select : data_source db)
  : reading db DataFrame :=
  df_acal ← select "ACADEMICCALENDAR"
              [ "ACADEMIC_YEAR"; "ACADEMIC_TERM"; "ACADEMIC_SESSION";
                "START_DATE"; "END_DATE"; "FINAL_END_DATE" ]
              "ACADEMIC_YEAR > 1999 ";
  pandas (
    df_acal ← groupby_agg ["ACADEMIC_YEAR"; "ACADEMIC_TERM"]
                [ ("START_DATE", "min"); ("END_DATE", "max");
                  ("FINAL_END_DATE", "max") ] df_acal;
    df_acal ← assign_row_max "END_DATE" ["END_DATE"; "FINAL_END_DATE"] df_acal;
    drop_columns ["FINAL_END_DATE"] df_acal).

(** The body of [academic_data] from line 81 on, given the frame [df_a]
    that the name holds at that point. *)
Definition attendance_dates (select : data_source db) (df_a : DataFrame)
  : reading db DataFrame :=
  df_a ← pandas (
    df_a ← drop_columns ["ACADEMIC_SESSION"; "ENROLL_SEPARATION"] df_a;
    add_col_yearterm_sort df_a);
  df_acal ← academic_cal_data select;
  pandas (
    df_start ← sort_values ["PEOPLE_CODE_ID"; "yearterm_sort"] df_a;
    df_start ← drop_duplicates_keep ["PEOPLE_CODE_ID"] keep_first df_start;
    acal_start ← project ["ACADEMIC_YEAR"; "ACADEMIC_TERM"; "START_DATE"]
                   df_acal;
    df_start ← merge_left ["ACADEMIC_YEAR"; "ACADEMIC_TERM"] df_start
                 acal_start;
    df_start ← drop_columns ["ACADEMIC_YEAR"; "ACADEMIC_TERM"; "yearterm_sort"]
                 df_start;
    df_end ← sort_values ["PEOPLE_CODE_ID"; "yearterm_sort"] df_a;
    df_end ← drop_duplicates_keep ["PEOPLE_CODE_ID"] keep_last df_end;
    acal_end ← project ["ACADEMIC_YEAR"; "ACADEMIC_TERM"; "END_DATE"] df_acal;
    df_end ← merge_left ["ACADEMIC_YEAR"; "ACADEMIC_TERM"] df_end acal_end;
    df_end ← drop_columns ["ACADEMIC_YEAR"; "ACADEMIC_TERM"; "yearterm_sort"]
               df_end;
    df_a ← project ["PEOPLE_CODE_ID"] df_a;
    df_a ← groupby_first ["PEOPLE_CODE_ID"] df_a;
    df_a ← merge_left ["PEOPLE_CODE_ID"] df_a df_start;
    df_a ← merge_left ["PEOPLE_CODE_ID"] df_a df_end;
    df_a ← assign_strftime "START_DATE" "%Y%m%d" df_a;
    assign_strftime "END_DATE" "%Y%m%d" df_a).

(** [academic_data]: the name [df_a] is bound to the answer of the first
    query, then to the answer of the second. *)
Definition academic_data (select : data_source db) : reading db DataFrame :=
  df_a ← select "ACADEMIC" first_query_fields first_query_where;
  df_a ← select "ACADEMIC" second_query_fields second_query_where;
  attendance_dates select df_a.

(** The version of the specification's design note: only the second,
    narrower query is issued. *)
Definition academic_data_second_query_only (select : data_source db)
  : reading db DataFrame :=
  df_a ← select "ACADEMIC" second_query_fields second_query_where;
  attendance_dates select df_a.

End AcademicData.

(** ** Vocabulary for statements about the queries *)


(** ** Sample inputs *)

Module Examples.

(** One assembled record with a cell for every field of the data schema:
    a long first name, a short SSN, blanks elsewhere. *)
Definition dd1_row : gmap string value :=
  <["First Name" := VStr "Maximiliana-Alexandrina-Wilhelmina-Theodora"]>
  (<["Student SSN" := VStr "12345"]>
  (<["Record Type" := VStr "DD1"]>
  (list_to_map (map (fun c => (c, VStr " ")) dv_col_def.*1)))).

Definition dd1_frame : DataFrame :=
  {| columns := dv_col_def.*1; data := [dd1_row] |}.

(** A three-field layout whose last field is inconsistent (5 + 8 is 13,
    not 12), and a frame whose only row has a missing second cell. *)
Definition bad_specs : list field_spec :=
  [ ("Record Type", (3, 1, 3));
    ("Degree Level Indicator", (1, 4, 4));
    ("Student SSN", (9, 5, 12)) ].

Definition nan_frame : DataFrame :=
  {| columns := ["Record Type"; "Degree Level Indicator"; "Student SSN"];
     data := [ {[ "Record Type" := VStr "DD1";
                  "Degree Level Indicator" := VNaN;
                  "Student SSN" := VStr "123456789" ]} ] |}.

(** The same row with a [str] in every cell. *)
Definition str_frame : DataFrame :=
  {| columns := ["Record Type"; "Degree Level Indicator"; "Student SSN"];
     data := [ {[ "Record Type" := VStr "DD1";
                  "Degree Level Indicator" := VStr "B";
                  "Student SSN" := VStr "123456789" ]} ] |}.

(** The example of the specification: start 1, end 5, width 3. *)
Definition spec_1_5_3 : list field_spec := [ ("Record Type", (3, 1, 5)) ].

(** A consistent layout for the first two columns of [nan_frame]. *)
Definition level_specs : list field_spec :=
  [ ("Record Type", (3, 1, 3)); ("Degree Level Indicator", (1, 4, 4)) ].

(** A consistent two-field layout. *)
Definition small_specs : list field_spec :=
  [ ("Record Type", (3, 1, 3)); ("Student SSN", (9, 4, 12)) ].

(** The columns of the merged frame when no student has a minor. *)
Definition merged_columns : list string :=
  [ "PEOPLE_CODE_ID"; "DEGREE"; "CURRICULUM"; "FORMAL_TITLE";
    "GRADUATION_DATE"; "START_DATE"; "END_DATE"; "GOVERNMENT_ID";
    "FIRST_NAME"; "MIDDLE_NAME"; "LAST_NAME"; "SUFFIX"; "BIRTH_DATE";
    "RELEASE_INFO"; "Previous First Name"; "Previous Last Name"; "HONORS";
    "Degree"; "Curriculum"; "CipCode"; "CODE_VALUE_KEY"; "LONG_DESC";
    "STOP_REASON" ].

(** A merged row for one degree award. *)
Definition merged_row (id degree ssn honors stop title : value)
  : gmap string value :=
  list_to_map
    [ ("PEOPLE_CODE_ID", id); ("DEGREE", degree);
      ("CURRICULUM", VStr "FORESTRY"); ("FORMAL_TITLE", VStr "Forestry");
      ("GRADUATION_DATE", VStr "20230513"); ("START_DATE", VStr "20190826");
      ("END_DATE", VStr "20230512"); ("GOVERNMENT_ID", ssn);
      ("FIRST_NAME", VStr "Pat"); ("MIDDLE_NAME", VStr " ");
      ("LAST_NAME", VStr "Smith"); ("SUFFIX", VStr " ");
      ("BIRTH_DATE", VStr "20010203"); ("RELEASE_INFO", VNaN);
      ("Previous First Name", VStr " "); ("Previous Last Name", VStr " ");
      ("HONORS", honors); ("Degree", degree);
      ("Curriculum", VStr "FORESTRY"); ("CipCode", VStr "030501");
      ("CODE_VALUE_KEY", degree); ("LONG_DESC", title);
      ("STOP_REASON", stop) ].

(** The end-to-end example of the specification: SSN 123456789, no hold,
    degree BS with honors CUM. *)
Definition bs_row : gmap string value :=
  merged_row (VStr "P000000001") (VStr "BS") (VStr "123456789") (VStr "CUM")
    VNaN (VStr "Bachelor of Science").

(** A degree code outside the five sets of the level table. *)
Definition phd_row : gmap string value :=
  merged_row (VStr "P000000002") (VStr "PHD") (VStr "987654321") VNaN
    (VStr "BURS") (VStr "Doctor of Philosophy").

(** A placeholder SSN, and a person without an SSN. *)
Definition foreign_row : gmap string value :=
  merged_row (VStr "P000000003") (VStr "AAS") (VStr "000123456") VNaN
    VNaN (VStr "Associate in Applied Science").

Definition no_ssn_row : gmap string value :=
  merged_row (VStr "P000000004") (VStr "MS") VNaN VNaN VNaN
    (VStr "Master of Science").

Definition merged_frame : DataFrame :=
  {| columns := merged_columns;
     data := [phd_row; no_ssn_row; foreign_row; bs_row] |}.

Definition phd_frame : DataFrame :=
  {| columns := merged_columns; data := [phd_row] |}.

(** Rows of the degree table: student, degree, curriculum, title, date. *)
Definition td_columns : list string :=
  [ "PEOPLE_CODE_ID"; "DEGREE"; "CURRICULUM"; "FORMAL_TITLE";
    "GRADUATION_DATE" ].

Definition td_row (id degree curriculum title date : string)
  : gmap string value :=
  list_to_map
    [ ("PEOPLE_CODE_ID", VStr id); ("DEGREE", VStr degree);
      ("CURRICULUM", VStr curriculum); ("FORMAL_TITLE", VStr title);
      ("GRADUATION_DATE", VStr date) ].

(** One student with five minors awarded on one date (and a degree). *)
Definition five_minors : DataFrame :=
  {| columns := td_columns;
     data := [ td_row "P1" "BS" "FORESTRY" "Forestry" "20230513";
               td_row "P1" "MINOR" "ART" "Art Minor" "20230513";
               td_row "P1" "MINOR" "BIO" "Biology Minor" "20230513";
               td_row "P1" "MINOR" "CHEM" "Chemistry Minor" "20230513";
               td_row "P1" "MINOR" "DRAMA" "Drama Minor" "20230513";
               td_row "P1" "MINOR" "ECON" "Economics Minor" "20230513" ] |}.

(** One student with a minor on each of two graduation dates. *)
Definition two_dates : DataFrame :=
  {| columns := td_columns;
     data := [ td_row "P1" "MINOR" "ART" "Art Minor" "20220514";
               td_row "P1" "MINOR" "BIO" "Biology Minor" "20230513" ] |}.

(** One student with three minors on an earlier date and two on a later. *)
Definition three_then_two : DataFrame :=
  {| columns := td_columns;
     data := [ td_row "P1" "MINOR" "ART" "Art Minor" "20220514";
               td_row "P1" "MINOR" "BIO" "Biology Minor" "20220514";
               td_row "P1" "MINOR" "CHEM" "Chemistry Minor" "20220514";
               td_row "P1" "MINOR" "DRAMA" "Drama Minor" "20230513";
               td_row "P1" "MINOR" "ECON" "Economics Minor" "20230513" ] |}.

(** Stand-ins for the operations on grouped frames, joins and dates: each
    returns its (left) argument. *)
Definition plain_ops : FrameOps :=
  {| groupby_agg := fun _ _ df => Ok df;
     assign_row_max := fun _ _ df => Ok df;
     merge_left := fun _ left _ => Ok left;
     groupby_first := fun _ df => Ok df;
     assign_strftime := fun _ _ df => Ok df;
     add_col_yearterm_sort :=
       fun df => Ok (set_column "yearterm_sort" (VInt 0) df)
  |}.

(** Data sources without a state that answer every query alike, except
    the first query of [academic_data]: there the first kind gives
    [answer], and the second fails. *)
Definition enrolled : DataFrame :=
  {| columns := [ "PEOPLE_CODE_ID"; "ACADEMIC_YEAR"; "ACADEMIC_TERM";
                  "ACADEMIC_SESSION"; "ENROLL_SEPARATION"; "START_DATE";
                  "END_DATE"; "FINAL_END_DATE" ];
     data := [ {[ "PEOPLE_CODE_ID" := VStr "P1"; "ACADEMIC_YEAR" := VStr "2020";
                  "ACADEMIC_TERM" := VStr "FALL" ]} ] |}.


Definition first_query_fails : data_source unit :=
  fun table fields where_ s =>
    if decide ((table, fields, where_)
               = ("ACADEMIC", first_query_fields, first_query_where))
    then (Raise (OtherError "DatabaseError"), s) else (Ok enrolled, s).

End Examples.

(** ** Vocabulary for statements about the layout of a line *)

(** [s[i:j]] for [0 <= i <= j] *)
Definition slice (s : string) (i j : Z) : string :=
  String.substring (Z.to_nat i) (Z.to_nat (j - i)) s.

(** The fields of [specs] follow one another without gap or overlap, the
    first one starting at column [first]; each has a width that is not
    negative and passes the check of line 483. *)
Fixpoint contiguous (first : Z) (specs : list field_spec) : Prop :=
  match specs with
  | [] => True
  | (_, (max_len, start, end_)) :: rest =>
      start = first /\ 0 <= max_len /\ start + (max_len - 1) = end_
      /\ contiguous (end_ + 1) rest
  end.

(** What [write_fw] reads of a frame: for each field that is not a filler,
    whether the frame has the column, and the cells of the column. *)
Definition same_fields (specs : list field_spec) (df1 df2 : DataFrame) : Prop :=
  Forall (fun f => is_filler (field_name f) = false ->
                   has_column df1 (field_name f) = has_column df2 (field_name f))
    specs
  /\ Forall2 (fun r1 r2 =>
       Forall (fun f => is_filler (field_name f) = false ->
                        cell r1 (field_name f) = cell r2 (field_name f)) specs)
       (data df1) (data df2).

(** The header line for a transmission date and a degree period. *)
Definition header_line (transmission_date degree_period : string) : string :=
  "DH1" +:+ "002795" +:+ "00"
  +:+ Py.ljust "PAUL SMITH'S COLLEGE OF THE ADIRONDACKS" 80
  +:+ Py.spaces 15 +:+ "D"
  +:+ fit transmission_date 8 +:+ fit degree_period 80 +:+ Py.spaces 3645.

(** The name of the upload file of a run started at [today_str]. *)
Definition upload_file (today_str : string) : string :=
  ("PaulSmithsCollege_DegreeVerify_" +:+ today_str) +:+ ".txt".

(** The header line that [main] writes. *)
Definition main_header (today_ymd start_date_str end_date_str : string)
  : string :=
  header_line today_ymd
    ("Degree Completions " +:+ start_date_str +:+ " to " +:+ end_date_str).

(** ** More sample inputs *)

Module MoreExamples.

(** [Examples.dd1_frame] with one more column, a different cell under a
    filler label and the columns in another order. *)
Definition dd1_row_noise : gmap string value :=
  <["Filler02" := VStr "never read"]>
  (<["Comment" := VInt 7]> Examples.dd1_row).

Definition dd1_frame_noise : DataFrame :=
  {| columns := "Comment" :: rev dv_col_def.*1; data := [dd1_row_noise] |}.

(** A complete record, then one with a missing Degree Level Indicator,
    then a complete one. *)
Definition dd1_row_nan : gmap string value :=
  <["Degree Level Indicator" := VNaN]> Examples.dd1_row.

Definition three_records : DataFrame :=
  {| columns := dv_col_def.*1;
     data := [Examples.dd1_row; dd1_row_nan; Examples.dd1_row] |}.

(** A merged frame without rows, and one in which no row has a government
    ID. *)
Definition no_degrees : DataFrame :=
  {| columns := Examples.merged_columns; data := [] |}.


(** A merged frame from which every record can be written. *)
Definition good_frame : DataFrame :=
  {| columns := Examples.merged_columns;
     data := [Examples.foreign_row; Examples.no_ssn_row; Examples.bs_row] |}.



(** A run in which every date parses, the reads and joins give [merged],
    and the spreadsheet write leaves one chunk that names the sheet. *)
Definition run_of (merged : result DataFrame) : Runtime :=
  {| date := string;
     datetime64 := Ok;
     merged_frame := fun _ _ => merged;
     to_excel := fun fs path sheet _ => (Ok tt, <[path := [sheet]]> fs) |}.

End MoreExamples.

(** ** The stages of the record assembler, and their effect on a row *)

(** Lines 339-357: the derived columns. *)
Definition derive_columns (df : DataFrame) : result DataFrame :=
  let df := set_column "Record Type" (VStr "DD1") df in
  df ← loc_set "DEGREE" (isin ["BS"; "BA"; "BPS"])
         "Degree Level Indicator" (VStr "B") df;
  df ← loc_set "DEGREE" (isin ["AS"; "AAS"; "AA"; "AOS"])
         "Degree Level Indicator" (VStr "A") df;
  df ← loc_set "DEGREE" (isin ["MS"; "MPS"])
         "Degree Level Indicator" (VStr "M") df;
  df ← loc_set "DEGREE" (isin ["CERTIF"])
         "Degree Level Indicator" (VStr "C") df;
  df ← loc_set "DEGREE" (isin ["GCERT"])
         "Degree Level Indicator" (VStr "T") df;
  df ← loc_set "HONORS" (isin ["CUM"]) "Academic Honors" (VStr "Cum Laude") df;
  df ← loc_set "HONORS" (isin ["MAGNA"])
         "Academic Honors" (VStr "Magna Cum Laude") df;
  df ← loc_set "HONORS" (isin ["SUMMA"])
         "Academic Honors" (VStr "Summa Cum Laude") df;
  df ← loc_set "DEGREE" (isin ["CERTIF"]) "Certificate Type" (VStr "2") df;
  let df := set_column "FERPA Block" (VStr "N") df in
  df ← loc_set "RELEASE_INFO" (isin ["NORL"]) "FERPA Block" (VStr "Y") df;
  let df := set_column "School Financial Block" (VStr "N") df in
  loc_set "STOP_REASON" (isin ["BURS"; "COLL"; "STAC"])
    "School Financial Block" (VStr "Y") df.

(** Lines 422-446: blanks, the SSN filter, the relabelling and the sort
    (lines 359-420, the report names and the unused fields, come between
    the two). *)
Definition finish_records (df : DataFrame) : result DataFrame :=
  df ← fillna fill_list (VStr " ") df;
  df ← drop_missing "Student SSN" df;
  df ← loc_set "Student SSN" (str_startswith "000")
         "Student SSN" (VStr "NO SSN") df;
  df ← loc_set "Student SSN" (str_startswith "888")
         "Student SSN" (VStr "NO SSN") df;
  df ← loc_set "Student SSN" (str_startswith "999")
         "Student SSN" (VStr "NO SSN") df;
  df ← loc_set "First Name" isna "First Name" (VStr "NFN") df;
  sort_values
    ["Student SSN"; "Date Degree, Credential, or Certificate Awarded"] df.

(** What [derive_columns] makes of one row; the flags tell whether the
    frame has the three columns that [loc] may create. *)
Definition derive_row (has_level has_honors has_cert : bool)
    (r : gmap string value) : gmap string value :=
  let r := <["Record Type" := VStr "DD1"]> r in
  let r := loc_set_row has_level "DEGREE" (isin ["BS"; "BA"; "BPS"])
             "Degree Level Indicator" (VStr "B") r in
  let r := loc_set_row true "DEGREE" (isin ["AS"; "AAS"; "AA"; "AOS"])
             "Degree Level Indicator" (VStr "A") r in
  let r := loc_set_row true "DEGREE" (isin ["MS"; "MPS"])
             "Degree Level Indicator" (VStr "M") r in
  let r := loc_set_row true "DEGREE" (isin ["CERTIF"])
             "Degree Level Indicator" (VStr "C") r in
  let r := loc_set_row true "DEGREE" (isin ["GCERT"])
             "Degree Level Indicator" (VStr "T") r in
  let r := loc_set_row has_honors "HONORS" (isin ["CUM"])
             "Academic Honors" (VStr "Cum Laude") r in
  let r := loc_set_row true "HONORS" (isin ["MAGNA"])
             "Academic Honors" (VStr "Magna Cum Laude") r in
  let r := loc_set_row true "HONORS" (isin ["SUMMA"])
             "Academic Honors" (VStr "Summa Cum Laude") r in
  let r := loc_set_row has_cert "DEGREE" (isin ["CERTIF"])
             "Certificate Type" (VStr "2") r in
  let r := <["FERPA Block" := VStr "N"]> r in
  let r := loc_set_row true "RELEASE_INFO" (isin ["NORL"])
             "FERPA Block" (VStr "Y") r in
  let r := <["School Financial Block" := VStr "N"]> r in
  loc_set_row true "STOP_REASON" (isin ["BURS"; "COLL"; "STAC"])
    "School Financial Block" (VStr "Y") r.

(** What lines 439-444 make of one row that has a string as SSN. *)
Definition relabel_row (r : gmap string value) : gmap string value :=
  let step p :=
    loc_set_row true "Student SSN" (str_startswith p) "Student SSN"
      (VStr "NO SSN") in
  loc_set_row true "First Name" isna "First Name" (VStr "NFN")
    (step "999" (step "888" (step "000" r))).

(** ** Vocabulary for statements about the assembled fields *)

(** The honors table of lines 346-348, with the blank of line 433. *)
Definition honors_of (honors : value) : string :=
  match honors with
  | VStr h =>
      if decide (h = "CUM") then "Cum Laude"
      else if decide (h = "MAGNA") then "Magna Cum Laude"
      else if decide (h = "SUMMA") then "Summa Cum Laude"
      else " "
  | VInt _ | VNaN => " "
  end.

(** Line 349, with the blank of line 433. *)
Definition certificate_of (degree : value) : string :=
  if decide (degree = VStr "CERTIF") then "2" else " ".

(** Lines 352-353 and 356-357. *)
Definition ferpa_of (release_info : value) : string :=
  if decide (release_info = VStr "NORL") then "Y" else "N".

Definition financial_block_of (stop_reason : value) : string :=
  match stop_reason with
  | VStr s => if bool_decide (s ∈ ["BURS"; "COLL"; "STAC"]) then "Y" else "N"
  | VInt _ | VNaN => "N"
  end.

(** A missing value replaced by [v]. *)
Definition or_else (v cell_ : value) : value :=
  if decide (cell_ = VNaN) then v else cell_.

(** What the assembler makes of the cell of a source column that it
    reports under the name [new]: ["NFN"] for a missing first name, a blank
    for a missing value in a column of the blank-fill list, the cell
    itself otherwise. *)
Definition reported (new : string) (v : value) : value :=
  if decide (new = "First Name") then or_else (VStr "NFN") v
  else if bool_decide (new ∈ fill_list) then or_else (VStr " ") v
  else v.

(** The columns of the data schema that are not fillers. *)
Definition data_fields : list string :=
  filter (fun c => is_filler c = false) dv_col_def.*1.

(** The columns that the merged frame passes on under a report name or
    under its own, apart from the government ID. *)
Definition passed_on : list string :=
  [ "MIDDLE_NAME"; "LAST_NAME"; "SUFFIX"; "BIRTH_DATE"; "PEOPLE_CODE_ID";
    "GRADUATION_DATE"; "LONG_DESC"; "FORMAL_TITLE"; "Previous Last Name";
    "Previous First Name" ].

(** The columns that may hold a missing value, which the assembler
    replaces. *)
Definition replaced_when_missing : list string :=
  [ "FIRST_NAME"; "START_DATE"; "END_DATE" ].

(** The labels that the assembler creates, the four minor columns apart
    (those come from the minors when there are any). *)
Definition created_labels : list string :=
  derived_labels ++ report_names.*2
  ++ filter (fun c => c ∉ [ "Minor Course of Study 1";
                            "Minor Course of Study 2";
                            "Minor Course of Study 3";
                            "Minor Course of Study 4" ]) unused_fields.

Definition minor_labels : list string :=
  [ "Minor Course of Study 1"; "Minor Course of Study 2";
    "Minor Course of Study 3"; "Minor Course of Study 4" ].

(** A merged frame from which every record can be written: it is well
    formed, none of its columns has a label that the assembler creates, it
    has the columns that are passed on, and in each row with a government
    ID that ID and the passed-on cells are strings, the replaceable cells
    (and the CIP code and the minors, where the frame has them) are strings
    or missing, and the degree code is one of the level table. *)
Definition uploadable (df : DataFrame) : Prop :=
  well_formed_merged df
  /\ Forall (fun c => has_column df c = false) created_labels
  /\ Forall (fun c => has_column df c = true) passed_on
  /\ Forall (fun r =>
       cell r "GOVERNMENT_ID" <> VNaN ->
       is_str (cell r "GOVERNMENT_ID") = true
       /\ Forall (fun c => is_str (cell r c) = true) passed_on
       /\ Forall (fun c => is_int (cell r c) = false)
            (replaced_when_missing ++ "CipCode" :: minor_labels)
       /\ level_of (cell r "DEGREE") <> VNaN) (data df).

(** What lines 339-433 make of a row [r] of the merged frame [df], cell by
    cell: the flags and the record type, the three table columns where the
    assembler creates them, the renamed columns, and the unused fields. *)
Definition prepared (df : DataFrame) (r r' : gmap string value) : Prop :=
  keeps (derived_labels ++ renamed_labels report_names ++ unused_fields
         ++ fill_list) r r'
  /\ cell r' "Record Type" = VStr "DD1"
  /\ cell r' "FERPA Block" = VStr (ferpa_of (cell r "RELEASE_INFO"))
  /\ cell r' "School Financial Block"
     = VStr (financial_block_of (cell r "STOP_REASON"))
  /\ (has_column df "Degree Level Indicator" = false ->
      cell r' "Degree Level Indicator" = level_of (cell r "DEGREE"))
  /\ (has_column df "Academic Honors" = false ->
      cell r' "Academic Honors" = VStr (honors_of (cell r "HONORS")))
  /\ (has_column df "Certificate Type" = false ->
      cell r' "Certificate Type" = VStr (certificate_of (cell r "DEGREE")))
  /\ (forall old new,
        (old, new) ∈ report_names -> has_column df old = true ->
        cell r' new
        = if bool_decide (new ∈ fill_list) then or_else (VStr " ") (cell r old)
          else cell r old)
  /\ (forall f,
        f ∈ unused_fields -> f ∉ report_names.*2 -> f <> "Certificate Type" ->
        cell r' f
        = if has_column df f
          then (if bool_decide (f ∈ fill_list)
                then or_else (VStr " ") (cell r f) else cell r f)
          else VStr " ")
  /\ (has_column df "CipCode" = false ->
      has_column df "NCES CIP Code for Major 1" = false ->
      cell r' "NCES CIP Code for Major 1" = VStr " ").

(** ** The other source tables *)

(** [df[c] = df[c].str.replace(old, new, regex=False)]: the replacement in
    a string, a missing value for anything else; the accessor is refused
    on a column of numbers (see [assign_replaced]). *)
Definition str_replace_cell (old new : string) (v : value) : value :=
  match v with
  | VStr s => VStr (Py.replace s old new)
  | VInt _ | VNaN => VNaN
  end.

Definition assign_str_replace (c old new : string) (df : DataFrame)
  : result DataFrame :=
  if negb (has_column df c) then Raise (KeyError c)
  else if numeric_column c df then Raise AttributeError
  else
    Ok {| columns := columns df;
          data := map (fun r => <[c := str_replace_cell old new (cell r c)]> r)
                    (data df) |}.

(** [df.loc[df[c] != v, :]] *)
Definition select_ne (c : string) (v : value) (df : DataFrame)
  : result DataFrame :=
  if has_column df c then
    Ok {| columns := columns df;
          data := filter (fun r => cell r c <> v) (data df) |}
  else Raise (KeyError c).

(** A query without a [where] argument passes the empty condition. *)
Definition no_condition : string := "".

(** The queries of the four functions below. *)
Definition degree_mapping_query {db : Type} (select : data_source db)
  : reading db DataFrame :=
  select "DegreeMappingNsc"
    [ "AcademicYear"; "AcademicTerm"; "Degree"; "Curriculum"; "CipCode";
      "CipYear" ] no_condition.

Definition transcript_honors_query {db : Type} (select : data_source db)
  : reading db DataFrame :=
  select "TRANSCRIPTHONORS"
    ["PEOPLE_CODE_ID"; "PROGRAM"; "DEGREE"; "CURRICULUM"; "HONORS"]
    no_condition.

Definition people_formername_query {db : Type} (select : data_source db)
  : reading db DataFrame :=
  select "PEOPLEFORMERNAME"
    [ "PEOPLE_CODE_ID"; "FIRST_NAME"; "MIDDLE_NAME"; "LAST_NAME";
      "NAME_CHANGE_DATE" ] no_condition.

Definition stoplist_query {db : Type} (select : data_source db)
  : reading db DataFrame :=
  select "STOPLIST" ["PEOPLE_CODE_ID"; "STOP_REASON"; "STOP_DATE"]
    "STOP_REASON in ('BURS', 'COLL', 'STAC') and CLEARED='N' ".

(** [degree_mapping]: the CIP code of each curriculum, from the row of the
    latest academic year. *)
Definition degree_mapping {db : Type} (select : data_source db)
  : reading db DataFrame :=
  df_dm ← degree_mapping_query select;
  pandas (
    df_dm ← sort_values ["AcademicYear"; "Curriculum"] df_dm;
    df_dm ← drop_duplicates ["Curriculum"] df_dm;
    df_dm ← drop_columns ["AcademicYear"; "AcademicTerm"; "CipYear"] df_dm;
    assign_str_replace "CipCode" "." "" df_dm).

(** The columns that identify an honors row. *)
Definition honors_key : list string :=
  ["PEOPLE_CODE_ID"; "PROGRAM"; "DEGREE"; "CURRICULUM"; "HONORS"].

(** [transcript_honors]: the honors of each student, degree and
    curriculum. *)
Definition transcript_honors {db : Type} (select : data_source db)
  : reading db DataFrame :=
  df_th ← transcript_honors_query select;
  pandas (
    df_th ← sort_values
              ["PEOPLE_CODE_ID"; "PROGRAM"; "DEGREE"; "CURRICULUM"; "HONORS"]
              df_th;
    df_th ← drop_duplicates
              ["PEOPLE_CODE_ID"; "PROGRAM"; "DEGREE"; "CURRICULUM"; "HONORS"]
              df_th;
    drop_columns ["PROGRAM"] df_th).

(** [stoplist_data]: the students with an open financial stop. *)
Definition stoplist_data {db : Type} (select : data_source db)
  : reading db DataFrame :=
  df_sl ← stoplist_query select;
  pandas (
    df_sl ← sort_values ["PEOPLE_CODE_ID"; "STOP_DATE"] df_sl;
    df_sl ← drop_duplicates ["PEOPLE_CODE_ID"] df_sl;
    drop_columns ["STOP_DATE"] df_sl).

(** ** Left joins *)

(** The rows [l] and [r] agree on the join keys. *)
Definition keys_match (left_on right_on : list string)
    (l r : gmap string value) : Prop :=
  Forall2 (fun a b => cell l a = cell r b) left_on right_on.

#[global] Instance keys_match_dec left_on right_on l r :
  Decision (keys_match left_on right_on l r).
Proof. unfold keys_match. apply _. Defined.

(** The key columns that have the same label on both sides; the join
    keeps them once. *)
Definition shared_keys (left_on right_on : list string) : list string :=
  (filter (fun ab => ab.1 = ab.2) (zip left_on right_on)).*1.

(** A column of strings (with or without missing values): it holds a
    string and no int. *)
Definition text_column (c : string) (df : DataFrame) : bool :=
  existsb (fun r => is_str (cell r c)) (data df)
  && negb (existsb (fun r => match cell r c with VInt _ => true | _ => false end)
             (data df)).

(** A pair of key columns that a join refuses: numbers on one side,
    strings on the other. *)
Definition keys_clash (left_on right_on : list string)
    (left right : DataFrame) : bool :=
  existsb (fun ab =>
      numeric_column ab.1 left && text_column ab.2 right
      || text_column ab.1 left && numeric_column ab.2 right)
    (zip left_on right_on).

(** The columns of [right] that a join adds to those of [left]: all but
    the shared keys. *)
Definition joined_columns (left_on right_on : list string)
    (right : DataFrame) : list string :=
  filter (fun c => c ∉ shared_keys left_on right_on) (columns right).

(** A label that both sides of a join have gets a suffix. *)
Definition suffixed (suffix : string) (left_cols right_cols : list string)
    (c : string) : string :=
  if bool_decide (c ∈ left_cols) && bool_decide (c ∈ right_cols)
  then c +:+ suffix else c.

(** The row of a join for the row [l] of the left frame and the row [r] of
    the right frame, or no row of the right frame. *)
Definition join_row (left_cols right_cols : list string)
    (l : gmap string value) (r : option (gmap string value))
  : gmap string value :=
  list_to_map
    (map (fun c => (suffixed "_x" left_cols right_cols c, cell l c)) left_cols
     ++ map (fun c => (suffixed "_y" left_cols right_cols c,
                       match r with
                       | Some r => cell r c
                       | None => VNaN
                       end)) right_cols).

(** The rows of a join for the row [l] of the left frame: one for every
    row of the right frame that agrees with [l] on the keys, in their
    order, or one without a right row when there is none. *)
Definition join_rows (left_on right_on left_cols right_cols : list string)
    (right_rows : list (gmap string value)) (l : gmap string value)
  : list (gmap string value) :=
  match filter (keys_match left_on right_on l) right_rows with
  | [] => [join_row left_cols right_cols l None]
  | r :: rs => map (fun r => join_row left_cols right_cols l (Some r)) (r :: rs)
  end.

(** [left.merge(right, how="left", left_on=left_on, right_on=right_on)],
    which is [on=keys] when both lists are [keys].  The rows of [left]
    come in their order, each once for every row of [right] that agrees
    with it on the keys, or once with missing values in the columns of
    [right]; a missing key agrees with a missing key.  The columns of
    [left] come first; a label that both frames have outside the shared
    keys gets the suffixes [_x] and [_y]. *)
Definition merge_left_on (left_on right_on : list string)
    (left right : DataFrame) : result DataFrame :=
  match filter (fun c => has_column left c = false) left_on with
  | c :: _ => Raise (KeyError c)
  | [] =>
      match filter (fun c => has_column right c = false) right_on with
      | c :: _ => Raise (KeyError c)
      | [] =>
          if negb (length left_on =? length right_on)%nat
          then Raise ValueError
          else if keys_clash left_on right_on left right
          then Raise ValueError
          else
            let right_cols := joined_columns left_on right_on right in
            Ok {| columns :=
                    map (suffixed "_x" (columns left) right_cols)
                      (columns left)
                    ++ map (suffixed "_y" (columns left) right_cols)
                         right_cols;
                  data :=
                    flat_map (join_rows left_on right_on (columns left)
                                right_cols (data right)) (data left) |}
      end
  end.

(** [people_formername]: the people with the names of their latest name
    change. *)
Definition people_formername {db : Type} (select : data_source db)
    (people_df : DataFrame) : reading db DataFrame :=
  df_pfn ← people_formername_query select;
  pandas (
    df_pfn ← sort_values ["PEOPLE_CODE_ID"; "NAME_CHANGE_DATE"] df_pfn;
    df_pfn ← drop_duplicates ["PEOPLE_CODE_ID"] df_pfn;
    let df_pfn :=
      rename [ ("FIRST_NAME", "Previous First Name");
               ("LAST_NAME", "Previous Last Name") ] df_pfn in
    df_pfn ← drop_columns ["MIDDLE_NAME"; "NAME_CHANGE_DATE"] df_pfn;
    df_p ← merge_left_on ["PEOPLE_CODE_ID"] ["PEOPLE_CODE_ID"] people_df
             df_pfn;
    fillna ["Previous First Name"; "Previous Last Name"] (VStr " ") df_p).

(** What the renaming in [people_formername] makes of a row of former
    names. *)
Definition former_name_row (r : gmap string value) : gmap string value :=
  let r' := <["Previous First Name" := cell r "FIRST_NAME"]>
              (delete "FIRST_NAME" r) in
  <["Previous Last Name" := cell r' "LAST_NAME"]> (delete "LAST_NAME" r').

(** The fields that [people_formername] asks for. *)
Definition former_name_fields : list string :=
  [ "PEOPLE_CODE_ID"; "FIRST_NAME"; "MIDDLE_NAME"; "LAST_NAME";
    "NAME_CHANGE_DATE" ].

(** Lines 297-337 of [create_DV_df]: the minors are removed from the
    degrees, and the other frames joined to them one after another. *)
Definition merge_tables
    (df_td df_a df_p df_minor df_th df_dm df_code_degree df_stoplist
       : DataFrame) : result DataFrame :=
  df_td ← select_ne "DEGREE" (VStr "MINOR") df_td;
  df ← merge_left_on ["PEOPLE_CODE_ID"] ["PEOPLE_CODE_ID"] df_td df_a;
  df ← merge_left_on ["PEOPLE_CODE_ID"] ["PEOPLE_CODE_ID"] df df_p;
  df ← merge_left_on ["PEOPLE_CODE_ID"; "GRADUATION_DATE"]
         ["PEOPLE_CODE_ID"; "GRADUATION_DATE"] df df_minor;
  df ← merge_left_on ["PEOPLE_CODE_ID"; "DEGREE"; "CURRICULUM"]
         ["PEOPLE_CODE_ID"; "DEGREE"; "CURRICULUM"] df df_th;
  df ← merge_left_on ["DEGREE"; "CURRICULUM"] ["Degree"; "Curriculum"]
         df df_dm;
  df ← merge_left_on ["DEGREE"] ["CODE_VALUE_KEY"] df df_code_degree;
  merge_left_on ["PEOPLE_CODE_ID"] ["PEOPLE_CODE_ID"] df df_stoplist.

(** The same chain of joins, as a recursion on the list of the frames
    with their keys. *)
Fixpoint join_all (joins : list (list string * list string * DataFrame))
    (df : DataFrame) : result DataFrame :=
  match joins with
  | [] => Ok df
  | j :: rest => df ← merge_left_on j.1.1 j.1.2 df j.2; join_all rest df
  end.

(** Lines 297-451 of [create_DV_df]: the records, from the eight frames
    that lines 270-294 have built. *)
Definition create_DV_df_from_tables
    (df_td df_a df_p df_minor df_th df_dm df_code_degree df_stoplist
       : DataFrame) : result DataFrame :=
  df ← merge_tables df_td df_a df_p df_minor df_th df_dm df_code_degree
         df_stoplist;
  create_DV_df df.

(** ** Vocabulary for statements about the source tables *)

(** [r] is a row of [rows] that no row of [rows] with the same cells in
    [subset] exceeds in column [v]. *)
Definition latest_of (subset : list string) (v : string)
    (rows : list (gmap string value)) (r : gmap string value) : Prop :=
  r ∈ rows
  /\ forall x, x ∈ rows -> same_on subset x r ->
               value_leb (cell x v) (cell r v) = true.

(** The cells of a row in the columns [cols]. *)
Definition cells_of (cols : list string) (r : gmap string value)
  : list value :=
  map (cell r) cols.

(** No two rows of [df] have the same cells in the columns [cols]. *)
Definition unique_keys (cols : list string) (df : DataFrame) : Prop :=
  NoDup (map (cells_of cols) (data df)).

(** What a row [m] of a join holds in the columns that come from [right]:
    the cells of a row of [right] that agrees with [m] on the keys, or
    missing values when no row of [right] does. *)
Definition attached (left_on right_on : list string) (right : DataFrame)
    (m : gmap string value) : Prop :=
  ((forall r, r ∈ data right -> ~ keys_match left_on right_on m r)
   /\ forall c, c ∈ joined_columns left_on right_on right -> cell m c = VNaN)
  \/ exists r,
       r ∈ data right /\ keys_match left_on right_on m r
       /\ forall c, c ∈ joined_columns left_on right_on right ->
                    cell m c = cell r c.

(** The joins of [merge_tables], each with its keys and its frame. *)
Definition table_joins
    (df_a df_p df_minor df_th df_dm df_code_degree df_stoplist : DataFrame)
  : list (list string * list string * DataFrame) :=
  [ (["PEOPLE_CODE_ID"], ["PEOPLE_CODE_ID"], df_a);
    (["PEOPLE_CODE_ID"], ["PEOPLE_CODE_ID"], df_p);
    (["PEOPLE_CODE_ID"; "GRADUATION_DATE"],
     ["PEOPLE_CODE_ID"; "GRADUATION_DATE"], df_minor);
    (["PEOPLE_CODE_ID"; "DEGREE"; "CURRICULUM"],
     ["PEOPLE_CODE_ID"; "DEGREE"; "CURRICULUM"], df_th);
    (["DEGREE"; "CURRICULUM"], ["Degree"; "Curriculum"], df_dm);
    (["DEGREE"], ["CODE_VALUE_KEY"], df_code_degree);
    (["PEOPLE_CODE_ID"], ["PEOPLE_CODE_ID"], df_stoplist) ].

(** The columns that a list of joins adds. *)
Definition columns_added
    (joins : list (list string * list string * DataFrame)) : list string :=
  flat_map (fun j => joined_columns j.1.1 j.1.2 j.2) joins.

(** The degrees that are not minors. *)
Definition degree_rows (df_td : DataFrame) : list (gmap string value) :=
  filter (fun r => cell r "DEGREE" <> VStr "MINOR") (data df_td).

(** A merged row [m] seen from the degree [t] that it extends. *)
Definition extends (columns_td : list string)
    (joins : list (list string * list string * DataFrame))
    (t m : gmap string value) : Prop :=
  (forall c, c ∈ columns_td -> cell m c = cell t c)
  /\ Forall (fun j => attached j.1.1 j.1.2 j.2 m) joins.

(** A cell [v] that is looked up in [table]: it is [found r] for a row
    [r] of the table that [matches], or [missing] when no row of the table
    matches. *)
Definition looked_up (table : DataFrame)
    (matches : gmap string value -> Prop)
    (found : gmap string value -> value) (missing v : value) : Prop :=
  ((forall r, r ∈ data table -> ~ matches r) /\ v = missing)
  \/ exists r, r ∈ data table /\ matches r /\ v = found r.

(** The column of the records that holds the title of the degree. *)
Definition degree_title : string :=
  "Degree, Certificate, or Credential Title".

(** ** A sample registrar database *)

Module Tables.

(** A frame from its column labels and the cells of its rows. *)
Definition frame_of_rows (cols : list string) (rows : list (list value))
  : DataFrame :=
  {| columns := cols; data := map (fun vs => list_to_map (zip cols vs)) rows |}.

Definition strs (l : list string) : list value := map VStr l.

(** Two stops of one student, and one of another. *)
Definition stoplist : DataFrame :=
  frame_of_rows ["PEOPLE_CODE_ID"; "STOP_REASON"; "STOP_DATE"]
    [ strs ["P1"; "COLL"; "2022-05-01"];
      strs ["P2"; "STAC"; "2020-09-15"];
      strs ["P1"; "BURS"; "2021-03-01"] ].

(** The CIP code of one curriculum in two academic years, and another
    curriculum. *)
Definition degree_mapping_nsc : DataFrame :=
  frame_of_rows
    [ "AcademicYear"; "AcademicTerm"; "Degree"; "Curriculum"; "CipCode";
      "CipYear" ]
    [ strs ["2021"; "FALL"; "BS"; "FORESTRY"; "03.0502"; "2020"];
      strs ["2019"; "FALL"; "BS"; "FORESTRY"; "03.0501"; "2010"];
      strs ["2021"; "FALL"; "BA"; "BIOLOGY"; "26.0101"; "2020"] ].

(** One honor, recorded twice. *)
Definition honors : DataFrame :=
  frame_of_rows ["PEOPLE_CODE_ID"; "PROGRAM"; "DEGREE"; "CURRICULUM"; "HONORS"]
    [ strs ["P1"; "UNDER"; "BS"; "FORESTRY"; "MAGNA"];
      strs ["P1"; "UNDER"; "BS"; "FORESTRY"; "MAGNA"] ].

Definition code_degrees : DataFrame :=
  frame_of_rows ["CODE_VALUE_KEY"; "LONG_DESC"]
    [ strs ["BA"; "Bachelor of Arts"];
      strs ["BS"; "Bachelor of Science"] ].

(** Two earlier names of one student. *)
Definition former_names : DataFrame :=
  frame_of_rows
    [ "PEOPLE_CODE_ID"; "FIRST_NAME"; "MIDDLE_NAME"; "LAST_NAME";
      "NAME_CHANGE_DATE" ]
    [ strs ["P1"; "Ann"; "M"; "Smith"; "2020-06-01"];
      strs ["P1"; "Ann"; "M"; "Jones"; "2015-01-01"] ].

(** Two people; the second has no government ID. *)
Definition people : DataFrame :=
  frame_of_rows
    [ "PEOPLE_CODE_ID"; "GOVERNMENT_ID"; "FIRST_NAME"; "MIDDLE_NAME";
      "LAST_NAME"; "SUFFIX"; "BIRTH_DATE"; "RELEASE_INFO" ]
    [ strs ["P1"; "123456789"; "Ann"; "M"; "Lee"; " "; "19990101"; "NORL"];
      [ VStr "P2"; VNaN; VStr "Bo"; VStr " "; VStr "Ray"; VStr " ";
        VStr "19980202"; VStr "" ] ].

(** Three degrees and a minor; the third student is not among the
    people. *)
Definition degrees : DataFrame :=
  frame_of_rows Examples.td_columns
    [ strs ["P1"; "BS"; "FORESTRY"; "Forestry"; "20230513"];
      strs ["P1"; "MINOR"; "ART"; "Art Minor"; "20230513"];
      strs ["P2"; "BA"; "BIOLOGY"; "Biology"; "20230513"];
      strs ["P3"; "BS"; "FORESTRY"; "Forestry"; "20230513"] ].

(** The first of the degrees. *)
Definition forestry_degree : gmap string value :=
  list_to_map
    (zip Examples.td_columns
       (strs ["P1"; "BS"; "FORESTRY"; "Forestry"; "20230513"])).

Definition attendance : DataFrame :=
  frame_of_rows ["PEOPLE_CODE_ID"; "START_DATE"; "END_DATE"]
    [ strs ["P1"; "20190826"; "20230513"];
      strs ["P2"; "20190826"; "20230513"] ].

(** The database: each table answers every query with all its rows. *)
Definition table_named (table : string) : DataFrame :=
  if decide (table = "STOPLIST") then stoplist
  else if decide (table = "DegreeMappingNsc") then degree_mapping_nsc
  else if decide (table = "TRANSCRIPTHONORS") then honors
  else if decide (table = "CODE_DEGREE") then code_degrees
  else if decide (table = "PEOPLEFORMERNAME") then former_names
  else if decide (table = "PEOPLE") then people
  else degrees.

Definition registrar : data_source unit :=
  fun table _ _ s => (Ok (table_named table), s).

(** The eight frames that [create_DV_df] joins, built from the database
    by the functions modelled here (the attendance dates and the degree
    code table are taken as they are). *)
Definition df_p : DataFrame :=
  frame_of (people_formername registrar people tt).1.
Definition df_minor : DataFrame := frame_of (minor_data degrees).
Definition df_th : DataFrame := frame_of (transcript_honors registrar tt).1.
Definition df_dm : DataFrame := frame_of (degree_mapping registrar tt).1.
Definition df_stoplist : DataFrame := frame_of (stoplist_data registrar tt).1.

Definition merged : result DataFrame :=
  merge_tables degrees attendance df_p df_minor df_th df_dm code_degrees
    df_stoplist.

Definition records : result DataFrame :=
  create_DV_df_from_tables degrees attendance df_p df_minor df_th df_dm
    code_degrees df_stoplist.

(** The same with a degree code table that lacks the code BS. *)
Definition codes_without_bs : DataFrame :=
  frame_of_rows ["CODE_VALUE_KEY"; "LONG_DESC"]
    [ strs ["BA"; "Bachelor of Arts"] ].

Definition merged_without_title : result DataFrame :=
  merge_tables degrees attendance df_p df_minor df_th df_dm codes_without_bs
    df_stoplist.

Definition records_without_title : result DataFrame :=
  create_DV_df_from_tables degrees attendance df_p df_minor df_th df_dm
    codes_without_bs df_stoplist.

End Tables.

(** * Properties of the fixed-width encoder *)

Section StringFacts.

Lemma string_app_cons (a : ascii) (s t : string) :
  String a s +:+ t = String a (s +:+ t).
Proof. reflexivity. Qed.

Lemma string_app_empty_l (s : string) : "" +:+ s = s.
Proof. reflexivity. Qed.

Lemma string_length_app (s t : string) :
  String.length (s +:+ t) = (String.length s + String.length t)%nat.
Proof.
  induction s as [|a s IH]; [reflexivity|].
  rewrite string_app_cons. simpl. now rewrite IH.
Qed.

Lemma string_app_assoc (s t u : string) : (s +:+ t) +:+ u = s +:+ t +:+ u.
Proof.
  induction s as [|a s IH]; [reflexivity|].
  rewrite !string_app_cons. now rewrite IH.
Qed.

Lemma string_app_empty_r (s : string) : s +:+ "" = s.
Proof.
  induction s as [|a s IH]; [reflexivity|].
  rewrite string_app_cons. now rewrite IH.
Qed.

Lemma length_spaces (n : nat) : String.length (Py.spaces n) = n.
Proof. induction n as [|n IH]; simpl; [reflexivity | now rewrite IH]. Qed.

Lemma length_substring_0 (n : nat) (s : string) :
  String.length (String.substring 0 n s) = Nat.min n (String.length s).
Proof.
  revert n; induction s as [|a s IH]; intros [|n]; simpl; try reflexivity.
  now rewrite IH.
Qed.

Lemma substring_0_all (n : nat) (s : string) :
  (String.length s <= n)%nat -> String.substring 0 n s = s.
Proof.
  revert n; induction s as [|a s IH]; intros [|n] Hn; simpl in *;
    try reflexivity; try lia.
  rewrite IH; [reflexivity | lia].
Qed.

Lemma len_app (s t : string) : Py.len (s +:+ t) = Py.len s + Py.len t.
Proof. unfold Py.len. rewrite string_length_app. lia. Qed.

Lemma len_nonneg (s : string) : 0 <= Py.len s.
Proof. unfold Py.len. lia. Qed.

End StringFacts.

(** ** One field *)

Lemma fit_longer (s : string) (w : Z) :
  0 <= w -> Py.len s > w ->
  fit s w = String.substring 0 (Z.to_nat w) s /\ Py.len (fit s w) = w.
Proof.
  intros Hw Hlen. unfold fit, Py.slice_to.
  destruct (Z.gtb_spec (Py.len s) w) as [_|?]; [|lia].
  destruct (Z.leb_spec 0 w) as [_|?]; [|lia].
  split; [reflexivity|].
  unfold Py.len in *. rewrite length_substring_0. lia.
Qed.

Lemma fit_shorter (s : string) (w : Z) :
  Py.len s < w ->
  fit s w = s +:+ Py.spaces (Z.to_nat (w - Py.len s)) /\ Py.len (fit s w) = w.
Proof.
  intros Hlen. unfold fit, Py.ljust.
  destruct (Z.gtb_spec (Py.len s) w) as [?|_]; [lia|].
  destruct (Z.ltb_spec (Py.len s) w) as [_|?]; [|lia].
  split; [reflexivity|].
  rewrite len_app. unfold Py.len at 2. rewrite length_spaces. lia.
Qed.

Lemma fit_exact (s : string) (w : Z) : Py.len s = w -> fit s w = s.
Proof.
  intros Hlen. unfold fit.
  destruct (Z.gtb_spec (Py.len s) w) as [?|_]; [lia|].
  destruct (Z.ltb_spec (Py.len s) w) as [?|_]; [lia|reflexivity].
Qed.

Lemma len_fit (s : string) (w : Z) : 0 <= w -> Py.len (fit s w) = w.
Proof.
  intros Hw.
  destruct (Z.lt_trichotomy (Py.len s) w) as [H|[H|H]].
  - now apply fit_shorter.
  - now rewrite fit_exact.
  - apply fit_longer; lia.
Qed.

(** ** One row *)

Lemma encode_fields_Line df row specs line out :
  encode_fields df row specs line = Line out ->
  out = line +:+ row_text row specs
  /\ consistent specs /\ row_complete df row specs.
Proof.
  revert line; induction specs as [|[c [[w st] en]] rest IH]; intros line H.
  - simpl in H. injection H as <-. rewrite string_app_empty_r.
    repeat split; constructor.
  - simpl in H. unfold field_text.
    destruct (is_filler c) eqn:Hf.
    + destruct (Z.eqb_spec (st + (w - 1)) en) as [Hc|Hc]; simpl in H;
        [|discriminate].
      apply IH in H as (-> & Hrest & Hrow). repeat split.
      * simpl. unfold field_text. rewrite Hf. now rewrite string_app_assoc.
      * constructor; assumption.
      * constructor; [|assumption]. intros Hn. simpl in Hn. congruence.
    + unfold getitem in H. destruct (has_column df c) eqn:Hcol; [|discriminate].
      destruct (Z.eqb_spec (st + (w - 1)) en) as [Hc|Hc]; simpl in H;
        [|discriminate].
      destruct (cell row c) as [s| |] eqn:Hcell; try discriminate.
      apply IH in H as (-> & Hrest & Hrow). repeat split.
      * simpl. unfold field_text. rewrite Hf, Hcell.
        now rewrite string_app_assoc.
      * constructor; assumption.
      * constructor; [|assumption]. intros _. simpl. eauto.
Qed.

Lemma encode_fields_complete df row specs line :
  consistent specs -> row_complete df row specs ->
  encode_fields df row specs line = Line (line +:+ row_text row specs).
Proof.
  intros Hc Hr. revert line.
  induction specs as [|[c [[w st] en]] rest IH]; intros line.
  - simpl. now rewrite string_app_empty_r.
  - inversion Hc as [|? ? Hc1 Hc2]; inversion Hr as [|? ? Hr1 Hr2]; subst.
    unfold field_consistent, field_start, field_width, field_end in Hc1.
    simpl in Hc1. simpl.
    destruct (Z.eqb_spec (st + (w - 1)) en) as [_|?]; [|contradiction].
    unfold field_text. simpl.
    destruct (is_filler c) eqn:Hf.
    + rewrite IH by assumption. now rewrite string_app_assoc.
    + destruct (Hr1 Hf) as (Hcol & s & Hs). simpl in Hcol, Hs.
      unfold getitem. rewrite Hcol, Hs. simpl.
      rewrite IH by assumption. now rewrite string_app_assoc.
Qed.

Lemma encode_fields_incomplete df row specs line :
  consistent specs -> ~ row_complete df row specs ->
  exists e, encode_fields df row specs line = Raised e.
Proof.
  intros Hc Hr. revert line.
  induction specs as [|[c [[w st] en]] rest IH]; intros line.
  - exfalso. apply Hr. constructor.
  - inversion Hc as [|? ? Hc1 Hc2]; subst.
    unfold field_consistent, field_start, field_width, field_end in Hc1.
    simpl in Hc1. simpl.
    destruct (Z.eqb_spec (st + (w - 1)) en) as [_|?]; [|contradiction].
    simpl.
    destruct (is_filler c) eqn:Hf.
    + apply IH; [assumption|]. intros Hrest. apply Hr.
      constructor; [|assumption]. intros Hn. simpl in Hn. congruence.
    + unfold getitem. destruct (has_column df c) eqn:Hcol; [|eauto].
      destruct (cell row c) as [s| |] eqn:Hs; [|eauto|eauto].
      apply IH; [assumption|]. intros Hrest. apply Hr.
      constructor; [|assumption]. intros _. simpl. eauto.
Qed.

Lemma encode_fields_inconsistent df row specs line :
  ~ consistent specs ->
  match encode_fields df row specs line with
  | Line _ => False
  | Return0 => reaches_check df row specs = true
  | Raised _ => reaches_check df row specs = false
  end.
Proof.
  intros Hc. revert line.
  induction specs as [|[c [[w st] en]] rest IH]; intros line.
  - exfalso. apply Hc. constructor.
  - simpl. destruct (Z.eqb_spec (st + (w - 1)) en) as [Heq|Hne]; simpl.
    + assert (Hrest : ~ consistent rest).
      { intros Hrest. apply Hc. constructor; assumption. }
      destruct (is_filler c) eqn:Hf; simpl.
      * apply IH; assumption.
      * unfold getitem. destruct (has_column df c); simpl; [|reflexivity].
        destruct (cell row c); simpl; try reflexivity.
        apply IH; assumption.
    + destruct (is_filler c); simpl; [reflexivity|].
      unfold getitem. destruct (has_column df c); reflexivity.
Qed.

Lemma len_row_text row specs :
  Forall (fun f => 0 <= field_width f) specs ->
  Py.len (row_text row specs) = total_width specs.
Proof.
  induction 1 as [|[c [[w st] en]] rest Hw _ IH]; [reflexivity|].
  simpl. rewrite len_app, IH. unfold field_width in *. simpl in *.
  unfold field_text. now rewrite len_fit.
Qed.

(** ** The row loop *)

(** Whatever the specification, the loop writes the text of a prefix of
    the rows, each of them encodable. *)
Lemma write_rows_written df rows specs f lw r f' :
  write_rows df rows specs f lw = (r, f') ->
  exists written,
    written `prefix_of` rows
    /\ Forall (fun row => row_complete df row specs) written
    /\ f' = f ++ chunks (map (fun row => row_text row specs) written).
Proof.
  revert f lw; induction rows as [|row rest IH]; intros f lw H; simpl in H.
  - injection H as <- <-. exists []. simpl. rewrite app_nil_r.
    repeat split; try constructor. apply prefix_nil.
  - destruct (encode_fields df row specs "") as [line| |e] eqn:Henc.
    + apply encode_fields_Line in Henc as (-> & _ & Hrow).
      rewrite string_app_empty_l in H.
      apply IH in H as (written & Hpre & Hall & ->).
      exists (row :: written). repeat split.
      * now apply prefix_cons.
      * now constructor.
      * simpl. now rewrite <- app_assoc.
    + injection H as <- <-. exists []. simpl. rewrite app_nil_r.
      repeat split; try constructor. apply prefix_nil.
    + injection H as <- <-. exists []. simpl. rewrite app_nil_r.
      repeat split; try constructor. apply prefix_nil.
Qed.

Lemma row_text_app row pre post :
  row_text row (pre ++ post) = row_text row pre +:+ row_text row post.
Proof.
  induction pre as [|[c [[w st] en]] pre IH]; [reflexivity|].
  simpl. now rewrite IH, string_app_assoc.
Qed.

Lemma encode_fields_consistent_not_Return0 df row specs line :
  consistent specs -> encode_fields df row specs line <> Return0.
Proof.
  intros Hc. revert line.
  induction specs as [|[c [[w st] en]] rest IH]; intros line; [discriminate|].
  inversion Hc as [|? ? Hc1 Hc2]; subst.
  unfold field_consistent, field_start, field_width, field_end in Hc1.
  simpl in Hc1. simpl.
  destruct (Z.eqb_spec (st + (w - 1)) en) as [_|?]; [|contradiction].
  simpl. destruct (is_filler c); [now apply IH|].
  unfold getitem. destruct (has_column df c); [|discriminate].
  destruct (cell row c); try discriminate. now apply IH.
Qed.

(** With a consistent specification the loop writes the text of each row
    in turn, and stops only at a row that cannot be encoded. *)
Lemma write_rows_consistent df rows specs f lw r f' :
  consistent specs ->
  write_rows df rows specs f lw = (r, f') ->
  exists written,
    written `prefix_of` rows
    /\ Forall (fun row => row_complete df row specs) written
    /\ f' = f ++ chunks (map (fun row => row_text row specs) written)
    /\ match r with
       | Ok n => written = rows /\ n = lw + Z.of_nat (length rows)
       | Raise e => exists row,
           rows !! length written = Some row /\ ~ row_complete df row specs
       end.
Proof.
  intros Hc. revert f lw.
  induction rows as [|row rest IH]; intros f lw H; simpl in H.
  - injection H as <- <-. exists []. simpl. rewrite app_nil_r.
    repeat split; try constructor; try reflexivity. lia.
  - destruct (encode_fields df row specs "") as [line| |e] eqn:Henc.
    + apply encode_fields_Line in Henc as (-> & _ & Hrow).
      rewrite string_app_empty_l in H.
      apply IH in H as (written & Hpre & Hall & -> & Hr).
      exists (row :: written). repeat split.
      * now apply prefix_cons.
      * now constructor.
      * simpl. now rewrite <- app_assoc.
      * destruct r as [n|e].
        -- destruct Hr as [-> ->]. split; [reflexivity|]. simpl length. lia.
        -- exact Hr.
    + now apply encode_fields_consistent_not_Return0 in Henc.
    + injection H as <- <-. exists []. simpl. rewrite app_nil_r.
      repeat split; try constructor; try apply prefix_nil.
      exists row. split; [reflexivity|]. intros Hrow.
      rewrite (encode_fields_complete _ _ _ _ Hc Hrow) in Henc. discriminate.
Qed.

(** With an inconsistent specification the loop stops in its first row,
    before anything is written. *)
Lemma write_rows_inconsistent df rows specs f lw :
  ~ consistent specs ->
  write_rows df rows specs f lw =
    match rows with
    | [] => (Ok lw, f)
    | row :: _ =>
        if reaches_check df row specs then (Ok 0, f)
        else (match encode_fields df row specs "" with
              | Raised e => Raise e
              | _ => Ok 0
              end, f)
    end.
Proof.
  intros Hc. destruct rows as [|row rest]; [reflexivity|]. simpl.
  pose proof (encode_fields_inconsistent df row specs "" Hc) as H.
  destruct (encode_fields df row specs "") as [line| |e];
    [contradiction| |]; now rewrite H.
Qed.

(** ** Claims about [write_fw] *)

(** C1. With a consistent specification of (non-negative) widths that sum
    to its largest end position, every line [write_fw] writes has, before
    its newline, exactly that many characters, whatever the cells hold; and
    when the call returns, it wrote one such line per row. *)
Theorem write_fw_line_length fs fpath f_mode df specs r fs' :
  consistent specs ->
  Forall (fun f => 0 <= field_width f) specs ->
  total_width specs = max_end specs ->
  write_fw fs fpath f_mode df specs = (r, fs') ->
  exists lines,
    fs' !! fpath = Some (open_file fs fpath f_mode ++ chunks lines)
    /\ Forall (fun line => Py.len line = max_end specs) lines
    /\ (forall n, r = Ok n ->
          length lines = length (data df) /\ n = Z.of_nat (length lines)).
Proof.
  intros Hc Hw Hsum H. unfold write_fw in H.
  destruct (write_rows df (data df) specs (open_file fs fpath f_mode) 0)
    as [r0 f] eqn:Hrows.
  injection H as <- <-.
  apply write_rows_consistent in Hrows as (written & Hpre & Hall & -> & Hr);
    [|assumption].
  exists (map (fun row => row_text row specs) written). split; [|split].
  - apply lookup_insert_eq.
  - apply Forall_map, Forall_forall. intros row _. simpl.
    rewrite <- Hsum. now apply len_row_text.
  - intros n ->. destruct Hr as [-> ->]. rewrite length_map. split; [reflexivity|lia].
Qed.

(** The data schema meets the hypotheses of C1 with 3840 columns. *)
Lemma dv_col_def_layout :
  consistent dv_col_def
  /\ Forall (fun f => 0 <= field_width f) dv_col_def
  /\ total_width dv_col_def = 3840 /\ max_end dv_col_def = 3840.
Proof.
  split; [|split; [|split; reflexivity]].
  - apply Forall_forall. intros f Hf. 
    repeat (apply elem_of_cons in Hf as [->|Hf]; [reflexivity|]).
    now apply elem_of_nil in Hf.
  - apply Forall_forall. intros f Hf. 
    repeat (apply elem_of_cons in Hf as [->|Hf]; [unfold field_width; simpl; lia|]).
    now apply elem_of_nil in Hf.
Qed.

Lemma dd1_frame_written :
  write_fw ∅ "out.txt" mode_a Examples.dd1_frame dv_col_def
  = (Ok 1, {[ "out.txt" :=
        chunks [row_text Examples.dd1_row dv_col_def] ]}).
Proof. vm_compute. reflexivity. Qed.

Lemma write_fw_line_length_witness :
  (consistent dv_col_def
   /\ Forall (fun f => 0 <= field_width f) dv_col_def
   /\ total_width dv_col_def = max_end dv_col_def)
  /\ exists lines,
       (write_fw ∅ "out.txt" mode_a Examples.dd1_frame dv_col_def).2
         !! "out.txt" = Some (open_file ∅ "out.txt" mode_a ++ chunks lines)
       /\ Forall (fun line => Py.len line = max_end dv_col_def) lines
       /\ (forall n,
             (write_fw ∅ "out.txt" mode_a Examples.dd1_frame dv_col_def).1
               = Ok n ->
             length lines = length (data Examples.dd1_frame)
             /\ n = Z.of_nat (length lines)).
Proof.
  assert (H1 : consistent dv_col_def) by (repeat constructor).
  assert (H2 : Forall (fun f => 0 <= field_width f) dv_col_def)
    by (repeat constructor; vm_compute; discriminate).
  assert (H3 : total_width dv_col_def = max_end dv_col_def) by reflexivity.
  split; [auto|].
  apply (write_fw_line_length ∅ "out.txt" mode_a Examples.dd1_frame dv_col_def
           _ _ H1 H2 H3).
  apply surjective_pairing.
Defined.

(** ** The three sections of the file *)

Lemma write_fw_complete fs fpath f_mode df specs :
  consistent specs ->
  Forall (fun row => row_complete df row specs) (data df) ->
  write_fw fs fpath f_mode df specs
  = (Ok (Z.of_nat (length (data df))),
     <[fpath := open_file fs fpath f_mode
                ++ chunks (map (fun row => row_text row specs) (data df))]> fs).
Proof.
  intros Hc Hall. unfold write_fw.
  generalize (open_file fs fpath f_mode) as f. intros f.
  assert (H : forall rows f lw,
    Forall (fun row => row_complete df row specs) rows ->
    write_rows df rows specs f lw
    = (Ok (lw + Z.of_nat (length rows)),
       f ++ chunks (map (fun row => row_text row specs) rows))).
  { induction rows as [|row rest IH]; intros f0 lw Hrows; simpl.
    - rewrite app_nil_r. do 2 f_equal. lia.
    - inversion Hrows as [|? ? Hrow Hrest]; subst.
      rewrite (encode_fields_complete _ _ _ _ Hc Hrow).
      rewrite string_app_empty_l, IH by assumption.
      rewrite <- app_assoc. simpl. do 2 f_equal. lia. }
  now rewrite H.
Qed.

(** C2. [write_fw] writes the rows of the frame in their order, as far as
    it gets; with a consistent specification that is every row when the
    call returns (and it returns whenever each row has a string in each
    field that is not a filler), and every row before the first one that
    cannot be encoded when it raises.  In every line written, a field
    that is not a filler holds the row's string for that column cut to its
    first [width] characters when the string is longer than the declared
    width, followed by blanks up to [width] characters when it is shorter,
    and unchanged when it has exactly [width] characters; the field comes
    after the text of the fields declared before it and before the text of
    those declared after. *)
Theorem write_fw_field_fit fs fpath f_mode df pre c w st en post r fs' :
  is_filler c = false ->
  0 <= w ->
  write_fw fs fpath f_mode df (pre ++ (c, (w, st, en)) :: post) = (r, fs') ->
  exists written,
    written `prefix_of` data df
    /\ (consistent (pre ++ (c, (w, st, en)) :: post) ->
        match r with
        | Ok n => written = data df /\ n = Z.of_nat (length (data df))
        | Raise e =>
            exists row,
              data df !! length written = Some row
              /\ ~ row_complete df row (pre ++ (c, (w, st, en)) :: post)
        end)
    /\ (consistent (pre ++ (c, (w, st, en)) :: post) ->
        Forall (fun row =>
          row_complete df row (pre ++ (c, (w, st, en)) :: post)) (data df) ->
        r = Ok (Z.of_nat (length (data df))) /\ written = data df)
    /\ fs' !! fpath =
         Some (open_file fs fpath f_mode
               ++ chunks (map (fun row =>
                    row_text row pre
                    +:+ fit (cell_str (cell row c)) w
                    +:+ row_text row post) written))
    /\ Forall (fun row => exists s,
         cell row c = VStr s
         /\ Py.len (fit s w) = w
         /\ (Py.len s > w -> fit s w = String.substring 0 (Z.to_nat w) s)
         /\ (Py.len s < w ->
             fit s w = s +:+ Py.spaces (Z.to_nat (w - Py.len s)))
         /\ (Py.len s = w -> fit s w = s)) written.
Proof.
  intros Hf Hw H.
  set (specs := pre ++ (c, (w, st, en)) :: post) in *.
  assert (Hex : exists written,
    written `prefix_of` data df
    /\ Forall (fun row => row_complete df row specs) written
    /\ fs' !! fpath
       = Some (open_file fs fpath f_mode
               ++ chunks (map (fun row => row_text row specs) written))
    /\ (consistent specs ->
        match r with
        | Ok n => written = data df /\ n = Z.of_nat (length (data df))
        | Raise e =>
            exists row,
              data df !! length written = Some row
              /\ ~ row_complete df row specs
        end)).
  { unfold write_fw in H.
    destruct (write_rows df (data df) specs (open_file fs fpath f_mode) 0)
      as [r0 f] eqn:Hrows.
    injection H as <- <-.
    destruct (decide (Forall field_consistent specs)) as [Hc|Hn].
    - apply write_rows_consistent in Hrows
        as (written & Hpre & Hall & -> & Hr); [|exact Hc].
      exists written. split; [exact Hpre|]. split; [exact Hall|].
      split; [apply lookup_insert_eq|]. intros _.
      destruct r0 as [n|e]; [|exact Hr]. destruct Hr as [-> ->].
      split; [reflexivity | lia].
    - apply write_rows_written in Hrows as (written & Hpre & Hall & ->).
      exists written. split; [exact Hpre|]. split; [exact Hall|].
      split; [apply lookup_insert_eq|]. intros Hc. contradiction. }
  destruct Hex as (written & Hpre & Hall & Hfile & Hr).
  exists written. split; [exact Hpre|]. split; [exact Hr|]. split; [|split].
  - intros Hc Hrows.
    rewrite (write_fw_complete _ _ _ _ _ Hc Hrows) in H.
    injection H as <- _. split; [reflexivity|]. now apply Hr.
  - rewrite Hfile. do 3 f_equal. apply map_ext. intros row.
    unfold specs. rewrite row_text_app. simpl. unfold field_text.
    now rewrite Hf.
  - eapply Forall_impl; [exact Hall|]. intros row Hrow.
    unfold row_complete, specs in Hrow. rewrite Forall_app in Hrow.
    destruct Hrow as [_ Hrow]. inversion Hrow as [|? ? Hfield _]; subst.
    destruct (Hfield Hf) as (_ & s & Hs). simpl in Hs.
    exists s. split; [assumption|]. split; [now apply len_fit|].
    split; [|split].
    + intros Hlen. now apply fit_longer.
    + intros Hlen. now apply fit_shorter.
    + apply fit_exact.
Qed.

Lemma dd1_frame_complete_rows :
  Forall (fun row => row_complete Examples.dd1_frame row dv_col_def)
    (data Examples.dd1_frame).
Proof.
  constructor; [|constructor]. apply Forall_forall. intros f Hf.
  repeat (apply elem_of_cons in Hf as [->|Hf];
          [intros Hfill; vm_compute in Hfill;
           first [ discriminate Hfill
                 | split; [vm_compute; reflexivity
                          | eexists; vm_compute; reflexivity] ]|]).
  now apply elem_of_nil in Hf.
Qed.

Lemma write_fw_field_fit_witness :
  (is_filler "First Name" = false /\ 0 <= 40)
  /\ (write_fw ∅ "out.txt" mode_a Examples.dd1_frame dv_col_def).1 = Ok 1
  /\ (write_fw ∅ "out.txt" mode_a Examples.dd1_frame dv_col_def).2
       !! "out.txt" =
     Some (open_file ∅ "out.txt" mode_a
           ++ chunks (map (fun row =>
                row_text row (take 2 dv_col_def)
                +:+ fit (cell_str (cell row "First Name")) 40
                +:+ row_text row (drop 3 dv_col_def))
                (data Examples.dd1_frame)))
  /\ Forall (fun row => exists s,
       cell row "First Name" = VStr s
       /\ Py.len (fit s 40) = 40
       /\ (Py.len s > 40 -> fit s 40 = String.substring 0 (Z.to_nat 40) s)
       /\ (Py.len s < 40 ->
           fit s 40 = s +:+ Py.spaces (Z.to_nat (40 - Py.len s)))
       /\ (Py.len s = 40 -> fit s 40 = s)) (data Examples.dd1_frame).
Proof.
  split; [split; [reflexivity | lia]|].
  destruct (write_fw_field_fit ∅ "out.txt" mode_a Examples.dd1_frame
              (take 2 dv_col_def) "First Name" 40 13 52 (drop 3 dv_col_def)
              (write_fw ∅ "out.txt" mode_a Examples.dd1_frame dv_col_def).1
              (write_fw ∅ "out.txt" mode_a Examples.dd1_frame dv_col_def).2)
    as (written & _ & _ & Hall & Hfile & Hfit);
    [reflexivity | lia | apply surjective_pairing |].
  destruct (Hall (proj1 dv_col_def_layout) dd1_frame_complete_rows)
    as [Hr ->].
  split; [exact Hr|]. split; [exact Hfile | exact Hfit].
Defined.

(** C3, refuted as stated: with an inconsistent third field and a missing
    value in the second column, the call raises [TypeError] at [len(s)]
    instead of returning 0. *)
Lemma write_fw_inconsistent_raises :
  ~ consistent Examples.bad_specs
  /\ write_fw ∅ "out.txt" mode_a Examples.nan_frame Examples.bad_specs
     = (Raise TypeError, {[ "out.txt" := [] ]}).
Proof.
  split.
  - intros H. unfold consistent, Examples.bad_specs in H.
    rewrite !Forall_cons in H. destruct H as (_ & _ & H & _).
    vm_compute in H. discriminate.
  - vm_compute. reflexivity.
Qed.

(** C3, amended.  A call with an inconsistent specification writes no line.
    It returns 0 when the frame has no row, or when its first row supplies
    a string for each non-filler field declared before the first
    inconsistent field and has the column of that field; otherwise it
    raises before the check is reached. *)
Theorem write_fw_inconsistent fs fpath f_mode df specs :
  ~ consistent specs ->
  exists r,
    write_fw fs fpath f_mode df specs
      = (r, <[fpath := open_file fs fpath f_mode]> fs)
    /\ match data df with
       | [] => r = Ok 0
       | row :: _ =>
           if reaches_check df row specs then r = Ok 0
           else exists e, r = Raise e
       end.
Proof.
  intros Hc. unfold write_fw.
  rewrite (write_rows_inconsistent _ _ _ _ _ Hc).
  destruct (data df) as [|row rest]; [eexists; split; reflexivity|].
  pose proof (encode_fields_inconsistent df row specs "" Hc) as H.
  destruct (reaches_check df row specs) eqn:Hreach;
    [eexists; split; reflexivity|].
  destruct (encode_fields df row specs "") as [line| |e]; 
    [contradiction|discriminate|].
  eexists; split; [reflexivity|]. eauto.
Qed.

Lemma write_fw_inconsistent_witness :
  ~ consistent Examples.spec_1_5_3
  /\ exists r,
       write_fw ∅ "out.txt" mode_a Examples.str_frame Examples.spec_1_5_3
         = (r, <["out.txt" := open_file ∅ "out.txt" mode_a]> ∅)
       /\ match data Examples.str_frame with
          | [] => r = Ok 0
          | row :: _ =>
              if reaches_check Examples.str_frame row Examples.spec_1_5_3
              then r = Ok 0
              else exists e, r = Raise e
          end.
Proof.
  assert (H : ~ consistent Examples.spec_1_5_3).
  { intros H. unfold consistent, Examples.spec_1_5_3 in H.
    rewrite Forall_cons in H. destruct H as [H _]. vm_compute in H.
    discriminate. }
  split; [exact H|].
  exact (write_fw_inconsistent ∅ "out.txt" mode_a Examples.str_frame
           Examples.spec_1_5_3 H).
Defined.

(** C9. With a consistent specification and no rows, [write_fw] returns 0
    and writes nothing; a call with an inconsistent specification and a
    row returns the same 0 and leaves the same file, so the return value
    does not tell the two apart. *)
Theorem write_fw_empty_frame fs fpath f_mode cols specs :
  consistent specs ->
  write_fw fs fpath f_mode {| columns := cols; data := [] |} specs
    = (Ok 0, <[fpath := open_file fs fpath f_mode]> fs)
  /\ exists specs' df',
       ~ consistent specs' /\ data df' <> []
       /\ write_fw fs fpath f_mode df' specs'
          = (Ok 0, <[fpath := open_file fs fpath f_mode]> fs).
Proof.
  intros _. split; [reflexivity|].
  exists Examples.spec_1_5_3, Examples.str_frame.
  split; [|split; [discriminate | reflexivity]].
  intros H. unfold consistent, Examples.spec_1_5_3 in H.
  rewrite Forall_cons in H. destruct H as [H _]. vm_compute in H.
  discriminate.
Qed.

Lemma write_fw_empty_frame_witness :
  consistent dv_col_def
  /\ write_fw ∅ "out.txt" mode_a {| columns := dv_col_def.*1; data := [] |}
       dv_col_def
     = (Ok 0, <["out.txt" := open_file ∅ "out.txt" mode_a]> ∅)
  /\ exists specs' df',
       ~ consistent specs' /\ data df' <> []
       /\ write_fw ∅ "out.txt" mode_a df' specs'
          = (Ok 0, <["out.txt" := open_file ∅ "out.txt" mode_a]> ∅).
Proof.
  assert (H : consistent dv_col_def) by (repeat constructor).
  split; [exact H|].
  exact (write_fw_empty_frame ∅ "out.txt" mode_a (dv_col_def.*1) dv_col_def H).
Defined.


Lemma write_fw_consistent_Ok fs fpath f_mode df specs n fs' :
  consistent specs ->
  write_fw fs fpath f_mode df specs = (Ok n, fs') ->
  Forall (fun row => row_complete df row specs) (data df).
Proof.
  intros Hc H. unfold write_fw in H.
  destruct (write_rows df (data df) specs (open_file fs fpath f_mode) 0)
    as [r0 f] eqn:Hrows.
  injection H as -> <-.
  apply write_rows_consistent in Hrows as (written & _ & Hall & _ & Hr);
    [|assumption].
  now destruct Hr as [<- _].
Qed.

Lemma chunks_app (l1 l2 : list string) : chunks (l1 ++ l2) = chunks l1 ++ chunks l2.
Proof. unfold chunks. apply flat_map_app. Qed.

Lemma dv_hdr_def_consistent : consistent dv_hdr_def.
Proof. repeat constructor. Qed.

Lemma dv_tlr_def_consistent : consistent dv_tlr_def.
Proof. repeat constructor. Qed.

Lemma header_row_complete transmission_date degree_period :
  let df := single_row_frame (header_data transmission_date degree_period) in
  Forall (fun row => row_complete df row dv_hdr_def) (data df).
Proof.
  simpl. constructor; [|constructor].
  repeat (constructor; [intros _; split; [reflexivity | eexists; reflexivity]|]).
  constructor.
Qed.

Lemma trailer_row_complete detail_record_count :
  let df := single_row_frame (trailer_data detail_record_count) in
  Forall (fun row => row_complete df row dv_tlr_def) (data df).
Proof.
  simpl. constructor; [|constructor].
  repeat (constructor; [intros _; split; [reflexivity | eexists; reflexivity]|]).
  constructor.
Qed.

(** [str] of an int has at most [k] characters below [10^k]. *)
Lemma length_pretty_N_go (k : nat) (x : N) (s : string) :
  (x < 10 ^ N.of_nat k)%N ->
  (String.length (pretty_N_go x s) <= String.length s + k)%nat.
Proof.
  revert x s; induction k as [|k IH]; intros x s Hx.
  - assert (x = 0%N) as -> by (simpl in Hx; lia).
    rewrite pretty_N_go_0. lia.
  - destruct (decide (x = 0%N)) as [->|Hne].
    + rewrite pretty_N_go_0. lia.
    + rewrite pretty_N_go_step by lia.
      etransitivity; [apply IH|simpl; lia].
      rewrite Nat2N.inj_succ, N.pow_succ_r' in Hx.
      apply N.Div0.div_lt_upper_bound. lia.
Qed.

Lemma len_str_bound (k : nat) (n : Z) :
  (0 < k)%nat -> 0 <= n < 10 ^ Z.of_nat k -> Py.len (Py.str n) <= Z.of_nat k.
Proof.
  intros Hk [Hn0 Hn]. unfold Py.str, Py.len, pretty, pretty_Z.
  destruct n as [|p|p]; [simpl; lia| |lia].
  unfold pretty, pretty_N.
  destruct (decide (N.pos p = 0%N)) as [?|_]; [discriminate|].
  pose proof (length_pretty_N_go k (N.pos p) "") as H. simpl in H.
  apply inj_le, H.
  apply N2Z.inj_lt. rewrite N2Z.inj_pow, nat_N_Z. simpl. lia.
Qed.

#[global] Instance str_inj : Inj (=) (=) Py.str.
Proof. unfold Py.str. apply _. Qed.


Lemma bind_Ok_eq {A B} (m : result A) (k : A -> result B) (a : A) :
  m = Ok a -> m ≫= k = k a.
Proof. now intros ->. Qed.

(** The three writes of a run: when they complete, the data section has
    returned the number of records and the trailer carries that number
    plus 2. *)
Lemma sections_total_record_count
    fs today_str today_ymd start_date_str end_date_str df n fs' :
  write_DV_sections fs today_str today_ymd start_date_str end_date_str df
  = (Ok n, fs') ->
  let out_fn := ("PaulSmithsCollege_DegreeVerify_" +:+ today_str) +:+ ".txt" in
  let data_lines := map (fun row => row_text row dv_col_def) (data df) in
  let lw := Z.of_nat (length data_lines) in
  exists header fs1 fs2,
    write_DV_data fs1 df out_fn = (Ok lw, fs2)
    /\ write_DV_trailer fs2 out_fn lw = (Ok n, fs')
    /\ cell (list_to_map (trailer_data lw)) "Total Record Count"
       = VStr (Py.str (lw + 2))
    /\ fs' !! out_fn =
         Some (chunks ([header] ++ data_lines
                 ++ ["DT1" +:+ fit (Py.str (lw + 2)) 10 +:+ Py.spaces 3827]))
    /\ (lw + 2 < 10 ^ 10 ->
        fit (Py.str (lw + 2)) 10 = Py.ljust (Py.str (lw + 2)) 10).
Proof.
  intros H out_fn data_lines lw. unfold write_DV_sections in H. fold out_fn in H.
  set (descr := "Degree Completions " +:+ start_date_str +:+ " to "
                +:+ end_date_str) in H.
  unfold write_DV_header in H.
  rewrite (write_fw_complete _ _ _ _ _ dv_hdr_def_consistent
             (header_row_complete today_ymd descr)) in H.
  set (header := row_text (list_to_map (header_data today_ymd descr)) dv_hdr_def).
  set (fs1 := <[out_fn := _]> fs) in H.
  assert (Hfs1 : fs1 !! out_fn = Some (chunks [header])).
  { unfold fs1. now rewrite lookup_insert_eq. }
  clearbody fs1.
  destruct (write_DV_data fs1 df out_fn) as [[lw'|e] fs2] eqn:Hdata;
    [|discriminate].
  pose proof Hdata as Hrows. unfold write_DV_data in Hrows.
  apply write_fw_consistent_Ok in Hrows; [|apply dv_col_def_layout].
  unfold write_DV_data in Hdata.
  rewrite (write_fw_complete _ _ _ _ _ (proj1 dv_col_def_layout) Hrows) in Hdata.
  fold data_lines in Hdata.
  assert (Hlw : Z.of_nat (length (data df)) = lw).
  { unfold lw, data_lines. now rewrite length_map. }
  rewrite Hlw in Hdata. injection Hdata as <- <-.
  exists header, fs1, (<[out_fn := open_file fs1 out_fn mode_a
                          ++ chunks data_lines]> fs1).
  split; [|split; [exact H|split; [reflexivity|split]]].
  - unfold write_DV_data.
    rewrite (write_fw_complete _ _ _ _ _ (proj1 dv_col_def_layout) Hrows).
    fold data_lines. now rewrite Hlw.
  - unfold write_DV_trailer in H.
    rewrite (write_fw_complete _ _ _ _ _ dv_tlr_def_consistent
               (trailer_row_complete lw)) in H.
    assert (Hfs' := f_equal snd H). cbv [snd] in Hfs'. rewrite <- Hfs'.
    rewrite lookup_insert_eq.
    unfold open_file. rewrite lookup_insert_eq, Hfs1. cbv [default from_option id].
    f_equal. rewrite !chunks_app, <- app_assoc. reflexivity.
  - intros Hlt. unfold fit.
    assert (Hlen : Py.len (Py.str (lw + 2)) <= 10).
    { apply (len_str_bound 10); [lia|]. unfold lw. lia. }
    destruct (Z.gtb_spec (Py.len (Py.str (lw + 2))) 10) as [?|_]; [lia|].
    destruct (Z.ltb_spec (Py.len (Py.str (lw + 2))) 10) as [_|Hge];
      [reflexivity|].
    unfold Py.ljust. replace (10 - Py.len (Py.str (lw + 2))) with 0 by lia.
    simpl. now rewrite string_app_empty_r.
Qed.

(** Once the records are assembled, [main] writes the spreadsheet, does
    the three writes and returns [None] when they complete. *)
Lemma main_joined `{Runtime}
    fs today_str today_ymd start_date_str end_date_str merged df :
  joined start_date_str end_date_str merged ->
  create_DV_df merged = Ok df ->
  main fs today_str today_ymd start_date_str end_date_str
  = match to_excel fs (spreadsheet_file today_str) "DV_file" df with
    | (Raise e, fs1) => (Raise e, fs1)
    | (Ok _, fs1) =>
        match write_DV_sections fs1 today_str today_ymd start_date_str
                end_date_str df with
        | (Ok _, fs') => (Ok tt, fs')
        | (Raise e, fs') => (Raise e, fs')
        end
    end.
Proof.
  intros (start_date & end_date & Hs & He & Hm) Hdf.
  unfold main, write_DV_sections, spreadsheet_file.
  rewrite Hs, He, Hm. cbn [mbind result_bind]. rewrite Hdf.
  destruct (to_excel _ _ _ _) as [[?|?] ?]; [|reflexivity].
  destruct (write_DV_header _ _ _ _) as [[?|?] ?]; [|reflexivity].
  destruct (write_DV_data _ _ _) as [[?|?] ?]; [|reflexivity].
  now destruct (write_DV_trailer _ _ _) as [[?|?] ?].
Qed.

Lemma main_assembled `{Runtime}
    fs today_str today_ymd start_date_str end_date_str merged df fs1 :
  assembled fs today_str start_date_str end_date_str merged df fs1 ->
  main fs today_str today_ymd start_date_str end_date_str
  = match write_DV_sections fs1 today_str today_ymd start_date_str
            end_date_str df with
    | (Ok _, fs') => (Ok tt, fs')
    | (Raise e, fs') => (Raise e, fs')
    end.
Proof.
  intros (Hjoined & Hdf & Hxl).
  now rewrite (main_joined _ _ _ _ _ _ _ Hjoined Hdf), Hxl.
Qed.

(** A run of [main] that completes has assembled the records, written the
    spreadsheet and done the three writes. *)
Lemma main_Ok `{Runtime}
    fs today_str today_ymd start_date_str end_date_str u fs' :
  main fs today_str today_ymd start_date_str end_date_str = (Ok u, fs') ->
  exists merged df fs1 n,
    assembled fs today_str start_date_str end_date_str merged df fs1
    /\ write_DV_sections fs1 today_str today_ymd start_date_str end_date_str
         df = (Ok n, fs').
Proof.
  unfold main, write_DV_sections, assembled, joined, spreadsheet_file.
  destruct (datetime64 start_date_str) as [start_date|] eqn:Hs;
    [|discriminate].
  destruct (datetime64 end_date_str) as [end_date|] eqn:He; [|discriminate].
  destruct (merged_frame start_date end_date) as [merged|] eqn:Hm;
    [|discriminate].
  cbn [mbind result_bind].
  destruct (create_DV_df merged) as [df|] eqn:Hdf; [|discriminate].
  destruct (to_excel _ _ _ _) as [[[]|] fs1] eqn:Hxl; [|discriminate].
  destruct (write_DV_header _ _ _ _) as [[?|] ?] eqn:Hh; [|discriminate].
  destruct (write_DV_data _ _ _) as [[?|] ?] eqn:Hd; [|discriminate].
  destruct (write_DV_trailer _ _ _) as [[n|] ?] eqn:Ht; [|discriminate].
  intros [= <- <-]. exists merged, df, fs1, n.
  split; [split; [exists start_date, end_date; auto | auto]|].
  cbv zeta. rewrite Hh, Hd. exact Ht.
Qed.

(** C7. In a run of [main] that completes, the records were assembled and
    the spreadsheet written; then the data section returned the number of
    data lines it wrote, one per record, and the trailer record built
    from that value carries [str] of that number plus 2 in its Total
    Record Count cell; the trailer line holds it in columns 4 to 13, padded
    with blanks while the total is below ten digits' worth. *)
Theorem trailer_total_record_count `{Runtime}
    fs today_str today_ymd start_date_str end_date_str fs' :
  main fs today_str today_ymd start_date_str end_date_str = (Ok tt, fs') ->
  let out_fn := ("PaulSmithsCollege_DegreeVerify_" +:+ today_str) +:+ ".txt" in
  exists merged df fs0,
    assembled fs today_str start_date_str end_date_str merged df fs0
    /\ let data_lines := map (fun row => row_text row dv_col_def) (data df) in
       let lw := Z.of_nat (length data_lines) in
       exists header fs1 fs2,
         write_DV_data fs1 df out_fn = (Ok lw, fs2)
         /\ write_DV_trailer fs2 out_fn lw = (Ok 1, fs')
         /\ cell (list_to_map (trailer_data lw)) "Total Record Count"
            = VStr (Py.str (lw + 2))
         /\ fs' !! out_fn =
              Some (chunks ([header] ++ data_lines
                      ++ ["DT1" +:+ fit (Py.str (lw + 2)) 10
                          +:+ Py.spaces 3827]))
         /\ (lw + 2 < 10 ^ 10 ->
             fit (Py.str (lw + 2)) 10 = Py.ljust (Py.str (lw + 2)) 10).
Proof.
  intros H0 out_fn.
  apply main_Ok in H0 as (merged & df & fs0 & n & Hrun & Hsections).
  exists merged, df, fs0. split; [exact Hrun|]. intros data_lines lw.
  destruct (sections_total_record_count _ _ _ _ _ _ _ _ Hsections)
    as (header & fs1 & fs2 & Hdata & Htrailer & Hcell & Hfile & Hfit).
  exists header, fs1, fs2. split; [exact Hdata|].
  split; [|split; [exact Hcell | split; [exact Hfile | exact Hfit]]].
  pose proof Htrailer as Hn. unfold write_DV_trailer in Hn.
  rewrite (write_fw_complete _ _ _ _ _ dv_tlr_def_consistent
             (trailer_row_complete _)) in Hn.
  injection Hn as <- _. exact Htrailer.
Qed.

(** A sample run: three merged rows, two of them with a government ID. *)
Lemma good_run_completes :
  (@main (MoreExamples.run_of (Ok MoreExamples.good_frame)) ∅
     "20240101_1200" "20240101" "2023-06-01" "2023-12-31").1 = Ok tt.
Proof. vm_compute. reflexivity. Qed.

Lemma trailer_total_record_count_witness :
  @main (MoreExamples.run_of (Ok MoreExamples.good_frame)) ∅
    "20240101_1200" "20240101" "2023-06-01" "2023-12-31"
  = (Ok tt,
     (@main (MoreExamples.run_of (Ok MoreExamples.good_frame)) ∅
        "20240101_1200" "20240101" "2023-06-01" "2023-12-31").2)
  /\ exists df header,
       create_DV_df MoreExamples.good_frame = Ok df
       /\ cell (list_to_map (trailer_data (Z.of_nat (length (data df)))))
            "Total Record Count"
          = VStr (Py.str (Z.of_nat (length (data df)) + 2))
       /\ (@main (MoreExamples.run_of (Ok MoreExamples.good_frame)) ∅
             "20240101_1200" "20240101" "2023-06-01" "2023-12-31").2
            !! "PaulSmithsCollege_DegreeVerify_20240101_1200.txt"
          = Some (chunks ([header]
                    ++ map (fun row => row_text row dv_col_def) (data df)
                    ++ ["DT1"
                        +:+ fit (Py.str (Z.of_nat (length (data df)) + 2)) 10
                        +:+ Py.spaces 3827])).
Proof.
  assert (H : @main (MoreExamples.run_of (Ok MoreExamples.good_frame)) ∅
                "20240101_1200" "20240101" "2023-06-01" "2023-12-31"
              = (Ok tt,
                 (@main (MoreExamples.run_of (Ok MoreExamples.good_frame)) ∅
                    "20240101_1200" "20240101" "2023-06-01" "2023-12-31").2)).
  { rewrite (surjective_pairing (main _ _ _ _ _)) at 1.
    now rewrite good_run_completes. }
  split; [exact H|].
  destruct (@trailer_total_record_count
              (MoreExamples.run_of (Ok MoreExamples.good_frame))
              _ _ _ _ _ _ H)
    as (merged & df & fs0 & ((s & e & _ & _ & [= <-]) & Hdf & _)
        & header & fs1 & fs2 & _ & _ & Hcell & Hfile & _).
  exists df, header. rewrite length_map in Hcell, Hfile.
  split; [exact Hdf | split; [exact Hcell | exact Hfile]].
Defined.

(** [main] completes whenever the records are assembled, the spreadsheet
    is written and every record has a string in each column of the data
    schema. *)
Lemma main_completes `{Runtime}
    fs today_str today_ymd start_date_str end_date_str merged df fs1 :
  assembled fs today_str start_date_str end_date_str merged df fs1 ->
  Forall (fun row => row_complete df row dv_col_def) (data df) ->
  (main fs today_str today_ymd start_date_str end_date_str).1 = Ok tt.
Proof.
  intros Hrun Hrows. rewrite (main_assembled _ _ _ _ _ _ _ _ Hrun).
  unfold write_DV_sections, write_DV_header, write_DV_data, write_DV_trailer.
  rewrite (write_fw_complete _ _ _ _ _ dv_hdr_def_consistent
             (header_row_complete _ _)).
  rewrite (write_fw_complete _ _ _ _ _ (proj1 dv_col_def_layout) Hrows).
  rewrite (write_fw_complete _ _ _ _ _ dv_tlr_def_consistent
             (trailer_row_complete _)).
  reflexivity.
Qed.


(** * Properties of the record assembler *)

Section Cells.

Implicit Types (r : gmap string value) (c : string) (v : value).

Lemma cell_insert_eq r c v : cell (<[c := v]> r) c = v.
Proof. unfold cell. now rewrite lookup_insert_eq. Qed.

Lemma cell_insert_ne r c c' v : c <> c' -> cell (<[c := v]> r) c' = cell r c'.
Proof. intros H. unfold cell. now rewrite lookup_insert_ne. Qed.

Lemma cell_delete_ne r c c' : c <> c' -> cell (delete c r) c' = cell r c'.
Proof. intros H. unfold cell. now rewrite lookup_delete_ne. Qed.

Lemma has_column_true df c : has_column df c = true <-> c ∈ columns df.
Proof. unfold has_column. apply bool_decide_eq_true. Qed.

Lemma has_column_false df c : has_column df c = false <-> c ∉ columns df.
Proof. unfold has_column. apply bool_decide_eq_false. Qed.

Lemma keeps_refl T r : keeps T r r.
Proof. intros c _. reflexivity. Qed.

Lemma keeps_trans T r1 r2 r3 : keeps T r1 r2 -> keeps T r2 r3 -> keeps T r1 r3.
Proof. intros H1 H2 c Hc. rewrite H2, H1; auto. Qed.

Lemma keeps_weaken T T' r r' : T ⊆ T' -> keeps T r r' -> keeps T' r r'.
Proof. intros Hsub H c Hc. apply H. intros Hin. apply Hc, Hsub, Hin. Qed.

Lemma keeps_insert c v r : keeps [c] r (<[c := v]> r).
Proof.
  intros c' Hc'. apply cell_insert_ne. intros ->. apply Hc'. now left.
Qed.

End Cells.

(** ** The operations one by one *)

Lemma set_column_columns c v df c' :
  has_column df c' = true -> has_column (set_column c v df) c' = true.
Proof.
  rewrite !has_column_true. unfold set_column. simpl.
  destruct (has_column df c); [auto|]. intros H. apply elem_of_app. now left.
Qed.

Lemma set_column_has c v df : has_column (set_column c v df) c = true.
Proof.
  rewrite has_column_true. unfold set_column. simpl.
  destruct (has_column df c) eqn:H; [now apply has_column_true|].
  apply elem_of_app. right. now left.
Qed.

Lemma loc_set_row_keeps b src test target v r :
  keeps [target] r (loc_set_row b src test target v r).
Proof.
  unfold loc_set_row.
  destruct b; [destruct (default false _)|];
    auto using keeps_insert, keeps_refl.
Qed.

Lemma loc_set_row_target b src test target v r :
  cell (loc_set_row b src test target v r) target =
  if default false (test (cell r src)) then v
  else if b then cell r target else VNaN.
Proof.
  unfold loc_set_row.
  destruct b; destruct (default false _); now rewrite ?cell_insert_eq.
Qed.

Lemma loc_set_Ok src test target v df df' :
  loc_set src test target v df = Ok df' ->
  has_column df src = true
  /\ Forall (fun r => is_Some (test (cell r src))) (data df)
  /\ data df' = map (loc_set_row (has_column df target) src test target v)
                  (data df)
  /\ has_column df' target = true
  /\ (forall c, has_column df c = true -> has_column df' c = true).
Proof.
  unfold loc_set. intros H.
  destruct (has_column df src) eqn:Hsrc; [|discriminate]. simpl in H.
  destruct (forallb _ (data df)) eqn:Hall; [|discriminate]. simpl in H.
  split; [reflexivity|]. split.
  { apply Forall_forall. intros r Hr.
    rewrite forallb_forall in Hall. apply list_elem_of_In in Hr.
    specialize (Hall r Hr). now apply bool_decide_eq_true in Hall. }
  destruct (has_column df target) eqn:Htarget.
  - injection H as <-. simpl. repeat split; auto.
  - destruct (data df) as [|r0 rows] eqn:Hdata; [discriminate|].
    injection H as <-. simpl. repeat split.
    + rewrite has_column_true. simpl. apply elem_of_app. right. now left.
    + intros c. rewrite !has_column_true. simpl. intros Hc.
      apply elem_of_app. now left.
Qed.

Lemma rename_column_data old new df :
  has_column df old = true ->
  data (rename_column old new df)
  = map (fun r => <[new := cell r old]> (delete old r)) (data df)
  /\ has_column (rename_column old new df) new = true
  /\ (forall c, c <> old -> has_column df c = true ->
        has_column (rename_column old new df) c = true).
Proof.
  intros Hold. unfold rename_column. rewrite Hold. simpl. split; [reflexivity|].
  split.
  - rewrite has_column_true in *. simpl. apply list_elem_of_fmap.
    exists old. split; [|assumption]. now destruct (decide (old = old)).
  - intros c Hne. rewrite !has_column_true. simpl. intros Hc.
    apply list_elem_of_fmap. exists c. split; [|assumption].
    now destruct (decide (c = old)).
Qed.

Lemma keeps_rename old new r :
  keeps [old; new] r (<[new := cell r old]> (delete old r)).
Proof.
  intros c Hnin. rewrite cell_insert_ne, cell_delete_ne; [reflexivity| |];
    intros ->; apply Hnin; [left|right; left].
Qed.

Lemma rename_column_other old new df :
  exists f,
    data (rename_column old new df) = map f (data df)
    /\ (forall r, keeps [old; new] r (f r))
    /\ (forall c, c <> old -> has_column df c = true ->
          has_column (rename_column old new df) c = true).
Proof.
  destruct (has_column df old) eqn:Hold.
  - destruct (rename_column_data old new df Hold) as (Hd & _ & Hc).
    eexists. split; [exact Hd|]. split; [|exact Hc].
    intros r. apply keeps_rename.
  - unfold rename_column. rewrite Hold. exists id. split.
    + now rewrite map_id.
    + split; [intros r; apply keeps_refl | auto].
Qed.

Lemma add_missing_columns_data fields v df :
  exists f,
    data (add_missing_columns fields v df) = map f (data df)
    /\ (forall r, keeps fields r (f r))
    /\ (forall c, has_column df c = true ->
          has_column (add_missing_columns fields v df) c = true).
Proof.
  unfold add_missing_columns. revert df.
  induction fields as [|c0 fields IH]; intros df; simpl.
  - exists id. rewrite map_id. repeat split; auto using keeps_refl.
  - destruct (has_column df c0) eqn:Hc0.
    + destruct (IH df) as (f & Hd & Hk & Hc). exists f. split; [exact Hd|].
      split; [|exact Hc]. intros r. eapply keeps_weaken; [|apply Hk].
      intros x Hx. now right.
    + destruct (IH (set_column c0 v df)) as (f & Hd & Hk & Hc).
      exists (fun r => f (<[c0 := v]> r)). split; [|split].
      * rewrite Hd. simpl. now rewrite map_map.
      * intros r. eapply keeps_trans.
        -- eapply keeps_weaken; [|apply keeps_insert].
           intros x Hx. apply list_elem_of_singleton in Hx as ->. now left.
        -- eapply keeps_weaken; [|apply Hk]. intros x Hx. now right.
      * intros c Hcol. apply Hc. now apply set_column_columns.
Qed.

Lemma fillna_row_keeps cols v r : keeps cols r (fillna_row cols v r).
Proof.
  induction cols as [|c cols IH]; simpl; [apply keeps_refl|].
  destruct (decide _).
  - eapply keeps_trans.
    + eapply keeps_weaken; [|apply IH]. intros x Hx. now right.
    + eapply keeps_weaken; [|apply keeps_insert].
      intros x Hx. apply list_elem_of_singleton in Hx as ->. now left.
  - eapply keeps_weaken; [|apply IH]. intros x Hx. now right.
Qed.

Lemma fillna_Ok cols v df df' :
  fillna cols v df = Ok df' ->
  data df' = map (fillna_row cols v) (data df) /\ columns df' = columns df.
Proof.
  unfold fillna. destruct (filter _ cols); [|discriminate].
  intros [= <-]. split; reflexivity.
Qed.

Lemma drop_missing_Ok c df df' :
  drop_missing c df = Ok df' ->
  has_column df c = true
  /\ data df' = filter (fun r => cell r c <> VNaN) (data df)
  /\ columns df' = columns df.
Proof.
  unfold drop_missing. destruct (has_column df c); [|discriminate].
  intros [= <-]. repeat split.
Qed.

Lemma insert_sorted_perm {A} (leb : A -> A -> bool) x l :
  insert_sorted leb x l ≡ₚ x :: l.
Proof.
  induction l as [|y l IH]; simpl; [reflexivity|].
  destruct (leb x y); [reflexivity|]. rewrite IH. apply perm_swap.
Qed.

Lemma stable_sort_perm {A} (leb : A -> A -> bool) l : stable_sort leb l ≡ₚ l.
Proof.
  induction l as [|x l IH]; simpl; [reflexivity|].
  rewrite insert_sorted_perm. now rewrite IH.
Qed.

Lemma sort_values_Ok by_ df df' :
  sort_values by_ df = Ok df' ->
  data df' ≡ₚ data df /\ columns df' = columns df.
Proof.
  unfold sort_values. destruct (filter _ by_); [|discriminate].
  destruct (_ && _); [discriminate|].
  intros [= <-]. simpl. split; [apply stable_sort_perm | reflexivity].
Qed.

(** ** Steps that leave a column of interest alone *)

Lemma row_step_refl T df : row_step T df df.
Proof.
  exists id. rewrite map_id. repeat split; auto using keeps_refl.
Qed.

Lemma row_step_trans T df1 df2 df3 :
  row_step T df1 df2 -> row_step T df2 df3 -> row_step T df1 df3.
Proof.
  intros (f & Hf & Hkf & Hcf) (g & Hg & Hkg & Hcg).
  exists (fun r => g (f r)). split; [|split].
  - rewrite Hg, Hf. now rewrite map_map.
  - intros r. eapply keeps_trans; [apply Hkf | apply Hkg].
  - auto.
Qed.

Lemma row_step_weaken T T' df df' :
  T ⊆ T' -> row_step T df df' -> row_step T' df df'.
Proof.
  intros Hsub (f & Hf & Hk & Hc). exists f. split; [exact Hf|]. split.
  - intros r. eapply keeps_weaken; [exact Hsub | apply Hk].
  - intros c Hnin. apply Hc. intros Hin. apply Hnin, Hsub, Hin.
Qed.

Lemma row_step_cell T df df' c :
  row_step T df df' -> c ∉ T ->
  Forall2 (fun r r' => cell r' c = cell r c) (data df) (data df').
Proof.
  intros (f & -> & Hk & _) Hc. apply Forall2_fmap_r, Forall_Forall2_diag.
  apply Forall_forall. intros r _. now apply Hk.
Qed.

Lemma set_column_row_step c v df : row_step [c] df (set_column c v df).
Proof.
  exists (fun r => <[c := v]> r). split; [reflexivity|]. split.
  - intros r. apply keeps_insert.
  - intros c' _. apply set_column_columns.
Qed.

Lemma loc_set_row_step src test target v df df' :
  loc_set src test target v df = Ok df' -> row_step [target] df df'.
Proof.
  intros H. apply loc_set_Ok in H as (_ & _ & Hd & _ & Hc).
  eexists. split; [exact Hd|]. split.
  - intros r. apply loc_set_row_keeps.
  - intros c _. apply Hc.
Qed.

Lemma rename_row_step mapping df :
  row_step (renamed_labels mapping) df (rename mapping df).
Proof.
  unfold rename. revert df.
  induction mapping as [|[old new] mapping IH]; intros df; simpl.
  - apply row_step_refl.
  - eapply row_step_trans.
    + destruct (rename_column_other old new df) as (f & Hd & Hk & Hc).
      exists f. split; [exact Hd|]. split.
      * intros r. eapply keeps_weaken; [|apply Hk].
        intros x Hx. apply elem_of_cons in Hx as [->|Hx]; [now left|].
        apply list_elem_of_singleton in Hx as ->. right. now left.
      * intros c Hnin. apply Hc. intros ->. apply Hnin. now left.
    + eapply row_step_weaken; [|apply IH].
      intros x Hx. right. now right.
Qed.

Lemma add_missing_columns_row_step fields v df :
  row_step fields df (add_missing_columns fields v df).
Proof.
  destruct (add_missing_columns_data fields v df) as (f & Hd & Hk & Hc).
  exists f. auto.
Qed.

Lemma fillna_row_step cols v df df' :
  fillna cols v df = Ok df' -> row_step cols df df'.
Proof.
  intros H. apply fillna_Ok in H as [Hd Hc].
  exists (fillna_row cols v). split; [exact Hd|]. split.
  - intros r. apply fillna_row_keeps.
  - intros c _. unfold has_column. now rewrite Hc.
Qed.

Lemma is_ok_frame_of (r : result DataFrame) :
  is_ok r = true -> r = Ok (frame_of r).
Proof. destruct r; [reflexivity | discriminate]. Qed.

Lemma bind_Ok {A B} (m : result A) (k : A -> result B) (b : B) :
  m ≫= k = Ok b -> exists a, m = Ok a /\ k a = Ok b.
Proof. destruct m as [a|e]; [eauto | discriminate]. Qed.

(** A label is not in a list of literal labels. *)
Ltac not_in_labels :=
  let H := fresh in
  intros H; repeat (apply elem_of_cons in H as [H|H]; [discriminate H|]);
  now apply elem_of_nil in H.

(** A list of literal labels is contained in another. *)
Ltac labels_incl :=
  let x := fresh in let H := fresh in
  intros x H;
  repeat (apply elem_of_cons in H as [->|H];
          [apply (bool_decide_unpack _); vm_compute; exact I|]);
  now apply elem_of_nil in H.

(** Chains [row_step]s whose touched labels lie in [T]. *)
Ltac step_with T lem :=
  eapply (row_step_trans T);
  [|eapply (row_step_weaken _ T); cycle 1; [apply lem | labels_incl]].

Lemma filter_map_comm {A B} (P : B -> Prop) `{!forall y, Decision (P y)}
    (f : A -> B) (l : list A) :
  filter P (map f l) = map f (filter (fun x => P (f x)) l).
Proof.
  induction l as [|x l IH]; [reflexivity|]. simpl.
  rewrite !filter_cons. destruct (decide (P (f x))); simpl; now rewrite IH.
Qed.

Lemma ssn_step_cell p r s :
  cell r "Student SSN" = VStr s ->
  cell (loc_set_row true "Student SSN" (str_startswith p) "Student SSN"
          (VStr "NO SSN") r) "Student SSN"
  = VStr (if Py.startswith s p then "NO SSN" else s).
Proof.
  intros Hs. rewrite loc_set_row_target, Hs. simpl.
  now destruct (Py.startswith s p).
Qed.

Lemma normal_ssn_steps s :
  let s1 := if Py.startswith s "000" then "NO SSN" else s in
  let s2 := if Py.startswith s1 "888" then "NO SSN" else s1 in
  (if Py.startswith s2 "999" then "NO SSN" else s2) = normal_ssn s.
Proof.
  unfold normal_ssn. simpl.
  destruct (Py.startswith s "000") eqn:H0; simpl; [reflexivity|].
  destruct (Py.startswith s "888") eqn:H8; simpl; [reflexivity|].
  reflexivity.
Qed.

Lemma rename_report_names df :
  rename report_names df
  = rename (tail report_names)
      (rename_column "GOVERNMENT_ID" "Student SSN" df).
Proof. unfold rename, report_names. cbn [foldl tail]. reflexivity. Qed.

(** ** The assembler returns on a well-formed merged frame *)

Lemma no_missing_column df cols :
  Forall (fun c => has_column df c = true) cols ->
  filter (fun c => has_column df c = false) cols = [].
Proof.
  induction 1 as [|c cols Hc _ IH]; [reflexivity|].
  rewrite filter_cons. destruct (decide _); [congruence | exact IH].
Qed.

Lemma isin_is_Some vals v : is_Some (isin vals v).
Proof. destruct v; simpl; eauto. Qed.

Lemma isna_is_Some v : is_Some (isna v).
Proof. destruct v; simpl; eauto. Qed.

Lemma loc_set_returns src test target v df :
  has_column df src = true ->
  Forall (fun r => is_Some (test (cell r src))) (data df) ->
  has_column df target = true \/ data df <> [] ->
  exists df', loc_set src test target v df = Ok df'.
Proof.
  intros Hsrc Hall Htarget. unfold loc_set. rewrite Hsrc. simpl.
  assert (Hb : forallb (fun r => bool_decide (is_Some (test (cell r src))))
                 (data df) = true).
  { apply forallb_forall. intros r Hr. apply bool_decide_eq_true.
    rewrite Forall_forall in Hall. apply Hall. now apply list_elem_of_In. }
  rewrite Hb. simpl. destruct (has_column df target) eqn:Ht; [eauto|].
  destruct Htarget as [Habs|Hne]; [discriminate|].
  destruct (data df); [contradiction | eauto].
Qed.

Lemma fillna_returns cols v df :
  Forall (fun c => has_column df c = true) cols ->
  exists df', fillna cols v df = Ok df'.
Proof. intros H. unfold fillna. rewrite (no_missing_column _ _ H). eauto. Qed.

Lemma row_step_nonempty T df df' :
  row_step T df df' -> data df <> [] -> data df' <> [].
Proof.
  intros (f & -> & _) Hne Hnil. apply Hne.
  now apply fmap_nil_inv in Hnil.
Qed.

Lemma row_step_has T df df' c :
  row_step T df df' -> c ∉ T -> has_column df c = true ->
  has_column df' c = true.
Proof. intros (f & _ & _ & Hc). apply Hc. Qed.

Lemma add_missing_columns_has fields v df c :
  c ∈ fields -> has_column (add_missing_columns fields v df) c = true.
Proof.
  unfold add_missing_columns. revert df.
  induction fields as [|c0 fields IH]; intros df Hin;
    [now apply elem_of_nil in Hin|].
  apply elem_of_cons in Hin as [->|Hin]; [|apply IH, Hin]. simpl.
  destruct (add_missing_columns_data fields v
              (if has_column df c0 then df else set_column c0 v df))
    as (_ & _ & _ & Hc).
  apply Hc. destruct (has_column df c0) eqn:H0;
    [exact H0 | apply set_column_has].
Qed.

Lemma renamed_labels_elem mapping c :
  c ∈ renamed_labels mapping <-> c ∈ mapping.*1 \/ c ∈ mapping.*2.
Proof.
  induction mapping as [|[o n] m IH]; simpl.
  - rewrite !elem_of_nil. tauto.
  - rewrite !elem_of_cons, IH. tauto.
Qed.

Lemma rename_column_spec old new df :
  exists h,
    data (rename_column old new df) = map h (data df)
    /\ (forall r, keeps [old; new] r (h r))
    /\ (forall c, c <> old -> has_column df c = true ->
          has_column (rename_column old new df) c = true)
    /\ (has_column df old = true ->
          has_column (rename_column old new df) new = true
          /\ forall r, cell (h r) new = cell r old).
Proof.
  destruct (has_column df old) eqn:Hold.
  - destruct (rename_column_data old new df Hold) as (Hd & Hn & Hc).
    eexists. split; [exact Hd|]. split; [intros r; apply keeps_rename|].
    split; [exact Hc|]. intros _. split; [exact Hn|].
    intros r. apply cell_insert_eq.
  - unfold rename_column. rewrite Hold. exists id. rewrite map_id.
    repeat split; auto using keeps_refl; discriminate.
Qed.

(** Renaming with a mapping whose old labels are distinct, whose new labels
    are distinct, and none of whose new labels is an old one: each new
    column holds the cells of its old column. *)
Lemma rename_spec mapping df :
  NoDup mapping.*1 -> NoDup mapping.*2 ->
  Forall (fun c => c ∉ mapping.*1) mapping.*2 ->
  exists f,
    data (rename mapping df) = map f (data df)
    /\ (forall r, keeps (renamed_labels mapping) r (f r))
    /\ (forall c, c ∉ mapping.*1 -> has_column df c = true ->
          has_column (rename mapping df) c = true)
    /\ (forall old new, (old, new) ∈ mapping -> has_column df old = true ->
          has_column (rename mapping df) new = true
          /\ forall r, cell (f r) new = cell r old).
Proof.
  revert df. induction mapping as [|[o n] m IH]; intros df Ho Hn Hd.
  - exists id. simpl. rewrite map_id. repeat split; auto using keeps_refl;
      now apply elem_of_nil in H.
  - simpl in Ho, Hn, Hd. apply NoDup_cons in Ho as [Ho Ho'].
    apply NoDup_cons in Hn as [Hn Hn']. apply Forall_cons in Hd as [Hd Hd'].
    assert (Hno : n <> o) by (intros ->; apply Hd; now left).
    assert (Hnm : n ∉ m.*1) by (intros Hin; apply Hd; now right).
    destruct (rename_column_spec o n df) as (h & Hdh & Hkh & Hch & Hnh).
    destruct (IH (rename_column o n df) Ho' Hn') as (g & Hdg & Hkg & Hcg & Hng).
    { eapply Forall_impl; [exact Hd'|]. intros c Hc Hin. apply Hc. now right. }
    change (rename ((o, n) :: m) df) with (rename m (rename_column o n df)).
    exists (fun r => g (h r)). split; [|split; [|split]].
    + rewrite Hdg, Hdh. now rewrite map_map.
    + intros r. eapply keeps_trans.
      * eapply keeps_weaken; [|apply Hkh]. intros x Hx. simpl.
        apply elem_of_cons in Hx as [->|Hx]; [now left|].
        apply list_elem_of_singleton in Hx as ->. right. now left.
      * eapply keeps_weaken; [|apply Hkg]. intros x Hx. simpl.
        right. now right.
    + intros c Hc Hcol. apply Hcg.
      * intros Hin. apply Hc. simpl. now right.
      * apply Hch; [|exact Hcol]. intros ->. apply Hc. simpl. now left.
    + intros old new Hin Hcol. apply elem_of_cons in Hin as [Heq|Hin].
      * injection Heq as -> ->. destruct (Hnh Hcol) as [Hhas Hcell].
        split; [now apply Hcg|]. intros r. rewrite Hkg; [apply Hcell|].
        rewrite renamed_labels_elem. intros [?|?]; contradiction.
      * assert (Hold : old ∈ m.*1)
          by (apply list_elem_of_fmap; exists (old, new); auto).
        assert (Hnew : old <> o) by (intros ->; contradiction).
        destruct (Hng old new Hin (Hch old Hnew Hcol)) as [Hhas Hcell].
        split; [exact Hhas|]. intros r. rewrite Hcell. apply Hkh.
        intros Hx. apply elem_of_cons in Hx as [->|Hx]; [now apply Hnew|].
        apply list_elem_of_singleton in Hx as ->. contradiction.
Qed.

Lemma report_names_distinct :
  NoDup report_names.*1 /\ NoDup report_names.*2
  /\ Forall (fun c => c ∉ report_names.*1) report_names.*2.
Proof.
  repeat split; apply (bool_decide_unpack _); vm_compute; exact I.
Qed.

Lemma is_str_VStr v : is_str v = true -> exists s, v = VStr s.
Proof. destruct v; try discriminate; eauto. Qed.

Lemma ssn_ready_step p df :
  ssn_ready df ->
  exists df',
    loc_set "Student SSN" (str_startswith p) "Student SSN" (VStr "NO SSN") df
    = Ok df'
    /\ ssn_ready df'.
Proof.
  intros (Hs & Hf & Ha & Hrows).
  destruct (loc_set_returns "Student SSN" (str_startswith p) "Student SSN"
              (VStr "NO SSN") df Hs) as [df' H]; [|now left|].
  { eapply Forall_impl; [exact Hrows|]. intros r [Hr _].
    apply is_str_VStr in Hr as [s ->]. simpl. eauto. }
  exists df'. split; [exact H|].
  apply loc_set_Ok in H as (_ & _ & Hd & Ht & Hc).
  split; [exact Ht|]. split; [now apply Hc|]. split; [now apply Hc|].
  rewrite Hd, Hs. apply Forall_fmap. eapply Forall_impl; [exact Hrows|].
  intros r [Hr Hi]. cbv [compose]. split.
  - apply is_str_VStr in Hr as [s Hr]. now rewrite (ssn_step_cell p r s Hr).
  - rewrite loc_set_row_keeps; [exact Hi|]. unfold awarded. not_in_labels.
Qed.

Lemma ssn_ready_first_name df :
  ssn_ready df ->
  exists df',
    loc_set "First Name" isna "First Name" (VStr "NFN") df = Ok df'
    /\ ssn_ready df'.
Proof.
  intros (Hs & Hf & Ha & Hrows).
  destruct (loc_set_returns "First Name" isna "First Name" (VStr "NFN") df Hf)
    as [df' H]; [|now left|].
  { apply Forall_forall. intros r _. apply isna_is_Some. }
  exists df'. split; [exact H|].
  apply loc_set_Ok in H as (_ & _ & Hd & Ht & Hc).
  split; [now apply Hc|]. split; [exact Ht|]. split; [now apply Hc|].
  rewrite Hd. apply Forall_fmap. eapply Forall_impl; [exact Hrows|].
  intros r [Hr Hi]. cbv [compose].
  rewrite !loc_set_row_keeps; [auto| |]; unfold awarded; not_in_labels.
Qed.

Lemma existsb_false {A} (p : A -> bool) (l : list A) :
  Forall (fun x => p x = false) l -> existsb p l = false.
Proof.
  induction 1 as [|x l Hx _ IH]; [reflexivity|]. simpl. now rewrite Hx, IH.
Qed.

Lemma ssn_ready_sort df :
  ssn_ready df -> exists out, sort_values ["Student SSN"; awarded] df = Ok out.
Proof.
  intros (Hs & Hf & Ha & Hrows). unfold sort_values.
  rewrite no_missing_column by (repeat constructor; assumption).
  assert (Hmix : existsb (fun c => mixed_column c df) ["Student SSN"; awarded]
                 = false).
  { simpl. unfold mixed_column.
    rewrite (existsb_false (fun r => match cell r "Student SSN" with
                                     | VInt _ => true | _ => false end)).
    2: { eapply Forall_impl; [exact Hrows|]. intros r [Hr _].
         apply is_str_VStr in Hr as [s ->]. reflexivity. }
    rewrite (existsb_false (fun r => match cell r awarded with
                                     | VInt _ => true | _ => false end)).
    2: { eapply Forall_impl; [exact Hrows|]. intros r [_ Hi].
         destruct (cell r awarded); [reflexivity | discriminate | reflexivity]. }
    now rewrite !andb_false_r. }
  rewrite Hmix, andb_false_r. eauto.
Qed.

(** [loc_set] on the next frame of the chain [S], whose source column the
    merged frame has. *)
Ltac derive_step S Hne d H :=
  lazymatch goal with
  | |- exists out, (loc_set ?src ?t ?tg ?v ?d0 ≫= _) = Ok out =>
      destruct (loc_set_returns src t tg v d0) as [d H];
      [ apply (row_step_has _ _ _ _ S); [not_in_labels | assumption]
      | apply Forall_forall; intros; apply isin_is_Some
      | right; exact (row_step_nonempty _ _ _ S Hne)
      | rewrite (bind_Ok_eq _ _ _ H); cbv beta zeta;
        let S' := fresh "S" in
        assert (S' : row_step derived_labels _ d)
          by (step_with derived_labels (loc_set_row_step _ _ _ _ _ _ H);
              exact S);
        clear S; rename S' into S ]
  end.

(** [set_column] on the last frame of the chain [S]. *)
Ltac set_step S c v :=
  let S' := fresh "S" in
  lazymatch type of S with
  | row_step _ ?df ?d =>
      assert (S' : row_step derived_labels df (set_column c v d))
        by (step_with derived_labels set_column_row_step; exact S);
      clear S; rename S' into S
  end.

Lemma create_DV_df_returns df :
  well_formed_merged df -> exists out, create_DV_df df = Ok out.
Proof.
  intros (Hne & Hcols & Hcells). unfold merged_labels in Hcols.
  apply Forall_cons in Hcols as [Hdeg Hcols].
  apply Forall_cons in Hcols as [Hhon Hcols].
  apply Forall_cons in Hcols as [Hrel Hcols].
  apply Forall_cons in Hcols as [Hstop Hcols].
  apply Forall_cons in Hcols as [Hgov Hcols].
  apply Forall_cons in Hcols as [Hfn Hcols].
  apply Forall_cons in Hcols as [Hgrad Hcols].
  apply Forall_cons in Hcols as [Hstart Hcols].
  apply Forall_cons in Hcols as [Hend _].
  unfold create_DV_df. cbv beta zeta.
  pose proof (row_step_refl derived_labels df) as S.
  set_step S "Record Type" (VStr "DD1").
  derive_step S Hne d1 H1. derive_step S Hne d2 H2. derive_step S Hne d3 H3.
  derive_step S Hne d4 H4. derive_step S Hne d5 H5. derive_step S Hne d6 H6.
  derive_step S Hne d7 H7. derive_step S Hne d8 H8. derive_step S Hne d9 H9.
  set_step S "FERPA Block" (VStr "N"). derive_step S Hne d10 H10.
  set_step S "School Financial Block" (VStr "N"). derive_step S Hne d11 H11.
  (* Academic Honors is a column from the sixth assignment on *)
  assert (Hah : has_column d11 "Academic Honors" = true).
  { apply loc_set_Ok in H6 as (_ & _ & _ & Ht & _).
    apply loc_set_Ok in H7 as (_ & _ & _ & _ & Hc7).
    apply loc_set_Ok in H8 as (_ & _ & _ & _ & Hc8).
    apply loc_set_Ok in H9 as (_ & _ & _ & _ & Hc9).
    apply loc_set_Ok in H10 as (_ & _ & _ & _ & Hc10).
    apply loc_set_Ok in H11 as (_ & _ & _ & _ & Hc11).
    apply Hc11, set_column_columns, Hc10, set_column_columns, Hc9, Hc8, Hc7,
      Ht. }
  destruct S as (fA & HdA & HkA & HcA).
  (* renaming, unused fields *)
  destruct report_names_distinct as (Ho & Hn & Hd).
  destruct (rename_spec report_names d11 Ho Hn Hd)
    as (fR & HdR & HkR & HcR & HnR).
  set (dR := rename report_names d11) in *.
  destruct (add_missing_columns_data unused_fields (VStr " ") dR)
    as (fM & HdM & HkM & HcM).
  pose proof (add_missing_columns_has unused_fields (VStr " ") dR) as HuM.
  set (dM := add_missing_columns unused_fields (VStr " ") dR) in *.
  assert (Hren : forall old new, (old, new) ∈ report_names ->
            old ∉ derived_labels -> has_column df old = true ->
            has_column dM new = true
            /\ forall r, new ∉ unused_fields ->
                 cell (fM (fR (fA r))) new = cell r old).
  { intros old new Hin Hnd Hcol.
    destruct (HnR old new Hin (HcA old Hnd Hcol)) as [Hhas Hcell].
    split; [now apply HcM|]. intros r Hnu.
    rewrite HkM by exact Hnu. rewrite Hcell. now apply HkA. }
  destruct (Hren "GOVERNMENT_ID" "Student SSN") as [Hssn Hssn_cell];
    [apply (bool_decide_unpack _); vm_compute; exact I | not_in_labels
    | exact Hgov |].
  destruct (Hren "FIRST_NAME" "First Name") as [Hfirst _];
    [apply (bool_decide_unpack _); vm_compute; exact I | not_in_labels
    | exact Hfn |].
  destruct (Hren "GRADUATION_DATE" awarded) as [Hawd Hawd_cell];
    [apply (bool_decide_unpack _); vm_compute; exact I | not_in_labels
    | exact Hgrad |].
  destruct (Hren "START_DATE" "Attendance From Date") as [Hfrom _];
    [apply (bool_decide_unpack _); vm_compute; exact I | not_in_labels
    | exact Hstart |].
  destruct (Hren "END_DATE" "Attendance To Date") as [Hto _];
    [apply (bool_decide_unpack _); vm_compute; exact I | not_in_labels
    | exact Hend |].
  (* blanks for the missing values *)
  destruct (fillna_returns fill_list (VStr " ") dM) as [d12 H12].
  { unfold fill_list. repeat apply Forall_cons_2; try apply Forall_nil_2;
      try assumption;
      try (apply HuM; apply (bool_decide_unpack _); vm_compute; exact I).
    apply HcM, HcR; [not_in_labels | exact Hah]. }
  rewrite (bind_Ok_eq _ _ _ H12). cbv beta zeta.
  apply fillna_Ok in H12 as [Hd12 Hc12].
  assert (Hcol12 : forall c, has_column dM c = true -> has_column d12 c = true)
    by (intros c; unfold has_column; now rewrite Hc12).
  (* the SSN filter *)
  unfold drop_missing at 1. rewrite (Hcol12 _ Hssn).
  rewrite (bind_Ok_eq _ _ _ eq_refl). cbv beta zeta.
  match goal with
  | |- exists out, (loc_set _ _ _ _ ?d ≫= _) = Ok out =>
      assert (R13 : ssn_ready d)
  end.
  { split; [exact (Hcol12 _ Hssn)|]. split; [exact (Hcol12 _ Hfirst)|].
    split; [exact (Hcol12 _ Hawd)|]. simpl.
    rewrite Hd12, HdM, HdR, HdA, !map_map.
    apply Forall_forall. intros r' Hr'.
    apply list_elem_of_filter in Hr' as [Hna Hr'].
    apply list_elem_of_fmap in Hr' as (r & -> & Hr).
    rewrite Forall_forall in Hcells. destruct (Hcells r Hr) as [Hig Hid].
    rewrite !fillna_row_keeps in * by (unfold awarded; not_in_labels).
    rewrite Hssn_cell in * by not_in_labels.
    rewrite Hawd_cell by (unfold awarded; not_in_labels).
    split; [|exact Hid].
    destruct (cell r "GOVERNMENT_ID"); [reflexivity | discriminate
                                       | contradiction]. }
  destruct (ssn_ready_step "000" _ R13) as (d14 & H14 & R14).
  rewrite (bind_Ok_eq _ _ _ H14). cbv beta zeta.
  destruct (ssn_ready_step "888" _ R14) as (d15 & H15 & R15).
  rewrite (bind_Ok_eq _ _ _ H15). cbv beta zeta.
  destruct (ssn_ready_step "999" _ R15) as (d16 & H16 & R16).
  rewrite (bind_Ok_eq _ _ _ H16). cbv beta zeta.
  destruct (ssn_ready_first_name _ R16) as (d17 & H17 & R17).
  rewrite (bind_Ok_eq _ _ _ H17). cbv beta zeta.
  exact (ssn_ready_sort _ R17).
Qed.

Lemma merged_frame_well_formed : well_formed_merged Examples.merged_frame.
Proof.
  split; [discriminate|]. split.
  - unfold merged_labels.
    repeat (apply Forall_cons_2; [vm_compute; reflexivity|]).
    apply Forall_nil_2.
  - simpl.
    repeat (apply Forall_cons_2; [split; vm_compute; reflexivity|]).
    apply Forall_nil_2.
Qed.

(** C5. On a merged frame (with the PEOPLE column [GOVERNMENT_ID], not yet
    renamed) the assembler returns when the frame is well formed; and the
    assembled records are, up to their order, the images of exactly the
    merged rows whose government ID is not missing, each unchanged outside
    the report columns; each assembled record has a string as Student SSN,
    which is ["NO SSN"] when the government ID starts with 000, 888 or 999
    and the government ID itself otherwise. *)
Theorem ssn_dropped_or_relabelled df :
  has_column df "GOVERNMENT_ID" = true ->
  has_column df "Student SSN" = false ->
  (well_formed_merged df -> exists out, create_DV_df df = Ok out)
  /\ (forall out,
        create_DV_df df = Ok out ->
        exists g,
          data out ≡ₚ
            map g (filter (fun r => cell r "GOVERNMENT_ID" <> VNaN) (data df))
          /\ (forall r, keeps assembler_labels r (g r))
          /\ Forall (fun r =>
               cell r "GOVERNMENT_ID" <> VNaN ->
               exists s,
                 cell r "GOVERNMENT_ID" = VStr s
                 /\ cell (g r) "Student SSN" = VStr (normal_ssn s)
                 /\ (Py.startswith s "000" = true
                     \/ Py.startswith s "888" = true
                     \/ Py.startswith s "999" = true ->
                     cell (g r) "Student SSN" = VStr "NO SSN")) (data df)
          /\ Forall (fun r' => exists s, cell r' "Student SSN" = VStr s)
               (data out)).
Proof.
  intros Hgov _. split; [apply create_DV_df_returns|].
  intros out H. unfold create_DV_df in H.
  apply bind_Ok in H as (d1 & H1 & H). apply bind_Ok in H as (d2 & H2 & H).
  apply bind_Ok in H as (d3 & H3 & H). apply bind_Ok in H as (d4 & H4 & H).
  apply bind_Ok in H as (d5 & H5 & H). apply bind_Ok in H as (d6 & H6 & H).
  apply bind_Ok in H as (d7 & H7 & H). apply bind_Ok in H as (d8 & H8 & H).
  apply bind_Ok in H as (d9 & H9 & H). apply bind_Ok in H as (d10 & H10 & H).
  apply bind_Ok in H as (d11 & H11 & H). apply bind_Ok in H as (d12 & H12 & H).
  apply bind_Ok in H as (d13 & H13 & H). apply bind_Ok in H as (d14 & H14 & H).
  apply bind_Ok in H as (d15 & H15 & H). apply bind_Ok in H as (d16 & H16 & H).
  apply bind_Ok in H as (d17 & H17 & H).
  (* the derived columns *)
  assert (HA : row_step derived_labels df d11).
  { step_with derived_labels (loc_set_row_step _ _ _ _ _ _ H11).
    step_with derived_labels set_column_row_step.
    step_with derived_labels (loc_set_row_step _ _ _ _ _ _ H10).
    step_with derived_labels set_column_row_step.
    step_with derived_labels (loc_set_row_step _ _ _ _ _ _ H9).
    step_with derived_labels (loc_set_row_step _ _ _ _ _ _ H8).
    step_with derived_labels (loc_set_row_step _ _ _ _ _ _ H7).
    step_with derived_labels (loc_set_row_step _ _ _ _ _ _ H6).
    step_with derived_labels (loc_set_row_step _ _ _ _ _ _ H5).
    step_with derived_labels (loc_set_row_step _ _ _ _ _ _ H4).
    step_with derived_labels (loc_set_row_step _ _ _ _ _ _ H3).
    step_with derived_labels (loc_set_row_step _ _ _ _ _ _ H2).
    step_with derived_labels (loc_set_row_step _ _ _ _ _ _ H1).
    eapply (row_step_weaken _ derived_labels); cycle 1;
      [apply set_column_row_step | labels_incl]. }
  destruct HA as (fA & HdA & HkA & HcA).
  assert (Hgov11 : has_column d11 "GOVERNMENT_ID" = true)
    by (apply HcA; [not_in_labels | exact Hgov]).
  (* the renaming of GOVERNMENT_ID, then the other labels *)
  rewrite rename_report_names in H12.
  destruct (rename_column_data "GOVERNMENT_ID" "Student SSN" d11 Hgov11)
    as (HdR & HcR & _).
  set (dR := rename_column "GOVERNMENT_ID" "Student SSN" d11) in *.
  set (TB := renamed_labels (tail report_names) ++ unused_fields ++ fill_list).
  assert (HB : row_step TB dR d12).
  { step_with TB (fillna_row_step _ _ _ _ H12).
    step_with TB add_missing_columns_row_step.
    eapply (row_step_weaken _ TB); cycle 1;
      [apply rename_row_step | labels_incl]. }
  destruct HB as (fB & HdB & HkB & HcB).
  assert (Hssn12 : forall r, cell (fB r) "Student SSN" = cell r "Student SSN")
    by (intros r; apply HkB; not_in_labels).
  (* the filter, the three relabellings, the first name, the sort *)
  apply drop_missing_Ok in H13 as (_ & Hd13 & _).
  apply loc_set_Ok in H14 as (Hs14 & Hstr & Hd14 & _ & _).
  apply loc_set_Ok in H15 as (Hs15 & _ & Hd15 & _ & _).
  apply loc_set_Ok in H16 as (Hs16 & _ & Hd16 & _ & _).
  rewrite Hs14 in Hd14. rewrite Hs15 in Hd15. rewrite Hs16 in Hd16.
  destruct (loc_set_row_step _ _ _ _ _ _ H17) as (fN & Hd17 & HkN & _).
  apply sort_values_Ok in H as [Hperm _].
  set (pre := fun r => fB (<["Student SSN" := cell (fA r) "GOVERNMENT_ID"]>
                            (delete "GOVERNMENT_ID" (fA r)))).
  set (step p := loc_set_row true "Student SSN" (str_startswith p)
                   "Student SSN" (VStr "NO SSN")).
  set (post := fun r => fN (step "999" (step "888" (step "000" r)))).
  assert (Hpre : forall r, cell (pre r) "Student SSN" = cell r "GOVERNMENT_ID").
  { intros r. unfold pre. rewrite Hssn12, cell_insert_eq.
    apply HkA. not_in_labels. }
  assert (Hpost : forall r s, cell r "Student SSN" = VStr s ->
            cell (post r) "Student SSN" = VStr (normal_ssn s)).
  { intros r s Hs. unfold post. rewrite HkN by not_in_labels. unfold step.
    erewrite ssn_step_cell; [|erewrite ssn_step_cell;
                               [|erewrite ssn_step_cell; [|exact Hs]]];
      try reflexivity.
    f_equal. apply normal_ssn_steps. }
  assert (Hd12 : data d12 = map pre (data df)).
  { rewrite HdB, HdR, HdA. now rewrite !map_map. }
  assert (Hd17' : data d17
            = map post (filter (fun r => cell r "Student SSN" <> VNaN)
                          (data d12))).
  { rewrite Hd17, Hd16, Hd15, Hd14, Hd13. now rewrite !map_map. }
  exists (fun r => post (pre r)). split; [|split; [|split]].
  - rewrite Hperm, Hd17', Hd12, filter_map_comm, map_map.
    erewrite list_filter_iff; [reflexivity|].
    intros r. simpl. now rewrite Hpre.
  - intros r. unfold post, pre, step.
    repeat (eapply keeps_trans;
            [|eapply keeps_weaken;
              [|first [apply HkN | apply loc_set_row_keeps | apply HkB]];
              labels_incl]).
    eapply keeps_trans;
      [|eapply keeps_weaken; [|apply keeps_rename]; labels_incl].
    eapply keeps_weaken; [|apply HkA]. labels_incl.
  - apply Forall_forall. intros r Hr Hna.
    assert (Hin : pre r ∈ data d13).
    { rewrite Hd13, Hd12. apply list_elem_of_filter. split.
      - now rewrite Hpre.
      - apply list_elem_of_fmap. eauto. }
    rewrite Forall_forall in Hstr. specialize (Hstr _ Hin).
    rewrite Hpre in Hstr.
    destruct (cell r "GOVERNMENT_ID") as [s| |] eqn:Hs;
      try (destruct Hstr as [b Hb]; discriminate Hb).
    exists s. split; [reflexivity|].
    assert (Hout : cell (post (pre r)) "Student SSN" = VStr (normal_ssn s))
      by (apply Hpost; now rewrite Hpre).
    split; [exact Hout|]. intros Hp. rewrite Hout. unfold normal_ssn.
    destruct Hp as [->| [->| ->]]; now rewrite ?orb_true_r.
  - apply Forall_forall. intros r' Hr'. rewrite Hperm, Hd17' in Hr'.
    apply list_elem_of_fmap in Hr' as (r & -> & Hr).
    rewrite <- Hd13 in Hr.
    rewrite Forall_forall in Hstr. specialize (Hstr _ Hr).
    destruct (cell r "Student SSN") as [s| |] eqn:Hs;
      try (destruct Hstr as [b Hb]; discriminate Hb).
    exists (normal_ssn s). now apply Hpost.
Qed.

Lemma ssn_dropped_or_relabelled_witness :
  has_column Examples.merged_frame "GOVERNMENT_ID" = true
  /\ has_column Examples.merged_frame "Student SSN" = false
  /\ well_formed_merged Examples.merged_frame
  /\ exists out,
       create_DV_df Examples.merged_frame = Ok out
       /\ exists g,
            data out ≡ₚ
              map g (filter (fun r => cell r "GOVERNMENT_ID" <> VNaN)
                       (data Examples.merged_frame))
            /\ (forall r, keeps assembler_labels r (g r))
            /\ Forall (fun r =>
                 cell r "GOVERNMENT_ID" <> VNaN ->
                 exists s,
                   cell r "GOVERNMENT_ID" = VStr s
                   /\ cell (g r) "Student SSN" = VStr (normal_ssn s)
                   /\ (Py.startswith s "000" = true
                       \/ Py.startswith s "888" = true
                       \/ Py.startswith s "999" = true ->
                       cell (g r) "Student SSN" = VStr "NO SSN"))
                 (data Examples.merged_frame)
            /\ Forall (fun r' => exists s, cell r' "Student SSN" = VStr s)
                 (data out).
Proof.
  split; [reflexivity|]. split; [reflexivity|].
  split; [exact merged_frame_well_formed|].
  destruct (ssn_dropped_or_relabelled Examples.merged_frame eq_refl eq_refl)
    as [Hreturns Hrows].
  destruct (Hreturns merged_frame_well_formed) as [out Hout].
  exists out. split; [exact Hout | exact (Hrows out Hout)].
Defined.

(** The assembled example: the record without SSN is gone, the placeholder
    SSN reads NO SSN, and the records are in SSN order. *)
Lemma merged_frame_assembled :
  is_ok (create_DV_df Examples.merged_frame) = true
  /\ map (fun r => (cell r "College Student ID", cell r "Student SSN",
                    cell r "Degree Level Indicator",
                    cell r "Academic Honors",
                    cell r "School Financial Block"))
       (data (frame_of (create_DV_df Examples.merged_frame)))
     = [ (VStr "P000000001", VStr "123456789", VStr "B", VStr "Cum Laude",
          VStr "N");
         (VStr "P000000002", VStr "987654321", VNaN, VStr " ", VStr "Y");
         (VStr "P000000003", VStr "NO SSN", VStr "A", VStr " ", VStr "N") ].
Proof. split; vm_compute; reflexivity. Qed.

(** ** The degree level indicator *)

Lemma rows_from_refl T df : rows_from T df df.
Proof. intros r Hr. exists r. split; [assumption | apply keeps_refl]. Qed.

Lemma rows_from_trans T df1 df2 df3 :
  rows_from T df1 df2 -> rows_from T df2 df3 -> rows_from T df1 df3.
Proof.
  intros H12 H23 r3 Hr3. destruct (H23 r3 Hr3) as (r2 & Hr2 & Hk23).
  destruct (H12 r2 Hr2) as (r1 & Hr1 & Hk12).
  exists r1. split; [assumption | eapply keeps_trans; eassumption].
Qed.

Lemma row_step_rows_from T df df' : row_step T df df' -> rows_from T df df'.
Proof.
  intros (f & Hd & Hk & _) r' Hr'. rewrite Hd in Hr'.
  apply list_elem_of_fmap in Hr' as (r & -> & Hr). eauto.
Qed.

Lemma rows_from_sub T df df' : data df' ⊆ data df -> rows_from T df df'.
Proof. intros Hsub r Hr. exists r. split; [auto | apply keeps_refl]. Qed.

Lemma level_step_cell b vals v r :
  cell (loc_set_row b "DEGREE" (isin vals) "Degree Level Indicator" v r)
    "DEGREE" = cell r "DEGREE".
Proof. apply loc_set_row_keeps. not_in_labels. Qed.

(** After the five assignments of lines 341-345 the indicator of a row is
    the entry of the level table for its degree code. *)
Lemma level_steps_cell r :
  let step b vals v :=
    loc_set_row b "DEGREE" (isin vals) "Degree Level Indicator" (VStr v) in
  cell (step true ["GCERT"] "T"
         (step true ["CERTIF"] "C"
           (step true ["MS"; "MPS"] "M"
             (step true ["AS"; "AAS"; "AA"; "AOS"] "A"
               (step false ["BS"; "BA"; "BPS"] "B" r)))))
    "Degree Level Indicator"
  = level_of (cell r "DEGREE").
Proof.
  intros step. unfold step.
  rewrite !loc_set_row_target, !level_step_cell. unfold level_of.
  destruct (cell r "DEGREE") as [d| |]; simpl; try reflexivity.
  repeat case_bool_decide; try reflexivity; exfalso;
    repeat match goal with
    | H : _ ∈ _ :: _ |- _ =>
        apply elem_of_cons in H as [H|H]; [try discriminate H; subst|]
    | H : _ ∈ [] |- _ => apply elem_of_nil in H; contradiction
    | H : ?x ∉ _ |- _ =>
        apply H; apply (bool_decide_unpack _); vm_compute; exact I
    end.
Qed.

(** On a merged frame, where the indicator column is new, every assembled
    record carries the entry of the level table for its degree code: one of
    B, A, M, C, T for the listed codes and a missing value, not a blank,
    for any other code. *)
Lemma degree_level_table df out :
  has_column df "Degree Level Indicator" = false ->
  create_DV_df df = Ok out ->
  Forall (fun r' =>
    cell r' "Degree Level Indicator" = level_of (cell r' "DEGREE"))
    (data out).
Proof.
  intros Hnew H. unfold create_DV_df in H.
  apply bind_Ok in H as (d1 & H1 & H). apply bind_Ok in H as (d2 & H2 & H).
  apply bind_Ok in H as (d3 & H3 & H). apply bind_Ok in H as (d4 & H4 & H).
  apply bind_Ok in H as (d5 & H5 & H). apply bind_Ok in H as (d6 & H6 & H).
  apply bind_Ok in H as (d7 & H7 & H). apply bind_Ok in H as (d8 & H8 & H).
  apply bind_Ok in H as (d9 & H9 & H). apply bind_Ok in H as (d10 & H10 & H).
  apply bind_Ok in H as (d11 & H11 & H). apply bind_Ok in H as (d12 & H12 & H).
  apply bind_Ok in H as (d13 & H13 & H). apply bind_Ok in H as (d14 & H14 & H).
  apply bind_Ok in H as (d15 & H15 & H). apply bind_Ok in H as (d16 & H16 & H).
  apply bind_Ok in H as (d17 & H17 & H).
  set (T := [ "Academic Honors"; "Certificate Type"; "FERPA Block";
              "School Financial Block"; "Student SSN"; "First Name" ]
            ++ renamed_labels report_names ++ unused_fields ++ fill_list).
  assert (Hrest : rows_from T d5 out).
  { apply drop_missing_Ok in H13 as (_ & Hd13 & _).
    apply sort_values_Ok in H as [Hperm _].
    apply (rows_from_trans T d5 d17 out);
      [|apply rows_from_sub; intros x; now rewrite Hperm].
    apply (rows_from_trans T d5 d13 d17).
    2: { apply row_step_rows_from.
         step_with T (loc_set_row_step _ _ _ _ _ _ H17).
         step_with T (loc_set_row_step _ _ _ _ _ _ H16).
         step_with T (loc_set_row_step _ _ _ _ _ _ H15).
         eapply (row_step_weaken _ T); cycle 1;
           [apply (loc_set_row_step _ _ _ _ _ _ H14) | labels_incl]. }
    apply (rows_from_trans T d5 d12 d13);
      [|apply rows_from_sub; rewrite Hd13; intros x Hx;
        apply list_elem_of_filter in Hx; apply Hx].
    apply row_step_rows_from.
    step_with T (fillna_row_step _ _ _ _ H12).
    step_with T add_missing_columns_row_step.
    step_with T rename_row_step.
    step_with T (loc_set_row_step _ _ _ _ _ _ H11).
    step_with T set_column_row_step.
    step_with T (loc_set_row_step _ _ _ _ _ _ H10).
    step_with T set_column_row_step.
    step_with T (loc_set_row_step _ _ _ _ _ _ H9).
    step_with T (loc_set_row_step _ _ _ _ _ _ H8).
    step_with T (loc_set_row_step _ _ _ _ _ _ H7).
    eapply (row_step_weaken _ T); cycle 1;
      [apply (loc_set_row_step _ _ _ _ _ _ H6) | labels_incl]. }
  apply loc_set_Ok in H1 as (_ & _ & Hd1 & Hc1 & _).
  apply loc_set_Ok in H2 as (_ & _ & Hd2 & Hc2 & _).
  apply loc_set_Ok in H3 as (_ & _ & Hd3 & Hc3 & _).
  apply loc_set_Ok in H4 as (_ & _ & Hd4 & Hc4 & _).
  apply loc_set_Ok in H5 as (_ & _ & Hd5 & _ & _).
  assert (Hnew0 : has_column (set_column "Record Type" (VStr "DD1") df)
                    "Degree Level Indicator" = false).
  { apply has_column_false. apply has_column_false in Hnew.
    unfold set_column. simpl. destruct (has_column df "Record Type");
      [exact Hnew|]. rewrite elem_of_app. intros [?|Hin]; [contradiction|].
    apply list_elem_of_singleton in Hin. discriminate Hin. }
  rewrite Hnew0 in Hd1. rewrite Hc1 in Hd2. rewrite Hc2 in Hd3.
  rewrite Hc3 in Hd4. rewrite Hc4 in Hd5.
  apply Forall_forall. intros r' Hr'.
  destruct (Hrest r' Hr') as (r5 & Hr5 & Hk).
  rewrite !Hk by (unfold T; not_in_labels).
  rewrite Hd5, Hd4, Hd3, Hd2, Hd1 in Hr5. simpl in Hr5.
  rewrite !map_map in Hr5.
  apply list_elem_of_fmap in Hr5 as (r & -> & _).
  rewrite level_steps_cell, !level_step_cell. reflexivity.
Qed.

(** C4, at a degree code outside the level table.  The assembled record
    for degree PHD holds a missing value in Degree Level Indicator, not a
    blank, although the two other columns derived the same way (Academic
    Honors, Certificate Type) are blank-filled; writing the data section
    for that record raises [TypeError] at [len(s)]. *)
Theorem degree_level_unmapped_is_missing :
  is_ok (create_DV_df Examples.phd_frame) = true
  /\ map (fun r => (cell r "DEGREE", cell r "Degree Level Indicator",
                    cell r "Academic Honors", cell r "Certificate Type"))
       (data (frame_of (create_DV_df Examples.phd_frame)))
     = [ (VStr "PHD", VNaN, VStr " ", VStr " ") ]
  /\ write_DV_data ∅ (frame_of (create_DV_df Examples.phd_frame)) "out.txt"
     = (Raise TypeError, {[ "out.txt" := [] ]}).
Proof. repeat split; vm_compute; reflexivity. Qed.

(** The listed degree codes do get their letter. *)
Lemma degree_level_mapped df out :
  has_column df "Degree Level Indicator" = false ->
  create_DV_df df = Ok out ->
  Forall (fun r' => forall d,
    cell r' "DEGREE" = VStr d ->
    (d ∈ ["BS"; "BA"; "BPS"] -> cell r' "Degree Level Indicator" = VStr "B")
    /\ (d ∈ ["AS"; "AAS"; "AA"; "AOS"] ->
        cell r' "Degree Level Indicator" = VStr "A")
    /\ (d ∈ ["MS"; "MPS"] -> cell r' "Degree Level Indicator" = VStr "M")
    /\ (d = "CERTIF" -> cell r' "Degree Level Indicator" = VStr "C")
    /\ (d = "GCERT" -> cell r' "Degree Level Indicator" = VStr "T")
    /\ (d ∉ ["BS"; "BA"; "BPS"; "AS"; "AAS"; "AA"; "AOS"; "MS"; "MPS";
             "CERTIF"; "GCERT"] ->
        cell r' "Degree Level Indicator" = VNaN)) (data out).
Proof.
  intros Hnew H. eapply Forall_impl; [exact (degree_level_table _ _ Hnew H)|].
  intros r' Hr' d Hd. rewrite Hr', Hd. unfold level_of.
  repeat split; intros Hin.
  1-3: repeat (apply elem_of_cons in Hin as [->|Hin]; [reflexivity|]);
       now apply elem_of_nil in Hin.
  1-2: subst d; reflexivity.
  repeat case_bool_decide; try reflexivity; exfalso; apply Hin;
    repeat match goal with
    | H : _ ∈ _ :: _ |- _ => apply elem_of_cons in H as [->|H]
    | H : _ ∈ [] |- _ => apply elem_of_nil in H; contradiction
    end;
    apply (bool_decide_unpack _); vm_compute; exact I.
Qed.

(** C10.  A row yields a line only when each field that is not a filler
    names a column whose cell is a string; with a consistent specification
    [write_fw] returns exactly when all rows are such, and raises
    otherwise.  The assembled record of a degree outside the level table
    makes the data section raise [TypeError], and a frame without a
    specified column makes [write_fw] raise [KeyError]; neither yields a
    blank field or the return value 0. *)
Theorem write_fw_needs_string_cells :
  (forall df row specs line0 line,
     encode_fields df row specs line0 = Line line ->
     row_complete df row specs)
  /\ (forall fs fpath f_mode df specs,
        consistent specs ->
        (Forall (fun row => row_complete df row specs) (data df) ->
         (write_fw fs fpath f_mode df specs).1
         = Ok (Z.of_nat (length (data df))))
        /\ (~ Forall (fun row => row_complete df row specs) (data df) ->
            exists e, (write_fw fs fpath f_mode df specs).1 = Raise e))
  /\ (map (fun r => cell r "Degree Level Indicator")
          (data (frame_of (create_DV_df Examples.phd_frame))) = [VNaN]
        /\ (write_DV_data ∅ (frame_of (create_DV_df Examples.phd_frame))
              "out.txt").1 = Raise TypeError)
  /\ (write_fw ∅ "out.txt" mode_a
        {| columns := ["Record Type"];
           data := [ {[ "Record Type" := VStr "DD1" ]} ] |}
        Examples.small_specs).1 = Raise (KeyError "Student SSN").
Proof.
  split; [|split; [|split]].
  - intros df row specs line0 line H.
    now apply encode_fields_Line in H as (_ & _ & H).
  - intros fs fpath f_mode df specs Hc. split.
    + intros Hall. now rewrite write_fw_complete.
    + intros Hall.
      destruct (write_fw fs fpath f_mode df specs) as [[n|e] fs'] eqn:H;
        [|eauto].
      exfalso. apply Hall. eapply write_fw_consistent_Ok; eassumption.
  - split; vm_compute; reflexivity.
  - vm_compute. reflexivity.
Qed.

Lemma write_fw_needs_string_cells_witness :
  (consistent Examples.level_specs
   /\ ~ Forall (fun row => row_complete Examples.nan_frame row
                             Examples.level_specs)
         (data Examples.nan_frame))
  /\ exists e,
       (write_fw ∅ "out.txt" mode_a Examples.nan_frame Examples.level_specs).1
       = Raise e.
Proof.
  assert (Hc : consistent Examples.level_specs) by (repeat constructor).
  assert (Hn : ~ Forall (fun row => row_complete Examples.nan_frame row
                                      Examples.level_specs)
                 (data Examples.nan_frame)).
  { intros H. apply Forall_cons in H as [H _].
    apply Forall_cons in H as [_ H]. apply Forall_cons in H as [H _].
    destruct (H eq_refl) as (_ & s & Hs). vm_compute in Hs. discriminate Hs. }
  split; [split; assumption|].
  destruct write_fw_needs_string_cells as (_ & H & _).
  exact (proj2 (H ∅ "out.txt" mode_a Examples.nan_frame Examples.level_specs
                  Hc) Hn).
Defined.

(** * Properties of the minor pivot *)

(** ** The stable sort puts rows in ascending order *)

Section StableSort.

Context {A : Type} (leb : A -> A -> bool).
Hypothesis leb_total : forall x y, leb x y = true \/ leb y x = true.
Hypothesis leb_trans :
  forall x y z, leb x y = true -> leb y z = true -> leb x z = true.

Lemma insert_sorted_elem x y l :
  y ∈ insert_sorted leb x l <-> y = x \/ y ∈ l.
Proof. rewrite insert_sorted_perm. apply elem_of_cons. Qed.

Lemma insert_sorted_ascending x l :
  ascending leb l -> ascending leb (insert_sorted leb x l).
Proof.
  unfold ascending. induction l as [|y l IH]; intros Hl; simpl.
  - repeat constructor.
  - apply StronglySorted_inv in Hl as [Hl Hy].
    destruct (leb x y) eqn:Hxy.
    + constructor; [constructor; assumption|].
      constructor; [exact Hxy|].
      eapply Forall_impl; [exact Hy|]. intros z Hz. eapply leb_trans; eassumption.
    + constructor; [now apply IH|].
      apply Forall_forall. intros z Hz.
      apply insert_sorted_elem in Hz as [->|Hz].
      * destruct (leb_total x y) as [H|H]; [congruence | exact H].
      * rewrite Forall_forall in Hy. now apply Hy.
Qed.

Lemma stable_sort_ascending l : ascending leb (stable_sort leb l).
Proof.
  induction l as [|x l IH]; simpl; [constructor|].
  now apply insert_sorted_ascending.
Qed.

End StableSort.

Lemma ascending_sublist {A} (leb : A -> A -> bool) l1 l2 :
  l1 `sublist_of` l2 -> ascending leb l2 -> ascending leb l1.
Proof.
  unfold ascending. induction 1 as [|x l1 l2 Hsub IH|x l1 l2 Hsub IH];
    intros Hl; [constructor| |].
  - apply StronglySorted_inv in Hl as [Hl Hx]. constructor; [auto|].
    apply Forall_forall. intros y Hy. rewrite Forall_forall in Hx.
    apply Hx. eapply elem_of_sublist; eassumption.
  - apply StronglySorted_inv in Hl as [Hl _]. auto.
Qed.

(** ** The order on cells and on rows *)

Lemma string_leb_le s t : String.leb s t = true <-> String.le s t.
Proof. unfold String.le. symmetry. apply Is_true_true. Qed.

Lemma value_leb_refl v : value_leb v v = true.
Proof.
  destruct v as [s|n|]; simpl; [|lia|reflexivity].
  apply string_leb_le. reflexivity.
Qed.

Lemma value_leb_total v w : value_leb v w = true \/ value_leb w v = true.
Proof.
  destruct v as [s|m|], w as [t|n|]; simpl; auto.
  - rewrite !string_leb_le. apply (total String.le).
  - lia.
Qed.

Lemma value_leb_trans u v w :
  value_leb u v = true -> value_leb v w = true -> value_leb u w = true.
Proof.
  destruct u as [s|m|], v as [t|n|], w as [x|k|]; simpl;
    try discriminate; try reflexivity.
  - rewrite !string_leb_le. apply transitivity.
  - lia.
Qed.

Lemma value_leb_antisym v w :
  value_leb v w = true -> value_leb w v = true -> v = w.
Proof.
  destruct v as [s|m|], w as [t|n|]; simpl; try discriminate;
    try reflexivity.
  - rewrite !string_leb_le. intros H1 H2. f_equal.
    now apply (anti_symm String.le).
  - intros H1 H2. f_equal. lia.
Qed.

Lemma key_leb_total by_ r1 r2 :
  key_leb by_ r1 r2 = true \/ key_leb by_ r2 r1 = true.
Proof.
  induction by_ as [|c by_ IH]; simpl; [auto|].
  destruct (decide (cell r1 c = cell r2 c)) as [Heq|Hne].
  - rewrite decide_True by (now symmetry). exact IH.
  - rewrite decide_False by (intros H; now apply Hne).
    apply value_leb_total.
Qed.

Lemma key_leb_trans by_ r1 r2 r3 :
  key_leb by_ r1 r2 = true -> key_leb by_ r2 r3 = true ->
  key_leb by_ r1 r3 = true.
Proof.
  induction by_ as [|c by_ IH]; simpl; [auto|].
  destruct (decide (cell r1 c = cell r2 c)) as [H12|H12];
    destruct (decide (cell r2 c = cell r3 c)) as [H23|H23].
  - rewrite decide_True by congruence. exact IH.
  - rewrite decide_False by congruence. rewrite H12. auto.
  - rewrite decide_False by congruence. rewrite <- H23. auto.
  - intros Ha Hb. destruct (decide (cell r1 c = cell r3 c)) as [H13|H13].
    + exfalso. apply H12. apply value_leb_antisym; [exact Ha|].
      rewrite H13. exact Hb.
    + eapply value_leb_trans; eassumption.
Qed.

Lemma sort_values_ascending by_ df df' :
  sort_values by_ df = Ok df' -> ascending (key_leb by_) (data df').
Proof.
  unfold sort_values. destruct (filter _ by_); [|discriminate].
  destruct (_ && _); [discriminate|]. intros [= <-]. simpl.
  apply stable_sort_ascending; [apply key_leb_total | apply key_leb_trans].
Qed.

Lemma drop_duplicates_rows_sublist subset rows :
  drop_duplicates_rows subset rows `sublist_of` rows.
Proof.
  induction rows as [|r rows IH]; simpl; [constructor|].
  destruct (decide _); [now apply sublist_cons | now apply sublist_skip].
Qed.

Lemma drop_duplicates_Ok subset df df' :
  drop_duplicates subset df = Ok df' ->
  data df' = drop_duplicates_rows subset (data df)
  /\ columns df' = columns df.
Proof.
  unfold drop_duplicates. destruct (filter _ subset); [|discriminate].
  intros [= <-]. split; reflexivity.
Qed.

(** The minors of lines 234-237 are in ascending order of student and
    graduation date, and all have the degree code MINOR. *)
Lemma minor_rows_ascending df_td ms :
  minor_rows df_td = Ok ms ->
  ascending (key_leb ["PEOPLE_CODE_ID"; "GRADUATION_DATE"]) (data ms)
  /\ Forall (fun m => cell m "DEGREE" = VStr "MINOR") (data ms)
  /\ data ms ⊆ data df_td.
Proof.
  intros H. unfold minor_rows in H.
  apply bind_Ok in H as (d0 & H0 & H). apply bind_Ok in H as (d1 & H1 & H).
  apply drop_duplicates_Ok in H as [Hd _].
  pose proof (sort_values_ascending _ _ _ H1) as Hasc.
  apply sort_values_Ok in H1 as [Hperm _].
  unfold select_eq in H0. destruct (has_column df_td "DEGREE"); [|discriminate].
  injection H0 as <-. simpl in Hperm.
  assert (Hsub : data ms ⊆ data d1).
  { rewrite Hd. intros x Hx.
    eapply elem_of_sublist; [exact Hx | apply drop_duplicates_rows_sublist]. }
  split; [|split].
  - rewrite Hd. eapply ascending_sublist; [|exact Hasc].
    apply drop_duplicates_rows_sublist.
  - apply Forall_forall. intros m Hm. apply Hsub in Hm. rewrite Hperm in Hm.
    apply list_elem_of_filter in Hm. apply Hm.
  - intros m Hm. apply Hsub in Hm. rewrite Hperm in Hm.
    apply list_elem_of_filter in Hm. apply Hm.
Qed.

(** ** Ranks are places in the student's rows *)

Lemma filter_ext_in {A} (P Q : A -> Prop)
    `{!forall x, Decision (P x)} `{!forall x, Decision (Q x)} (l : list A) :
  (forall x, x ∈ l -> P x <-> Q x) -> filter P l = filter Q l.
Proof.
  induction l as [|x l IH]; intros Hext; [reflexivity|].
  rewrite !filter_cons.
  assert (Hx : P x <-> Q x) by (apply Hext; now left).
  rewrite IH by (intros y Hy; apply Hext; now right).
  destruct (decide (P x)), (decide (Q x)); tauto.
Qed.

Lemma filter_none {A} (P : A -> Prop) `{!forall x, Decision (P x)}
    (l : list A) :
  (forall x, x ∈ l -> ~ P x) -> filter P l = [].
Proof.
  induction l as [|x l IH]; intros Hno; [reflexivity|].
  rewrite filter_cons, decide_False by (apply Hno; now left).
  apply IH. intros y Hy. apply Hno. now right.
Qed.

Lemma key_leb_same_group g v x r :
  cell x g = cell r g -> key_leb [g; v] x r = true ->
  value_leb (cell x v) (cell r v) = true.
Proof.
  intros Hg. simpl. rewrite decide_True by exact Hg.
  destruct (decide (cell x v = cell r v)) as [->|_]; [|auto].
  intros _. apply value_leb_refl.
Qed.

Lemma same_on_singleton g r x : same_on [g] r x <-> cell r g = cell x g.
Proof.
  unfold same_on. rewrite Forall_cons. split; [now intros [H _]|].
  intros H. split; [exact H | constructor].
Qed.

Lemma rank_first_row_sorted g v before after r k :
  ascending (key_leb [g; v]) (before ++ r :: after) ->
  Forall (fun x => cell x v <> VNaN) before ->
  rank_first_row g v before after r = Some k ->
  k = position_in_group [g] before r /\ cell r v <> VNaN.
Proof.
  intros Hasc Hbefore H. unfold rank_first_row in H.
  destruct (decide _) as [|Hnan]; [discriminate|]. injection H as <-.
  split; [|tauto]. unfold position_in_group.
  rewrite (filter_ext_in _ (same_on [g] r) before).
  - rewrite (filter_none _ after); [simpl; lia|].
    intros x Hx [[Hg _] Hlt].
    apply StronglySorted_app_1_r, StronglySorted_inv in Hasc as [_ Hr].
    rewrite Forall_forall in Hr. specialize (Hr x Hx).
    apply key_leb_same_group in Hr; [congruence | now symmetry].
  - intros x Hx. rewrite same_on_singleton. split.
    + intros [[Hg _] _]. now symmetry.
    + intros Hg. rewrite Forall_forall in Hbefore.
      split; [split; [now symmetry | now apply Hbefore]|].
      apply key_leb_same_group with (g := g); [now symmetry|].
      unfold ascending in Hasc.
      apply (StronglySorted_app_1_elem_of (leb_rel (key_leb [g; v]))
               before (r :: after) x r Hasc Hx).
      now left.
Qed.

Lemma rank_first_rows_sorted g v before rows ranks :
  ascending (key_leb [g; v]) (before ++ rows) ->
  Forall (fun x => cell x v <> VNaN) before ->
  mapM id (rank_first_rows g v before rows) = Some ranks ->
  ranks = (with_positions [g] before rows).*2.
Proof.
  revert before ranks. induction rows as [|r rows IH]; intros before ranks.
  - intros _ _ [= <-]. reflexivity.
  - intros Hasc Hbefore H. simpl in H.
    destruct (rank_first_row g v before rows r) as [k|] eqn:Hk;
      [|discriminate].
    simpl in H.
    destruct (mapM id (rank_first_rows g v (before ++ [r]) rows))
      as [ks|] eqn:Hks; [|discriminate].
    injection H as <-.
    apply rank_first_row_sorted in Hk as [-> Hv]; [| assumption..].
    simpl. f_equal. apply IH.
    + now rewrite <- app_assoc.
    + apply Forall_app. split; [assumption | now constructor].
    + exact Hks.
Qed.

Lemma with_positions_fst group before rows :
  (with_positions group before rows).*1 = rows.
Proof.
  revert before. induction rows as [|r rows IH]; intros before;
    [reflexivity|]. simpl. now rewrite IH.
Qed.

Lemma zip_with_positions {B} (f : gmap string value -> Z -> B) group before
    rows :
  zip_with f rows (with_positions group before rows).*2
  = map (fun mk => f mk.1 mk.2) (with_positions group before rows).
Proof.
  revert before. induction rows as [|r rows IH]; intros before;
    [reflexivity|]. simpl. now rewrite IH.
Qed.

(** In a list of rows with their places, the rows of a group with a place
    up to 4 are the first ones: [min 4 (c + n) - min 4 c] of them when the
    group has [c] rows before the list and [n] rows in it. *)
Lemma with_positions_count group r0 before rows :
  (length (filter (fun mk => same_on group r0 mk.1 /\ (mk.2 <= 4)%Z)
             (with_positions group before rows))
   + Nat.min 4 (length (filter (same_on group r0) before))
   = Nat.min 4 (length (filter (same_on group r0) before)
                + length (filter (same_on group r0) rows)))%nat.
Proof.
  revert before. induction rows as [|r rows IH]; intros before;
    cbn [with_positions].
  - rewrite !filter_nil. cbn [length]. lia.
  - specialize (IH (before ++ [r])). rewrite filter_app, length_app in IH.
    rewrite !filter_cons. rewrite !filter_cons, filter_nil in IH.
    cbn [fst snd].
    destruct (decide (same_on group r0 r)) as [Hr|Hr]; cbn [length] in *.
    + assert (Heq : filter (same_on group r) before
                    = filter (same_on group r0) before).
      { apply filter_ext_in. intros x _. unfold same_on in *.
        rewrite !Forall_forall in *. split; intros H c Hc.
        - rewrite (Hr c Hc). auto.
        - rewrite <- (Hr c Hc). auto. }
      unfold position_in_group. rewrite Heq.
      destruct (decide _) as [[_ Hle]|Hgt]; cbn [length]; [lia|].
      assert (~ (1 + Z.of_nat (length (filter (same_on group r0) before))
                 <= 4)%Z) by tauto.
      lia.
    + rewrite decide_False by tauto. lia.
Qed.

(** ** The long form *)

Lemma assign_rank_first_Ok g v target df df' :
  assign_rank_first g v target df = Ok df' ->
  exists ranks,
    mapM id (rank_first_rows g v [] (data df)) = Some ranks
    /\ data df' = zip_with (fun r k => <[target := VInt k]> r) (data df) ranks.
Proof.
  unfold assign_rank_first.
  destruct (has_column df g); [|discriminate].
  destruct (has_column df v); [|discriminate].
  destruct (mixed_column v df); [discriminate|]. simpl.
  destruct (mapM id _) as [ranks|]; [|discriminate].
  intros [= <-]. exists ranks. split; reflexivity.
Qed.

Lemma select_le_Ok c n df df' :
  select_le c n df = Ok df' ->
  data df' = filter (fun r => int_leb (cell r c) n = true) (data df).
Proof.
  unfold select_le. destruct (has_column df c); [|discriminate].
  now intros [= <-].
Qed.

Lemma assign_label_Ok target prefix c df df' :
  assign_label target prefix c df = Ok df' ->
  data df'
  = map (fun r => <[target := VStr (prefix +:+ astype_str (cell r c))]> r)
      (data df).
Proof.
  unfold assign_label. destruct (has_column df c); [|discriminate].
  now intros [= <-].
Qed.

Lemma assign_replaced_Ok c old new whole new' df df' :
  assign_replaced c old new whole new' df = Ok df' ->
  data df'
  = map (fun r => <[c := replace_cell old new whole new' (cell r c)]> r)
      (data df).
Proof.
  unfold assign_replaced. destruct (has_column df c); [|discriminate].
  simpl. destruct (numeric_column c df); [discriminate|].
  now intros [= <-].
Qed.

(** The rows of the long form are the sorted minors whose place among the
    rows of their student is at most 4, each with that place as its rank
    and in its column label. *)
Lemma minor_long_rows df_td ms long :
  minor_rows df_td = Ok ms ->
  minor_long df_td = Ok long ->
  data long
  = map (fun mk => ranked_minor mk.1 mk.2)
      (filter (fun mk => mk.2 <= 4)
         (with_positions ["PEOPLE_CODE_ID"] [] (data ms))).
Proof.
  intros Hms H. unfold minor_long in H. rewrite Hms in H. simpl in H.
  apply bind_Ok in H as (d1 & H1 & H). apply bind_Ok in H as (d2 & H2 & H).
  apply bind_Ok in H as (d3 & H3 & H).
  apply assign_rank_first_Ok in H1 as (ranks & Hranks & Hd1).
  apply rank_first_rows_sorted in Hranks;
    [|rewrite app_nil_l; now apply minor_rows_ascending in Hms | constructor].
  subst ranks. rewrite zip_with_positions in Hd1.
  apply select_le_Ok in H2. apply assign_label_Ok in H3.
  apply assign_replaced_Ok in H. rewrite H, H3, H2.
  rewrite Hd1, filter_map_comm, !map_map.
  erewrite (list_filter_iff _ (fun mk => mk.2 <= 4)).
  - apply map_ext. intros [m k]. simpl. unfold ranked_minor.
    now rewrite cell_insert_eq.
  - intros [m k]. simpl. rewrite cell_insert_eq. simpl. apply Z.leb_le.
Qed.

Lemma ranked_minor_keeps m k :
  keeps ["rank"; "col"; "FORMAL_TITLE"] m (ranked_minor m k).
Proof.
  intros c Hc. unfold ranked_minor.
  rewrite !cell_insert_ne; [reflexivity| | |]; intros Heq; subst c; apply Hc;
    apply (bool_decide_unpack _); vm_compute; exact I.
Qed.

(** A student has in the long form as many rows as minors, up to four. *)
Lemma minor_long_count df_td ms long p :
  minor_rows df_td = Ok ms ->
  minor_long df_td = Ok long ->
  length (filter (fun r => cell r "PEOPLE_CODE_ID" = p) (data long))
  = Nat.min 4 (length (filter (fun m => cell m "PEOPLE_CODE_ID" = p)
                         (data ms))).
Proof.
  intros Hms H.
  rewrite (minor_long_rows _ _ _ Hms H), filter_map_comm, length_map.
  rewrite list_filter_filter.
  pose proof (with_positions_count ["PEOPLE_CODE_ID"]
                {[ "PEOPLE_CODE_ID" := p ]} [] (data ms)) as Hle.
  rewrite filter_nil in Hle. cbn [length] in Hle.
  assert (Hcell : forall m : gmap string value,
            same_on ["PEOPLE_CODE_ID"] {[ "PEOPLE_CODE_ID" := p ]} m
            <-> cell m "PEOPLE_CODE_ID" = p).
  { intros m. rewrite same_on_singleton. unfold cell at 1.
    rewrite lookup_singleton_eq. simpl. split; congruence. }
  rewrite (list_filter_iff _
             (fun mk => same_on ["PEOPLE_CODE_ID"]
                          {[ "PEOPLE_CODE_ID" := p ]} mk.1 /\ mk.2 <= 4)).
  - rewrite (list_filter_iff (fun m => cell m "PEOPLE_CODE_ID" = p)
               (same_on ["PEOPLE_CODE_ID"] {[ "PEOPLE_CODE_ID" := p ]}))
      by (intros m; symmetry; apply Hcell).
    lia.
  - intros [m k]. simpl. rewrite Hcell.
    rewrite (ranked_minor_keeps m k) by not_in_labels.
    split; intros [? ?]; split; auto.
Qed.

(** ** The pivot *)

Lemma mapM_result_Ok {A B} (f : A -> result B) (l : list A) (k : list B) :
  mapM f l = Ok k -> Forall2 (fun x y => f x = Ok y) l k.
Proof.
  revert k. induction l as [|x l IH]; intros k H; simpl in H.
  - injection H as <-. constructor.
  - apply bind_Ok in H as (y & Hy & H). apply bind_Ok in H as (k' & Hk' & H).
    injection H as <-. constructor; auto.
Qed.

Lemma Forall2_elem_of_l {A B} (R : A -> B -> Prop) l k x :
  Forall2 R l k -> x ∈ l -> exists y, y ∈ k /\ R x y.
Proof.
  induction 1 as [|a b l k Hab _ IH]; intros Hx.
  - now apply elem_of_nil in Hx.
  - apply elem_of_cons in Hx as [->|Hx].
    + exists b. split; [now left | assumption].
    + destruct (IH Hx) as (y & Hy & HR). exists y. split; [now right|assumption].
Qed.

Lemma same_on_refl index r : same_on index r r.
Proof. unfold same_on. apply Forall_forall. reflexivity. Qed.

Lemma same_on_sym index r1 r2 : same_on index r1 r2 -> same_on index r2 r1.
Proof.
  unfold same_on. intros H. eapply Forall_impl; [exact H|].
  intros c Hc. now symmetry.
Qed.

Lemma distinct_keys_complete index seen rows r :
  r ∈ rows ->
  Exists (same_on index r) seen
  \/ exists k, k ∈ distinct_keys index seen rows /\ same_on index k r.
Proof.
  revert seen. induction rows as [|x rows IH]; intros seen Hr.
  - now apply elem_of_nil in Hr.
  - simpl. apply elem_of_cons in Hr as [->|Hr].
    + destruct (decide (Exists (same_on index x) seen)) as [Hx|Hx]; [now left|].
      right. exists x. split; [now left | apply same_on_refl].
    + destruct (decide (Exists (same_on index x) seen)) as [Hx|Hx].
      * apply IH, Hr.
      * destruct (IH (x :: seen) Hr) as [Hex|(k & Hk & Hsame)].
        -- apply Exists_cons in Hex as [Hex|Hex]; [|now left].
           right. exists x. split; [now left | now apply same_on_sym].
        -- right. exists k. split; [now right | assumption].
Qed.

Lemma pivot_labels_elem col rows c :
  c ∈ pivot_labels col rows <-> exists r, r ∈ rows /\ cell r col = c.
Proof.
  unfold pivot_labels. rewrite stable_sort_perm, elem_of_remove_dups.
  rewrite list_elem_of_fmap. split; intros (r & H1 & H2); eauto.
Qed.

Lemma pivot_labels_NoDup col rows :
  Forall (fun r => is_str (cell r col) = true) rows ->
  NoDup (map astype_str (pivot_labels col rows)).
Proof.
  intros Hstr. apply NoDup_fmap_2_strong.
  - intros c1 c2 H1 H2 Heq.
    apply pivot_labels_elem in H1 as (r1 & Hr1 & <-).
    apply pivot_labels_elem in H2 as (r2 & Hr2 & <-).
    rewrite Forall_forall in Hstr.
    pose proof (Hstr r1 Hr1) as Hs1. pose proof (Hstr r2 Hr2) as Hs2.
    destruct (cell r1 col), (cell r2 col); try discriminate.
    simpl in Heq. now subst.
  - unfold pivot_labels. rewrite stable_sort_perm. apply NoDup_remove_dups.
Qed.

Lemma pivot_cell_entry index col values rows k c v r :
  pivot_cell index col values rows k c = Ok v ->
  r ∈ rows -> same_on index k r -> cell r col = c ->
  v = cell r values.
Proof.
  unfold pivot_cell, pivot_entries. intros H Hr Hk Hc.
  assert (Hin : r ∈ filter (fun r => same_on index k r /\ cell r col = c) rows)
    by (apply list_elem_of_filter; auto).
  destruct (filter _ rows) as [|r0 [|r1 l]]; [|injection H as <-|discriminate].
  - now apply elem_of_nil in Hin.
  - apply list_elem_of_singleton in Hin. now subst.
Qed.

Lemma index_row_cell index k i :
  i ∈ index ->
  cell (list_to_map (map (fun i => (i, cell k i)) index)) i = cell k i.
Proof.
  intros Hi. unfold cell at 1.
  rewrite (elem_of_list_to_map_1' _ i (cell k i)); [reflexivity| |].
  - intros y Hy. apply list_elem_of_fmap in Hy as (j & [= -> ->] & _).
    reflexivity.
  - apply list_elem_of_fmap. exists i. split; [reflexivity | assumption].
Qed.

Lemma pivot_row_Ok index col values fill rows k labels r' :
  NoDup (map astype_str labels) ->
  pivot_row index col values fill rows k labels = Ok r' ->
  (forall i, i ∈ index -> i ∉ map astype_str labels -> cell r' i = cell k i)
  /\ (forall c, c ∈ labels ->
        exists v, pivot_cell index col values rows k c = Ok v
                  /\ cell r' (astype_str c)
                     = if decide (v = VNaN) then fill else v).
Proof.
  revert r'. induction labels as [|c labels IH]; intros r' Hnd H; simpl in H.
  - injection H as <-. split.
    + intros i Hi _. now apply index_row_cell.
    + intros c Hc. now apply elem_of_nil in Hc.
  - apply bind_Ok in H as (v & Hv & H). apply bind_Ok in H as (r & Hr & H).
    injection H as <-. simpl in Hnd. apply NoDup_cons in Hnd as [Hc Hnd].
    destruct (IH r Hnd Hr) as [IHi IHc]. split.
    + intros i Hi Hni. rewrite cell_insert_ne.
      * apply IHi; [assumption|]. intros Hin. apply Hni. now right.
      * intros Heq. subst i. apply Hni. now left.
    + intros c0 Hc0. apply elem_of_cons in Hc0 as [->|Hc0].
      * exists v. split; [assumption | apply cell_insert_eq].
      * destruct (IHc c0 Hc0) as (v0 & Hv0 & Hcell). exists v0.
        split; [assumption|]. rewrite cell_insert_ne; [assumption|].
        intros Heq. apply Hc. rewrite Heq. apply list_elem_of_fmap. eauto.
Qed.

(** Every row of the long frame is found in the pivot table: in the row
    of its index, under its label, with [fill] in place of a missing
    value. *)
Lemma pivot_contains index col values fill df out r :
  pivot index col values fill df = Ok out ->
  Forall (fun x => is_str (cell x col) = true
                   /\ astype_str (cell x col) ∉ index) (data df) ->
  r ∈ data df ->
  exists r',
    r' ∈ data out
    /\ (forall i, i ∈ index -> cell r' i = cell r i)
    /\ cell r' (astype_str (cell r col))
       = if decide (cell r values = VNaN) then fill else cell r values.
Proof.
  intros H Hstr Hr. unfold pivot in H.
  destruct (filter _ (index ++ _)); [|discriminate].
  apply bind_Ok in H as (rows' & Hrows & H). injection H as <-. simpl.
  apply mapM_result_Ok in Hrows.
  destruct (distinct_keys_complete index []
              (stable_sort (key_leb index) (data df)) r)
    as [Hex|(k & Hk & Hsame)].
  { now rewrite stable_sort_perm. }
  { now apply Exists_nil in Hex. }
  destruct (Forall2_elem_of_l _ _ _ _ Hrows Hk) as (r' & Hr' & Hrow).
  apply pivot_row_Ok in Hrow as [Hi Hc].
  2: { apply pivot_labels_NoDup. eapply Forall_impl; [exact Hstr|].
       now intros x [? _]. }
  exists r'. split; [assumption|]. split.
  - intros i Hin. rewrite Hi; [|assumption|].
    + unfold same_on in Hsame. rewrite Forall_forall in Hsame. now apply Hsame.
    + intros Hlab. apply list_elem_of_fmap in Hlab as (c & -> & Hlab).
      apply pivot_labels_elem in Hlab as (x & Hx & <-).
      rewrite Forall_forall in Hstr. now apply (Hstr x Hx).
  - destruct (Hc (cell r col)) as (v & Hv & Hcell).
    { apply pivot_labels_elem. eauto. }
    rewrite Hcell.
    now rewrite (pivot_cell_entry _ _ _ _ _ _ _ r Hv Hr Hsame eq_refl).
Qed.

Lemma Forall2_elem_of_r {A B} (R : A -> B -> Prop) l k y :
  Forall2 R l k -> y ∈ k -> exists x, x ∈ l /\ R x y.
Proof.
  induction 1 as [|a b l k Hab _ IH]; intros Hy.
  - now apply elem_of_nil in Hy.
  - apply elem_of_cons in Hy as [->|Hy].
    + exists a. split; [now left | assumption].
    + destruct (IH Hy) as (x & Hx & HR). exists x. split; [now right|assumption].
Qed.

Lemma distinct_keys_elem index seen rows k :
  k ∈ distinct_keys index seen rows -> k ∈ rows.
Proof.
  revert seen. induction rows as [|x rows IH]; intros seen Hk; simpl in Hk.
  - now apply elem_of_nil in Hk.
  - destruct (decide _).
    + right. eapply IH, Hk.
    + apply elem_of_cons in Hk as [->|Hk]; [now left|].
      right. eapply IH, Hk.
Qed.

Lemma pivot_cell_cases index col values rows k c v :
  pivot_cell index col values rows k c = Ok v ->
  v = VNaN
  \/ exists r, r ∈ rows /\ same_on index k r /\ cell r col = c
                /\ v = cell r values.
Proof.
  unfold pivot_cell, pivot_entries. intros H.
  destruct (filter _ rows) as [|r [|r1 l]] eqn:Hf;
    [injection H as <-; now left | injection H as <- | discriminate].
  right. exists r.
  assert (Hin : r ∈ filter (fun r => same_on index k r /\ cell r col = c) rows)
    by (rewrite Hf; now left).
  apply list_elem_of_filter in Hin as [[? ?] ?]. auto.
Qed.

Lemma pivot_row_other index col values fill rows k labels r' x :
  pivot_row index col values fill rows k labels = Ok r' ->
  x ∉ index -> x ∉ map astype_str labels -> cell r' x = VNaN.
Proof.
  revert r'. induction labels as [|c labels IH]; intros r' H Hi Hl; simpl in H.
  - injection H as <-. unfold cell.
    rewrite (proj1 (not_elem_of_list_to_map _ x)); [reflexivity|].
    rewrite <- list_fmap_compose. intros Hin.
    apply list_elem_of_fmap in Hin as (i & -> & Hin). now apply Hi.
  - apply bind_Ok in H as (v & Hv & H). apply bind_Ok in H as (r & Hr & H).
    injection H as <-. rewrite cell_insert_ne.
    + apply IH; [assumption | assumption|]. intros Hin. apply Hl. now right.
    + intros Heq. subst x. apply Hl. now left.
Qed.

(** Nothing else is found in the pivot table: outside the index columns a
    cell is missing (no such column), or [fill], or the value of a row of
    the long frame with the index of that row and that label. *)
Lemma pivot_only index col values fill df out r' x :
  pivot index col values fill df = Ok out ->
  Forall (fun r => is_str (cell r col) = true
                   /\ astype_str (cell r col) ∉ index) (data df) ->
  r' ∈ data out -> x ∉ index ->
  cell r' x = VNaN \/ cell r' x = fill
  \/ exists r, r ∈ data df
                /\ (forall i, i ∈ index -> cell r' i = cell r i)
                /\ cell r col = VStr x /\ cell r' x = cell r values.
Proof.
  intros H Hstr Hr' Hx. unfold pivot in H.
  destruct (filter _ (index ++ _)); [|discriminate].
  apply bind_Ok in H as (rows' & Hrows & H). injection H as <-.
  simpl in Hr'. apply mapM_result_Ok in Hrows.
  destruct (Forall2_elem_of_r _ _ _ _ Hrows Hr') as (k & Hk & Hrow).
  destruct (decide (x ∈ map astype_str (pivot_labels col (data df))))
    as [Hin|Hnin]; [|left; eapply pivot_row_other; eassumption].
  apply list_elem_of_fmap in Hin as (c & -> & Hc).
  pose proof Hrow as Hrow'.
  apply pivot_row_Ok in Hrow as [Hidx Hlab].
  2: { apply pivot_labels_NoDup. eapply Forall_impl; [exact Hstr|].
       now intros y [? _]. }
  destruct (Hlab c Hc) as (v & Hv & Hcell). rewrite Hcell.
  destruct (decide (v = VNaN)) as [_|Hv0]; [right; now left|].
  apply pivot_cell_cases in Hv as [->|(r & Hr & Hsame & Hcol & ->)];
    [contradiction|].
  right. right. exists r. split; [assumption|]. split; [|split].
  - intros i Hi. rewrite Hidx; [|assumption|].
    + unfold same_on in Hsame. rewrite Forall_forall in Hsame. now apply Hsame.
    + intros Hl. apply list_elem_of_fmap in Hl as (c' & -> & Hl).
      apply pivot_labels_elem in Hl as (y & Hy & <-).
      rewrite Forall_forall in Hstr. now apply (Hstr y Hy).
  - rewrite Forall_forall in Hstr. destruct (Hstr r Hr) as [Hs _].
    rewrite <- Hcol in *. destruct (cell r col); try discriminate. reflexivity.
  - reflexivity.
Qed.

Lemma with_positions_elem group before rows m k :
  (m, k) ∈ with_positions group before rows -> m ∈ rows /\ 1 <= k.
Proof.
  revert before. induction rows as [|r rows IH]; intros before H; simpl in H.
  - now apply elem_of_nil in H.
  - apply elem_of_cons in H as [[= -> ->]|H].
    + split; [now left | unfold position_in_group; lia].
    + apply IH in H as [? ?]. split; [now right | assumption].
Qed.

Lemma ranked_minor_cells m k :
  cell (ranked_minor m k) "rank" = VInt k
  /\ cell (ranked_minor m k) "col"
     = VStr ("Minor Course of Study " +:+ Py.str k)
  /\ cell (ranked_minor m k) "PEOPLE_CODE_ID" = cell m "PEOPLE_CODE_ID"
  /\ cell (ranked_minor m k) "GRADUATION_DATE" = cell m "GRADUATION_DATE".
Proof.
  unfold ranked_minor. repeat split.
  - rewrite !cell_insert_ne by discriminate. apply cell_insert_eq.
  - rewrite cell_insert_ne by discriminate. apply cell_insert_eq.
  - now rewrite !cell_insert_ne by discriminate.
  - now rewrite !cell_insert_ne by discriminate.
Qed.

(** ** [minor_data] returns on a well-formed degree table *)

Lemma has_column_grown df target rows c :
  has_column df c = true \/ c = target ->
  has_column {| columns := if has_column df target then columns df
                           else columns df ++ [target];
                data := rows |} c = true.
Proof.
  intros H. apply has_column_true. simpl.
  destruct (has_column df target) eqn:Ht.
  - destruct H as [H| ->]; now apply has_column_true.
  - apply elem_of_app. destruct H as [H| ->].
    + left. now apply has_column_true.
    + right. now left.
Qed.

Lemma strings_not_mixed c df :
  Forall (fun r => is_str (cell r c) = true) (data df) ->
  mixed_column c df = false.
Proof.
  intros H. unfold mixed_column.
  rewrite (existsb_false (fun r => match cell r c with
                                   | VInt _ => true | _ => false end)).
  - apply andb_false_r.
  - eapply Forall_impl; [exact H|]. intros r Hr.
    apply is_str_VStr in Hr as [s ->]. reflexivity.
Qed.

Lemma sort_values_returns by_ df :
  Forall (fun c => has_column df c = true) by_ ->
  Forall (fun c => mixed_column c df = false) by_ ->
  sort_values by_ df
  = Ok {| columns := columns df;
          data := stable_sort (key_leb by_) (data df) |}.
Proof.
  intros Hcols Hmix. unfold sort_values.
  rewrite (no_missing_column _ _ Hcols).
  now rewrite (existsb_false _ _ Hmix), andb_false_r.
Qed.

Lemma minor_rows_returns df_td :
  well_formed_degrees df_td ->
  exists ms,
    minor_rows df_td = Ok ms
    /\ columns ms = columns df_td
    /\ Forall (fun r => is_str (cell r "PEOPLE_CODE_ID") = true
                        /\ is_str (cell r "GRADUATION_DATE") = true)
         (data ms)
    /\ Forall (fun r => is_str (cell r "FORMAL_TITLE") = true) (data ms).
Proof.
  intros (Hcols & _ & Hrows).
  apply Forall_cons in Hcols as [Hdeg Hcols].
  apply Forall_cons in Hcols as [Hp Hcols].
  apply Forall_cons in Hcols as [Hg Hcols].
  apply Forall_cons in Hcols as [Hc _].
  set (d0 := {| columns := columns df_td;
                data := filter (fun r => cell r "DEGREE" = VStr "MINOR")
                          (data df_td) |}).
  assert (H0 : select_eq "DEGREE" (VStr "MINOR") df_td = Ok d0)
    by (unfold select_eq; now rewrite Hdeg).
  assert (Hstr0 : Forall (fun r => is_str (cell r "PEOPLE_CODE_ID") = true
                            /\ is_str (cell r "GRADUATION_DATE") = true)
                    (data d0)).
  { apply Forall_forall. intros r Hr. simpl in Hr.
    apply list_elem_of_filter in Hr as [Hm Hr].
    rewrite Forall_forall in Hrows.
    destruct (Hrows r Hr Hm) as (? & ? & _). auto. }
  assert (Htitle0 : Forall (fun r => is_str (cell r "FORMAL_TITLE") = true)
                      (data d0)).
  { apply Forall_forall. intros r Hr. simpl in Hr.
    apply list_elem_of_filter in Hr as [Hm Hr].
    rewrite Forall_forall in Hrows. now apply (Hrows r Hr Hm). }
  set (d1 := {| columns := columns d0;
                data := stable_sort
                          (key_leb ["PEOPLE_CODE_ID"; "GRADUATION_DATE"])
                          (data d0) |}).
  assert (H1 : sort_values ["PEOPLE_CODE_ID"; "GRADUATION_DATE"] d0 = Ok d1).
  { apply sort_values_returns.
    - repeat constructor; assumption.
    - repeat constructor; apply strings_not_mixed;
        (eapply Forall_impl; [exact Hstr0|]); now intros r [? ?]. }
  unfold minor_rows. rewrite (bind_Ok_eq _ _ _ H0), (bind_Ok_eq _ _ _ H1).
  unfold drop_duplicates. rewrite no_missing_column
    by (repeat constructor; assumption).
  eexists. split; [reflexivity|]. split; [reflexivity|]. simpl.
  pose proof (drop_duplicates_rows_sublist
                ["PEOPLE_CODE_ID"; "GRADUATION_DATE"; "DEGREE"; "CURRICULUM"]
                (stable_sort (key_leb ["PEOPLE_CODE_ID"; "GRADUATION_DATE"])
                   (data d0))) as Hsub.
  assert (Hin : forall r,
            r ∈ drop_duplicates_rows
                  ["PEOPLE_CODE_ID"; "GRADUATION_DATE"; "DEGREE"; "CURRICULUM"]
                  (stable_sort
                     (key_leb ["PEOPLE_CODE_ID"; "GRADUATION_DATE"])
                     (data d0)) ->
            r ∈ data d0).
  { intros r Hr.
    rewrite <- (stable_sort_perm
                  (key_leb ["PEOPLE_CODE_ID"; "GRADUATION_DATE"]) (data d0)).
    eapply elem_of_sublist; [exact Hr | exact Hsub]. }
  rewrite Forall_forall in Hstr0, Htitle0.
  split; apply Forall_forall; intros r Hr; auto.
Qed.

Lemma rank_first_rows_defined g v before rows :
  Forall (fun r => cell r g <> VNaN /\ cell r v <> VNaN) rows ->
  exists ranks, mapM id (rank_first_rows g v before rows) = Some ranks.
Proof.
  revert before. induction rows as [|r rows IH]; intros before Hrows.
  - exists []. reflexivity.
  - apply Forall_cons in Hrows as [[Hg Hv] Hrows].
    destruct (IH (before ++ [r]) Hrows) as [ranks Hranks].
    simpl. unfold rank_first_row. rewrite decide_False by tauto.
    simpl. rewrite Hranks. simpl. eauto.
Qed.

Lemma assign_rank_first_returns g v target df :
  has_column df g = true -> has_column df v = true ->
  Forall (fun r => is_str (cell r g) = true /\ is_str (cell r v) = true)
    (data df) ->
  exists df',
    assign_rank_first g v target df = Ok df'
    /\ has_column df' target = true
    /\ (forall c, has_column df c = true -> has_column df' c = true).
Proof.
  intros Hg Hv Hrows. unfold assign_rank_first. rewrite Hg, Hv. simpl.
  rewrite strings_not_mixed
    by (eapply Forall_impl; [exact Hrows|]; now intros r [? ?]).
  destruct (rank_first_rows_defined g v [] (data df)) as [ranks ->].
  { eapply Forall_impl; [exact Hrows|]. intros r [H1 H2].
    apply is_str_VStr in H1 as [s1 ->]. apply is_str_VStr in H2 as [s2 ->].
    split; discriminate. }
  eexists. split; [reflexivity|]. split.
  - apply has_column_grown. now right.
  - intros c Hc. apply has_column_grown. now left.
Qed.

Lemma select_le_returns c n df :
  has_column df c = true ->
  exists df', select_le c n df = Ok df' /\ columns df' = columns df.
Proof. intros Hc. unfold select_le. rewrite Hc. eauto. Qed.

Lemma assign_label_returns target prefix c df :
  has_column df c = true ->
  exists df',
    assign_label target prefix c df = Ok df'
    /\ has_column df' target = true
    /\ (forall c', has_column df c' = true -> has_column df' c' = true).
Proof.
  intros Hc. unfold assign_label. rewrite Hc. eexists.
  split; [reflexivity|]. split.
  - apply has_column_grown. now right.
  - intros c' Hc'. apply has_column_grown. now left.
Qed.

Lemma strings_not_numeric c df :
  Forall (fun r => is_str (cell r c) = true) (data df) ->
  numeric_column c df = false.
Proof.
  intros H. unfold numeric_column.
  rewrite (existsb_false (fun r => match cell r c with
                                   | VInt _ => true | _ => false end));
    [reflexivity|].
  eapply Forall_impl; [exact H|]. intros r Hr.
  apply is_str_VStr in Hr as [s ->]. reflexivity.
Qed.

Lemma assign_replaced_returns c old new whole new' df :
  has_column df c = true ->
  Forall (fun r => is_str (cell r c) = true) (data df) ->
  exists df',
    assign_replaced c old new whole new' df = Ok df'
    /\ columns df' = columns df.
Proof.
  intros Hc Hstr. unfold assign_replaced. rewrite Hc. simpl.
  rewrite (strings_not_numeric _ _ Hstr). eauto.
Qed.

Lemma Forall_zip_with_l {A B C} (P : A -> Prop) (Q : C -> Prop)
    (f : A -> B -> C) (l : list A) (k : list B) :
  Forall P l -> (forall x y, P x -> Q (f x y)) -> Forall Q (zip_with f l k).
Proof.
  intros Hl Hf. revert k. induction Hl as [|x l Hx _ IH]; intros [|y k];
    simpl; constructor; auto.
Qed.

Lemma same_columns df df' c :
  columns df' = columns df -> has_column df c = true ->
  has_column df' c = true.
Proof. intros H. unfold has_column. now rewrite H. Qed.

Lemma minor_long_returns df_td :
  well_formed_degrees df_td ->
  exists long,
    minor_long df_td = Ok long
    /\ Forall (fun c => has_column long c = true)
         [ "PEOPLE_CODE_ID"; "GRADUATION_DATE"; "col"; "FORMAL_TITLE" ].
Proof.
  intros Hwf.
  destruct (minor_rows_returns df_td Hwf) as (ms & Hms & Hc & Hstr & Htitle).
  destruct Hwf as [Hcols _].
  apply Forall_cons in Hcols as [_ Hcols].
  apply Forall_cons in Hcols as [Hp Hcols].
  apply Forall_cons in Hcols as [Hg Hcols].
  apply Forall_cons in Hcols as [_ Hcols].
  apply Forall_cons in Hcols as [Hf _].
  pose proof (same_columns _ _ _ Hc Hp) as Hp0.
  pose proof (same_columns _ _ _ Hc Hg) as Hg0.
  pose proof (same_columns _ _ _ Hc Hf) as Hf0.
  destruct (assign_rank_first_returns "PEOPLE_CODE_ID" "GRADUATION_DATE"
              "rank" ms Hp0 Hg0 Hstr) as (d1 & H1 & Hrank & Hc1).
  destruct (select_le_returns "rank" 4 d1 Hrank) as (d2 & H2 & Hc2).
  destruct (assign_label_returns "col" "Minor Course of Study " "rank" d2
              (same_columns _ _ _ Hc2 Hrank)) as (d3 & H3 & Hcol & Hc3).
  assert (Hkeep : forall c, has_column ms c = true -> has_column d3 c = true)
    by (intros c Hin; apply Hc3, (same_columns _ _ _ Hc2), Hc1, Hin).
  assert (Htitle3 : Forall (fun r => is_str (cell r "FORMAL_TITLE") = true)
                      (data d3)).
  { apply assign_rank_first_Ok in H1 as (ranks & _ & Hd1).
    apply select_le_Ok in H2. apply assign_label_Ok in H3.
    rewrite H3, H2, Hd1. apply Forall_forall. intros r Hr.
    apply list_elem_of_fmap in Hr as (r2 & -> & Hr2).
    apply list_elem_of_filter in Hr2 as [_ Hr2].
    rewrite cell_insert_ne by discriminate. revert r2 Hr2.
    apply Forall_forall.
    apply (Forall_zip_with_l
             (fun r => is_str (cell r "FORMAL_TITLE") = true));
      [exact Htitle|].
    intros x y Hx. now rewrite cell_insert_ne by discriminate. }
  destruct (assign_replaced_returns "FORMAL_TITLE" " Minor" "" "Minor" "" d3
              (Hkeep _ Hf0) Htitle3) as (d4 & H4 & Hc4).
  exists d4. split.
  - unfold minor_long.
    now rewrite (bind_Ok_eq _ _ _ Hms), (bind_Ok_eq _ _ _ H1),
      (bind_Ok_eq _ _ _ H2), (bind_Ok_eq _ _ _ H3).
  - repeat constructor; apply (same_columns _ _ _ Hc4); auto.
Qed.

(** In a list of rows with their places, at most one row of a group has a
    given place, and none has a place that the rows before have taken. *)
Lemma with_positions_unique group r0 k0 before rows :
  (length (filter (fun mk => same_on group r0 mk.1 /\ mk.2 = k0)
             (with_positions group before rows)) <= 1)%nat
  /\ (k0 <= Z.of_nat (length (filter (same_on group r0) before)) ->
      filter (fun mk => same_on group r0 mk.1 /\ mk.2 = k0)
        (with_positions group before rows) = []).
Proof.
  revert before. induction rows as [|r rows IH]; intros before;
    cbn [with_positions].
  - rewrite filter_nil. cbn [length]. split; [lia | reflexivity].
  - destruct (IH (before ++ [r])) as [IH1 IH2].
    rewrite filter_app, length_app in IH2.
    rewrite filter_cons. rewrite filter_cons, filter_nil in IH2.
    cbn [fst snd].
    destruct (decide (same_on group r0 r)) as [Hr|Hr]; cbn [length] in IH2.
    + assert (Heq : filter (same_on group r) before
                    = filter (same_on group r0) before).
      { apply filter_ext_in. intros x _. unfold same_on in *.
        rewrite !Forall_forall in *. split; intros H c Hc.
        - rewrite (Hr c Hc). auto.
        - rewrite <- (Hr c Hc). auto. }
      unfold position_in_group. rewrite Heq.
      destruct (decide _) as [[_ Hk]|Hk].
      * rewrite IH2 by lia. cbn [length]. split; [lia|]. intros Hle. lia.
      * split; [exact IH1|]. intros Hle. apply IH2. lia.
    + rewrite decide_False by tauto. split; [exact IH1|].
      intros Hle. apply IH2. lia.
Qed.

Lemma length_filter_impl {A} (P Q : A -> Prop)
    `{!forall x, Decision (P x)} `{!forall x, Decision (Q x)} (l : list A) :
  (forall x, P x -> Q x) ->
  (length (filter P l) <= length (filter Q l))%nat.
Proof.
  intros Himp. induction l as [|x l IH]; [reflexivity|].
  rewrite !filter_cons.
  destruct (decide (P x)) as [HP|HP], (decide (Q x)) as [HQ|HQ];
    cbn [length]; try lia.
  exfalso. auto.
Qed.

Lemma pivot_row_returns index col values fill rows k labels :
  (forall c, (length (pivot_entries index col rows k c) <= 1)%nat) ->
  exists r, pivot_row index col values fill rows k labels = Ok r.
Proof.
  intros Hone. induction labels as [|c labels [r IH]]; simpl; [eauto|].
  unfold pivot_cell. specialize (Hone c).
  destruct (pivot_entries index col rows k c) as [|x [|y l]];
    [| |simpl in Hone; lia]; rewrite IH; simpl; eauto.
Qed.

Lemma mapM_result_returns {A B} (f : A -> result B) (l : list A) :
  (forall x, exists y, f x = Ok y) -> exists k, mapM f l = Ok k.
Proof.
  intros Hf. induction l as [|x l [k IH]]; simpl; [eauto|].
  destruct (Hf x) as [y ->]. rewrite IH. simpl. eauto.
Qed.

Lemma pivot_returns index col values fill df :
  Forall (fun c => has_column df c = true) (index ++ [col; values]) ->
  (forall k c, (length (pivot_entries index col (data df) k c) <= 1)%nat) ->
  exists out, pivot index col values fill df = Ok out.
Proof.
  intros Hcols Hone. unfold pivot. rewrite (no_missing_column _ _ Hcols).
  destruct (mapM_result_returns
              (fun k => pivot_row index col values fill (data df) k
                          (pivot_labels col (data df)))
              (distinct_keys index []
                 (stable_sort (key_leb index) (data df)))) as [rows ->].
  - intros k. apply pivot_row_returns. intros c. apply Hone.
  - simpl. eauto.
Qed.

(** The long form has at most one row for a student, a graduation date and
    a label. *)
Lemma minor_long_entries df_td ms long k c :
  minor_rows df_td = Ok ms ->
  minor_long df_td = Ok long ->
  (length (pivot_entries ["PEOPLE_CODE_ID"; "GRADUATION_DATE"] "col"
             (data long) k c) <= 1)%nat.
Proof.
  intros Hms Hlong. unfold pivot_entries.
  rewrite (minor_long_rows _ _ _ Hms Hlong), filter_map_comm, length_map.
  rewrite list_filter_filter.
  destruct c as [s|n|].
  2,3: rewrite filter_none; [simpl; lia|];
       intros [m j] _ [[_ Hcol] _]; simpl in Hcol;
       destruct (ranked_minor_cells m j) as (_ & Hc & _);
       rewrite Hc in Hcol; discriminate Hcol.
  destruct (filter _ (with_positions _ _ _)) as [|[m0 k0] rest] eqn:Hf;
    [simpl; lia|].
  assert (Hin : (m0, k0) ∈ filter
            (fun x : gmap string value * Z =>
               (same_on ["PEOPLE_CODE_ID"; "GRADUATION_DATE"] k
                  (ranked_minor x.1 x.2)
                /\ cell (ranked_minor x.1 x.2) "col" = VStr s) /\ x.2 <= 4)
            (with_positions ["PEOPLE_CODE_ID"] [] (data ms)))
    by (rewrite Hf; now left).
  apply list_elem_of_filter in Hin as [[[_ Hs] _] _]. simpl in Hs.
  destruct (ranked_minor_cells m0 k0) as (_ & Hc0 & _).
  rewrite Hc0 in Hs. injection Hs as <-. rewrite <- Hf.
  etransitivity;
    [|exact (proj1 (with_positions_unique ["PEOPLE_CODE_ID"] k k0 []
                      (data ms)))].
  apply length_filter_impl. intros [m j]. simpl. intros [[Hsame Hcol] _].
  destruct (ranked_minor_cells m j) as (_ & Hc & Hp & _).
  rewrite Hc in Hcol. injection Hcol as Hcol.
  apply (inj (String.app _)), (inj Py.str) in Hcol. split; [|exact Hcol].
  apply same_on_singleton. apply Forall_cons in Hsame as [Hsame _].
  now rewrite Hsame, Hp.
Qed.

Lemma minor_data_returns df_td :
  well_formed_degrees df_td -> exists out, minor_data df_td = Ok out.
Proof.
  intros Hwf. destruct (minor_rows_returns df_td Hwf) as (ms & Hms & _).
  destruct (minor_long_returns df_td Hwf) as (long & Hlong & Hcols).
  unfold minor_data. rewrite (bind_Ok_eq _ _ _ Hlong).
  apply pivot_returns; [exact Hcols|].
  intros k c. eapply minor_long_entries; eassumption.
Qed.

Lemma same_on_trans index r1 r2 r3 :
  same_on index r1 r2 -> same_on index r2 r3 -> same_on index r1 r3.
Proof.
  unfold same_on. rewrite !Forall_forall. intros H1 H2 c Hc.
  now rewrite (H1 c Hc), (H2 c Hc).
Qed.

Lemma drop_duplicates_rows_elem subset rows r :
  r ∈ drop_duplicates_rows subset rows -> r ∈ rows.
Proof.
  intros Hr. eapply elem_of_sublist; [exact Hr|].
  apply drop_duplicates_rows_sublist.
Qed.

Lemma drop_duplicates_rows_cover subset rows r :
  r ∈ rows ->
  exists r', r' ∈ drop_duplicates_rows subset rows /\ same_on subset r r'.
Proof.
  revert r. induction rows as [|x rows IH]; intros r Hr;
    [now apply elem_of_nil in Hr|].
  simpl. destruct (decide (Exists (same_on subset x) rows)) as [Hex|Hno].
  - apply elem_of_cons in Hr as [->|Hr]; [|now apply IH].
    apply Exists_exists in Hex as (y & Hy & Hxy).
    destruct (IH y Hy) as (r' & Hr' & Hyr'). exists r'.
    split; [exact Hr'|]. eapply same_on_trans; eassumption.
  - apply elem_of_cons in Hr as [->|Hr].
    + exists x. split; [now left | apply same_on_refl].
    + destruct (IH r Hr) as (r' & Hr' & Hs). exists r'.
      split; [now right | exact Hs].
Qed.

(** ** The order of the minors *)

Lemma filter_sublist_mono {A} (P : A -> Prop) `{!forall x, Decision (P x)}
    (l1 l2 : list A) :
  l1 `sublist_of` l2 -> filter P l1 `sublist_of` filter P l2.
Proof.
  induction 1 as [|x l1 l2 _ IH|x l1 l2 _ IH]; [constructor| |].
  - rewrite !filter_cons. destruct (decide (P x)); [now constructor | exact IH].
  - rewrite filter_cons. destruct (decide (P x)); [now constructor | exact IH].
Qed.

(** The sort is stable: rows that the order does not tell apart keep
    their order. *)
Lemma filter_insert_sorted {A} (leb : A -> A -> bool) (P : A -> Prop)
    `{!forall x, Decision (P x)} (x : A) (l : list A) :
  (forall y, P x -> P y -> leb x y = true) ->
  filter P (insert_sorted leb x l) = filter P (x :: l).
Proof.
  intros Htie. induction l as [|y l IH]; [reflexivity|]. simpl.
  destruct (leb x y) eqn:Hxy; [reflexivity|].
  rewrite filter_cons, IH, !filter_cons.
  destruct (decide (P x)) as [Hx|_]; [|reflexivity].
  destruct (decide (P y)) as [Hy|_]; [|reflexivity].
  rewrite (Htie y Hx Hy) in Hxy. discriminate.
Qed.

Lemma filter_stable_sort {A} (leb : A -> A -> bool) (P : A -> Prop)
    `{!forall x, Decision (P x)} (l : list A) :
  (forall x y, P x -> P y -> leb x y = true) ->
  filter P (stable_sort leb l) = filter P l.
Proof.
  intros Htie. induction l as [|x l IH]; [reflexivity|]. simpl.
  rewrite filter_insert_sorted by (intros y; apply Htie).
  now rewrite !filter_cons, IH.
Qed.

(** The minors of lines 234-237, seen from the degree table: every minor
    of the table is among them up to its student, date, degree and
    curriculum, and the minors of one student and date stand in the order
    they have in the table. *)
Lemma minor_rows_from_table df_td ms :
  minor_rows df_td = Ok ms ->
  (forall r, r ∈ data df_td -> cell r "DEGREE" = VStr "MINOR" ->
     exists m,
       m ∈ data ms
       /\ same_on ["PEOPLE_CODE_ID"; "GRADUATION_DATE"; "DEGREE"; "CURRICULUM"]
            r m)
  /\ forall p d,
       filter (fun m => cell m "PEOPLE_CODE_ID" = p
                        /\ cell m "GRADUATION_DATE" = d) (data ms)
       `sublist_of`
       filter (fun m => cell m "PEOPLE_CODE_ID" = p
                        /\ cell m "GRADUATION_DATE" = d) (data df_td).
Proof.
  intros H. unfold minor_rows in H.
  apply bind_Ok in H as (d0 & H0 & H). apply bind_Ok in H as (d1 & H1 & H).
  apply drop_duplicates_Ok in H as [Hd _].
  unfold sort_values in H1. destruct (filter _ _); [|discriminate].
  destruct (_ && _); [discriminate|]. injection H1 as <-. simpl in Hd.
  unfold select_eq in H0. destruct (has_column df_td "DEGREE"); [|discriminate].
  injection H0 as <-. simpl in Hd. rewrite Hd. split.
  - intros r Hr Hm. apply drop_duplicates_rows_cover.
    rewrite stable_sort_perm. apply list_elem_of_filter. auto.
  - intros p d. etransitivity.
    { apply filter_sublist_mono, drop_duplicates_rows_sublist. }
    rewrite filter_stable_sort.
    + apply filter_sublist_mono, sublist_filter.
    + intros x y [Hx1 Hx2] [Hy1 Hy2]. simpl.
      rewrite !decide_True by congruence. reflexivity.
Qed.

(** C6, refuted as stated: a student with one minor on each of two
    graduation dates.  Each minor is the first of its student-and-date
    group, but the later one has rank 2, and in the row of the later date
    Minor Course of Study 1 is blank and Minor Course of Study 2 holds the
    minor. *)
Lemma minor_rank_spans_dates :
  (with_positions ["PEOPLE_CODE_ID"; "GRADUATION_DATE"] []
     (data (frame_of (minor_rows Examples.two_dates)))).*2 = [1; 1]
  /\ map (fun r => cell r "rank")
       (data (frame_of (minor_long Examples.two_dates))) = [VInt 1; VInt 2]
  /\ is_ok (minor_data Examples.two_dates) = true
  /\ map (fun r => (cell r "GRADUATION_DATE", cell r "Minor Course of Study 1",
                    cell r "Minor Course of Study 2"))
       (data (frame_of (minor_data Examples.two_dates)))
     = [ (VStr "20220514", VStr "Art", VStr " ");
         (VStr "20230513", VStr " ", VStr "Biology") ].
Proof. repeat split; vm_compute; reflexivity. Qed.

(** With three minors on an earlier date, only the first of two minors on
    a later date is reported, in the fourth column. *)
Lemma minor_later_date_truncated :
  map (fun r => (cell r "GRADUATION_DATE", cell r "Minor Course of Study 1",
                 cell r "Minor Course of Study 2",
                 cell r "Minor Course of Study 3",
                 cell r "Minor Course of Study 4"))
    (data (frame_of (minor_data Examples.three_then_two)))
  = [ (VStr "20220514", VStr "Art", VStr "Biology", VStr "Chemistry",
       VStr " ");
      (VStr "20230513", VStr " ", VStr " ", VStr " ", VStr "Drama") ].
Proof. vm_compute. reflexivity. Qed.

(** Five minors of one student on one date: the first four are reported,
    the fifth is not. *)
Lemma five_minors_pivoted :
  is_ok (minor_data Examples.five_minors) = true
  /\ columns (frame_of (minor_data Examples.five_minors))
     = [ "PEOPLE_CODE_ID"; "GRADUATION_DATE"; "Minor Course of Study 1";
         "Minor Course of Study 2"; "Minor Course of Study 3";
         "Minor Course of Study 4" ]
  /\ map (fun r => map (cell r)
                     (columns (frame_of (minor_data Examples.five_minors))))
       (data (frame_of (minor_data Examples.five_minors)))
     = [ [ VStr "P1"; VStr "20230513"; VStr "Art"; VStr "Biology";
           VStr "Chemistry"; VStr "Drama" ] ].
Proof. repeat split; vm_compute; reflexivity. Qed.

(** C6, amended.  [minor_data] returns on a well-formed degree table.
    The minors are taken from the rows of the table with the degree code
    MINOR, one for each student, graduation date and curriculum, in
    ascending order of student and graduation date, the minors of one
    student and date in the order of the table.  They are ranked per
    student over all of the student's graduation dates: the rank of a
    minor is its place among the student's minors in that order.  The
    minors with rank 1 to 4 are kept, so a student has as many reported
    minors as minors, up to four; each kept minor is found in the pivot
    table in the row of its student and graduation date under Minor
    Course of Study <rank>, and the minor columns hold nothing else but
    blanks. *)
Theorem minor_ranked_per_student df_td :
  (well_formed_degrees df_td -> exists out, minor_data df_td = Ok out)
  /\ forall out,
  minor_data df_td = Ok out ->
  exists ms long,
    minor_rows df_td = Ok ms
    /\ minor_long df_td = Ok long
    /\ ascending (key_leb ["PEOPLE_CODE_ID"; "GRADUATION_DATE"]) (data ms)
    /\ (forall m, m ∈ data ms ->
          m ∈ data df_td /\ cell m "DEGREE" = VStr "MINOR")
    /\ (forall r, r ∈ data df_td -> cell r "DEGREE" = VStr "MINOR" ->
          exists m,
            m ∈ data ms
            /\ same_on
                 ["PEOPLE_CODE_ID"; "GRADUATION_DATE"; "DEGREE"; "CURRICULUM"]
                 r m)
    /\ (forall p d,
          filter (fun m => cell m "PEOPLE_CODE_ID" = p
                           /\ cell m "GRADUATION_DATE" = d) (data ms)
          `sublist_of`
          filter (fun m => cell m "PEOPLE_CODE_ID" = p
                           /\ cell m "GRADUATION_DATE" = d) (data df_td))
    /\ data long
       = map (fun mk => ranked_minor mk.1 mk.2)
           (filter (fun mk => mk.2 <= 4)
              (with_positions ["PEOPLE_CODE_ID"] [] (data ms)))
    /\ (forall p,
          length (filter (fun r => cell r "PEOPLE_CODE_ID" = p) (data long))
          = Nat.min 4 (length (filter (fun m => cell m "PEOPLE_CODE_ID" = p)
                                 (data ms))))
    /\ Forall (fun r => exists k r',
         cell r "rank" = VInt k /\ 1 <= k <= 4
         /\ r' ∈ data out
         /\ cell r' "PEOPLE_CODE_ID" = cell r "PEOPLE_CODE_ID"
         /\ cell r' "GRADUATION_DATE" = cell r "GRADUATION_DATE"
         /\ cell r' ("Minor Course of Study " +:+ Py.str k)
            = if decide (cell r "FORMAL_TITLE" = VNaN) then VStr " "
              else cell r "FORMAL_TITLE") (data long)
    /\ Forall (fun r' => forall k,
         cell r' ("Minor Course of Study " +:+ Py.str k) = VNaN
         \/ cell r' ("Minor Course of Study " +:+ Py.str k) = VStr " "
         \/ exists r,
              r ∈ data long /\ cell r "rank" = VInt k
              /\ cell r' "PEOPLE_CODE_ID" = cell r "PEOPLE_CODE_ID"
              /\ cell r' "GRADUATION_DATE" = cell r "GRADUATION_DATE"
              /\ cell r' ("Minor Course of Study " +:+ Py.str k)
                 = cell r "FORMAL_TITLE") (data out).
Proof.
  split; [apply minor_data_returns|].
  intros out H. unfold minor_data in H.
  apply bind_Ok in H as (long & Hlong & H).
  pose proof Hlong as Hms. unfold minor_long in Hms.
  apply bind_Ok in Hms as (ms & Hms & _).
  exists ms, long. split; [assumption|]. split; [assumption|].
  destruct (minor_rows_ascending _ _ Hms) as (Hasc & Hminor & Hsub).
  destruct (minor_rows_from_table _ _ Hms) as [Hcover Horder].
  split; [exact Hasc|]. split.
  { intros m Hm. split; [now apply Hsub|].
    rewrite Forall_forall in Hminor. now apply Hminor. }
  split; [exact Hcover|]. split; [exact Horder|].
  pose proof (minor_long_rows _ _ _ Hms Hlong) as Hrows.
  split; [assumption|]. split.
  { intros p. now apply minor_long_count with (df_td := df_td). }
  assert (Hshape : Forall (fun r => exists m k,
            r = ranked_minor m k /\ 1 <= k <= 4) (data long)).
  { rewrite Hrows. apply Forall_forall. intros r Hr.
    apply list_elem_of_fmap in Hr as ([m k] & -> & Hmk).
    apply list_elem_of_filter in Hmk as [Hle Hmk]. simpl in Hle.
    apply with_positions_elem in Hmk as [_ Hge]. exists m, k.
    split; [reflexivity | lia]. }
  assert (Hlabel : forall k,
            "Minor Course of Study " +:+ Py.str k
            ∉ ["PEOPLE_CODE_ID"; "GRADUATION_DATE"]).
  { intros k Hin.
    repeat (apply elem_of_cons in Hin as [Hin|Hin];
            [cbv [String.append] in Hin; discriminate Hin|]).
    now apply elem_of_nil in Hin. }
  assert (Hstr : Forall (fun x =>
            is_str (cell x "col") = true
            /\ astype_str (cell x "col")
               ∉ ["PEOPLE_CODE_ID"; "GRADUATION_DATE"]) (data long)).
  { eapply Forall_impl; [exact Hshape|]. intros r (m & k & -> & _).
    destruct (ranked_minor_cells m k) as (_ & -> & _). simpl.
    split; [reflexivity | apply Hlabel]. }
  rewrite Forall_forall in Hshape. split.
  - apply Forall_forall. intros r Hr.
    destruct (Hshape r Hr) as (m & k & Hrk & Hk).
    destruct (pivot_contains _ _ _ _ _ _ r H Hstr Hr)
      as (r' & Hr' & Hidx & Hcell).
    exists k, r'. subst r.
    destruct (ranked_minor_cells m k) as (Hrank & Hcol & _ & _).
    split; [assumption|]. split; [assumption|]. split; [assumption|].
    split; [apply Hidx; now left|]. split; [apply Hidx; right; now left|].
    rewrite Hcol in Hcell. exact Hcell.
  - apply Forall_forall. intros r' Hr' k.
    destruct (pivot_only _ _ _ _ _ _ r' _ H Hstr Hr' (Hlabel k))
      as [Hnan|[Hfill|(r & Hr & Hidx & Hcol & Hcell)]]; [now left | auto |].
    right. right. exists r. split; [assumption|].
    destruct (Hshape r Hr) as (m & k' & -> & _).
    destruct (ranked_minor_cells m k') as (Hrank & Hcol' & _ & _).
    rewrite Hcol' in Hcol. injection Hcol as Hcol.
    apply (inj (String.app _)), (inj Py.str) in Hcol. subst k'.
    split; [assumption|]. split; [apply Hidx; now left|].
    split; [apply Hidx; right; now left | assumption].
Qed.

Lemma five_minors_well_formed : well_formed_degrees Examples.five_minors.
Proof.
  split.
  - repeat (apply Forall_cons_2; [vm_compute; reflexivity|]).
    apply Forall_nil_2.
  - split; [apply (bool_decide_unpack _); vm_compute; exact I|]. simpl.
    repeat (apply Forall_cons_2;
            [intros _; repeat split; vm_compute; reflexivity|]).
    apply Forall_nil_2.
Qed.

Lemma minor_ranked_per_student_witness :
  well_formed_degrees Examples.five_minors
  /\ exists out ms long,
       minor_data Examples.five_minors = Ok out
       /\ minor_rows Examples.five_minors = Ok ms
       /\ minor_long Examples.five_minors = Ok long
       /\ ascending (key_leb ["PEOPLE_CODE_ID"; "GRADUATION_DATE"]) (data ms)
       /\ forall p,
            length (filter (fun r => cell r "PEOPLE_CODE_ID" = p) (data long))
            = Nat.min 4
                (length (filter (fun m => cell m "PEOPLE_CODE_ID" = p)
                           (data ms))).
Proof.
  split; [exact five_minors_well_formed|].
  destruct (minor_ranked_per_student Examples.five_minors) as [Hreturns Hrows].
  destruct (Hreturns five_minors_well_formed) as [out Hout].
  destruct (Hrows out Hout)
    as (ms & long & Hms & Hlong & Hasc & _ & _ & _ & _ & Hcount & _).
  exists out, ms, long. auto.
Defined.

(** * Properties of the attendance dates *)

Lemma reading_bind_Ok {db A B} (m : reading db A) (k : A -> reading db B)
    s a s1 :
  m s = (Ok a, s1) -> (m ≫= k) s = k a s1.
Proof. intros Hm. unfold mbind, reading_bind. now rewrite Hm. Qed.

Lemma reading_bind_Raise {db A B} (m : reading db A) (k : A -> reading db B)
    s e s1 :
  m s = (Raise e, s1) -> (m ≫= k) s = (Raise e, s1).
Proof. intros Hm. unfold mbind, reading_bind. now rewrite Hm. Qed.



(** C8, refuted as stated: a data source whose first ACADEMIC query
    fails, while every other query answers.  [academic_data] ends with the
    exception of the first query; the version that issues only the second
    query returns a frame. *)
Lemma academic_data_first_query_raises :
  Examples.first_query_fails
    "ACADEMIC" first_query_fields first_query_where tt
  = (Raise (OtherError "DatabaseError"), tt)
  /\ @academic_data Examples.plain_ops unit Examples.first_query_fails tt
     = (Raise (OtherError "DatabaseError"), tt)
  /\ is_ok (@academic_data_second_query_only Examples.plain_ops unit
              Examples.first_query_fails tt).1 = true
  /\ @academic_data Examples.plain_ops unit Examples.first_query_fails tt
     <> @academic_data_second_query_only Examples.plain_ops unit
          Examples.first_query_fails tt.
Proof.
  assert (Hok : is_ok (@academic_data_second_query_only Examples.plain_ops
                         unit Examples.first_query_fails tt).1 = true)
    by (vm_compute; reflexivity).
  assert (Hraise : @academic_data Examples.plain_ops unit
                     Examples.first_query_fails tt
                   = (Raise (OtherError "DatabaseError"), tt))
    by (vm_compute; reflexivity).
  split; [vm_compute; reflexivity|]. split; [exact Hraise|].
  split; [exact Hok|]. intros Heq. rewrite <- Heq, Hraise in Hok.
  discriminate Hok.
Qed.

(** * Further properties of the fixed-width encoder *)

(** ** A row that cannot be encoded *)

Lemma write_rows_stops df specs pre bad post f lw :
  consistent specs ->
  Forall (fun row => row_complete df row specs) pre ->
  ~ row_complete df bad specs ->
  exists e,
    write_rows df (pre ++ bad :: post) specs f lw
    = (Raise e, f ++ chunks (map (fun row => row_text row specs) pre)).
Proof.
  intros Hc Hpre Hbad.
  destruct (encode_fields_incomplete df bad specs "" Hc Hbad) as [e He].
  exists e. revert f lw.
  induction Hpre as [|row pre Hrow _ IH]; intros f lw; simpl.
  - now rewrite He, app_nil_r.
  - rewrite (encode_fields_complete _ _ _ _ Hc Hrow), string_app_empty_l, IH.
    now rewrite <- app_assoc.
Qed.

(** X1. With a consistent specification, [write_fw] raises at the first
    row that lacks a specified column or holds something else than a
    string in one; the lines of the rows before it are in the file by
    then, and no later row is written. *)
Theorem write_fw_stops_at_bad_row fs fpath f_mode df specs pre bad post :
  consistent specs ->
  data df = pre ++ bad :: post ->
  Forall (fun row => row_complete df row specs) pre ->
  ~ row_complete df bad specs ->
  exists e,
    write_fw fs fpath f_mode df specs
    = (Raise e,
       <[fpath := open_file fs fpath f_mode
                  ++ chunks (map (fun row => row_text row specs) pre)]> fs).
Proof.
  intros Hc Hdata Hpre Hbad. unfold write_fw. rewrite Hdata.
  destruct (write_rows_stops df specs pre bad post
              (open_file fs fpath f_mode) 0 Hc Hpre Hbad) as [e ->].
  eauto.
Qed.

Lemma dd1_row_complete cols :
  (forall c, c ∈ dv_col_def.*1 ->
             has_column {| columns := cols; data := [] |} c = true) ->
  forall rows,
    row_complete {| columns := cols; data := rows |} Examples.dd1_row
      dv_col_def.
Proof.
  intros Hcols rows. apply Forall_forall. intros f Hf Hfill. split.
  - apply has_column_true. simpl.
    apply (has_column_true {| columns := cols; data := [] |}), Hcols.
    apply list_elem_of_fmap. eauto.
  - revert Hfill.
    repeat (apply elem_of_cons in Hf as [->|Hf];
            [intros Hfill; try discriminate Hfill; eexists; vm_compute;
             reflexivity|]).
    now apply elem_of_nil in Hf.
Qed.

Lemma dv_col_def_columns c :
  c ∈ dv_col_def.*1 ->
  has_column {| columns := dv_col_def.*1; data := [] |} c = true.
Proof. intros H. now apply has_column_true. Qed.

Lemma dd1_row_nan_incomplete :
  ~ row_complete MoreExamples.three_records MoreExamples.dd1_row_nan
      dv_col_def.
Proof.
  intros H. unfold row_complete in H. rewrite Forall_forall in H.
  destruct (H ("Degree Level Indicator", (1, 305, 305))) as (_ & s & Hs).
  - apply (bool_decide_unpack _). vm_compute. exact I.
  - reflexivity.
  - vm_compute in Hs. discriminate Hs.
Qed.

Lemma write_fw_stops_at_bad_row_witness :
  (consistent dv_col_def
   /\ data MoreExamples.three_records
      = [Examples.dd1_row] ++ MoreExamples.dd1_row_nan :: [Examples.dd1_row]
   /\ Forall (fun row => row_complete MoreExamples.three_records row
                           dv_col_def) [Examples.dd1_row]
   /\ ~ row_complete MoreExamples.three_records MoreExamples.dd1_row_nan
          dv_col_def)
  /\ exists e,
       write_fw ∅ "out.txt" mode_a MoreExamples.three_records dv_col_def
       = (Raise e,
          <["out.txt" := open_file ∅ "out.txt" mode_a
                         ++ chunks (map (fun row => row_text row dv_col_def)
                                      [Examples.dd1_row])]> ∅).
Proof.
  assert (H1 : consistent dv_col_def) by apply dv_col_def_layout.
  assert (H3 : Forall (fun row => row_complete MoreExamples.three_records row
                                    dv_col_def) [Examples.dd1_row]).
  { constructor; [|constructor].
    apply (dd1_row_complete _ dv_col_def_columns). }
  split; [repeat split; auto using dd1_row_nan_incomplete|].
  exact (write_fw_stops_at_bad_row ∅ "out.txt" mode_a
           MoreExamples.three_records dv_col_def [Examples.dd1_row]
           MoreExamples.dd1_row_nan [Examples.dd1_row] H1 eq_refl H3
           dd1_row_nan_incomplete).
Defined.

(** ** The exceptions of [write_fw] *)

Lemma encode_fields_Raised df row specs line e :
  encode_fields df row specs line = Raised e ->
  exists c,
    c ∈ specs.*1 /\ is_filler c = false
    /\ (e = KeyError c /\ has_column df c = false
        \/ e = TypeError /\ has_column df c = true
           /\ is_str (cell row c) = false).
Proof.
  revert line. induction specs as [|[c [[w st] en]] rest IH]; intros line H;
    [discriminate|].
  simpl in H.
  assert (Hrest : forall line',
            encode_fields df row rest line' = Raised e ->
            exists c0,
              c0 ∈ ((c, (w, st, en)) :: rest).*1 /\ is_filler c0 = false
              /\ (e = KeyError c0 /\ has_column df c0 = false
                  \/ e = TypeError /\ has_column df c0 = true
                     /\ is_str (cell row c0) = false)).
  { intros line' H'. destruct (IH _ H') as (c0 & Hin & Hrest).
    exists c0. split; [now right | exact Hrest]. }
  destruct (is_filler c) eqn:Hf.
  - destruct (negb _); [discriminate | eauto].
  - unfold getitem in H. destruct (has_column df c) eqn:Hcol.
    + destruct (negb _); [discriminate|].
      destruct (cell row c) as [s| |] eqn:Hcell; [eauto| |];
        injection H as <-; exists c; (split; [now left|]);
        (split; [exact Hf|]); right; rewrite Hcell; auto.
    + injection H as <-. exists c. split; [now left|]. auto.
Qed.

Lemma write_rows_Raise df rows specs f lw e f' :
  write_rows df rows specs f lw = (Raise e, f') ->
  exists row line, row ∈ rows /\ encode_fields df row specs line = Raised e.
Proof.
  revert f lw. induction rows as [|row rest IH]; intros f lw H; simpl in H;
    [discriminate|].
  destruct (encode_fields df row specs "") as [line| |e0] eqn:Henc.
  - destruct (IH _ _ H) as (row' & line' & Hin & Hrow).
    exists row', line'. split; [now right | exact Hrow].
  - discriminate.
  - injection H as -> _. exists row, "". split; [now left | exact Henc].
Qed.

(** X2. Whatever the specification, an exception of [write_fw] has one of
    two causes in a field that is not a filler: [KeyError] with the name of
    the field, when the frame has rows but no such column, or [TypeError],
    when a row holds something else than a string in that column.  The
    call raises nothing else. *)
Theorem write_fw_exception_cause fs fpath f_mode df specs e fs' :
  write_fw fs fpath f_mode df specs = (Raise e, fs') ->
  exists row c,
    row ∈ data df /\ c ∈ specs.*1 /\ is_filler c = false
    /\ (e = KeyError c /\ has_column df c = false
        \/ e = TypeError /\ has_column df c = true
           /\ is_str (cell row c) = false).
Proof.
  unfold write_fw. intros H.
  destruct (write_rows df (data df) specs (open_file fs fpath f_mode) 0)
    as [r f] eqn:Hrows.
  injection H as -> _.
  apply write_rows_Raise in Hrows as (row & line & Hin & Henc).
  apply encode_fields_Raised in Henc as (c & Hc & Hf & Hcause).
  exists row, c. auto.
Qed.

Lemma nan_frame_raises :
  write_fw ∅ "out.txt" mode_a Examples.nan_frame Examples.level_specs
  = (Raise TypeError, {[ "out.txt" := [] ]}).
Proof. vm_compute. reflexivity. Qed.

Lemma write_fw_exception_cause_witness :
  write_fw ∅ "out.txt" mode_a Examples.nan_frame Examples.level_specs
  = (Raise TypeError, {[ "out.txt" := [] ]})
  /\ exists row c,
       row ∈ data Examples.nan_frame /\ c ∈ Examples.level_specs.*1
       /\ is_filler c = false
       /\ (TypeError = KeyError c /\ has_column Examples.nan_frame c = false
           \/ TypeError = TypeError /\ has_column Examples.nan_frame c = true
              /\ is_str (cell row c) = false).
Proof.
  split; [exact nan_frame_raises|].
  exact (write_fw_exception_cause ∅ "out.txt" mode_a Examples.nan_frame
           Examples.level_specs TypeError _ nan_frame_raises).
Defined.

(** ** What [write_fw] reads *)

Lemma encode_fields_same df1 df2 r1 r2 specs line :
  Forall (fun f => is_filler (field_name f) = false ->
                   has_column df1 (field_name f) = has_column df2 (field_name f))
    specs ->
  Forall (fun f => is_filler (field_name f) = false ->
                   cell r1 (field_name f) = cell r2 (field_name f)) specs ->
  encode_fields df1 r1 specs line = encode_fields df2 r2 specs line.
Proof.
  intros Hcols Hcells. revert line.
  induction specs as [|[c [[w st] en]] rest IH]; intros line; [reflexivity|].
  apply Forall_cons in Hcols as [Hcol Hcols].
  apply Forall_cons in Hcells as [Hcell Hcells].
  unfold field_name in Hcol, Hcell. simpl in Hcol, Hcell.
  simpl. destruct (is_filler c) eqn:Hf.
  - destruct (negb _); [reflexivity | now apply IH].
  - unfold getitem. rewrite (Hcol eq_refl), (Hcell eq_refl).
    destruct (has_column df2 c); [|reflexivity].
    destruct (negb _); [reflexivity|].
    destruct (cell r2 c); [now apply IH | reflexivity | reflexivity].
Qed.

Lemma write_rows_same df1 df2 rows1 rows2 specs f lw :
  Forall (fun f => is_filler (field_name f) = false ->
                   has_column df1 (field_name f) = has_column df2 (field_name f))
    specs ->
  Forall2 (fun r1 r2 =>
    Forall (fun f => is_filler (field_name f) = false ->
                     cell r1 (field_name f) = cell r2 (field_name f)) specs)
    rows1 rows2 ->
  write_rows df1 rows1 specs f lw = write_rows df2 rows2 specs f lw.
Proof.
  intros Hcols Hrows. revert f lw.
  induction Hrows as [|r1 r2 rows1 rows2 Hr _ IH]; intros f lw;
    [reflexivity|].
  simpl. rewrite (encode_fields_same df1 df2 r1 r2 specs "" Hcols Hr).
  destruct (encode_fields df2 r2 specs ""); [apply IH | reflexivity..].
Qed.

(** X3. [write_fw] reads of the frame only the columns named by fields
    that are not fillers: two frames with as many rows that have the same
    of these columns, with the same cells, give the same return value (or
    exception) and the same file.  Columns under a filler name, columns
    outside the specification and the order of the columns do not
    matter. *)
Theorem write_fw_reads_specified_fields fs fpath f_mode df1 df2 specs :
  same_fields specs df1 df2 ->
  write_fw fs fpath f_mode df1 specs = write_fw fs fpath f_mode df2 specs.
Proof.
  intros [Hcols Hrows]. unfold write_fw.
  now rewrite (write_rows_same df1 df2 _ _ specs _ 0 Hcols Hrows).
Qed.

Lemma dd1_frame_noise_same_fields :
  same_fields dv_col_def Examples.dd1_frame MoreExamples.dd1_frame_noise.
Proof.
  split.
  - apply Forall_forall. intros f Hf.
    repeat (apply elem_of_cons in Hf as [->|Hf];
            [intros Hfill; try discriminate Hfill; vm_compute; reflexivity|]).
    now apply elem_of_nil in Hf.
  - constructor; [|constructor]. apply Forall_forall. intros f Hf.
    repeat (apply elem_of_cons in Hf as [->|Hf];
            [intros Hfill; try discriminate Hfill; vm_compute; reflexivity|]).
    now apply elem_of_nil in Hf.
Qed.

Lemma write_fw_reads_specified_fields_witness :
  same_fields dv_col_def Examples.dd1_frame MoreExamples.dd1_frame_noise
  /\ write_fw ∅ "out.txt" mode_a Examples.dd1_frame dv_col_def
     = write_fw ∅ "out.txt" mode_a MoreExamples.dd1_frame_noise dv_col_def.
Proof.
  split; [exact dd1_frame_noise_same_fields|].
  exact (write_fw_reads_specified_fields ∅ "out.txt" mode_a Examples.dd1_frame
           MoreExamples.dd1_frame_noise dv_col_def
           dd1_frame_noise_same_fields).
Defined.

(** ** Where a field is in its line *)

Lemma substring_prefix_app (b c : string) :
  String.substring 0 (String.length b) (b +:+ c) = b.
Proof.
  induction b as [|x b IH].
  - now destruct c.
  - rewrite string_app_cons. simpl. now rewrite IH.
Qed.

Lemma substring_app_middle (a b c : string) :
  String.substring (String.length a) (String.length b) (a +:+ b +:+ c) = b.
Proof.
  induction a as [|x a IH].
  - rewrite string_app_empty_l. apply substring_prefix_app.
  - rewrite string_app_cons. simpl. exact IH.
Qed.

Lemma len_field_text c s w : 0 <= w -> Py.len (field_text c s w) = w.
Proof. intros Hw. unfold field_text. now apply len_fit. Qed.

Lemma row_text_positions row specs first p :
  contiguous first specs -> Py.len p = first - 1 ->
  Forall (fun f =>
    slice (p +:+ row_text row specs) (field_start f - 1) (field_end f)
    = field_text (field_name f) (cell_str (cell row (field_name f)))
        (field_width f)) specs.
Proof.
  revert first p. induction specs as [|[c [[w st] en]] rest IH];
    intros first p Hc Hp; [constructor|].
  simpl in Hc. destruct Hc as (-> & Hw & Hen & Hrest).
  constructor.
  - unfold field_start, field_end, field_name, field_width. simpl.
    unfold slice.
    replace (Z.to_nat (first - 1)) with (String.length p)
      by (unfold Py.len in Hp; lia).
    pose proof (len_field_text c (cell_str (cell row c)) w Hw) as Hlen.
    replace (Z.to_nat (en - (first - 1)))
      with (String.length (field_text c (cell_str (cell row c)) w))
      by (unfold Py.len in Hlen; lia).
    apply substring_app_middle.
  - simpl. rewrite <- string_app_assoc.
    apply (IH (en + 1)); [exact Hrest|].
    rewrite len_app, len_field_text by exact Hw. lia.
Qed.

Lemma contiguous_consistent first specs :
  contiguous first specs -> consistent specs.
Proof.
  revert first. induction specs as [|[c [[w st] en]] rest IH]; intros first H;
    [constructor|].
  simpl in H. destruct H as (_ & _ & Hen & Hrest).
  constructor; [exact Hen | eapply IH, Hrest].
Qed.

(** X4. The header, data and trailer schemas lay their fields out one
    after another from column 1, and for such a specification the start
    and end positions are where [write_fw] puts each field: in every line
    written, the characters from [start] to [end] (counted from 1) are the
    text of that field, and a call that returns has written every row. *)
Theorem write_fw_field_positions :
  (contiguous 1 dv_hdr_def /\ contiguous 1 dv_col_def
   /\ contiguous 1 dv_tlr_def)
  /\ forall fs fpath f_mode df specs r fs',
       contiguous 1 specs ->
       write_fw fs fpath f_mode df specs = (r, fs') ->
       exists written,
         written `prefix_of` data df
         /\ (forall n, r = Ok n -> written = data df)
         /\ fs' !! fpath
            = Some (open_file fs fpath f_mode
                    ++ chunks (map (fun row => row_text row specs) written))
         /\ Forall (fun row =>
              Forall (fun f =>
                slice (row_text row specs) (field_start f - 1) (field_end f)
                = field_text (field_name f)
                    (cell_str (cell row (field_name f))) (field_width f))
                specs) written.
Proof.
  split.
  - repeat split; vm_compute; intuition discriminate.
  - intros fs fpath f_mode df specs r fs' Hc H. unfold write_fw in H.
    destruct (write_rows df (data df) specs (open_file fs fpath f_mode) 0)
      as [r0 f] eqn:Hrows.
    injection H as <- <-.
    apply write_rows_consistent in Hrows as (written & Hpre & _ & -> & Hr);
      [|eapply contiguous_consistent, Hc].
    exists written. split; [exact Hpre|]. split; [|split].
    + intros n ->. apply Hr.
    + apply lookup_insert_eq.
    + apply Forall_forall. intros row _.
      apply (row_text_positions row specs 1 "" Hc). reflexivity.
Qed.

Lemma write_fw_field_positions_witness :
  contiguous 1 dv_col_def
  /\ exists written,
       written `prefix_of` data Examples.dd1_frame
       /\ Forall (fun row =>
            slice (row_text row dv_col_def) (13 - 1) 52
            = fit (cell_str (cell row "First Name")) 40) written.
Proof.
  destruct write_fw_field_positions as [(_ & Hcol & _) Hpos].
  split; [exact Hcol|].
  destruct (Hpos ∅ "out.txt" mode_a Examples.dd1_frame dv_col_def _ _ Hcol
              (surjective_pairing _))
    as (written & Hpre & _ & _ & Hall).
  exists written. split; [exact Hpre|].
  eapply Forall_impl; [exact Hall|]. intros row Hrow.
  apply Forall_cons in Hrow as [_ Hrow]. apply Forall_cons in Hrow as [_ Hrow].
  apply Forall_cons in Hrow as [Hrow _]. exact Hrow.
Defined.

(** ** The header section *)

Lemma header_text transmission_date degree_period :
  row_text (list_to_map (header_data transmission_date degree_period))
    dv_hdr_def
  = header_line transmission_date degree_period.
Proof. reflexivity. Qed.

Lemma len_header_line transmission_date degree_period :
  Py.len (header_line transmission_date degree_period) = 3840.
Proof.
  rewrite <- header_text. rewrite len_row_text; [reflexivity|].
  repeat constructor; vm_compute; discriminate.
Qed.

Lemma write_DV_header_returns fs out_fn transmission_date degree_period :
  write_DV_header fs out_fn transmission_date degree_period
  = (Ok 1,
     <[out_fn := [header_line transmission_date degree_period; Py.newline]]>
       fs).
Proof.
  unfold write_DV_header.
  rewrite (write_fw_complete _ _ _ _ _ dv_hdr_def_consistent
             (header_row_complete transmission_date degree_period)).
  cbn [single_row_frame data map length open_file chunks flat_map app].
  now rewrite header_text.
Qed.

(** X5. [write_DV_header] always returns 1, without an exception, and
    replaces whatever the file held by one line of 3840 characters: DH1,
    the school code 002795, the branch code 00, the school name on 80
    columns, 15 blanks, D, the transmission date cut or padded to 8
    characters, the degree period cut or padded to 80, and blanks. *)
Theorem write_DV_header_line fs out_fn transmission_date degree_period :
  write_DV_header fs out_fn transmission_date degree_period
  = (Ok 1,
     <[out_fn := [header_line transmission_date degree_period; Py.newline]]>
       fs)
  /\ Py.len (header_line transmission_date degree_period) = 3840.
Proof.
  split; [apply write_DV_header_returns | apply len_header_line].
Qed.

(** ** The whole file *)

Lemma main_header_written fs today_str today_ymd start_date_str end_date_str :
  write_DV_header fs (upload_file today_str) today_ymd
    ("Degree Completions " +:+ start_date_str +:+ " to " +:+ end_date_str)
  = (Ok 1,
     <[upload_file today_str :=
         chunks [main_header today_ymd start_date_str end_date_str]]> fs).
Proof. apply write_DV_header_returns. Qed.








Lemma sections_of_complete_frame
    fs today_str today_ymd start_date_str end_date_str df :
  Forall (fun row => row_complete df row dv_col_def) (data df) ->
  write_DV_sections fs today_str today_ymd start_date_str end_date_str df
  = (Ok 1,
     <[upload_file today_str :=
         chunks ([main_header today_ymd start_date_str end_date_str]
                 ++ map (fun row => row_text row dv_col_def) (data df)
                 ++ ["DT1" +:+ fit (Py.str (Z.of_nat (length (data df)) + 2)) 10
                     +:+ Py.spaces 3827])]> fs).
Proof.
  intros Hrows. unfold write_DV_sections. fold (upload_file today_str).
  rewrite main_header_written. unfold write_DV_data, write_DV_trailer.
  rewrite (write_fw_complete _ _ _ _ _ (proj1 dv_col_def_layout) Hrows).
  rewrite (write_fw_complete _ _ _ _ _ dv_tlr_def_consistent
             (trailer_row_complete _)).
  cbn [single_row_frame data map length].
  rewrite !insert_insert_eq. f_equal. f_equal.
  unfold open_file. rewrite !lookup_insert_eq. cbn [default from_option id].
  rewrite !chunks_app, <- app_assoc. reflexivity.
Qed.


(** [main] ends with the first exception of the steps before the text
    file, and then leaves the upload file alone: a date that does not
    parse or a failure of the reads, joins or the assembler leaves every
    file as it was, a failure of the spreadsheet write leaves them as that
    write did. *)
Lemma main_stops_early `{Runtime}
    fs today_str today_ymd start_date_str end_date_str :
  (forall e, datetime64 start_date_str = Raise e ->
     main fs today_str today_ymd start_date_str end_date_str = (Raise e, fs))
  /\ (forall start_date e,
        datetime64 start_date_str = Ok start_date ->
        datetime64 end_date_str = Raise e ->
        main fs today_str today_ymd start_date_str end_date_str
        = (Raise e, fs))
  /\ (forall start_date end_date e,
        datetime64 start_date_str = Ok start_date ->
        datetime64 end_date_str = Ok end_date ->
        merged_frame start_date end_date ≫= create_DV_df = Raise e ->
        main fs today_str today_ymd start_date_str end_date_str
        = (Raise e, fs))
  /\ (forall start_date end_date df e fs1,
        datetime64 start_date_str = Ok start_date ->
        datetime64 end_date_str = Ok end_date ->
        merged_frame start_date end_date ≫= create_DV_df = Ok df ->
        to_excel fs (spreadsheet_file today_str) "DV_file" df
        = (Raise e, fs1) ->
        main fs today_str today_ymd start_date_str end_date_str
        = (Raise e, fs1)).
Proof.
  unfold main, spreadsheet_file. repeat split.
  - now intros e ->.
  - now intros start_date e -> ->.
  - now intros start_date end_date e -> -> ->.
  - now intros start_date end_date df e fs1 -> -> -> ->.
Qed.


Lemma dd1_frame_complete :
  Forall (fun row => row_complete Examples.dd1_frame row dv_col_def)
    (data Examples.dd1_frame).
Proof.
  constructor; [|constructor]. apply (dd1_row_complete _ dv_col_def_columns).
Qed.





(** * Further properties of the record assembler *)

(** ** The three stages *)

Lemma create_DV_df_stages df out :
  create_DV_df df = Ok out ->
  exists d,
    derive_columns df = Ok d
    /\ finish_records
         (add_missing_columns unused_fields (VStr " ")
            (rename report_names d)) = Ok out.
Proof.
  intros H. unfold create_DV_df in H.
  apply bind_Ok in H as (d1 & H1 & H). apply bind_Ok in H as (d2 & H2 & H).
  apply bind_Ok in H as (d3 & H3 & H). apply bind_Ok in H as (d4 & H4 & H).
  apply bind_Ok in H as (d5 & H5 & H). apply bind_Ok in H as (d6 & H6 & H).
  apply bind_Ok in H as (d7 & H7 & H). apply bind_Ok in H as (d8 & H8 & H).
  apply bind_Ok in H as (d9 & H9 & H). apply bind_Ok in H as (d10 & H10 & H).
  apply bind_Ok in H as (d11 & H11 & H).
  exists d11. split; [|exact H].
  unfold derive_columns. cbv zeta.
  rewrite (bind_Ok_eq _ _ _ H1), (bind_Ok_eq _ _ _ H2), (bind_Ok_eq _ _ _ H3),
    (bind_Ok_eq _ _ _ H4), (bind_Ok_eq _ _ _ H5), (bind_Ok_eq _ _ _ H6),
    (bind_Ok_eq _ _ _ H7), (bind_Ok_eq _ _ _ H8), (bind_Ok_eq _ _ _ H9),
    (bind_Ok_eq _ _ _ H10).
  exact H11.
Qed.

Lemma has_column_ext df df' c :
  (c ∈ columns df' <-> c ∈ columns df) -> has_column df' c = has_column df c.
Proof. intros H. unfold has_column. now apply bool_decide_ext. Qed.

Lemma set_column_cols t v df c :
  c ∈ columns (set_column t v df) <-> c ∈ columns df \/ c = t.
Proof.
  unfold set_column. simpl. destruct (has_column df t) eqn:Ht.
  - apply has_column_true in Ht. split; [auto|]. now intros [?| ->].
  - rewrite elem_of_app, list_elem_of_singleton. reflexivity.
Qed.

Lemma loc_set_cols src test target v df df' c :
  loc_set src test target v df = Ok df' ->
  c ∈ columns df' <-> c ∈ columns df \/ c = target.
Proof.
  unfold loc_set. destruct (negb (has_column df src)); [discriminate|].
  destruct (negb (forallb _ _)); [discriminate|].
  destruct (has_column df target) eqn:Ht.
  - intros [= <-]. simpl. apply has_column_true in Ht.
    split; [auto|]. now intros [?| ->].
  - destruct (data df); [discriminate|]. intros [= <-]. simpl.
    rewrite elem_of_app, list_elem_of_singleton. reflexivity.
Qed.

Lemma loc_set_data src test target v df df' :
  loc_set src test target v df = Ok df' ->
  data df' = map (loc_set_row (has_column df target) src test target v)
               (data df).
Proof. intros H. now apply loc_set_Ok in H as (_ & _ & Hd & _). Qed.

Lemma loc_set_target src test target v df df' :
  loc_set src test target v df = Ok df' -> has_column df' target = true.
Proof. intros H. now apply loc_set_Ok in H as (_ & _ & _ & Ht & _). Qed.

Lemma loc_set_flag src test target v df df' c :
  loc_set src test target v df = Ok df' -> c <> target ->
  has_column df' c = has_column df c.
Proof.
  intros H Hne. apply has_column_ext. rewrite (loc_set_cols _ _ _ _ _ _ _ H).
  split; [now intros [?|?] | auto].
Qed.

Lemma set_column_flag t v df c :
  c <> t -> has_column (set_column t v df) c = has_column df c.
Proof.
  intros Hne. apply has_column_ext. rewrite set_column_cols.
  split; [now intros [?|?] | auto].
Qed.

(** ** The derived columns *)

Lemma derive_columns_rows df d :
  derive_columns df = Ok d ->
  data d
  = map (derive_row (has_column df "Degree Level Indicator")
           (has_column df "Academic Honors")
           (has_column df "Certificate Type")) (data df)
  /\ (forall c, c ∈ columns d <-> c ∈ columns df \/ c ∈ derived_labels).
Proof.
  intros H. unfold derive_columns in H. cbv zeta in H.
  apply bind_Ok in H as (d1 & H1 & H). apply bind_Ok in H as (d2 & H2 & H).
  apply bind_Ok in H as (d3 & H3 & H). apply bind_Ok in H as (d4 & H4 & H).
  apply bind_Ok in H as (d5 & H5 & H). apply bind_Ok in H as (d6 & H6 & H).
  apply bind_Ok in H as (d7 & H7 & H). apply bind_Ok in H as (d8 & H8 & H).
  apply bind_Ok in H as (d9 & H9 & H). apply bind_Ok in H as (d10 & H10 & H).
  split.
  - rewrite (loc_set_data _ _ _ _ _ _ H), set_column_has. simpl.
    rewrite (loc_set_data _ _ _ _ _ _ H10), set_column_has. simpl.
    rewrite (loc_set_data _ _ _ _ _ _ H9), (loc_set_data _ _ _ _ _ _ H8),
      (loc_set_data _ _ _ _ _ _ H7), (loc_set_data _ _ _ _ _ _ H6),
      (loc_set_data _ _ _ _ _ _ H5), (loc_set_data _ _ _ _ _ _ H4),
      (loc_set_data _ _ _ _ _ _ H3), (loc_set_data _ _ _ _ _ _ H2),
      (loc_set_data _ _ _ _ _ _ H1).
    rewrite (loc_set_target _ _ _ _ _ _ H7), (loc_set_target _ _ _ _ _ _ H6),
      (loc_set_target _ _ _ _ _ _ H4), (loc_set_target _ _ _ _ _ _ H3),
      (loc_set_target _ _ _ _ _ _ H2), (loc_set_target _ _ _ _ _ _ H1).
    rewrite (loc_set_flag _ _ _ _ _ _ "Certificate Type" H8),
      (loc_set_flag _ _ _ _ _ _ "Certificate Type" H7),
      (loc_set_flag _ _ _ _ _ _ "Certificate Type" H6),
      (loc_set_flag _ _ _ _ _ _ "Certificate Type" H5),
      (loc_set_flag _ _ _ _ _ _ "Certificate Type" H4),
      (loc_set_flag _ _ _ _ _ _ "Certificate Type" H3),
      (loc_set_flag _ _ _ _ _ _ "Certificate Type" H2),
      (loc_set_flag _ _ _ _ _ _ "Certificate Type" H1),
      (set_column_flag "Record Type" _ _ "Certificate Type")
      by discriminate.
    rewrite (loc_set_flag _ _ _ _ _ _ "Academic Honors" H5),
      (loc_set_flag _ _ _ _ _ _ "Academic Honors" H4),
      (loc_set_flag _ _ _ _ _ _ "Academic Honors" H3),
      (loc_set_flag _ _ _ _ _ _ "Academic Honors" H2),
      (loc_set_flag _ _ _ _ _ _ "Academic Honors" H1),
      (set_column_flag "Record Type" _ _ "Academic Honors")
      by discriminate.
    rewrite (set_column_flag "Record Type" _ _ "Degree Level Indicator")
      by discriminate.
    simpl. rewrite !map_map. reflexivity.
  - intros c.
    rewrite (loc_set_cols _ _ _ _ _ _ _ H), set_column_cols,
      (loc_set_cols _ _ _ _ _ _ _ H10), set_column_cols,
      (loc_set_cols _ _ _ _ _ _ _ H9), (loc_set_cols _ _ _ _ _ _ _ H8),
      (loc_set_cols _ _ _ _ _ _ _ H7), (loc_set_cols _ _ _ _ _ _ _ H6),
      (loc_set_cols _ _ _ _ _ _ _ H5), (loc_set_cols _ _ _ _ _ _ _ H4),
      (loc_set_cols _ _ _ _ _ _ _ H3), (loc_set_cols _ _ _ _ _ _ _ H2),
      (loc_set_cols _ _ _ _ _ _ _ H1), set_column_cols.
    unfold derived_labels. rewrite !elem_of_cons, elem_of_nil. tauto.
Qed.

Lemma loc_set_row_other b src test target v r c :
  c <> target -> cell (loc_set_row b src test target v r) c = cell r c.
Proof.
  intros Hne. apply loc_set_row_keeps. intros Hin.
  apply list_elem_of_singleton in Hin. contradiction.
Qed.

(** The cell of a row after assignments to literal labels. *)
Ltac row_cells :=
  repeat first [ rewrite loc_set_row_target
               | rewrite loc_set_row_other by discriminate
               | rewrite cell_insert_eq
               | rewrite cell_insert_ne by discriminate ].

(** Membership of a string in a list of literals, decided. *)
Ltac split_labels :=
  repeat match goal with
         | H : _ ∈ _ :: _ |- _ =>
             apply elem_of_cons in H as [H|H]; [try discriminate H; subst|]
         | H : _ ∈ [] |- _ => apply elem_of_nil in H; contradiction
         | H : ?x ∉ _ |- _ =>
             exfalso; apply H; apply (bool_decide_unpack _); vm_compute;
             exact I
         end.

(** A hypothesis denies an equation of a term with itself. *)
Ltac absurd_ne :=
  exfalso; match goal with H : ?x <> ?x |- _ => apply H; reflexivity end.

(** The cases of a table over literal codes. *)
Ltac table_cases :=
  repeat case_bool_decide; repeat case_decide; simplify_eq; split_labels;
  try reflexivity; try discriminate; try congruence; try absurd_ne.

Lemma derive_row_keeps b1 b2 b3 r :
  keeps derived_labels r (derive_row b1 b2 b3 r).
Proof.
  intros c Hc. unfold derive_row. cbv zeta.
  repeat first [rewrite loc_set_row_other | rewrite cell_insert_ne];
    try reflexivity;
    intros Heq; subst c; apply Hc; apply (bool_decide_unpack _); vm_compute;
    exact I.
Qed.

Lemma derive_row_record_type b1 b2 b3 r :
  cell (derive_row b1 b2 b3 r) "Record Type" = VStr "DD1".
Proof. unfold derive_row. cbv zeta. row_cells. reflexivity. Qed.

Lemma derive_row_level b2 b3 r :
  cell (derive_row false b2 b3 r) "Degree Level Indicator"
  = level_of (cell r "DEGREE").
Proof.
  unfold derive_row. cbv zeta. row_cells. unfold level_of.
  destruct (cell r "DEGREE") as [d| |]; simpl; try reflexivity.
  repeat case_bool_decide; try reflexivity; split_labels.
Qed.

Lemma derive_row_honors b1 b3 r :
  or_else (VStr " ") (cell (derive_row b1 false b3 r) "Academic Honors")
  = VStr (honors_of (cell r "HONORS")).
Proof.
  unfold derive_row. cbv zeta. row_cells. unfold honors_of, or_else.
  destruct (cell r "HONORS") as [h| |]; simpl; try reflexivity.
  table_cases.
Qed.

Lemma derive_row_certificate b1 b2 r :
  or_else (VStr " ") (cell (derive_row b1 b2 false r) "Certificate Type")
  = VStr (certificate_of (cell r "DEGREE")).
Proof.
  unfold derive_row. cbv zeta. row_cells. unfold certificate_of, or_else.
  destruct (cell r "DEGREE") as [d| |]; simpl; try reflexivity.
  table_cases.
Qed.

Lemma derive_row_ferpa b1 b2 b3 r :
  cell (derive_row b1 b2 b3 r) "FERPA Block"
  = VStr (ferpa_of (cell r "RELEASE_INFO")).
Proof.
  unfold derive_row. cbv zeta. row_cells. unfold ferpa_of.
  destruct (cell r "RELEASE_INFO") as [d| |]; simpl; try reflexivity.
  table_cases.
Qed.

Lemma derive_row_financial_block b1 b2 b3 r :
  cell (derive_row b1 b2 b3 r) "School Financial Block"
  = VStr (financial_block_of (cell r "STOP_REASON")).
Proof.
  unfold derive_row. cbv zeta. row_cells. unfold financial_block_of.
  destruct (cell r "STOP_REASON") as [d| |]; simpl; try reflexivity.
  now destruct (bool_decide _).
Qed.

(** ** The report names and the unused fields *)

Lemma rename_column_cols o n df c :
  c ∈ columns (rename_column o n df)
  <-> (o ∈ columns df /\ c = n) \/ (c ∈ columns df /\ c <> o).
Proof.
  unfold rename_column. destruct (has_column df o) eqn:Ho.
  - apply has_column_true in Ho. simpl. rewrite list_elem_of_fmap. split.
    + intros (x & -> & Hx). destruct (decide (x = o)); [left|right]; auto.
    + intros [[_ ->]|[Hc Hne]].
      * exists o. rewrite decide_True by reflexivity. auto.
      * exists c. rewrite decide_False by assumption. auto.
  - apply has_column_false in Ho. split.
    + intros Hc. right. split; [assumption|]. intros ->. contradiction.
    + intros [[? _]|[? _]]; [contradiction | assumption].
Qed.

Lemma rename_cols mapping df c :
  NoDup mapping.*1 -> Forall (fun x => x ∉ mapping.*1) mapping.*2 ->
  c ∉ mapping.*1 ->
  c ∈ columns (rename mapping df)
  <-> c ∈ columns df \/ exists old, (old, c) ∈ mapping /\ old ∈ columns df.
Proof.
  revert df. induction mapping as [|[o n] m IH]; intros df Ho Hd Hc.
  - simpl. split; [auto|]. intros [?|(old & Hin & _)]; [assumption|].
    now apply elem_of_nil in Hin.
  - simpl in Ho, Hd, Hc. apply NoDup_cons in Ho as [Ho Ho'].
    apply Forall_cons in Hd as [Hn Hd].
    apply not_elem_of_cons in Hc as [Hco Hc].
    change (rename ((o, n) :: m) df) with (rename m (rename_column o n df)).
    rewrite IH; [|assumption| |assumption].
    2: { eapply Forall_impl; [exact Hd|]. intros x Hx Hin. apply Hx.
         now right. }
    rewrite rename_column_cols. split.
    + intros [[[Hin ->]|[Hin _]]|(old & Hold & Hin)].
      * right. exists o. split; [now left | assumption].
      * now left.
      * apply rename_column_cols in Hin as [[_ ->]|[Hin _]].
        -- exfalso. apply Hn. right. apply list_elem_of_fmap.
           exists (n, c). auto.
        -- right. exists old. split; [now right | assumption].
    + intros [Hin|(old & Hold & Hin)]; [left; right; auto|].
      apply elem_of_cons in Hold as [[= -> ->]|Hold]; [left; left; auto|].
      right. exists old. split; [assumption|].
      apply rename_column_cols. right. split; [assumption|].
      intros ->. apply Ho. apply list_elem_of_fmap. exists (o, c). auto.
Qed.

Lemma add_missing_columns_spec fields v df :
  exists f,
    data (add_missing_columns fields v df) = map f (data df)
    /\ (forall r c, c ∈ columns df -> cell (f r) c = cell r c)
    /\ (forall r c, c ∈ fields -> c ∉ columns df -> cell (f r) c = v)
    /\ (forall r c, c ∉ fields -> cell (f r) c = cell r c)
    /\ (forall c, c ∈ columns (add_missing_columns fields v df)
                  <-> c ∈ columns df \/ c ∈ fields).
Proof.
  unfold add_missing_columns. revert df.
  induction fields as [|c0 fields IH]; intros df; simpl.
  - exists id. rewrite map_id. repeat split; auto.
    + intros r c Hc. now apply elem_of_nil in Hc.
    + intros [?|Hc]; [assumption | now apply elem_of_nil in Hc].
  - destruct (has_column df c0) eqn:Hc0.
    + apply has_column_true in Hc0.
      destruct (IH df) as (f & Hd & Hold & Hnew & Hout & Hcols).
      exists f. split; [exact Hd|]. split; [exact Hold|]. split; [|split].
      * intros r c Hc Hnc. apply Hnew; [|exact Hnc].
        apply elem_of_cons in Hc as [->|Hc]; [contradiction | exact Hc].
      * intros r c Hc. apply Hout. intros Hin. apply Hc. now right.
      * intros c. rewrite Hcols, elem_of_cons. split; [tauto|].
        intros [?|[->|?]]; auto.
    + apply has_column_false in Hc0.
      destruct (IH (set_column c0 v df)) as (f & Hd & Hold & Hnew & Hout & Hcols).
      exists (fun r => f (<[c0 := v]> r)). split; [|split; [|split; [|split]]].
      * rewrite Hd. simpl. now rewrite map_map.
      * intros r c Hc. rewrite Hold by (apply set_column_cols; auto).
        apply cell_insert_ne. intros ->. contradiction.
      * intros r c Hc Hnc. destruct (decide (c = c0)) as [->|Hne].
        -- rewrite Hold by (apply set_column_cols; auto).
           apply cell_insert_eq.
        -- apply Hnew.
           ++ apply elem_of_cons in Hc as [->|Hc]; [contradiction | exact Hc].
           ++ rewrite set_column_cols. intros [?|?]; contradiction.
      * intros r c Hc. apply not_elem_of_cons in Hc as [Hne Hc].
        rewrite Hout by exact Hc. apply cell_insert_ne. congruence.
      * intros c. rewrite Hcols, set_column_cols, elem_of_cons. tauto.
Qed.

Lemma or_else_idem v x : or_else v (or_else v x) = or_else v x.
Proof. unfold or_else. repeat case_decide; congruence. Qed.

Lemma fillna_row_cell cols v r c :
  cell (fillna_row cols v r) c
  = if bool_decide (c ∈ cols) then or_else v (cell r c) else cell r c.
Proof.
  induction cols as [|c0 cols IH]; [reflexivity|]. simpl.
  destruct (decide (c = c0)) as [->|Hne].
  - rewrite bool_decide_eq_true_2 by (now left).
    assert (Hinner : or_else v (cell (fillna_row cols v r) c0)
                     = or_else v (cell r c0)).
    { rewrite IH. case_bool_decide; [apply or_else_idem | reflexivity]. }
    rewrite <- Hinner. unfold or_else.
    destruct (decide (cell (fillna_row cols v r) c0 = VNaN));
      [apply cell_insert_eq | reflexivity].
  - assert (Hbool : bool_decide (c ∈ c0 :: cols) = bool_decide (c ∈ cols)).
    { apply bool_decide_ext. rewrite elem_of_cons. tauto. }
    rewrite Hbool, <- IH.
    destruct (decide _); [|reflexivity]. apply cell_insert_ne. congruence.
Qed.

(** ** The last stage *)

Lemma sort_values_data by_ df df' :
  sort_values by_ df = Ok df' ->
  data df' = stable_sort (key_leb by_) (data df) /\ columns df' = columns df.
Proof.
  unfold sort_values. destruct (filter _ by_); [|discriminate].
  destruct (_ && _); [discriminate|]. intros [= <-]. split; reflexivity.
Qed.

Lemma loc_set_same_columns c test v df df' :
  loc_set c test c v df = Ok df' ->
  columns df' = columns df
  /\ data df' = map (loc_set_row true c test c v) (data df)
  /\ Forall (fun r => is_Some (test (cell r c))) (data df).
Proof.
  intros H. pose proof H as H'.
  apply loc_set_Ok in H' as (Hsrc & Hall & Hd & _). rewrite Hsrc in Hd.
  split; [|auto]. unfold loc_set in H. rewrite Hsrc in H. simpl in H.
  destruct (forallb _ _); [|discriminate]. simpl in H. now injection H as <-.
Qed.

Lemma finish_records_rows df out :
  finish_records df = Ok out ->
  let kept :=
    filter (fun r => cell r "Student SSN" <> VNaN)
      (map (fillna_row fill_list (VStr " ")) (data df)) in
  data out
  = stable_sort (key_leb ["Student SSN"; awarded]) (map relabel_row kept)
  /\ columns out = columns df
  /\ Forall (fun r => is_str (cell r "Student SSN") = true) kept.
Proof.
  intros H kept. unfold finish_records in H.
  apply bind_Ok in H as (d1 & H1 & H). apply bind_Ok in H as (d2 & H2 & H).
  apply bind_Ok in H as (d3 & H3 & H). apply bind_Ok in H as (d4 & H4 & H).
  apply bind_Ok in H as (d5 & H5 & H). apply bind_Ok in H as (d6 & H6 & H).
  apply fillna_Ok in H1 as [Hd1 Hc1].
  apply drop_missing_Ok in H2 as (_ & Hd2 & Hc2).
  apply loc_set_same_columns in H3 as (Hc3 & Hd3 & Hstr).
  apply loc_set_same_columns in H4 as (Hc4 & Hd4 & _).
  apply loc_set_same_columns in H5 as (Hc5 & Hd5 & _).
  apply loc_set_same_columns in H6 as (Hc6 & Hd6 & _).
  apply sort_values_data in H as [Hd Hc].
  assert (Hkept : data d2 = kept) by (now rewrite Hd2, Hd1).
  split; [|split].
  - rewrite Hd, Hd6, Hd5, Hd4, Hd3, Hkept, !map_map. reflexivity.
  - congruence.
  - rewrite <- Hkept. eapply Forall_impl; [exact Hstr|].
    intros r [b Hb]. destruct (cell r "Student SSN"); [reflexivity|..];
      discriminate Hb.
Qed.

Lemma relabel_row_keeps r :
  keeps ["Student SSN"; "First Name"] r (relabel_row r).
Proof.
  intros c Hc. unfold relabel_row. cbv zeta.
  rewrite !loc_set_row_other; [reflexivity|..];
    intros ->; apply Hc; apply (bool_decide_unpack _); vm_compute; exact I.
Qed.

Lemma relabel_row_first_name r :
  cell (relabel_row r) "First Name" = or_else (VStr "NFN") (cell r "First Name").
Proof.
  unfold relabel_row. cbv zeta. row_cells. unfold or_else.
  destruct (cell r "First Name"); simpl; table_cases.
Qed.

Lemma relabel_row_ssn r s :
  cell r "Student SSN" = VStr s ->
  cell (relabel_row r) "Student SSN" = VStr (normal_ssn s).
Proof.
  intros Hs. unfold relabel_row. cbv zeta.
  rewrite loc_set_row_other by discriminate.
  erewrite ssn_step_cell; [|erewrite ssn_step_cell;
                             [|erewrite ssn_step_cell; [|exact Hs]]];
    try reflexivity.
  f_equal. apply normal_ssn_steps.
Qed.

(** ** The assembled rows, cell by cell *)

(** A fact about literal labels, decided. *)
Ltac label_fact := apply (bool_decide_unpack _); vm_compute; exact I.

Lemma report_names_apart :
  Forall (fun p => (p.1 ∉ derived_labels) /\ (p.2 ∉ derived_labels))
    report_names.
Proof. label_fact. Qed.

Lemma unused_fields_apart :
  Forall (fun f => (f ∉ report_names.*1)
                   /\ (f <> "Certificate Type" -> f ∉ derived_labels))
    unused_fields.
Proof. label_fact. Qed.

Lemma derived_labels_apart :
  Forall (fun c => c ∉ report_names.*1) derived_labels.
Proof. label_fact. Qed.

Lemma assembled_rows df out :
  create_DV_df df = Ok out ->
  exists pre,
    data out
    = stable_sort (key_leb ["Student SSN"; awarded])
        (map relabel_row
           (filter (fun r => cell r "Student SSN" <> VNaN)
              (map pre (data df))))
    /\ (forall r, prepared df r (pre r))
    /\ Forall (fun r => is_str (cell r "Student SSN") = true)
         (filter (fun r => cell r "Student SSN" <> VNaN) (map pre (data df)))
    /\ (forall c,
          (c ∈ columns df /\ c ∉ report_names.*1) \/ c ∈ derived_labels
          \/ c ∈ unused_fields
          \/ (exists old, (old, c) ∈ report_names /\ old ∈ columns df) ->
          c ∈ columns out).
Proof.
  intros H. apply create_DV_df_stages in H as (d & Hd & Hfin).
  apply derive_columns_rows in Hd as [HdA HcA].
  set (fA := derive_row (has_column df "Degree Level Indicator")
               (has_column df "Academic Honors")
               (has_column df "Certificate Type")) in *.
  destruct report_names_distinct as (Ho & Hn & Hdis).
  destruct (rename_spec report_names d Ho Hn Hdis)
    as (fR & HdR & HkR & _ & HnR).
  pose proof (fun c => rename_cols report_names d c Ho Hdis) as HcR.
  destruct (add_missing_columns_spec unused_fields (VStr " ")
              (rename report_names d))
    as (fM & HdM & HMold & HMnew & HMout & HcM).
  apply finish_records_rows in Hfin. cbv zeta in Hfin.
  destruct Hfin as (Hout & Hcols & Hstr).
  rewrite HdM, HdR, HdA, !map_map in Hout, Hstr.
  set (pre := fun r => fillna_row fill_list (VStr " ") (fM (fR (fA r)))).
  assert (HfA : forall r c, c ∉ derived_labels -> cell (fA r) c = cell r c)
    by (intros r c Hc; now apply derive_row_keeps).
  assert (Hin_d : forall c, c ∈ columns df -> c ∈ columns d)
    by (intros c Hc; apply HcA; now left).
  exists pre. split; [exact Hout|]. split; [|split; [exact Hstr|]].
  - intros r. unfold prepared, pre.
    split; [|split; [|split; [|split; [|split; [|split; [|split;
      [|split; [|split]]]]]]]].
    + intros c Hc. apply not_elem_of_app in Hc as [H1 Hc].
      apply not_elem_of_app in Hc as [H2 Hc].
      apply not_elem_of_app in Hc as [H3 H4].
      rewrite fillna_row_keeps, HMout, HkR by assumption. now apply HfA.
    + rewrite fillna_row_cell, bool_decide_eq_false_2 by label_fact.
      rewrite HMout, HkR by label_fact. apply derive_row_record_type.
    + rewrite fillna_row_cell, bool_decide_eq_false_2 by label_fact.
      rewrite HMout, HkR by label_fact. apply derive_row_ferpa.
    + rewrite fillna_row_cell, bool_decide_eq_false_2 by label_fact.
      rewrite HMout, HkR by label_fact. apply derive_row_financial_block.
    + intros Hflag.
      rewrite fillna_row_cell, bool_decide_eq_false_2 by label_fact.
      rewrite HMout, HkR by label_fact. unfold fA. rewrite Hflag.
      apply derive_row_level.
    + intros Hflag.
      rewrite fillna_row_cell, bool_decide_eq_true_2 by label_fact.
      rewrite HMout, HkR by label_fact. unfold fA. rewrite Hflag.
      apply derive_row_honors.
    + intros Hflag.
      rewrite fillna_row_cell, bool_decide_eq_true_2 by label_fact.
      rewrite HMold, HkR; [| label_fact |].
      * unfold fA. rewrite Hflag. apply derive_row_certificate.
      * apply HcR; [label_fact|]. left. apply HcA. right. label_fact.
    + intros old new Hin Hhas. apply has_column_true in Hhas.
      pose proof report_names_apart as Hap. rewrite Forall_forall in Hap.
      destruct (Hap _ Hin) as [Hold _]. simpl in Hold.
      destruct (HnR old new Hin) as [Hnew Hcell];
        [apply has_column_true; auto|].
      rewrite fillna_row_cell, HMold, Hcell, HfA by
        (try assumption; now apply has_column_true).
      reflexivity.
    + intros f Hf Hnn Hct.
      pose proof unused_fields_apart as Hap. rewrite Forall_forall in Hap.
      destruct (Hap _ Hf) as [Hfo Hfd]. specialize (Hfd Hct).
      assert (Hren : f ∉ renamed_labels report_names)
        by (rewrite renamed_labels_elem; tauto).
      assert (Hcol : f ∈ columns (rename report_names d) <-> f ∈ columns df).
      { rewrite (HcR f Hfo), HcA. split; [|auto].
        intros [[?|?]|(old & Hin & _)]; [assumption|contradiction|].
        exfalso. apply Hnn. apply list_elem_of_fmap. exists (old, f). auto. }
      rewrite fillna_row_cell. destruct (has_column df f) eqn:Hhas.
      * apply has_column_true in Hhas.
        rewrite HMold, HkR, HfA by (try assumption; now apply Hcol).
        reflexivity.
      * apply has_column_false in Hhas.
        rewrite HMnew by (try assumption; now rewrite Hcol).
        now destruct (bool_decide _).
    + intros Hcip Hnces. apply has_column_false in Hcip, Hnces.
      rewrite fillna_row_cell, bool_decide_eq_true_2 by label_fact.
      rewrite HMnew; [reflexivity | label_fact |].
      intros Hcol. apply HcR in Hcol; [|label_fact].
      destruct Hcol as [Hcol|(old & Hin & Hold)].
      { apply HcA in Hcol as [?|Hder]; [contradiction|].
        revert Hder. label_fact. }
      apply HcA in Hold. unfold report_names in Hin.
      repeat (apply elem_of_cons in Hin as [Hin|Hin];
              [try discriminate Hin|]);
        [|now apply elem_of_nil in Hin].
      injection Hin as ->. destruct Hold as [?|Hder]; [contradiction|].
      revert Hder. label_fact.
  - intros c Hc. rewrite Hcols. apply HcM.
    destruct Hc as [[Hc Hno]|[Hc|[Hc|(old & Hin & Hold)]]].
    + left. apply HcR; [assumption|]. left. auto.
    + left. pose proof derived_labels_apart as Hap.
      rewrite Forall_forall in Hap. apply HcR; [now apply Hap|].
      left. apply HcA. now right.
    + now right.
    + left. apply HcR.
      * rewrite Forall_forall in Hdis. apply Hdis.
        apply list_elem_of_fmap. exists (old, c). auto.
      * right. exists old. split; [assumption | auto].
Qed.

Lemma assembled_elem df out r' :
  create_DV_df df = Ok out -> r' ∈ data out ->
  exists r p,
    r ∈ data df /\ prepared df r p
    /\ is_str (cell p "Student SSN") = true /\ r' = relabel_row p.
Proof.
  intros H Hr'. apply assembled_rows in H as (pre & Hout & Hpre & Hstr & _).
  rewrite Hout, stable_sort_perm in Hr'.
  apply list_elem_of_fmap in Hr' as (p & -> & Hp).
  rewrite Forall_forall in Hstr. pose proof (Hstr p Hp) as Hs.
  apply list_elem_of_filter in Hp as [_ Hp].
  apply list_elem_of_fmap in Hp as (r & -> & Hr).
  exists r, (pre r). auto.
Qed.

Lemma prepared_keeps df r p c :
  prepared df r p -> c ∉ assembler_labels -> cell p c = cell r c.
Proof.
  intros (Hk & _) Hc. apply Hk. unfold assembler_labels in Hc.
  rewrite !not_elem_of_app in Hc. rewrite !not_elem_of_app. tauto.
Qed.

Lemma relabel_row_other r c :
  c <> "Student SSN" -> c <> "First Name" ->
  cell (relabel_row r) c = cell r c.
Proof.
  intros H1 H2. apply relabel_row_keeps.
  rewrite !not_elem_of_cons. split; [auto|]. split; [auto|].
  apply not_elem_of_nil.
Qed.

Lemma assembled_keeps df r p :
  prepared df r p -> keeps assembler_labels r (relabel_row p).
Proof.
  intros Hp c Hc. rewrite relabel_row_other.
  - now apply (prepared_keeps df).
  - intros ->. apply Hc. label_fact.
  - intros ->. apply Hc. label_fact.
Qed.

Lemma merged_frame_returns :
  create_DV_df Examples.merged_frame
  = Ok (frame_of (create_DV_df Examples.merged_frame)).
Proof. apply is_ok_frame_of. vm_compute. reflexivity. Qed.

(** ** Properties of the assembled records *)

(** X8. Every assembled record has the record type DD1, a FERPA Block
    that is Y when the release code is NORL and N otherwise, and a School
    Financial Block that is Y when the stop reason is BURS, COLL or STAC
    and N otherwise (also when there is no stop). *)
Theorem assembled_flags df out :
  create_DV_df df = Ok out ->
  Forall (fun r' =>
    cell r' "Record Type" = VStr "DD1"
    /\ cell r' "FERPA Block" = VStr (ferpa_of (cell r' "RELEASE_INFO"))
    /\ cell r' "School Financial Block"
       = VStr (financial_block_of (cell r' "STOP_REASON"))) (data out).
Proof.
  intros H. apply Forall_forall. intros r' Hr'.
  destruct (assembled_elem _ _ _ H Hr') as (r & p & _ & Hp & _ & ->).
  rewrite !relabel_row_other by discriminate.
  rewrite (prepared_keeps df r p "RELEASE_INFO"),
    (prepared_keeps df r p "STOP_REASON") by (assumption || label_fact).
  destruct Hp as (_ & Hrt & Hferpa & Hsfb & _). auto.
Qed.

Lemma assembled_flags_witness :
  create_DV_df Examples.merged_frame
  = Ok (frame_of (create_DV_df Examples.merged_frame))
  /\ Forall (fun r' =>
       cell r' "Record Type" = VStr "DD1"
       /\ cell r' "FERPA Block" = VStr (ferpa_of (cell r' "RELEASE_INFO"))
       /\ cell r' "School Financial Block"
          = VStr (financial_block_of (cell r' "STOP_REASON")))
       (data (frame_of (create_DV_df Examples.merged_frame))).
Proof.
  split; [exact merged_frame_returns|].
  exact (assembled_flags Examples.merged_frame _ merged_frame_returns).
Defined.

(** X9. On a merged frame (which has neither column yet), Academic Honors
    is Cum Laude, Magna Cum Laude or Summa Cum Laude for the honors codes
    CUM, MAGNA and SUMMA and a blank otherwise, and Certificate Type is 2
    for the degree code CERTIF and a blank otherwise: unlike the degree
    level, these two are never left missing. *)
Theorem assembled_honors_and_certificate df out :
  has_column df "Academic Honors" = false ->
  has_column df "Certificate Type" = false ->
  create_DV_df df = Ok out ->
  Forall (fun r' =>
    cell r' "Academic Honors" = VStr (honors_of (cell r' "HONORS"))
    /\ cell r' "Certificate Type" = VStr (certificate_of (cell r' "DEGREE")))
    (data out).
Proof.
  intros Hah Hct H. apply Forall_forall. intros r' Hr'.
  destruct (assembled_elem _ _ _ H Hr') as (r & p & _ & Hp & _ & ->).
  rewrite !relabel_row_other by discriminate.
  rewrite (prepared_keeps df r p "HONORS"),
    (prepared_keeps df r p "DEGREE") by (assumption || label_fact).
  destruct Hp as (_ & _ & _ & _ & _ & Hhon & Hcert & _). auto.
Qed.

Lemma assembled_honors_and_certificate_witness :
  (has_column Examples.merged_frame "Academic Honors" = false
   /\ has_column Examples.merged_frame "Certificate Type" = false
   /\ create_DV_df Examples.merged_frame
      = Ok (frame_of (create_DV_df Examples.merged_frame)))
  /\ Forall (fun r' =>
       cell r' "Academic Honors" = VStr (honors_of (cell r' "HONORS"))
       /\ cell r' "Certificate Type"
          = VStr (certificate_of (cell r' "DEGREE")))
       (data (frame_of (create_DV_df Examples.merged_frame))).
Proof.
  split; [split; [reflexivity | split; [reflexivity
                                       | exact merged_frame_returns]]|].
  exact (assembled_honors_and_certificate Examples.merged_frame _ eq_refl
           eq_refl merged_frame_returns).
Defined.

Lemma reported_tail old new :
  (old, new) ∈ tail report_names ->
  new <> "Student SSN"
  /\ (new = "First Name" -> new ∉ fill_list).
Proof.
  intros Hin. unfold report_names in Hin. simpl in Hin.
  repeat (apply elem_of_cons in Hin as [[= -> ->]|Hin];
          [split; [discriminate
                  | intros Heq; first [discriminate Heq | label_fact]]|]).
  now apply elem_of_nil in Hin.
Qed.

(** X10. Each assembled record comes from a row of the merged frame, with
    the cells outside the report columns unchanged, and holds under each
    report name (the SSN apart) the cell of the column that is renamed to
    it: a missing first name becomes NFN, a missing attendance date or CIP
    code a blank, and every other cell is passed on as it is. *)
Theorem assembled_report_columns df out :
  Forall (fun c => has_column df c = false) report_names.*2 ->
  create_DV_df df = Ok out ->
  Forall (fun r' => exists r,
    r ∈ data df /\ keeps assembler_labels r r'
    /\ forall old new,
         (old, new) ∈ tail report_names -> has_column df old = true ->
         cell r' new = reported new (cell r old)) (data out).
Proof.
  intros _ H. apply Forall_forall. intros r' Hr'.
  destruct (assembled_elem _ _ _ H Hr') as (r & p & Hr & Hp & _ & ->).
  exists r. split; [exact Hr|]. split; [now apply (assembled_keeps df)|].
  intros old new Hin Hhas. destruct (reported_tail _ _ Hin) as [Hssn Hfn].
  destruct Hp as (_ & _ & _ & _ & _ & _ & _ & Hren & _).
  assert (Hin' : (old, new) ∈ report_names) by (now right).
  specialize (Hren old new Hin' Hhas). unfold reported.
  destruct (decide (new = "First Name")) as [Heq|Hne].
  - rewrite bool_decide_eq_false_2 in Hren by auto. subst new.
    now rewrite relabel_row_first_name, Hren.
  - now rewrite relabel_row_other, Hren by assumption.
Qed.

Lemma merged_frame_no_report_name :
  Forall (fun c => has_column Examples.merged_frame c = false)
    report_names.*2.
Proof. label_fact. Qed.

Lemma assembled_report_columns_witness :
  (Forall (fun c => has_column Examples.merged_frame c = false)
     report_names.*2
   /\ create_DV_df Examples.merged_frame
      = Ok (frame_of (create_DV_df Examples.merged_frame)))
  /\ Forall (fun r' => exists r,
       r ∈ data Examples.merged_frame /\ keeps assembler_labels r r'
       /\ forall old new,
            (old, new) ∈ tail report_names ->
            has_column Examples.merged_frame old = true ->
            cell r' new = reported new (cell r old))
       (data (frame_of (create_DV_df Examples.merged_frame))).
Proof.
  split; [split; [exact merged_frame_no_report_name
                 | exact merged_frame_returns]|].
  exact (assembled_report_columns Examples.merged_frame _
           merged_frame_no_report_name merged_frame_returns).
Defined.

Lemma unused_fields_plain f :
  f ∈ unused_fields ->
  f ∉ ["Certificate Type"; "NCES CIP Code for Major 1"] ->
  (f ∉ report_names.*2) /\ f <> "Certificate Type"
  /\ f <> "Student SSN" /\ f <> "First Name".
Proof.
  intros Hf Hno. rewrite !not_elem_of_cons in Hno.
  destruct Hno as (H1 & H2 & _).
  unfold unused_fields in Hf.
  repeat (apply elem_of_cons in Hf as [->|Hf];
          [first [contradiction
                 | split; [label_fact|]; repeat split; discriminate]|]).
  now apply elem_of_nil in Hf.
Qed.

(** X11. In every assembled record an unused field that the merged frame
    does not provide is a blank.  A field that it does provide (the minor
    columns, when some student has a minor) keeps the merged cell, with a
    blank in place of a missing value in the four minor columns. *)
Theorem assembled_unused_fields df out :
  create_DV_df df = Ok out ->
  Forall (fun r' => exists r,
    r ∈ data df /\ keeps assembler_labels r r'
    /\ forall f,
         f ∈ unused_fields ->
         f ∉ ["Certificate Type"; "NCES CIP Code for Major 1"] ->
         cell r' f
         = if has_column df f
           then (if bool_decide (f ∈ fill_list)
                 then or_else (VStr " ") (cell r f) else cell r f)
           else VStr " ") (data out).
Proof.
  intros H. apply Forall_forall. intros r' Hr'.
  destruct (assembled_elem _ _ _ H Hr') as (r & p & Hr & Hp & _ & ->).
  exists r. split; [exact Hr|]. split; [now apply (assembled_keeps df)|].
  intros f Hf Hno.
  destruct (unused_fields_plain f Hf Hno) as (Hnews & Hct & Hssn & Hfn).
  destruct Hp as (_ & _ & _ & _ & _ & _ & _ & _ & Hun & _).
  rewrite relabel_row_other by assumption. now apply Hun.
Qed.

Lemma assembled_unused_fields_witness :
  create_DV_df Examples.merged_frame
  = Ok (frame_of (create_DV_df Examples.merged_frame))
  /\ Forall (fun r' =>
       cell r' "Minor Course of Study 1" = VStr " "
       /\ cell r' "Honors Program" = VStr " ")
       (data (frame_of (create_DV_df Examples.merged_frame))).
Proof.
  split; [exact merged_frame_returns|].
  eapply Forall_impl;
    [exact (assembled_unused_fields Examples.merged_frame _
              merged_frame_returns)|].
  intros r' (r & _ & _ & Hun). split.
  - exact (Hun "Minor Course of Study 1" ltac:(label_fact) ltac:(label_fact)).
  - exact (Hun "Honors Program" ltac:(label_fact) ltac:(label_fact)).
Defined.

(** X12. The assembled records are in ascending order of Student SSN and,
    for one SSN, of the award date; the SSN compared is the reported one
    (NO SSN where the assembler has put it). *)
Theorem assembled_sorted df out :
  create_DV_df df = Ok out ->
  ascending (key_leb ["Student SSN"; awarded]) (data out).
Proof.
  intros H. apply assembled_rows in H as (pre & -> & _).
  apply stable_sort_ascending; [apply key_leb_total | apply key_leb_trans].
Qed.

Lemma assembled_sorted_witness :
  create_DV_df Examples.merged_frame
  = Ok (frame_of (create_DV_df Examples.merged_frame))
  /\ ascending (key_leb ["Student SSN"; awarded])
       (data (frame_of (create_DV_df Examples.merged_frame))).
Proof.
  split; [exact merged_frame_returns|].
  exact (assembled_sorted Examples.merged_frame _ merged_frame_returns).
Defined.

(** ** Frames without records *)

(** X13. On a merged frame without rows (no degree in the period, or
    minors only) the first assignment of the degree level fails: the
    assembler raises [ValueError] instead of returning an empty frame. *)
Theorem create_DV_df_empty_frame df :
  data df = [] ->
  has_column df "DEGREE" = true ->
  has_column df "Degree Level Indicator" = false ->
  create_DV_df df = Raise ValueError.
Proof.
  intros Hdata Hdeg Hlevel.
  assert (H : loc_set "DEGREE" (isin ["BS"; "BA"; "BPS"])
                "Degree Level Indicator" (VStr "B")
                (set_column "Record Type" (VStr "DD1") df)
              = Raise ValueError).
  { unfold loc_set. rewrite set_column_columns by exact Hdeg.
    rewrite set_column_flag, Hlevel by discriminate.
    simpl. now rewrite Hdata. }
  unfold create_DV_df. cbv zeta. now rewrite H.
Qed.

Lemma create_DV_df_empty_frame_witness :
  (data MoreExamples.no_degrees = []
   /\ has_column MoreExamples.no_degrees "DEGREE" = true
   /\ has_column MoreExamples.no_degrees "Degree Level Indicator" = false)
  /\ create_DV_df MoreExamples.no_degrees = Raise ValueError.
Proof.
  split; [split; [reflexivity | split; reflexivity]|].
  exact (create_DV_df_empty_frame MoreExamples.no_degrees eq_refl eq_refl
           eq_refl).
Defined.

(** What [main] does once the records [df] are assembled, according to
    the outcome of the spreadsheet write: with complete records it writes
    the whole upload file beside the spreadsheet. *)
Lemma main_writes_records `{Runtime}
    fs today_str today_ymd start_date_str end_date_str merged df :
  joined start_date_str end_date_str merged ->
  create_DV_df merged = Ok df ->
  Forall (fun row => row_complete df row dv_col_def) (data df) ->
  match to_excel fs (spreadsheet_file today_str) "DV_file" df with
  | (Ok _, fs1) =>
      main fs today_str today_ymd start_date_str end_date_str
      = (Ok tt,
         <[upload_file today_str :=
             chunks ([main_header today_ymd start_date_str end_date_str]
                     ++ map (fun row => row_text row dv_col_def) (data df)
                     ++ ["DT1"
                         +:+ fit (Py.str (Z.of_nat (length (data df)) + 2)) 10
                         +:+ Py.spaces 3827])]> fs1)
  | (Raise e, fs1) =>
      main fs today_str today_ymd start_date_str end_date_str
      = (Raise e, fs1)
  end.
Proof.
  intros Hjoined Hdf Hrows.
  rewrite (main_joined _ _ _ _ _ _ _ Hjoined Hdf).
  destruct (to_excel _ _ _ _) as [[[]|e] fs1]; [|reflexivity].
  now rewrite sections_of_complete_frame.
Qed.






(** ** From the merged frame to the file *)

Lemma assembled_columns df out c :
  create_DV_df df = Ok out ->
  (c ∈ columns df /\ (c ∉ report_names.*1)) \/ c ∈ derived_labels
  \/ c ∈ unused_fields
  \/ (exists old, (old, c) ∈ report_names /\ old ∈ columns df) ->
  has_column out c = true.
Proof.
  intros H Hc. apply has_column_true.
  apply assembled_rows in H as (pre & _ & _ & _ & Hcols). now apply Hcols.
Qed.

Lemma level_of_str v : level_of v <> VNaN -> is_str (level_of v) = true.
Proof.
  unfold level_of. destruct v as [d| |]; try congruence.
  repeat case_bool_decide; try reflexivity. congruence.
Qed.

Lemma or_else_str s x : is_int x = false -> is_str (or_else (VStr s) x) = true.
Proof. unfold or_else. destruct x; [reflexivity | discriminate | reflexivity]. Qed.

Lemma data_fields_cases c :
  c ∈ data_fields ->
  c ∈ derived_labels \/ c ∈ report_names.*2
  \/ c ∈ ["Previous Last Name"; "Previous First Name"]
  \/ (c ∈ unused_fields
      /\ (c ∉ ["Certificate Type"; "NCES CIP Code for Major 1"])).
Proof.
  unfold data_fields. intros H. apply list_elem_of_filter in H as [Hf H].
  simpl in H.
  repeat (apply elem_of_cons in H as [->|H];
          [first [ discriminate Hf
                 | left; label_fact
                 | right; left; label_fact
                 | right; right; left; label_fact
                 | right; right; right; split; label_fact ]|]).
  now apply elem_of_nil in H.
Qed.

(** In a record assembled from an uploadable frame every column of the
    data schema is there and holds a string. *)
Lemma uploadable_record df out r' :
  uploadable df -> create_DV_df df = Ok out -> r' ∈ data out ->
  Forall (fun c => has_column out c = true /\ is_str (cell r' c) = true)
    data_fields.
Proof.
  intros (Hwf & Hnew & Hpass & Hrows) H Hr'.
  destruct (assembled_elem _ _ _ H Hr') as (r & p & Hr & Hp & Hs & ->).
  pose proof (assembled_keeps df r p Hp) as Hkeep.
  destruct Hwf as (_ & Hmerged & _).
  rewrite Forall_forall in Hnew, Hpass, Hmerged.
  destruct Hp as (_ & Hrt & Hferpa & Hsfb & Hlevel & Hhon & Hcert & Hren
                  & Hun & Hcip).
  assert (Hssn : cell p "Student SSN" = cell r "GOVERNMENT_ID").
  { rewrite (Hren "GOVERNMENT_ID" "Student SSN");
      [|label_fact | apply Hmerged; label_fact].
    now rewrite bool_decide_eq_false_2 by label_fact. }
  assert (Hgov : cell r "GOVERNMENT_ID" <> VNaN).
  { rewrite <- Hssn. intros Hn. rewrite Hn in Hs. discriminate Hs. }
  rewrite Forall_forall in Hrows.
  destruct (Hrows r Hr Hgov) as (Hid & Hstrs & Hints & Hdeg).
  rewrite Forall_forall in Hstrs, Hints.
  assert (Hcol : forall c,
            (c ∈ columns df /\ (c ∉ report_names.*1)) \/ c ∈ derived_labels
            \/ c ∈ unused_fields
            \/ (exists old, (old, c) ∈ report_names /\ old ∈ columns df) ->
            has_column out c = true)
    by (intros c; now apply assembled_columns).
  assert (Hhas : forall c, c ∈ merged_labels \/ c ∈ passed_on ->
                           c ∈ columns df).
  { intros c [Hc|Hc]; apply has_column_true; auto. }
  apply Forall_forall. intros c Hc.
  apply data_fields_cases in Hc as [Hc|[Hc|[Hc|[Hc Hno]]]].
  - (* the derived columns *)
    split; [apply Hcol; auto|].
    unfold derived_labels in Hc.
    repeat (apply elem_of_cons in Hc as [->|Hc];
            [rewrite relabel_row_other by discriminate|]);
      [| | | | | |now apply elem_of_nil in Hc].
    + now rewrite Hrt.
    + rewrite Hlevel by (apply Hnew; label_fact). now apply level_of_str.
    + now rewrite Hhon by (apply Hnew; label_fact).
    + now rewrite Hcert by (apply Hnew; label_fact).
    + now rewrite Hferpa.
    + now rewrite Hsfb.
  - (* the report names *)
    apply list_elem_of_fmap in Hc as ([old new] & -> & Hin). simpl.
    destruct (decide (old = "CipCode")) as [->|Hncip].
    { assert (new = "NCES CIP Code for Major 1") as ->.
      { unfold report_names in Hin.
        repeat (apply elem_of_cons in Hin as [Hin|Hin];
                [try discriminate Hin|]);
          [now injection Hin | now apply elem_of_nil in Hin]. }
      rewrite relabel_row_other by discriminate.
      split; [apply Hcol; right; right; left; label_fact|].
      destruct (has_column df "CipCode") eqn:Hc.
      - rewrite (Hren _ _ Hin Hc), bool_decide_eq_true_2 by label_fact.
        apply or_else_str, Hints. label_fact.
      - rewrite Hcip; [reflexivity | reflexivity | apply Hnew; label_fact]. }
    assert (Hold : old ∈ columns df).
    { apply Hhas. unfold report_names in Hin.
      repeat (apply elem_of_cons in Hin as [[= -> ->]|Hin];
              [first [ left; label_fact | right; label_fact
                     | contradiction ]|]).
      now apply elem_of_nil in Hin. }
    split; [apply Hcol; right; right; right; eauto|].
    specialize (Hren old new Hin (proj2 (has_column_true df old) Hold)).
    unfold report_names in Hin.
    repeat (apply elem_of_cons in Hin as [[= -> ->]|Hin];
            [try contradiction|]);
      [..|now apply elem_of_nil in Hin];
      rewrite ?bool_decide_eq_false_2 in Hren by label_fact;
      rewrite ?bool_decide_eq_true_2 in Hren by label_fact.
    + rewrite (relabel_row_ssn p) with (s := cell_str (cell p "Student SSN"));
        [reflexivity|].
      destruct (cell p "Student SSN"); [reflexivity|discriminate..].
    + rewrite relabel_row_first_name, Hren. apply or_else_str, Hints.
      label_fact.
    + rewrite relabel_row_other, Hren by discriminate. apply Hstrs. label_fact.
    + rewrite relabel_row_other, Hren by discriminate. apply Hstrs. label_fact.
    + rewrite relabel_row_other, Hren by discriminate. apply Hstrs. label_fact.
    + rewrite relabel_row_other, Hren by discriminate. apply Hstrs. label_fact.
    + rewrite relabel_row_other, Hren by discriminate. apply Hstrs. label_fact.
    + rewrite relabel_row_other, Hren by discriminate. apply Hstrs. label_fact.
    + rewrite relabel_row_other, Hren by discriminate. apply Hstrs. label_fact.
    + rewrite relabel_row_other, Hren by discriminate. apply Hstrs. label_fact.
    + rewrite relabel_row_other, Hren by discriminate.
      apply or_else_str, Hints. label_fact.
    + rewrite relabel_row_other, Hren by discriminate.
      apply or_else_str, Hints. label_fact.
  - (* the former names *)
    assert (Hin : c ∈ columns df).
    { apply Hhas. right.
      repeat (apply elem_of_cons in Hc as [->|Hc]; [label_fact|]).
      now apply elem_of_nil in Hc. }
    split.
    + apply Hcol. left. split; [exact Hin|].
      repeat (apply elem_of_cons in Hc as [->|Hc]; [label_fact|]).
      now apply elem_of_nil in Hc.
    + rewrite Hkeep.
      * apply Hstrs.
        repeat (apply elem_of_cons in Hc as [->|Hc]; [label_fact|]).
        now apply elem_of_nil in Hc.
      * repeat (apply elem_of_cons in Hc as [->|Hc]; [label_fact|]).
        now apply elem_of_nil in Hc.
  - (* the unused fields *)
    split; [apply Hcol; auto|].
    destruct (unused_fields_plain c Hc Hno) as (Hnews & Hct & Hnssn & Hnfn).
    rewrite relabel_row_other by assumption.
    rewrite (Hun c Hc Hnews Hct).
    destruct (decide (c ∈ minor_labels)) as [Hminor|Hplain].
    + assert (Hfill : c ∈ fill_list).
      { unfold minor_labels in Hminor.
        repeat (apply elem_of_cons in Hminor as [->|Hminor]; [label_fact|]).
        now apply elem_of_nil in Hminor. }
      rewrite (bool_decide_eq_true_2 _ Hfill).
      destruct (has_column df c); [|reflexivity].
      apply or_else_str, Hints. rewrite elem_of_app. right. now right.
    + rewrite (Hnew c); [reflexivity|]. unfold created_labels.
      rewrite !elem_of_app. right. right.
      apply list_elem_of_filter. split; [exact Hplain | exact Hc].
Qed.

(** X15. When the reads and joins give a merged frame that is
    uploadable, [create_DV_df] returns one record for each row with a
    government ID, every record has a string in each column of the data
    schema, and [main], once it has written the spreadsheet, writes the
    whole upload file for it, the header, one line per record and the
    trailer, and returns [None]; when the spreadsheet write fails, [main]
    ends with its exception. *)
Theorem uploadable_is_written `{Runtime} start_date_str end_date_str df :
  joined start_date_str end_date_str df ->
  uploadable df ->
  exists out,
    create_DV_df df = Ok out
    /\ length (data out)
       = length (filter (fun r => cell r "GOVERNMENT_ID" <> VNaN) (data df))
    /\ Forall (fun row => row_complete out row dv_col_def) (data out)
    /\ forall fs today_str today_ymd,
         match to_excel fs (spreadsheet_file today_str) "DV_file" out with
         | (Ok _, fs1) =>
             main fs today_str today_ymd start_date_str end_date_str
             = (Ok tt,
                <[upload_file today_str :=
                    chunks ([main_header today_ymd start_date_str end_date_str]
                            ++ map (fun row => row_text row dv_col_def)
                                 (data out)
                            ++ ["DT1"
                                +:+ fit (Py.str
                                           (Z.of_nat (length (data out)) + 2))
                                      10
                                +:+ Py.spaces 3827])]> fs1)
         | (Raise e, fs1) =>
             main fs today_str today_ymd start_date_str end_date_str
             = (Raise e, fs1)
         end.
Proof.
  intros Hjoined Hup. pose proof Hup as (Hwf & _).
  destruct (create_DV_df_returns df Hwf) as [out Hout].
  assert (Hcomplete : Forall (fun row => row_complete out row dv_col_def)
                        (data out)).
  { apply Forall_forall. intros r' Hr'.
    pose proof (uploadable_record df out r' Hup Hout Hr') as Hrec.
    rewrite Forall_forall in Hrec.
    apply Forall_forall. intros f Hf Hfill.
    destruct (Hrec (field_name f)) as [Hcol Hstr].
    { unfold data_fields. apply list_elem_of_filter. split; [exact Hfill|].
      apply list_elem_of_fmap. exists f. auto. }
    split; [exact Hcol|]. now apply is_str_VStr. }
  exists out. split; [exact Hout|]. split; [|split; [exact Hcomplete|]].
  - assert (Hgov : has_column df "GOVERNMENT_ID" = true).
    { destruct Hwf as (_ & Hcols & _). rewrite Forall_forall in Hcols.
      apply Hcols. label_fact. }
    apply assembled_rows in Hout as (pre & -> & Hpre & _).
    rewrite stable_sort_perm, length_map, filter_map_comm, length_map.
    f_equal. apply list_filter_iff. intros r.
    destruct (Hpre r) as (_ & _ & _ & _ & _ & _ & _ & Hren & _).
    rewrite (Hren "GOVERNMENT_ID" "Student SSN"); [|label_fact | exact Hgov].
    now rewrite bool_decide_eq_false_2 by label_fact.
  - intros fs today_str today_ymd.
    now apply (main_writes_records _ _ _ _ _ df).
Qed.

Lemma good_frame_uploadable : uploadable MoreExamples.good_frame.
Proof.
  split; [|split; [label_fact | split; [label_fact|]]].
  - split; [discriminate|]. split.
    + unfold merged_labels.
      repeat (apply Forall_cons_2; [vm_compute; reflexivity|]).
      apply Forall_nil_2.
    + simpl.
      repeat (apply Forall_cons_2; [split; vm_compute; reflexivity|]).
      apply Forall_nil_2.
  - label_fact.
Qed.

Lemma good_frame_joined :
  @joined (MoreExamples.run_of (Ok MoreExamples.good_frame))
    "2023-06-01" "2023-12-31" MoreExamples.good_frame.
Proof. exists "2023-06-01", "2023-12-31". repeat split. Qed.

Lemma uploadable_is_written_witness :
  (@joined (MoreExamples.run_of (Ok MoreExamples.good_frame))
     "2023-06-01" "2023-12-31" MoreExamples.good_frame
   /\ uploadable MoreExamples.good_frame)
  /\ exists out,
       create_DV_df MoreExamples.good_frame = Ok out
       /\ length (data out)
          = length (filter (fun r => cell r "GOVERNMENT_ID" <> VNaN)
                      (data MoreExamples.good_frame))
       /\ Forall (fun row => row_complete out row dv_col_def) (data out)
       /\ @main (MoreExamples.run_of (Ok MoreExamples.good_frame)) ∅
            "20240101_1200" "20240101" "2023-06-01" "2023-12-31"
          = (Ok tt,
             <[upload_file "20240101_1200" :=
                 chunks ([main_header "20240101" "2023-06-01" "2023-12-31"]
                         ++ map (fun row => row_text row dv_col_def) (data out)
                         ++ ["DT1"
                             +:+ fit (Py.str (Z.of_nat (length (data out)) + 2))
                                   10
                             +:+ Py.spaces 3827])]>
               (<[spreadsheet_file "20240101_1200" := ["DV_file"]]> ∅)).
Proof.
  split; [split; [exact good_frame_joined | exact good_frame_uploadable]|].
  destruct (@uploadable_is_written
              (MoreExamples.run_of (Ok MoreExamples.good_frame))
              "2023-06-01" "2023-12-31" MoreExamples.good_frame
              good_frame_joined good_frame_uploadable)
    as (out & Hout & Hlen & Hrows & Hmain).
  exists out. split; [exact Hout|]. split; [exact Hlen|].
  split; [exact Hrows|]. exact (Hmain ∅ "20240101_1200" "20240101").
Defined.

(** * Further properties of the minor pivot *)

Lemma same_on_cells index r1 r2 :
  same_on index r1 r2 <-> map (cell r1) index = map (cell r2) index.
Proof.
  unfold same_on. induction index as [|c index IH]; simpl.
  - split; [reflexivity | constructor].
  - rewrite Forall_cons, IH. split.
    + intros [-> ->]. reflexivity.
    + intros [= -> ->]. auto.
Qed.

Lemma distinct_keys_NoDup index seen rows :
  NoDup (map (fun k => map (cell k) index) (distinct_keys index seen rows))
  /\ forall k, k ∈ distinct_keys index seen rows ->
               ~ Exists (same_on index k) seen.
Proof.
  revert seen. induction rows as [|r rows IH]; intros seen; simpl.
  - split; [constructor|]. intros k Hk. now apply elem_of_nil in Hk.
  - destruct (decide (Exists (same_on index r) seen)) as [Hex|Hex];
      [apply IH|].
    destruct (IH (r :: seen)) as [Hnd Hseen]. split.
    + simpl. constructor; [|exact Hnd]. intros Hin.
      apply list_elem_of_fmap in Hin as (k & Heq & Hk).
      apply (Hseen k Hk). apply Exists_cons. left.
      apply same_on_cells. now symmetry.
    + intros k Hk. apply elem_of_cons in Hk as [->|Hk]; [exact Hex|].
      intros Hin. apply (Hseen k Hk). apply Exists_cons. now right.
Qed.

Lemma Forall2_fmap_eq {A B C} (f : A -> C) (g : B -> C) l k :
  Forall2 (fun x y => f x = g y) l k -> map f l = map g k.
Proof. induction 1; simpl; congruence. Qed.

(** The rows of a pivot table carry the index cells of the distinct keys,
    in their order. *)
Lemma pivot_index index col values fill df out :
  pivot index col values fill df = Ok out ->
  Forall (fun x => is_str (cell x col) = true
                   /\ (astype_str (cell x col) ∉ index)) (data df) ->
  map (fun r => map (cell r) index) (data out)
  = map (fun k => map (cell k) index)
      (distinct_keys index [] (stable_sort (key_leb index) (data df))).
Proof.
  intros H Hstr. unfold pivot in H.
  destruct (filter _ (index ++ _)); [|discriminate].
  apply bind_Ok in H as (rows' & Hrows & H). injection H as <-. simpl.
  apply mapM_result_Ok in Hrows. symmetry. apply Forall2_fmap_eq.
  eapply Forall2_impl; [exact Hrows|]. intros k r' Hrow. simpl in Hrow.
  apply pivot_row_Ok in Hrow as [Hidx _].
  2: { apply pivot_labels_NoDup. eapply Forall_impl; [exact Hstr|].
       now intros y [? _]. }
  apply map_ext_in. intros i Hi. symmetry. apply Hidx.
  - now apply list_elem_of_In.
  - intros Hl. apply list_elem_of_fmap in Hl as (c & -> & Hl).
    apply pivot_labels_elem in Hl as (y & Hy & <-).
    rewrite Forall_forall in Hstr. apply (Hstr y Hy).
    now apply list_elem_of_In.
Qed.

Lemma NoDup_fmap_coarser {A B C} (g : A -> B) (h : A -> C) (l : list A) :
  (forall x y, g x = g y -> h x = h y) ->
  NoDup (map h l) -> NoDup (map g l).
Proof.
  intros Hgh. induction l as [|x l IH]; simpl; [constructor|].
  intros Hnd. apply NoDup_cons in Hnd as [Hx Hnd].
  constructor; [|auto]. intros Hin. apply Hx.
  apply list_elem_of_fmap in Hin as (y & Heq & Hy).
  apply list_elem_of_fmap. exists y. split; [auto | exact Hy].
Qed.

Lemma minor_label_not_index k :
  "Minor Course of Study " +:+ Py.str k
  ∉ ["PEOPLE_CODE_ID"; "GRADUATION_DATE"].
Proof.
  intros Hin.
  repeat (apply elem_of_cons in Hin as [Hin|Hin];
          [cbv [String.append] in Hin; discriminate Hin|]).
  now apply elem_of_nil in Hin.
Qed.

(** The rows of the long form, and their labels. *)
Lemma minor_long_shape df_td ms long :
  minor_rows df_td = Ok ms ->
  minor_long df_td = Ok long ->
  Forall (fun r => exists m k,
    (m, k) ∈ with_positions ["PEOPLE_CODE_ID"] [] (data ms)
    /\ r = ranked_minor m k /\ 1 <= k <= 4) (data long)
  /\ Forall (fun x =>
       is_str (cell x "col") = true
       /\ (astype_str (cell x "col")
           ∉ ["PEOPLE_CODE_ID"; "GRADUATION_DATE"])) (data long).
Proof.
  intros Hms Hlong.
  assert (Hshape : Forall (fun r => exists m k,
            (m, k) ∈ with_positions ["PEOPLE_CODE_ID"] [] (data ms)
            /\ r = ranked_minor m k /\ 1 <= k <= 4) (data long)).
  { rewrite (minor_long_rows _ _ _ Hms Hlong). apply Forall_forall.
    intros r Hr. apply list_elem_of_fmap in Hr as ([m k] & -> & Hmk).
    apply list_elem_of_filter in Hmk as [Hle Hmk]. simpl in Hle.
    pose proof (with_positions_elem _ _ _ _ _ Hmk) as [_ Hge].
    exists m, k. split; [exact Hmk|]. split; [reflexivity | lia]. }
  split; [exact Hshape|].
  eapply Forall_impl; [exact Hshape|]. intros r (m & k & _ & -> & _).
  destruct (ranked_minor_cells m k) as (_ & -> & _). simpl.
  split; [reflexivity | apply minor_label_not_index].
Qed.

(** X16. The frame that [minor_data] returns has one row for each student
    and graduation date with a kept minor, and never two rows for the
    same student and date, so that the left join on these two columns
    cannot multiply a degree record. *)
Theorem minor_data_one_row_per_award df_td out :
  minor_data df_td = Ok out ->
  NoDup (map (fun r => (cell r "PEOPLE_CODE_ID", cell r "GRADUATION_DATE"))
           (data out))
  /\ exists long,
       minor_long df_td = Ok long
       /\ forall p d,
            (p, d) ∈ map (fun r => (cell r "PEOPLE_CODE_ID",
                                    cell r "GRADUATION_DATE")) (data out)
            <-> (p, d) ∈ map (fun r => (cell r "PEOPLE_CODE_ID",
                                        cell r "GRADUATION_DATE"))
                           (data long).
Proof.
  intros H. unfold minor_data in H. apply bind_Ok in H as (long & Hlong & H).
  pose proof Hlong as Hms. unfold minor_long in Hms.
  apply bind_Ok in Hms as (ms & Hms & _).
  destruct (minor_long_shape _ _ _ Hms Hlong) as [_ Hstr].
  pose proof (pivot_index _ _ _ _ _ _ H Hstr) as Hidx.
  split.
  - apply (NoDup_fmap_coarser _
             (fun r => map (cell r) ["PEOPLE_CODE_ID"; "GRADUATION_DATE"])).
    + intros x y [= Hp Hd]. simpl. now rewrite Hp, Hd.
    + rewrite Hidx. apply distinct_keys_NoDup.
  - exists long. split; [exact Hlong|]. intros p d.
    rewrite !list_elem_of_fmap. split.
    + intros (r' & Heq & Hr').
      assert (Hin : map (cell r') ["PEOPLE_CODE_ID"; "GRADUATION_DATE"]
                    ∈ map (fun r => map (cell r)
                                    ["PEOPLE_CODE_ID"; "GRADUATION_DATE"])
                        (data out))
        by (apply list_elem_of_fmap; eauto).
      rewrite Hidx in Hin. apply list_elem_of_fmap in Hin as (k & Hk & Hin).
      apply distinct_keys_elem in Hin. rewrite stable_sort_perm in Hin.
      exists k. split; [|exact Hin]. simpl in Hk.
      injection Hk as Hp Hd. rewrite Heq. now rewrite Hp, Hd.
    + intros (r & Heq & Hr).
      destruct (pivot_contains _ _ _ _ _ _ r H Hstr Hr)
        as (r' & Hr' & Hi & _).
      exists r'. split; [|exact Hr'].
      rewrite Heq, !Hi; [reflexivity | right; now left | now left].
Qed.

Lemma five_minors_returns :
  minor_data Examples.five_minors
  = Ok (frame_of (minor_data Examples.five_minors)).
Proof. apply is_ok_frame_of. vm_compute. reflexivity. Qed.

Lemma minor_data_one_row_per_award_witness :
  minor_data Examples.five_minors
  = Ok (frame_of (minor_data Examples.five_minors))
  /\ NoDup (map (fun r => (cell r "PEOPLE_CODE_ID", cell r "GRADUATION_DATE"))
              (data (frame_of (minor_data Examples.five_minors)))).
Proof.
  split; [exact five_minors_returns|].
  exact (proj1 (minor_data_one_row_per_award Examples.five_minors _
                  five_minors_returns)).
Defined.

Lemma replace_go_absent old new s :
  Py.contains old s = false -> Py.replace_go old new 0 s = s.
Proof.
  induction s as [|a s IH]; [reflexivity|]. intros H.
  cbn [Py.contains] in H. apply orb_false_elim in H as [Hpre Hrest].
  cbn [Py.replace_go]. rewrite Hpre. f_equal. now apply IH.
Qed.

Lemma ranked_minor_title m k :
  cell (ranked_minor m k) "FORMAL_TITLE"
  = replace_cell " Minor" "" "Minor" "" (cell m "FORMAL_TITLE").
Proof.
  unfold ranked_minor. rewrite cell_insert_eq.
  now rewrite !cell_insert_ne by discriminate.
Qed.

(** X17. Whatever a minor column of the pivot table holds comes from a
    row of the degree table with the degree code MINOR, of the student and
    graduation date of the row: it is the formal title of that minor with
    every [" Minor"] removed (and nothing left of the title ["Minor"]), or
    else a blank.  A title that does not contain [" Minor"] and is not
    ["Minor"] is reported as it is. *)
Theorem minor_data_sources df_td out :
  minor_data df_td = Ok out ->
  Forall (fun r' => forall k,
    cell r' ("Minor Course of Study " +:+ Py.str k) = VNaN
    \/ cell r' ("Minor Course of Study " +:+ Py.str k) = VStr " "
    \/ exists m,
         m ∈ data df_td /\ cell m "DEGREE" = VStr "MINOR"
         /\ cell r' "PEOPLE_CODE_ID" = cell m "PEOPLE_CODE_ID"
         /\ cell r' "GRADUATION_DATE" = cell m "GRADUATION_DATE"
         /\ cell r' ("Minor Course of Study " +:+ Py.str k)
            = replace_cell " Minor" "" "Minor" "" (cell m "FORMAL_TITLE"))
    (data out)
  /\ (forall t, Py.contains " Minor" t = false -> t <> "Minor" ->
        replace_cell " Minor" "" "Minor" "" (VStr t) = VStr t).
Proof.
  intros H. split.
  - unfold minor_data in H. apply bind_Ok in H as (long & Hlong & H).
    pose proof Hlong as Hms. unfold minor_long in Hms.
    apply bind_Ok in Hms as (ms & Hms & _).
    destruct (minor_long_shape _ _ _ Hms Hlong) as [Hshape Hstr].
    destruct (minor_rows_ascending _ _ Hms) as (_ & Hminor & Hsub).
    rewrite Forall_forall in Hshape, Hminor.
    apply Forall_forall. intros r' Hr' k.
    destruct (pivot_only _ _ _ _ _ _ r' _ H Hstr Hr' (minor_label_not_index k))
      as [Hnan|[Hfill|(r & Hr & Hidx & _ & Hcell)]]; [now left | auto |].
    right. right. destruct (Hshape r Hr) as (m & k' & Hmk & -> & _).
    apply with_positions_elem in Hmk as [Hm _].
    destruct (ranked_minor_cells m k') as (_ & _ & Hp & Hd).
    exists m. split; [now apply Hsub|]. split; [now apply Hminor|].
    split; [rewrite <- Hp; apply Hidx; now left|].
    split; [rewrite <- Hd; apply Hidx; right; now left|].
    now rewrite Hcell, ranked_minor_title.
  - intros t Habs Hne. unfold replace_cell, Py.replace.
    rewrite (replace_go_absent _ _ _ Habs). now rewrite decide_False.
Qed.

Lemma minor_data_sources_witness :
  minor_data Examples.five_minors
  = Ok (frame_of (minor_data Examples.five_minors))
  /\ Forall (fun r' => forall k,
       cell r' ("Minor Course of Study " +:+ Py.str k) = VNaN
       \/ cell r' ("Minor Course of Study " +:+ Py.str k) = VStr " "
       \/ exists m,
            m ∈ data Examples.five_minors /\ cell m "DEGREE" = VStr "MINOR"
            /\ cell r' "PEOPLE_CODE_ID" = cell m "PEOPLE_CODE_ID"
            /\ cell r' "GRADUATION_DATE" = cell m "GRADUATION_DATE"
            /\ cell r' ("Minor Course of Study " +:+ Py.str k)
               = replace_cell " Minor" "" "Minor" ""
                   (cell m "FORMAL_TITLE"))
       (data (frame_of (minor_data Examples.five_minors))).
Proof.
  split; [exact five_minors_returns|].
  exact (proj1 (minor_data_sources Examples.five_minors _
                  five_minors_returns)).
Defined.
(** * Properties of the source tables *)

(** ** The latest row of each group *)

Lemma key_leb_refl by_ r : key_leb by_ r r = true.
Proof.
  induction by_ as [|c by_ IH]; simpl; [reflexivity|].
  now rewrite decide_True.
Qed.

Lemma drop_duplicates_rows_NoDup subset rows :
  NoDup (map (cells_of subset) (drop_duplicates_rows subset rows)).
Proof.
  induction rows as [|x rows IH]; simpl; [constructor|].
  destruct (decide (Exists (same_on subset x) rows)) as [Hex|Hno];
    [exact IH|].
  simpl. constructor; [|exact IH]. intros Hin. apply Hno.
  apply list_elem_of_fmap in Hin as (y & Heq & Hy).
  apply Exists_exists. exists y.
  split; [now apply drop_duplicates_rows_elem in Hy|].
  apply same_on_cells. exact Heq.
Qed.

Lemma drop_duplicates_rows_last (leb : gmap string value ->
                                       gmap string value -> bool)
    subset rows :
  (forall r, leb r r = true) -> ascending leb rows ->
  forall r' x,
    r' ∈ drop_duplicates_rows subset rows -> x ∈ rows ->
    same_on subset x r' -> leb x r' = true.
Proof.
  intros Hrefl. induction rows as [|r rows IH]; intros Hasc r' x Hr' Hx Hs;
    [now apply elem_of_nil in Hx|].
  apply StronglySorted_inv in Hasc as [Hasc Hall].
  rewrite Forall_forall in Hall. simpl in Hr'.
  destruct (decide (Exists (same_on subset r) rows)) as [Hex|Hno].
  - apply elem_of_cons in Hx as [->|Hx]; [|now apply IH].
    apply Hall. now apply drop_duplicates_rows_elem in Hr'.
  - apply elem_of_cons in Hr' as [->|Hr'].
    + apply elem_of_cons in Hx as [->|Hx]; [apply Hrefl|].
      exfalso. apply Hno. apply Exists_exists. exists x.
      split; [exact Hx | now apply same_on_sym].
    + apply elem_of_cons in Hx as [->|Hx]; [|now apply IH].
      apply Hall. now apply drop_duplicates_rows_elem in Hr'.
Qed.

(** Sorting by [by_] and keeping the last row of each group of [subset]
    leaves one row per group, the greatest of its group. *)
Lemma latest_rows by_ subset df s d :
  sort_values by_ df = Ok s -> drop_duplicates subset s = Ok d ->
  columns d = columns df
  /\ NoDup (map (cells_of subset) (data d))
  /\ (forall r, r ∈ data df ->
        exists r', r' ∈ data d /\ same_on subset r r')
  /\ (forall r', r' ∈ data d ->
        r' ∈ data df
        /\ forall x, x ∈ data df -> same_on subset x r' ->
                     key_leb by_ x r' = true)
  /\ ascending (key_leb by_) (data d).
Proof.
  intros Hs Hd. pose proof (sort_values_ascending _ _ _ Hs) as Hasc.
  apply sort_values_Ok in Hs as [Hperm Hcs].
  apply drop_duplicates_Ok in Hd as [Hdata Hcd]. rewrite Hdata.
  split; [congruence|]. split; [apply drop_duplicates_rows_NoDup|].
  split; [|split].
  - intros r Hr. apply drop_duplicates_rows_cover. now rewrite Hperm.
  - intros r' Hr'. split.
    + rewrite <- Hperm. now apply drop_duplicates_rows_elem in Hr'.
    + intros x Hx Hsame.
      apply (drop_duplicates_rows_last (key_leb by_) subset (data s));
        [apply key_leb_refl | exact Hasc | exact Hr' | | exact Hsame].
      now rewrite Hperm.
  - eapply ascending_sublist; [apply drop_duplicates_rows_sublist | exact Hasc].
Qed.

Lemma drop_duplicates_returns subset df :
  Forall (fun c => has_column df c = true) subset ->
  drop_duplicates subset df
  = Ok {| columns := columns df;
          data := drop_duplicates_rows subset (data df) |}.
Proof.
  intros H. unfold drop_duplicates. now rewrite (no_missing_column _ _ H).
Qed.

Lemma drop_columns_returns cols df :
  Forall (fun c => has_column df c = true) cols ->
  drop_columns cols df
  = Ok {| columns := filter (fun c => c ∉ cols) (columns df);
          data := data df |}.
Proof.
  intros H. unfold drop_columns. now rewrite (no_missing_column _ _ H).
Qed.

Lemma drop_columns_Ok cols df df' :
  drop_columns cols df = Ok df' ->
  columns df' = filter (fun c => c ∉ cols) (columns df)
  /\ data df' = data df.
Proof.
  unfold drop_columns. destruct (filter _ cols); [|discriminate].
  intros [= <-]. auto.
Qed.

Lemma cells_of_singleton c r x :
  cells_of [c] r = cells_of [c] x <-> cell r c = cell x c.
Proof. unfold cells_of. simpl. split; [now intros [= ->] | now intros ->]. Qed.

Lemma NoDup_cells_singleton c rows :
  NoDup (map (cells_of [c]) rows) -> NoDup (map (fun r => cell r c) rows).
Proof.
  apply NoDup_fmap_coarser. intros x y H. now apply cells_of_singleton.
Qed.

(** ** Financial stops *)

Lemma stoplist_sortable :
  Forall (fun c => has_column Tables.stoplist c = true
                   /\ mixed_column c Tables.stoplist = false)
    ["PEOPLE_CODE_ID"; "STOP_DATE"].
Proof. repeat constructor. Qed.

(** X18. [stoplist_data] ends with the exception of its query when the
    query fails.  When the query answers, [stoplist_data] leaves the source
    as the query left it, and it returns whenever the answer has the
    student and the date column, neither mixing strings and numbers.  Its
    result has one row per student with a stop: a row of the answer that
    no stop of the same student exceeds in date; the date column is
    dropped. *)
Theorem stoplist_data_latest_stop {db : Type} (select : data_source db)
    (s : db) :
  (forall e s1,
     stoplist_query select s = (Raise e, s1) ->
     stoplist_data select s = (Raise e, s1))
  /\ forall stops s1,
       stoplist_query select s = (Ok stops, s1) ->
       (Forall (fun c => has_column stops c = true
                         /\ mixed_column c stops = false)
          ["PEOPLE_CODE_ID"; "STOP_DATE"] ->
        exists out, stoplist_data select s = (Ok out, s1))
       /\ forall out s2,
            stoplist_data select s = (Ok out, s2) ->
            s2 = s1
            /\ columns out = filter (fun c => c ∉ ["STOP_DATE"]) (columns stops)
            /\ unique_keys ["PEOPLE_CODE_ID"] out
            /\ (forall r, r ∈ data stops ->
                  exists r', r' ∈ data out
                             /\ cell r' "PEOPLE_CODE_ID"
                                = cell r "PEOPLE_CODE_ID")
            /\ forall r', r' ∈ data out ->
                 latest_of ["PEOPLE_CODE_ID"] "STOP_DATE" (data stops) r'.
Proof.
  split.
  { intros e s1 Hq. unfold stoplist_data.
    now rewrite (reading_bind_Raise _ _ _ _ _ Hq). }
  intros stops s1 Hq. split.
  - intros H. apply Forall_and in H as [Hcols Hmix]. unfold stoplist_data.
    rewrite (reading_bind_Ok _ _ _ _ _ Hq). unfold pandas.
    rewrite (sort_values_returns _ _ Hcols Hmix). cbn [mbind result_bind].
    rewrite drop_duplicates_returns.
    2: { inversion Hcols; subst. now repeat constructor. }
    cbn [mbind result_bind]. rewrite drop_columns_returns; [eauto|].
    inversion Hcols as [|? ? _ Hrest]; subst.
    inversion Hrest; subst. now repeat constructor.
  - intros out s2 H. unfold stoplist_data in H.
    rewrite (reading_bind_Ok _ _ _ _ _ Hq) in H. unfold pandas in H.
    apply pair_equal_spec in H as [H <-]. split; [reflexivity|].
    apply bind_Ok in H as (t & Ht & H). apply bind_Ok in H as (d & Hd & H).
    apply drop_columns_Ok in H as [Hcols Hdata].
    destruct (latest_rows _ _ _ _ _ Ht Hd) as (Hc & Hnd & Hcover & Hlast & _).
    unfold unique_keys. rewrite Hcols, Hdata, Hc.
    split; [reflexivity|]. split; [exact Hnd|]. split.
    + intros r Hr. destruct (Hcover r Hr) as (r' & Hr' & Hsame).
      exists r'. split; [exact Hr'|]. symmetry.
      now apply same_on_singleton.
    + intros r' Hr'. destruct (Hlast r' Hr') as [Hin Hmax].
      split; [exact Hin|]. intros x Hx Hsame.
      apply (key_leb_same_group "PEOPLE_CODE_ID");
        [now apply same_on_singleton | now apply Hmax].
Qed.

Lemma stoplist_data_latest_stop_witness :
  (stoplist_query Tables.registrar tt = (Ok Tables.stoplist, tt)
   /\ Forall (fun c => has_column Tables.stoplist c = true
                       /\ mixed_column c Tables.stoplist = false)
        ["PEOPLE_CODE_ID"; "STOP_DATE"])
  /\ exists out,
       stoplist_data Tables.registrar tt = (Ok out, tt)
       /\ unique_keys ["PEOPLE_CODE_ID"] out
       /\ forall r', r' ∈ data out ->
            latest_of ["PEOPLE_CODE_ID"] "STOP_DATE" (data Tables.stoplist) r'.
Proof.
  split; [split; [reflexivity | exact stoplist_sortable]|].
  destruct (stoplist_data_latest_stop Tables.registrar tt) as [_ Hanswer].
  destruct (Hanswer Tables.stoplist tt eq_refl) as [Hreturns Hrows].
  destruct (Hreturns stoplist_sortable) as [out Hout].
  destruct (Hrows out tt Hout) as (_ & _ & Hunique & _ & Hlatest).
  exists out. auto.
Defined.

(** ** CIP codes *)








(** ** Honors *)

Lemma transcript_honors_sortable :
  Forall (fun c =>
      has_column Tables.honors c = true
      /\ mixed_column c Tables.honors = false)
    honors_key.
Proof. repeat constructor. Qed.

(** X20. [transcript_honors] ends with the exception of its query when
    the query fails.  When the query answers with a table,
    [transcript_honors] leaves the source as the query left it, and it
    returns whenever the table has the five columns it names, none mixing
    strings and numbers.  The rows of its result are rows of the table, in
    ascending order, no two with the same student, program, degree,
    curriculum and honors, and every such combination of the table is
    among them; the program column is dropped. *)
Theorem transcript_honors_distinct {db : Type} (select : data_source db)
    (s : db) :
  (forall e s1,
     transcript_honors_query select s = (Raise e, s1) ->
     transcript_honors select s = (Raise e, s1))
  /\ forall table s1,
       transcript_honors_query select s = (Ok table, s1) ->
       (Forall (fun c => has_column table c = true
                         /\ mixed_column c table = false) honors_key ->
        exists out, transcript_honors select s = (Ok out, s1))
       /\ forall out s2,
            transcript_honors select s = (Ok out, s2) ->
            s2 = s1
            /\ columns out = filter (fun c => c ∉ ["PROGRAM"]) (columns table)
            /\ (forall r, r ∈ data out -> r ∈ data table)
            /\ NoDup (map (cells_of honors_key) (data out))
            /\ (forall r, r ∈ data table ->
                  exists r', r' ∈ data out /\ same_on honors_key r r')
            /\ ascending (key_leb honors_key) (data out).
Proof.
  split.
  { intros e s1 Hq. unfold transcript_honors.
    now rewrite (reading_bind_Raise _ _ _ _ _ Hq). }
  intros table s1 Hq. split.
  - intros H. apply Forall_and in H as [Hcols Hmix]. unfold transcript_honors.
    rewrite (reading_bind_Ok _ _ _ _ _ Hq). unfold pandas.
    fold honors_key.
    rewrite (sort_values_returns _ _ Hcols Hmix). cbn [mbind result_bind].
    rewrite drop_duplicates_returns by exact Hcols. cbn [mbind result_bind].
    rewrite drop_columns_returns; [eauto|].
    rewrite Forall_forall in Hcols. apply Forall_forall. intros c Hc.
    apply Hcols. revert c Hc. labels_incl.
  - intros out s2 H. unfold transcript_honors in H.
    rewrite (reading_bind_Ok _ _ _ _ _ Hq) in H. unfold pandas in H.
    apply pair_equal_spec in H as [H <-]. split; [reflexivity|].
    fold honors_key in H.
    apply bind_Ok in H as (t & Ht & H). apply bind_Ok in H as (d & Hd & H).
    apply drop_columns_Ok in H as [Hcols Hdata].
    destruct (latest_rows _ _ _ _ _ Ht Hd)
      as (Hc & Hnd & Hcover & Hlast & Hasc).
    rewrite Hcols, Hdata, Hc. split; [reflexivity|].
    split; [intros r Hr; now apply Hlast|]. auto.
Qed.

Lemma transcript_honors_distinct_witness :
  (transcript_honors_query Tables.registrar tt = (Ok Tables.honors, tt)
   /\ Forall (fun c =>
         has_column Tables.honors c = true
         /\ mixed_column c Tables.honors = false)
       honors_key)
  /\ exists out,
       transcript_honors Tables.registrar tt = (Ok out, tt)
       /\ NoDup (map (cells_of honors_key) (data out))
       /\ ascending (key_leb honors_key) (data out).
Proof.
  split; [split; [reflexivity | exact transcript_honors_sortable]|].
  destruct (transcript_honors_distinct Tables.registrar tt) as [_ Hanswer].
  destruct (Hanswer Tables.honors tt eq_refl) as [Hreturns Hrows].
  destruct (Hreturns transcript_honors_sortable) as [out Hout].
  destruct (Hrows out tt Hout) as (_ & _ & _ & Hnd & _ & Hasc).
  exists out. auto.
Defined.

(** ** Left joins *)

Lemma lookup_keyed (f : string -> value) cols k :
  (list_to_map (map (fun c => (c, f c)) cols) : gmap string value) !! k
  = if decide (k ∈ cols) then Some (f k) else None.
Proof.
  induction cols as [|c cols IH].
  - simpl. rewrite lookup_empty.
    destruct (decide (k ∈ [])) as [Hin|_]; [|reflexivity].
    now apply elem_of_nil in Hin.
  - cbn [map]. rewrite list_to_map_cons.
    destruct (decide (k = c)) as [->|Hne].
    + rewrite lookup_insert_eq.
      destruct (decide (c ∈ c :: cols)) as [_|Hout]; [reflexivity|].
      exfalso. apply Hout. now left.
    + rewrite lookup_insert_ne by congruence. rewrite IH.
      destruct (decide (k ∈ cols)) as [Hin|Hout];
        destruct (decide (k ∈ c :: cols)) as [Hin'|Hout'];
        try reflexivity.
      * exfalso. apply Hout'. now right.
      * exfalso. apply elem_of_cons in Hin' as [?|?]; auto.
Qed.

Lemma suffixed_apart suffix lc rc c :
  (forall c, c ∈ rc -> c ∉ lc) -> suffixed suffix lc rc c = c.
Proof.
  intros Hfresh. unfold suffixed.
  destruct (bool_decide (c ∈ lc)) eqn:Hl; [|reflexivity].
  destruct (bool_decide (c ∈ rc)) eqn:Hr; [|reflexivity].
  exfalso. apply bool_decide_eq_true in Hl, Hr. now apply (Hfresh c).
Qed.

Lemma join_row_apart lc rc l r :
  (forall c, c ∈ rc -> c ∉ lc) ->
  join_row lc rc l r
  = list_to_map
      (map (fun c => (c, cell l c)) lc
       ++ map (fun c => (c, match r with
                            | Some r => cell r c
                            | None => VNaN
                            end)) rc).
Proof.
  intros H. unfold join_row. f_equal.
  f_equal; apply map_ext; intros c; now rewrite suffixed_apart.
Qed.

Lemma join_row_left lc rc l r c :
  (forall c, c ∈ rc -> c ∉ lc) -> c ∈ lc ->
  cell (join_row lc rc l r) c = cell l c.
Proof.
  intros H Hc. rewrite join_row_apart by exact H. unfold cell at 1.
  rewrite list_to_map_app, lookup_union, !lookup_keyed.
  rewrite decide_True by exact Hc. now destruct (decide (c ∈ rc)).
Qed.

Lemma join_row_right lc rc l r c :
  (forall c, c ∈ rc -> c ∉ lc) -> c ∈ rc ->
  cell (join_row lc rc l r) c
  = match r with
    | Some r => cell r c
    | None => VNaN
    end.
Proof.
  intros H Hc. rewrite join_row_apart by exact H. unfold cell at 1.
  rewrite list_to_map_app, lookup_union, !lookup_keyed.
  rewrite decide_False by (now apply H). now rewrite decide_True by exact Hc.
Qed.

Lemma keys_match_ext lk rk l m r :
  Forall (fun c => cell m c = cell l c) lk ->
  keys_match lk rk l r -> keys_match lk rk m r.
Proof.
  unfold keys_match. intros Hagree Hkm. revert Hagree.
  induction Hkm as [|a b lk rk Hab _ IH]; intros Hagree; constructor.
  - apply Forall_cons in Hagree as [Ha _]. congruence.
  - apply Forall_cons in Hagree as [_ Hrest]. auto.
Qed.

Lemma keys_match_cells lk rk l r :
  keys_match lk rk l r -> cells_of rk r = cells_of lk l.
Proof.
  intros H. unfold cells_of. symmetry.
  apply (Forall2_fmap_eq (cell l) (cell r)).
  unfold keys_match in H. induction H; constructor; auto.
Qed.

Lemma attached_ext lk rk right m m' :
  Forall (fun c => cell m' c = cell m c) lk ->
  (forall c, c ∈ joined_columns lk rk right -> cell m' c = cell m c) ->
  attached lk rk right m -> attached lk rk right m'.
Proof.
  intros Hk Hc [[Hno Hnan]|(r & Hr & Hkm & Hcells)].
  - left. split.
    + intros r Hr Hkm. apply (Hno r Hr).
      eapply keys_match_ext; [|exact Hkm].
      eapply Forall_impl; [exact Hk|]. intros c Hcc. now symmetry.
    + intros c Hcc. rewrite Hc by exact Hcc. now apply Hnan.
  - right. exists r. split; [exact Hr|]. split.
    + eapply keys_match_ext; [exact Hk | exact Hkm].
    + intros c Hcc. rewrite Hc by exact Hcc. now apply Hcells.
Qed.

Lemma merge_left_on_Ok lk rk left right out :
  merge_left_on lk rk left right = Ok out ->
  (forall c, c ∈ joined_columns lk rk right -> c ∉ columns left) ->
  columns out = columns left ++ joined_columns lk rk right
  /\ data out
     = flat_map (join_rows lk rk (columns left)
                   (joined_columns lk rk right) (data right)) (data left)
  /\ Forall (fun c => c ∈ columns left) lk.
Proof.
  intros H Hfresh. unfold merge_left_on in H.
  destruct (filter (fun c => has_column left c = false) lk) eqn:Hl;
    [|discriminate].
  destruct (filter (fun c => has_column right c = false) rk); [|discriminate].
  destruct (negb _); [discriminate|].
  destruct (keys_clash _ _ _ _); [discriminate|].
  injection H as <-. simpl. split; [|split; [reflexivity|]].
  - f_equal.
    + etransitivity; [|apply map_id]. apply map_ext. intros c.
      now apply suffixed_apart.
    + etransitivity; [|apply map_id]. apply map_ext. intros c.
      now apply suffixed_apart.
  - apply Forall_forall. intros c Hc. apply has_column_true.
    destruct (has_column left c) eqn:E; [reflexivity|].
    assert (Hin : c ∈ filter (fun c => has_column left c = false) lk)
      by (apply list_elem_of_filter; auto).
    rewrite Hl in Hin. now apply elem_of_nil in Hin.
Qed.

Lemma join_rows_elem lk rk lc right l m :
  (forall c, c ∈ joined_columns lk rk right -> c ∉ lc) ->
  Forall (fun c => c ∈ lc) lk ->
  m ∈ join_rows lk rk lc (joined_columns lk rk right) (data right) l ->
  (forall c, c ∈ lc -> cell m c = cell l c) /\ attached lk rk right m.
Proof.
  intros Hfresh Hlk Hm. unfold join_rows in Hm.
  destruct (filter (keys_match lk rk l) (data right)) as [|r0 rs] eqn:Hf.
  - apply list_elem_of_singleton in Hm as ->.
    split; [intros c Hc; now apply join_row_left|]. left. split.
    + intros r Hr Hkm.
      assert (Hin : r ∈ filter (keys_match lk rk l) (data right)).
      { apply list_elem_of_filter. split; [|exact Hr].
        eapply keys_match_ext; [|exact Hkm]. eapply Forall_impl; [exact Hlk|].
        intros c Hc. simpl. symmetry. now apply join_row_left. }
      rewrite Hf in Hin. now apply elem_of_nil in Hin.
    + intros c Hc. now rewrite join_row_right.
  - rewrite <- Hf in Hm. apply list_elem_of_fmap in Hm as (r & -> & Hr).
    apply list_elem_of_filter in Hr as [Hkm Hr].
    split; [intros c Hc; now apply join_row_left|]. right. exists r.
    split; [exact Hr|]. split.
    + eapply keys_match_ext; [|exact Hkm]. eapply Forall_impl; [exact Hlk|].
      intros c Hc. simpl. now apply join_row_left.
    + intros c Hc. now rewrite join_row_right.
Qed.

Lemma join_rows_nonempty lk rk lc rc rows l :
  exists m rest, join_rows lk rk lc rc rows l = m :: rest.
Proof.
  unfold join_rows. destruct (filter _ rows); simpl; eauto.
Qed.

Lemma filter_unique {A B} (f : A -> B) (P : A -> Prop)
    `{!forall x, Decision (P x)} (k : B) (l : list A) :
  NoDup (map f l) -> (forall x, P x -> f x = k) ->
  filter P l = [] \/ exists x, filter P l = [x].
Proof.
  intros Hnd Hk. induction l as [|a l IH]; [now left|].
  simpl in Hnd. apply NoDup_cons in Hnd as [Ha Hnd].
  rewrite filter_cons. destruct (decide (P a)) as [Hp|Hp]; [|auto].
  right. exists a. f_equal. apply filter_none. intros y Hy Hpy. apply Ha.
  apply list_elem_of_fmap. exists y. split; [|exact Hy].
  now rewrite (Hk a Hp), (Hk y Hpy).
Qed.

Lemma join_rows_unique lk rk lc right l :
  unique_keys rk right ->
  exists m,
    join_rows lk rk lc (joined_columns lk rk right) (data right) l = [m].
Proof.
  intros Hu. unfold join_rows.
  destruct (filter_unique (cells_of rk) (keys_match lk rk l) (cells_of lk l)
              (data right) Hu) as [->|[x ->]]; simpl; eauto.
  intros x. apply keys_match_cells.
Qed.

Lemma Forall2_flat_map_singleton {A B} (R : A -> B -> Prop)
    (g : A -> list B) (l : list A) :
  (forall x, x ∈ l -> exists y, g x = [y] /\ R x y) ->
  Forall2 R l (flat_map g l).
Proof.
  induction l as [|x l IH]; intros H; simpl; [constructor|].
  destruct (H x) as (y & -> & Hxy); [now left|]. simpl.
  constructor; [exact Hxy|]. apply IH. intros z Hz. apply H. now right.
Qed.

Lemma Forall2_compose {A B C} (R1 : A -> B -> Prop) (R2 : B -> C -> Prop)
    (R : A -> C -> Prop) l1 l2 l3 :
  (forall x y z, R1 x y -> R2 y z -> R x z) ->
  Forall2 R1 l1 l2 -> Forall2 R2 l2 l3 -> Forall2 R l1 l3.
Proof.
  intros Hr H1. revert l3. induction H1; intros l3 H2; inversion H2; subst;
    constructor; eauto.
Qed.

Lemma elem_of_flat_map {A B} (g : A -> list B) (l : list A) (y : B) :
  y ∈ flat_map g l <-> exists x, x ∈ l /\ y ∈ g x.
Proof.
  rewrite list_elem_of_In, in_flat_map. split; intros (x & Hx & Hy); exists x.
  - now rewrite !list_elem_of_In.
  - now rewrite <- !list_elem_of_In.
Qed.

(** A row of the result agrees with a row of [left] on the columns
    [cols]. *)
Lemma merge_left_on_rows lk rk left right out :
  merge_left_on lk rk left right = Ok out ->
  (forall c, c ∈ joined_columns lk rk right -> c ∉ columns left) ->
  columns out = columns left ++ joined_columns lk rk right
  /\ Forall (fun c => c ∈ columns left) lk
  /\ (forall m, m ∈ data out ->
        attached lk rk right m
        /\ exists l, l ∈ data left
                     /\ forall c, c ∈ columns left -> cell m c = cell l c)
  /\ (forall l, l ∈ data left ->
        exists m, m ∈ data out
                  /\ forall c, c ∈ columns left -> cell m c = cell l c)
  /\ (unique_keys rk right ->
      Forall2 (fun l m => forall c, c ∈ columns left -> cell m c = cell l c)
        (data left) (data out)).
Proof.
  intros H Hfresh.
  destruct (merge_left_on_Ok _ _ _ _ _ H Hfresh) as (Hcols & Hdata & Hlk).
  split; [exact Hcols|]. split; [exact Hlk|]. rewrite Hdata.
  split; [|split].
  - intros m Hm. apply elem_of_flat_map in Hm as (l & Hl & Hm).
    destruct (join_rows_elem _ _ _ _ _ _ Hfresh Hlk Hm) as [Hleft Hatt].
    split; [exact Hatt|]. eauto.
  - intros l Hl.
    destruct (join_rows_nonempty lk rk (columns left)
                (joined_columns lk rk right) (data right) l)
      as (m & rest & Hrows).
    assert (Hm : m ∈ join_rows lk rk (columns left)
                       (joined_columns lk rk right) (data right) l)
      by (rewrite Hrows; now left).
    exists m. split; [apply elem_of_flat_map; eauto|].
    now apply (join_rows_elem _ _ _ _ _ _ Hfresh Hlk Hm).
  - intros Hu. apply Forall2_flat_map_singleton. intros l Hl.
    destruct (join_rows_unique lk rk (columns left) right l Hu) as [m Hrows].
    exists m. split; [exact Hrows|].
    assert (Hm : m ∈ join_rows lk rk (columns left)
                       (joined_columns lk rk right) (data right) l)
      by (rewrite Hrows; now left).
    now apply (join_rows_elem _ _ _ _ _ _ Hfresh Hlk Hm).
Qed.

(** ** The chain of joins *)

Lemma join_all_rows joins :
  forall df out,
    join_all joins df = Ok out ->
    NoDup (columns df ++ columns_added joins) ->
    columns out = columns df ++ columns_added joins
    /\ (forall m, m ∈ data out ->
          Forall (fun j => attached j.1.1 j.1.2 j.2 m) joins
          /\ exists l, l ∈ data df
                       /\ forall c, c ∈ columns df -> cell m c = cell l c)
    /\ (forall l, l ∈ data df ->
          exists m, m ∈ data out
                    /\ forall c, c ∈ columns df -> cell m c = cell l c)
    /\ (Forall (fun j => unique_keys j.1.2 j.2) joins ->
        Forall2 (fun l m => forall c, c ∈ columns df -> cell m c = cell l c)
          (data df) (data out)).
Proof.
  induction joins as [|j rest IH]; intros df out H Hnd.
  - injection H as <-. unfold columns_added. simpl. rewrite app_nil_r.
    split; [reflexivity|]. split; [|split].
    + intros m Hm. split; [constructor | eauto].
    + intros l Hl. eauto.
    + intros _. apply Forall2_same_length_lookup_2; [reflexivity|].
      intros i x y Hx Hy c _. congruence.
  - simpl in H. apply bind_Ok in H as (df' & Hstep & H).
    unfold columns_added in Hnd. simpl in Hnd.
    fold (columns_added rest) in Hnd.
    assert (Hfresh : forall c, c ∈ joined_columns j.1.1 j.1.2 j.2 ->
                               c ∉ columns df).
    { intros c Hc Hin. apply NoDup_app in Hnd as (_ & Hdisj & _).
      apply (Hdisj c Hin). apply elem_of_app. now left. }
    destruct (merge_left_on_rows _ _ _ _ _ Hstep Hfresh)
      as (Hc' & Hlk & Hin' & Hcov' & Hu').
    rewrite app_assoc, <- Hc' in Hnd.
    destruct (IH df' out H Hnd) as (Hc & Hin & Hcov & Hu).
    assert (Hsub : forall c, c ∈ columns df -> c ∈ columns df').
    { intros c Hcc. rewrite Hc'. apply elem_of_app. now left. }
    split; [|split; [|split]].
    + rewrite Hc, Hc'. unfold columns_added. simpl.
      now rewrite app_assoc.
    + intros m Hm. destruct (Hin m Hm) as (Hatt & l' & Hl' & Hagree').
      destruct (Hin' l' Hl') as (Hattj & l & Hl & Hagree).
      split.
      * constructor; [|exact Hatt].
        apply (attached_ext _ _ _ l'); [| |exact Hattj].
        -- eapply Forall_impl; [exact Hlk|]. intros c Hcc. simpl.
           apply Hagree'. now apply Hsub.
        -- intros c Hcc. apply Hagree'. rewrite Hc'. apply elem_of_app.
           now right.
      * exists l. split; [exact Hl|]. intros c Hcc.
        rewrite Hagree' by (now apply Hsub). now apply Hagree.
    + intros l Hl. destruct (Hcov' l Hl) as (m' & Hm' & Hagree').
      destruct (Hcov m' Hm') as (m & Hm & Hagree). exists m.
      split; [exact Hm|]. intros c Hcc.
      rewrite Hagree by (now apply Hsub). now apply Hagree'.
    + intros Huniq. apply Forall_cons in Huniq as [Huj Hurest].
      eapply Forall2_compose; [|exact (Hu' Huj) | exact (Hu Hurest)].
      intros x y z Hxy Hyz c Hcc. simpl in *.
      rewrite Hyz by (now apply Hsub). now apply Hxy.
Qed.

Lemma select_ne_Ok c v df df' :
  select_ne c v df = Ok df' ->
  columns df' = columns df
  /\ data df' = filter (fun r => cell r c <> v) (data df).
Proof.
  unfold select_ne. destruct (has_column df c); [|discriminate].
  intros [= <-]. auto.
Qed.

Lemma merge_tables_join_all
    df_td df_a df_p df_minor df_th df_dm df_code_degree df_stoplist :
  merge_tables df_td df_a df_p df_minor df_th df_dm df_code_degree df_stoplist
  = (df ← select_ne "DEGREE" (VStr "MINOR") df_td;
     join_all
       (table_joins df_a df_p df_minor df_th df_dm df_code_degree
          df_stoplist) df).
Proof.
  unfold merge_tables, table_joins.
  destruct (select_ne "DEGREE" (VStr "MINOR") df_td) as [d0|]; [|reflexivity].
  simpl.
  destruct (merge_left_on _ _ d0 df_a) as [d1|]; [|reflexivity]. simpl.
  destruct (merge_left_on _ _ d1 df_p) as [d2|]; [|reflexivity]. simpl.
  destruct (merge_left_on _ _ d2 df_minor) as [d3|]; [|reflexivity]. simpl.
  destruct (merge_left_on _ _ d3 df_th) as [d4|]; [|reflexivity]. simpl.
  destruct (merge_left_on _ _ d4 df_dm) as [d5|]; [|reflexivity]. simpl.
  destruct (merge_left_on _ _ d5 df_code_degree) as [d6|]; [|reflexivity].
  simpl.
  now destruct (merge_left_on _ _ d6 df_stoplist).
Qed.

Lemma merge_tables_spec
    df_td df_a df_p df_minor df_th df_dm df_code_degree df_stoplist df :
  let joins :=
    table_joins df_a df_p df_minor df_th df_dm df_code_degree df_stoplist in
  merge_tables df_td df_a df_p df_minor df_th df_dm df_code_degree df_stoplist
  = Ok df ->
  NoDup (columns df_td ++ columns_added joins) ->
  columns df = columns df_td ++ columns_added joins
  /\ (forall m, m ∈ data df ->
        exists t, t ∈ degree_rows df_td /\ extends (columns df_td) joins t m)
  /\ (forall t, t ∈ degree_rows df_td ->
        exists m, m ∈ data df /\ extends (columns df_td) joins t m)
  /\ (Forall (fun j => unique_keys j.1.2 j.2) joins ->
      Forall2 (extends (columns df_td) joins) (degree_rows df_td) (data df)).
Proof.
  intros joins H Hnd. rewrite merge_tables_join_all in H. fold joins in H.
  apply bind_Ok in H as (d0 & Hd0 & H).
  apply select_ne_Ok in Hd0 as [Hc0 Hdata0].
  rewrite <- Hc0 in Hnd.
  destruct (join_all_rows joins d0 df H Hnd) as (Hc & Hin & Hcov & Hu).
  rewrite Hc0 in Hc, Hin, Hcov, Hu. fold (degree_rows df_td) in Hdata0.
  rewrite Hdata0 in Hin, Hcov, Hu.
  split; [exact Hc|]. split; [|split].
  - intros m Hm. destruct (Hin m Hm) as (Hatt & t & Ht & Hagree).
    exists t. split; [exact Ht|]. split; assumption.
  - intros t Ht. destruct (Hcov t Ht) as (m & Hm & Hagree).
    exists m. split; [exact Hm|]. split; [exact Hagree|].
    now apply Hin.
  - intros Huniq. specialize (Hu Huniq).
    apply Forall2_same_length_lookup_2;
      [eapply Forall2_length; exact Hu|].
    intros i t m Ht Hm. split.
    + eapply Forall2_lookup_lr in Hu; [exact Hu|exact Ht|exact Hm].
    + apply Hin. eapply list_elem_of_lookup_2; exact Hm.
Qed.

(** ** Former names *)

Lemma former_names_renamed d :
  columns d = former_name_fields ->
  rename [ ("FIRST_NAME", "Previous First Name");
           ("LAST_NAME", "Previous Last Name") ] d
  = {| columns := [ "PEOPLE_CODE_ID"; "Previous First Name"; "MIDDLE_NAME";
                    "Previous Last Name"; "NAME_CHANGE_DATE" ];
       data := map former_name_row (data d) |}.
Proof.
  intros Hc.
  assert (H1 : rename_column "FIRST_NAME" "Previous First Name" d
               = {| columns := [ "PEOPLE_CODE_ID"; "Previous First Name";
                                 "MIDDLE_NAME"; "LAST_NAME";
                                 "NAME_CHANGE_DATE" ];
                    data := map (fun r =>
                              <["Previous First Name" := cell r "FIRST_NAME"]>
                                (delete "FIRST_NAME" r)) (data d) |}).
  { unfold rename_column, has_column. rewrite Hc. reflexivity. }
  unfold rename. simpl. rewrite H1. unfold rename_column, has_column. simpl.
  rewrite map_map. reflexivity.
Qed.

Lemma former_name_row_cells r :
  cell (former_name_row r) "PEOPLE_CODE_ID" = cell r "PEOPLE_CODE_ID"
  /\ cell (former_name_row r) "Previous First Name" = cell r "FIRST_NAME"
  /\ cell (former_name_row r) "Previous Last Name" = cell r "LAST_NAME".
Proof.
  unfold former_name_row. cbv zeta.
  repeat split;
    repeat first [ rewrite cell_insert_eq
                 | rewrite cell_insert_ne by discriminate
                 | rewrite cell_delete_ne by discriminate ];
    reflexivity.
Qed.

Lemma keys_match_singleton a b l r :
  keys_match [a] [b] l r <-> cell l a = cell r b.
Proof.
  unfold keys_match. split.
  - intros H. now inversion H.
  - intros H. repeat constructor. exact H.
Qed.

Lemma Forall2_with_right {A B} (R : A -> B -> Prop) (P : B -> Prop) l k :
  Forall2 R l k -> (forall y, y ∈ k -> P y) ->
  Forall2 (fun x y => R x y /\ P y) l k.
Proof.
  induction 1 as [|x y l k Hxy _ IH]; intros HP; constructor.
  - split; [exact Hxy|]. apply HP. now left.
  - apply IH. intros z Hz. apply HP. now right.
Qed.

Lemma people_formername_returns :
  people_formername Tables.registrar Tables.people tt = (Ok Tables.df_p, tt).
Proof.
  assert (H : is_ok (people_formername Tables.registrar Tables.people tt).1
              = true) by (vm_compute; reflexivity).
  apply is_ok_frame_of in H. fold Tables.df_p in H.
  destruct (people_formername Tables.registrar Tables.people tt) as [r []].
  simpl in H. now rewrite H.
Qed.

(** X21. [people_formername] ends with the exception of its query when
    the query fails.  When the query answers with the fields asked for
    and the people frame has no previous-name column of its own,
    [people_formername] leaves the source as the query left it, and the
    frame that it returns has the rows of the people frame, one for
    one and in their order, with the cells of the people frame unchanged
    and two more columns.  For a person without a former name both hold a
    blank; otherwise they hold the first and the last name (a blank for a
    missing one) of one former-name row of the person, which no
    former-name row of the person exceeds in the date of change. *)
Theorem people_formername_previous_names {db : Type}
    (select : data_source db) (s : db) people_df :
  (forall e s1,
     people_formername_query select s = (Raise e, s1) ->
     people_formername select people_df s = (Raise e, s1))
  /\ forall names s1 out s2,
  people_formername_query select s = (Ok names, s1) ->
  columns names = former_name_fields ->
  "Previous First Name" ∉ columns people_df ->
  "Previous Last Name" ∉ columns people_df ->
  people_formername select people_df s = (Ok out, s2) ->
  s2 = s1
  /\ columns out
     = columns people_df ++ ["Previous First Name"; "Previous Last Name"]
  /\ Forall2 (fun p r =>
       (forall c, c ∈ columns people_df -> cell r c = cell p c)
       /\ (((forall n, n ∈ data names ->
               cell n "PEOPLE_CODE_ID" <> cell p "PEOPLE_CODE_ID")
            /\ cell r "Previous First Name" = VStr " "
            /\ cell r "Previous Last Name" = VStr " ")
           \/ exists n,
                latest_of ["PEOPLE_CODE_ID"] "NAME_CHANGE_DATE" (data names) n
                /\ cell n "PEOPLE_CODE_ID" = cell p "PEOPLE_CODE_ID"
                /\ cell r "Previous First Name"
                   = or_else (VStr " ") (cell n "FIRST_NAME")
                /\ cell r "Previous Last Name"
                   = or_else (VStr " ") (cell n "LAST_NAME")))
       (data people_df) (data out).
Proof.
  split.
  { intros e s1 Hq. unfold people_formername.
    now rewrite (reading_bind_Raise _ _ _ _ _ Hq). }
  intros names s1 out s2 Hq Hfields Hpfn Hpln H.
  unfold people_formername in H.
  rewrite (reading_bind_Ok _ _ _ _ _ Hq) in H. unfold pandas in H.
  apply pair_equal_spec in H as [H <-]. split; [reflexivity|].
  apply bind_Ok in H as (t & Ht & H). apply bind_Ok in H as (d & Hd & H).
  destruct (latest_rows _ _ _ _ _ Ht Hd) as (Hc & Hnd & Hcover & Hlast & _).
  rewrite Hfields in Hc. rewrite (former_names_renamed d Hc) in H.
  apply bind_Ok in H as (d' & Hd' & H).
  apply drop_columns_Ok in Hd' as [Hcd' Hdd']. simpl in Hcd', Hdd'.
  assert (Hcols' : columns d'
                   = [ "PEOPLE_CODE_ID"; "Previous First Name";
                       "Previous Last Name" ])
    by (rewrite Hcd'; reflexivity).
  clear Hcd'.
  apply bind_Ok in H as (j & Hj & H).
  assert (Hjc : joined_columns ["PEOPLE_CODE_ID"] ["PEOPLE_CODE_ID"] d'
                = ["Previous First Name"; "Previous Last Name"])
    by (unfold joined_columns; rewrite Hcols'; reflexivity).
  assert (Hfresh : forall c,
            c ∈ joined_columns ["PEOPLE_CODE_ID"] ["PEOPLE_CODE_ID"] d' ->
            c ∉ columns people_df).
  { intros c Hcc. rewrite Hjc in Hcc.
    apply elem_of_cons in Hcc as [->|Hcc]; [exact Hpfn|].
    apply list_elem_of_singleton in Hcc as ->. exact Hpln. }
  destruct (merge_left_on_rows _ _ _ _ _ Hj Hfresh)
    as (Hcj & Hlk & Hin & _ & Hu).
  apply Forall_cons in Hlk as [Hpc _].
  assert (Huniq : unique_keys ["PEOPLE_CODE_ID"] d').
  { unfold unique_keys. rewrite Hdd', map_map.
    erewrite map_ext; [exact Hnd|]. intros r. unfold cells_of. simpl.
    f_equal. apply former_name_row_cells. }
  specialize (Hu Huniq).
  apply (Forall2_with_right _ (attached ["PEOPLE_CODE_ID"]
                                 ["PEOPLE_CODE_ID"] d')) in Hu.
  2: { intros m Hm. now apply Hin. }
  apply fillna_Ok in H as [Hdata Hcout].
  split; [now rewrite Hcout, Hcj, Hjc|].
  rewrite Hdata. apply Forall2_fmap_r.
  eapply Forall2_impl; [exact Hu|]. clear Hu Hin.
  intros p m [Hagree Hatt]. simpl in Hagree.
  assert (Hfirst : cell (fillna_row ["Previous First Name";
                                     "Previous Last Name"] (VStr " ") m)
                     "Previous First Name"
                   = or_else (VStr " ") (cell m "Previous First Name")).
  { rewrite fillna_row_cell. now rewrite bool_decide_eq_true_2 by label_fact. }
  assert (Hlastn : cell (fillna_row ["Previous First Name";
                                     "Previous Last Name"] (VStr " ") m)
                     "Previous Last Name"
                   = or_else (VStr " ") (cell m "Previous Last Name")).
  { rewrite fillna_row_cell. now rewrite bool_decide_eq_true_2 by label_fact. }
  split.
  - intros c Hcc. rewrite fillna_row_cell.
    rewrite bool_decide_eq_false_2; [now apply Hagree|].
    intros Hx. apply elem_of_cons in Hx as [->|Hx]; [contradiction|].
    apply list_elem_of_singleton in Hx as ->. contradiction.
  - rewrite Hfirst, Hlastn.
    destruct Hatt as [[Hno Hnan]|(n' & Hn' & Hkm & Hcells)].
    + left. split; [|split].
      * intros n Hn Heq. destruct (Hcover n Hn) as (n1 & Hn1 & Hsame).
        apply same_on_singleton in Hsame.
        apply (Hno (former_name_row n1)).
        -- rewrite Hdd'. apply list_elem_of_fmap. eauto.
        -- apply keys_match_singleton.
           destruct (former_name_row_cells n1) as (-> & _ & _).
           rewrite (Hagree _ Hpc). congruence.
      * rewrite Hnan by (rewrite Hjc; label_fact). reflexivity.
      * rewrite Hnan by (rewrite Hjc; label_fact). reflexivity.
    + right. rewrite Hdd' in Hn'.
      apply list_elem_of_fmap in Hn' as (n & -> & Hn).
      apply keys_match_singleton in Hkm.
      destruct (former_name_row_cells n) as (Hid & Hfn & Hln).
      rewrite Hid, (Hagree _ Hpc) in Hkm.
      destruct (Hlast n Hn) as [Hnin Hmax]. exists n. split; [|split; [|split]].
      * split; [exact Hnin|]. intros x Hx Hsame.
        apply (key_leb_same_group "PEOPLE_CODE_ID");
          [now apply same_on_singleton | now apply Hmax].
      * now symmetry.
      * rewrite Hcells by (rewrite Hjc; label_fact). now rewrite Hfn.
      * rewrite Hcells by (rewrite Hjc; label_fact). now rewrite Hln.
Qed.

Lemma people_formername_previous_names_witness :
  (people_formername_query Tables.registrar tt = (Ok Tables.former_names, tt)
   /\ columns Tables.former_names = former_name_fields
   /\ ("Previous First Name" ∉ columns Tables.people)
   /\ ("Previous Last Name" ∉ columns Tables.people)
   /\ people_formername Tables.registrar Tables.people tt
      = (Ok Tables.df_p, tt))
  /\ columns Tables.df_p
     = columns Tables.people ++ ["Previous First Name"; "Previous Last Name"]
  /\ length (data Tables.df_p) = length (data Tables.people).
Proof.
  assert (H1 : "Previous First Name" ∉ columns Tables.people) by label_fact.
  assert (H2 : "Previous Last Name" ∉ columns Tables.people) by label_fact.
  split; [split; [reflexivity|]; split; [reflexivity|]; split; [exact H1|];
          split; [exact H2 | exact people_formername_returns]|].
  destruct (people_formername_previous_names Tables.registrar tt
              Tables.people) as [_ Hanswer].
  destruct (Hanswer Tables.former_names tt _ tt eq_refl eq_refl H1 H2
              people_formername_returns) as (_ & Hcols & Hrows).
  split; [exact Hcols|]. symmetry. eapply Forall2_length. exact Hrows.
Defined.

(** ** The merged frame *)

Lemma merged_returns : Tables.merged = Ok (frame_of Tables.merged).
Proof. apply is_ok_frame_of. vm_compute. reflexivity. Qed.

Lemma tables_apart :
  NoDup (columns Tables.degrees
         ++ columns_added
              (table_joins Tables.attendance Tables.df_p Tables.df_minor
                 Tables.df_th Tables.df_dm Tables.code_degrees
                 Tables.df_stoplist)).
Proof. label_fact. Qed.

Lemma tables_unique :
  Forall (fun j => unique_keys j.1.2 j.2)
    (table_joins Tables.attendance Tables.df_p Tables.df_minor
       Tables.df_th Tables.df_dm Tables.code_degrees Tables.df_stoplist).
Proof. label_fact. Qed.

(** X22. When the eight frames share no column label apart from the join
    keys, the frame that the chain of joins returns has the columns of
    the degree frame followed by the columns that each join adds.  Each
    of its rows extends a degree that is not a minor: it has the cells of
    that degree and, for each joined frame, the cells of a row of that
    frame with the same keys, or missing values when the frame has no
    such row.  Every degree that is not a minor is extended by at least
    one row. *)
Theorem merge_tables_rows
    df_td df_a df_p df_minor df_th df_dm df_code_degree df_stoplist df :
  let joins :=
    table_joins df_a df_p df_minor df_th df_dm df_code_degree df_stoplist in
  NoDup (columns df_td ++ columns_added joins) ->
  merge_tables df_td df_a df_p df_minor df_th df_dm df_code_degree df_stoplist
  = Ok df ->
  columns df = columns df_td ++ columns_added joins
  /\ (forall m, m ∈ data df ->
        exists t, t ∈ degree_rows df_td /\ extends (columns df_td) joins t m)
  /\ (forall t, t ∈ degree_rows df_td ->
        exists m, m ∈ data df /\ extends (columns df_td) joins t m).
Proof.
  intros joins Hnd H.
  destruct (merge_tables_spec _ _ _ _ _ _ _ _ _ H Hnd)
    as (Hc & Hin & Hcov & _).
  auto.
Qed.

Lemma merge_tables_rows_witness :
  let joins :=
    table_joins Tables.attendance Tables.df_p Tables.df_minor Tables.df_th
      Tables.df_dm Tables.code_degrees Tables.df_stoplist in
  (NoDup (columns Tables.degrees ++ columns_added joins)
   /\ Tables.merged = Ok (frame_of Tables.merged))
  /\ columns (frame_of Tables.merged)
     = columns Tables.degrees ++ columns_added joins
  /\ (forall m, m ∈ data (frame_of Tables.merged) ->
        exists t, t ∈ degree_rows Tables.degrees
                  /\ extends (columns Tables.degrees) joins t m)
  /\ (forall t, t ∈ degree_rows Tables.degrees ->
        exists m, m ∈ data (frame_of Tables.merged)
                  /\ extends (columns Tables.degrees) joins t m).
Proof.
  split; [split; [exact tables_apart | exact merged_returns]|].
  exact (merge_tables_rows Tables.degrees Tables.attendance Tables.df_p
           Tables.df_minor Tables.df_th Tables.df_dm Tables.code_degrees
           Tables.df_stoplist _ tables_apart merged_returns).
Defined.

(** X23. When, besides, no two rows of any joined frame have the same
    keys, the merged frame has exactly one row for each degree that is
    not a minor, in the order of the degree frame. *)
Theorem merge_tables_one_row_per_degree
    df_td df_a df_p df_minor df_th df_dm df_code_degree df_stoplist df :
  let joins :=
    table_joins df_a df_p df_minor df_th df_dm df_code_degree df_stoplist in
  NoDup (columns df_td ++ columns_added joins) ->
  Forall (fun j => unique_keys j.1.2 j.2) joins ->
  merge_tables df_td df_a df_p df_minor df_th df_dm df_code_degree df_stoplist
  = Ok df ->
  Forall2 (extends (columns df_td) joins) (degree_rows df_td) (data df).
Proof.
  intros joins Hnd Hu H.
  destruct (merge_tables_spec _ _ _ _ _ _ _ _ _ H Hnd) as (_ & _ & _ & Hall).
  now apply Hall.
Qed.

Lemma merge_tables_one_row_per_degree_witness :
  let joins :=
    table_joins Tables.attendance Tables.df_p Tables.df_minor Tables.df_th
      Tables.df_dm Tables.code_degrees Tables.df_stoplist in
  (NoDup (columns Tables.degrees ++ columns_added joins)
   /\ Forall (fun j => unique_keys j.1.2 j.2) joins
   /\ Tables.merged = Ok (frame_of Tables.merged))
  /\ Forall2 (extends (columns Tables.degrees) joins)
       (degree_rows Tables.degrees) (data (frame_of Tables.merged)).
Proof.
  split; [split; [exact tables_apart|];
          split; [exact tables_unique | exact merged_returns]|].
  exact (merge_tables_one_row_per_degree Tables.degrees Tables.attendance
           Tables.df_p Tables.df_minor Tables.df_th Tables.df_dm
           Tables.code_degrees Tables.df_stoplist _ tables_apart
           tables_unique merged_returns).
Defined.

(** ** From the tables to the records *)

Lemma government_id_joined df_p :
  "GOVERNMENT_ID" ∈ columns df_p ->
  "GOVERNMENT_ID"
  ∈ joined_columns ["PEOPLE_CODE_ID"] ["PEOPLE_CODE_ID"] df_p.
Proof.
  intros H. unfold joined_columns. apply list_elem_of_filter.
  split; [|exact H]. label_fact.
Qed.

Lemma people_attached
    df_a df_p df_minor df_th df_dm df_code_degree df_stoplist m :
  Forall (fun j => attached j.1.1 j.1.2 j.2 m)
    (table_joins df_a df_p df_minor df_th df_dm df_code_degree df_stoplist) ->
  attached ["PEOPLE_CODE_ID"] ["PEOPLE_CODE_ID"] df_p m.
Proof.
  unfold table_joins. intros H. apply Forall_cons in H as [_ H].
  now apply Forall_cons in H as [H _].
Qed.

Lemma records_stages
    df_td df_a df_p df_minor df_th df_dm df_code_degree df_stoplist out :
  let joins :=
    table_joins df_a df_p df_minor df_th df_dm df_code_degree df_stoplist in
  NoDup (columns df_td ++ columns_added joins) ->
  Forall (fun c => c ∈ columns df_td)
    ["PEOPLE_CODE_ID"; "GRADUATION_DATE"; "FORMAL_TITLE"] ->
  "GOVERNMENT_ID" ∈ columns df_p ->
  create_DV_df_from_tables df_td df_a df_p df_minor df_th df_dm
    df_code_degree df_stoplist = Ok out ->
  exists df,
    merge_tables df_td df_a df_p df_minor df_th df_dm df_code_degree
      df_stoplist = Ok df
    /\ create_DV_df df = Ok out
    /\ Forall (fun c => has_column df c = true)
         ["GOVERNMENT_ID"; "PEOPLE_CODE_ID"; "GRADUATION_DATE";
          "FORMAL_TITLE"].
Proof.
  intros joins Hnd Htd Hgov H. unfold create_DV_df_from_tables in H.
  apply bind_Ok in H as (df & Hdf & H). exists df.
  split; [exact Hdf|]. split; [exact H|].
  destruct (merge_tables_spec _ _ _ _ _ _ _ _ _ Hdf Hnd) as (Hc & _).
  fold joins in Hc. rewrite Forall_forall in Htd.
  assert (Hleft : forall c, c ∈ columns df_td -> has_column df c = true).
  { intros c Hcc. apply has_column_true. rewrite Hc. apply elem_of_app.
    now left. }
  repeat apply Forall_cons_2; try (apply Hleft, Htd; label_fact);
    [|apply Forall_nil_2].
  apply has_column_true. rewrite Hc. apply elem_of_app. right.
  unfold joins, table_joins, columns_added. simpl.
  apply elem_of_app. right. apply elem_of_app. left.
  now apply government_id_joined.
Qed.

Lemma prepared_report_cell df m pr old new :
  prepared df m pr -> (old, new) ∈ report_names -> new ∉ fill_list ->
  has_column df old = true -> cell pr new = cell m old.
Proof.
  intros (_ & _ & _ & _ & _ & _ & _ & Hren & _) Hin Hnf Hhas.
  rewrite (Hren old new Hin Hhas). now rewrite bool_decide_eq_false_2.
Qed.

Lemma records_returns : Tables.records = Ok (frame_of Tables.records).
Proof. apply is_ok_frame_of. vm_compute. reflexivity. Qed.

Lemma degrees_columns :
  Forall (fun c => c ∈ columns Tables.degrees)
    ["PEOPLE_CODE_ID"; "GRADUATION_DATE"; "FORMAL_TITLE"].
Proof. label_fact. Qed.

Lemma people_government_id : "GOVERNMENT_ID" ∈ columns Tables.df_p.
Proof. label_fact. Qed.

(** X24. Every record that lines 297-451 make of the eight frames comes
    from a degree that is not a minor and from a row of the people frame
    for the student of that degree that has a string as government ID:
    the record holds that ID (or NO SSN in its place), the student, the
    graduation date and the formal title of the degree.  So a minor, a
    student who is not among the people and a student without a
    government ID give no record. *)
Theorem records_come_from_degrees
    df_td df_a df_p df_minor df_th df_dm df_code_degree df_stoplist out :
  let joins :=
    table_joins df_a df_p df_minor df_th df_dm df_code_degree df_stoplist in
  NoDup (columns df_td ++ columns_added joins) ->
  Forall (fun c => c ∈ columns df_td)
    ["PEOPLE_CODE_ID"; "GRADUATION_DATE"; "FORMAL_TITLE"] ->
  "GOVERNMENT_ID" ∈ columns df_p ->
  create_DV_df_from_tables df_td df_a df_p df_minor df_th df_dm
    df_code_degree df_stoplist = Ok out ->
  forall rec,
    rec ∈ data out ->
    exists t p s,
      t ∈ data df_td /\ cell t "DEGREE" <> VStr "MINOR"
      /\ p ∈ data df_p
      /\ cell p "PEOPLE_CODE_ID" = cell t "PEOPLE_CODE_ID"
      /\ cell p "GOVERNMENT_ID" = VStr s
      /\ cell rec "Student SSN" = VStr (normal_ssn s)
      /\ cell rec "College Student ID" = cell t "PEOPLE_CODE_ID"
      /\ cell rec awarded = cell t "GRADUATION_DATE"
      /\ cell rec "Major Course of Study 1" = cell t "FORMAL_TITLE".
Proof.
  intros joins Hnd Htd Hgov H rec Hrec.
  destruct (records_stages _ _ _ _ _ _ _ _ _ Hnd Htd Hgov H)
    as (df & Hdf & Hout & Hhas).
  destruct (merge_tables_spec _ _ _ _ _ _ _ _ _ Hdf Hnd) as (_ & Hin & _).
  destruct (assembled_elem _ _ _ Hout Hrec) as (m & pr & Hm & Hpr & Hstr & ->).
  destruct (Hin m Hm) as (t & Ht & Hagree & Hatt).
  apply list_elem_of_filter in Ht as [Hdeg Ht].
  rewrite Forall_forall in Htd, Hhas.
  assert (Hssn : cell pr "Student SSN" = cell m "GOVERNMENT_ID").
  { apply (prepared_report_cell df); [exact Hpr| | |];
      [label_fact | label_fact | apply Hhas; label_fact]. }
  assert (Hid : cell pr "College Student ID" = cell m "PEOPLE_CODE_ID").
  { apply (prepared_report_cell df); [exact Hpr| | |];
      [label_fact | label_fact | apply Hhas; label_fact]. }
  assert (Hdate : cell pr awarded = cell m "GRADUATION_DATE").
  { apply (prepared_report_cell df); [exact Hpr| | |];
      [label_fact | label_fact | apply Hhas; label_fact]. }
  assert (Htitle : cell pr "Major Course of Study 1" = cell m "FORMAL_TITLE").
  { apply (prepared_report_cell df); [exact Hpr| | |];
      [label_fact | label_fact | apply Hhas; label_fact]. }
  apply is_str_VStr in Hstr as [s Hs].
  apply people_attached in Hatt.
  destruct Hatt as [[_ Hnan]|(p & Hp & Hkm & Hcells)].
  - exfalso. rewrite Hssn, Hnan in Hs by (now apply government_id_joined).
    discriminate.
  - apply keys_match_singleton in Hkm. exists t, p, s.
    split; [exact Ht|]. split; [exact Hdeg|]. split; [exact Hp|].
    split; [rewrite <- Hkm; apply Hagree, Htd; label_fact|].
    split.
    { rewrite <- Hcells by (now apply government_id_joined). congruence. }
    split; [now apply relabel_row_ssn|].
    rewrite !relabel_row_other by discriminate.
    rewrite Hid, Hdate, Htitle.
    repeat split; apply Hagree, Htd; label_fact.
Qed.

Lemma records_come_from_degrees_witness :
  let joins :=
    table_joins Tables.attendance Tables.df_p Tables.df_minor Tables.df_th
      Tables.df_dm Tables.code_degrees Tables.df_stoplist in
  (NoDup (columns Tables.degrees ++ columns_added joins)
   /\ Forall (fun c => c ∈ columns Tables.degrees)
        ["PEOPLE_CODE_ID"; "GRADUATION_DATE"; "FORMAL_TITLE"]
   /\ "GOVERNMENT_ID" ∈ columns Tables.df_p
   /\ Tables.records = Ok (frame_of Tables.records))
  /\ forall rec,
       rec ∈ data (frame_of Tables.records) ->
       exists t p s,
         t ∈ data Tables.degrees /\ cell t "DEGREE" <> VStr "MINOR"
         /\ p ∈ data Tables.df_p
         /\ cell p "PEOPLE_CODE_ID" = cell t "PEOPLE_CODE_ID"
         /\ cell p "GOVERNMENT_ID" = VStr s
         /\ cell rec "Student SSN" = VStr (normal_ssn s)
         /\ cell rec "College Student ID" = cell t "PEOPLE_CODE_ID"
         /\ cell rec awarded = cell t "GRADUATION_DATE"
         /\ cell rec "Major Course of Study 1" = cell t "FORMAL_TITLE".
Proof.
  split; [split; [exact tables_apart|]; split; [exact degrees_columns|];
          split; [exact people_government_id | exact records_returns]|].
  exact (records_come_from_degrees Tables.degrees Tables.attendance
           Tables.df_p Tables.df_minor Tables.df_th Tables.df_dm
           Tables.code_degrees Tables.df_stoplist _ tables_apart
           degrees_columns people_government_id records_returns).
Defined.

(** X25. Conversely no eligible degree is lost: when lines 297-451 return
    the records, a degree that is not a minor, of a student who is among
    the people and has a government ID in every row there, has a record
    with its student, graduation date and formal title. *)
Theorem eligible_degree_is_reported
    df_td df_a df_p df_minor df_th df_dm df_code_degree df_stoplist out t :
  let joins :=
    table_joins df_a df_p df_minor df_th df_dm df_code_degree df_stoplist in
  NoDup (columns df_td ++ columns_added joins) ->
  Forall (fun c => c ∈ columns df_td)
    ["PEOPLE_CODE_ID"; "GRADUATION_DATE"; "FORMAL_TITLE"] ->
  "GOVERNMENT_ID" ∈ columns df_p ->
  create_DV_df_from_tables df_td df_a df_p df_minor df_th df_dm
    df_code_degree df_stoplist = Ok out ->
  t ∈ data df_td -> cell t "DEGREE" <> VStr "MINOR" ->
  (exists p, p ∈ data df_p
             /\ cell p "PEOPLE_CODE_ID" = cell t "PEOPLE_CODE_ID") ->
  (forall p, p ∈ data df_p ->
             cell p "PEOPLE_CODE_ID" = cell t "PEOPLE_CODE_ID" ->
             cell p "GOVERNMENT_ID" <> VNaN) ->
  exists rec,
    rec ∈ data out
    /\ cell rec "College Student ID" = cell t "PEOPLE_CODE_ID"
    /\ cell rec awarded = cell t "GRADUATION_DATE"
    /\ cell rec "Major Course of Study 1" = cell t "FORMAL_TITLE".
Proof.
  intros joins Hnd Htd Hgov H Ht Hdeg (p0 & Hp0 & Hp0id) Hall.
  destruct (records_stages _ _ _ _ _ _ _ _ _ Hnd Htd Hgov H)
    as (df & Hdf & Hout & Hhas).
  destruct (merge_tables_spec _ _ _ _ _ _ _ _ _ Hdf Hnd) as (_ & _ & Hcov & _).
  destruct (Hcov t) as (m & Hm & Hagree & Hatt).
  { apply list_elem_of_filter. auto. }
  rewrite Forall_forall in Htd, Hhas.
  assert (Hmid : cell m "PEOPLE_CODE_ID" = cell t "PEOPLE_CODE_ID")
    by (apply Hagree, Htd; label_fact).
  apply people_attached in Hatt.
  assert (Hmgov : cell m "GOVERNMENT_ID" <> VNaN).
  { destruct Hatt as [[Hno _]|(p & Hp & Hkm & Hcells)].
    - exfalso. apply (Hno p0 Hp0). apply keys_match_singleton. congruence.
    - apply keys_match_singleton in Hkm.
      rewrite Hcells by (now apply government_id_joined).
      apply Hall; [exact Hp | congruence]. }
  apply assembled_rows in Hout as (pre & Hdata & Hpre & _).
  assert (Hssn : cell (pre m) "Student SSN" = cell m "GOVERNMENT_ID").
  { apply (prepared_report_cell df); [apply Hpre| | |];
      [label_fact | label_fact | apply Hhas; label_fact]. }
  exists (relabel_row (pre m)). split.
  - rewrite Hdata, stable_sort_perm. apply list_elem_of_fmap.
    exists (pre m). split; [reflexivity|]. apply list_elem_of_filter.
    split; [congruence|]. apply list_elem_of_fmap. eauto.
  - rewrite !relabel_row_other by discriminate.
    rewrite (prepared_report_cell df m (pre m) "PEOPLE_CODE_ID");
      [|apply Hpre | label_fact | label_fact | apply Hhas; label_fact].
    rewrite (prepared_report_cell df m (pre m) "GRADUATION_DATE");
      [|apply Hpre | label_fact | label_fact | apply Hhas; label_fact].
    rewrite (prepared_report_cell df m (pre m) "FORMAL_TITLE");
      [|apply Hpre | label_fact | label_fact | apply Hhas; label_fact].
    repeat split; apply Hagree, Htd; label_fact.
Qed.

Lemma forestry_degree_eligible :
  Tables.forestry_degree ∈ data Tables.degrees
  /\ cell Tables.forestry_degree "DEGREE" <> VStr "MINOR"
  /\ (exists p, p ∈ data Tables.df_p
                /\ cell p "PEOPLE_CODE_ID"
                   = cell Tables.forestry_degree "PEOPLE_CODE_ID")
  /\ forall p, p ∈ data Tables.df_p ->
               cell p "PEOPLE_CODE_ID"
               = cell Tables.forestry_degree "PEOPLE_CODE_ID" ->
               cell p "GOVERNMENT_ID" <> VNaN.
Proof.
  split; [label_fact|]. split; [label_fact|]. split.
  - exists (default ∅ (head (data Tables.df_p))). split; label_fact.
  - assert (H : Forall (fun p =>
                  cell p "PEOPLE_CODE_ID"
                  = cell Tables.forestry_degree "PEOPLE_CODE_ID" ->
                  cell p "GOVERNMENT_ID" <> VNaN) (data Tables.df_p))
      by label_fact.
    rewrite Forall_forall in H. exact H.
Qed.

Lemma eligible_degree_is_reported_witness :
  let joins :=
    table_joins Tables.attendance Tables.df_p Tables.df_minor Tables.df_th
      Tables.df_dm Tables.code_degrees Tables.df_stoplist in
  (NoDup (columns Tables.degrees ++ columns_added joins)
   /\ Forall (fun c => c ∈ columns Tables.degrees)
        ["PEOPLE_CODE_ID"; "GRADUATION_DATE"; "FORMAL_TITLE"]
   /\ "GOVERNMENT_ID" ∈ columns Tables.df_p
   /\ Tables.records = Ok (frame_of Tables.records)
   /\ Tables.forestry_degree ∈ data Tables.degrees
   /\ cell Tables.forestry_degree "DEGREE" <> VStr "MINOR"
   /\ (exists p, p ∈ data Tables.df_p
                 /\ cell p "PEOPLE_CODE_ID"
                    = cell Tables.forestry_degree "PEOPLE_CODE_ID")
   /\ forall p, p ∈ data Tables.df_p ->
                cell p "PEOPLE_CODE_ID"
                = cell Tables.forestry_degree "PEOPLE_CODE_ID" ->
                cell p "GOVERNMENT_ID" <> VNaN)
  /\ exists rec,
       rec ∈ data (frame_of Tables.records)
       /\ cell rec "College Student ID"
          = cell Tables.forestry_degree "PEOPLE_CODE_ID"
       /\ cell rec awarded = cell Tables.forestry_degree "GRADUATION_DATE"
       /\ cell rec "Major Course of Study 1"
          = cell Tables.forestry_degree "FORMAL_TITLE".
Proof.
  destruct forestry_degree_eligible as (H1 & H2 & H3 & H4).
  split.
  { split; [exact tables_apart|]. split; [exact degrees_columns|].
    split; [exact people_government_id|]. split; [exact records_returns|].
    split; [exact H1|]. split; [exact H2|]. split; [exact H3 | exact H4]. }
  exact (eligible_degree_is_reported Tables.degrees Tables.attendance
           Tables.df_p Tables.df_minor Tables.df_th Tables.df_dm
           Tables.code_degrees Tables.df_stoplist _ Tables.forestry_degree
           tables_apart degrees_columns people_government_id records_returns
           H1 H2 H3 H4).
Defined.

(** ** Where the looked-up fields come from *)

Lemma keys_match_cons a b lk rk l r :
  keys_match (a :: lk) (b :: rk) l r
  <-> cell l a = cell r b /\ keys_match lk rk l r.
Proof.
  unfold keys_match. split.
  - intros H. inversion H; subst. auto.
  - intros [H1 H2]. now constructor.
Qed.

Lemma keys_match_nil l r : keys_match [] [] l r.
Proof. constructor. Qed.

Lemma attached_looked_up lk rk right m matches found missing v :
  attached lk rk right m ->
  (forall r, keys_match lk rk m r <-> matches r) ->
  ((forall c, c ∈ joined_columns lk rk right -> cell m c = VNaN) ->
   v = missing) ->
  (forall r, (forall c, c ∈ joined_columns lk rk right ->
                        cell m c = cell r c) -> v = found r) ->
  looked_up right matches found missing v.
Proof.
  intros [[Hno Hnan]|(r & Hr & Hkm & Hcells)] Hm Hmiss Hfound.
  - left. split; [|auto]. intros r Hr Hmr. apply (Hno r Hr). now apply Hm.
  - right. exists r. split; [exact Hr|]. split; [now apply Hm | auto].
Qed.

Lemma joined_column_elem lk rk right c :
  c ∈ columns right -> c ∉ shared_keys lk rk ->
  c ∈ joined_columns lk rk right.
Proof. intros H1 H2. apply list_elem_of_filter. auto. Qed.

Lemma table_joins_attached
    df_a df_p df_minor df_th df_dm df_code_degree df_stoplist m :
  Forall (fun j => attached j.1.1 j.1.2 j.2 m)
    (table_joins df_a df_p df_minor df_th df_dm df_code_degree df_stoplist) ->
  attached ["PEOPLE_CODE_ID"] ["PEOPLE_CODE_ID"] df_a m
  /\ attached ["PEOPLE_CODE_ID"; "DEGREE"; "CURRICULUM"]
       ["PEOPLE_CODE_ID"; "DEGREE"; "CURRICULUM"] df_th m
  /\ attached ["DEGREE"; "CURRICULUM"] ["Degree"; "Curriculum"] df_dm m
  /\ attached ["DEGREE"] ["CODE_VALUE_KEY"] df_code_degree m
  /\ attached ["PEOPLE_CODE_ID"] ["PEOPLE_CODE_ID"] df_stoplist m.
Proof.
  unfold table_joins. intros H.
  apply Forall_cons in H as [Ha H]. apply Forall_cons in H as [_ H].
  apply Forall_cons in H as [_ H]. apply Forall_cons in H as [Hth H].
  apply Forall_cons in H as [Hdm H]. apply Forall_cons in H as [Hcd H].
  apply Forall_cons in H as [Hsl _]. auto.
Qed.

Lemma records_row
    df_td df_a df_p df_minor df_th df_dm df_code_degree df_stoplist out rec :
  let joins :=
    table_joins df_a df_p df_minor df_th df_dm df_code_degree df_stoplist in
  NoDup (columns df_td ++ columns_added joins) ->
  create_DV_df_from_tables df_td df_a df_p df_minor df_th df_dm
    df_code_degree df_stoplist = Ok out ->
  rec ∈ data out ->
  exists df t m pr,
    columns df = columns df_td ++ columns_added joins
    /\ t ∈ data df_td /\ cell t "DEGREE" <> VStr "MINOR"
    /\ extends (columns df_td) joins t m
    /\ prepared df m pr /\ rec = relabel_row pr.
Proof.
  intros joins Hnd H Hrec. unfold create_DV_df_from_tables in H.
  apply bind_Ok in H as (df & Hdf & Hout).
  destruct (merge_tables_spec _ _ _ _ _ _ _ _ _ Hdf Hnd) as (Hc & Hin & _).
  destruct (assembled_elem _ _ _ Hout Hrec) as (m & pr & Hm & Hpr & _ & ->).
  destruct (Hin m Hm) as (t & Ht & Hext).
  apply list_elem_of_filter in Ht as [Hdeg Ht].
  exists df, t, m, pr. split; [exact Hc|]. split; [exact Ht|].
  split; [exact Hdeg|]. split; [exact Hext|]. split; [exact Hpr | reflexivity].
Qed.

Lemma columns_added_elem
    df_a df_p df_minor df_th df_dm df_code_degree df_stoplist c :
  c ∈ joined_columns ["PEOPLE_CODE_ID"] ["PEOPLE_CODE_ID"] df_a
  \/ c ∈ joined_columns ["PEOPLE_CODE_ID"; "DEGREE"; "CURRICULUM"]
         ["PEOPLE_CODE_ID"; "DEGREE"; "CURRICULUM"] df_th
  \/ c ∈ joined_columns ["DEGREE"; "CURRICULUM"] ["Degree"; "Curriculum"]
         df_dm
  \/ c ∈ joined_columns ["DEGREE"] ["CODE_VALUE_KEY"] df_code_degree
  \/ c ∈ joined_columns ["PEOPLE_CODE_ID"] ["PEOPLE_CODE_ID"] df_stoplist ->
  c ∈ columns_added
        (table_joins df_a df_p df_minor df_th df_dm df_code_degree
           df_stoplist).
Proof.
  unfold columns_added, table_joins. simpl. rewrite !elem_of_app.
  intros [H|[H|[H|[H|H]]]]; tauto.
Qed.

(** X26. The fields of a record that are looked up in the joined frames,
    for the degree of the record: the attendance dates are those of a
    row of the attendance frame for the student (a blank for a missing
    date, and when the student has no row); the honors are read off the
    honors of a row for the student, degree and curriculum (a blank when
    there is none); the CIP code is that of a row of the degree mapping
    for the degree and curriculum (a blank when it is missing or there is
    no row); the title of the degree is the long description of a row of
    the code table for the degree code, and is missing when the code
    table has no row for it; the financial block is Y or N according to
    the stop reason of a row of the stop list for the student, and N when
    the student has no stop. *)
Theorem records_looked_up_fields
    df_td df_a df_p df_minor df_th df_dm df_code_degree df_stoplist out :
  let joins :=
    table_joins df_a df_p df_minor df_th df_dm df_code_degree df_stoplist in
  NoDup (columns df_td ++ columns_added joins) ->
  Forall (fun c => c ∈ columns df_td)
    ["PEOPLE_CODE_ID"; "DEGREE"; "CURRICULUM"] ->
  Forall (fun c => c ∈ columns df_a) ["START_DATE"; "END_DATE"] ->
  "HONORS" ∈ columns df_th -> "CipCode" ∈ columns df_dm ->
  "LONG_DESC" ∈ columns df_code_degree ->
  "STOP_REASON" ∈ columns df_stoplist ->
  "Academic Honors" ∉ columns df_td ++ columns_added joins ->
  create_DV_df_from_tables df_td df_a df_p df_minor df_th df_dm
    df_code_degree df_stoplist = Ok out ->
  forall rec,
    rec ∈ data out ->
    exists t,
      t ∈ data df_td /\ cell t "DEGREE" <> VStr "MINOR"
      /\ cell rec "College Student ID" = cell t "PEOPLE_CODE_ID"
      /\ looked_up df_a
           (fun a => cell a "PEOPLE_CODE_ID" = cell t "PEOPLE_CODE_ID")
           (fun a => or_else (VStr " ") (cell a "START_DATE")) (VStr " ")
           (cell rec "Attendance From Date")
      /\ looked_up df_a
           (fun a => cell a "PEOPLE_CODE_ID" = cell t "PEOPLE_CODE_ID")
           (fun a => or_else (VStr " ") (cell a "END_DATE")) (VStr " ")
           (cell rec "Attendance To Date")
      /\ looked_up df_th
           (fun h => cell h "PEOPLE_CODE_ID" = cell t "PEOPLE_CODE_ID"
                     /\ cell h "DEGREE" = cell t "DEGREE"
                     /\ cell h "CURRICULUM" = cell t "CURRICULUM")
           (fun h => VStr (honors_of (cell h "HONORS"))) (VStr " ")
           (cell rec "Academic Honors")
      /\ looked_up df_dm
           (fun d => cell d "Degree" = cell t "DEGREE"
                     /\ cell d "Curriculum" = cell t "CURRICULUM")
           (fun d => or_else (VStr " ") (cell d "CipCode")) (VStr " ")
           (cell rec "NCES CIP Code for Major 1")
      /\ looked_up df_code_degree
           (fun k => cell k "CODE_VALUE_KEY" = cell t "DEGREE")
           (fun k => cell k "LONG_DESC") VNaN (cell rec degree_title)
      /\ looked_up df_stoplist
           (fun s => cell s "PEOPLE_CODE_ID" = cell t "PEOPLE_CODE_ID")
           (fun s => VStr (financial_block_of (cell s "STOP_REASON")))
           (VStr "N") (cell rec "School Financial Block").
Proof.
  intros joins Hnd Htd Ha Hth Hdm Hcd Hsl Hno H rec Hrec.
  destruct (records_row _ _ _ _ _ _ _ _ _ _ Hnd H Hrec)
    as (df & t & m & pr & Hc & Ht & Hdeg & [Hagree Hatt] & Hpr & ->).
  fold joins in Hc. rewrite <- Hc in Hno.
  rewrite Forall_forall in Htd, Ha.
  assert (Hid : cell m "PEOPLE_CODE_ID" = cell t "PEOPLE_CODE_ID")
    by (apply Hagree, Htd; label_fact).
  assert (Hdg : cell m "DEGREE" = cell t "DEGREE")
    by (apply Hagree, Htd; label_fact).
  assert (Hcu : cell m "CURRICULUM" = cell t "CURRICULUM")
    by (apply Hagree, Htd; label_fact).
  apply table_joins_attached in Hatt as (Hata & Hatth & Hatdm & Hatcd & Hatsl).
  assert (Hja : forall c, c ∈ ["START_DATE"; "END_DATE"] ->
              c ∈ joined_columns ["PEOPLE_CODE_ID"] ["PEOPLE_CODE_ID"] df_a).
  { intros c Hcc. apply joined_column_elem; [now apply Ha|].
    revert c Hcc. apply Forall_forall. label_fact. }
  assert (Hjth : "HONORS" ∈ joined_columns
                   ["PEOPLE_CODE_ID"; "DEGREE"; "CURRICULUM"]
                   ["PEOPLE_CODE_ID"; "DEGREE"; "CURRICULUM"] df_th)
    by (apply joined_column_elem; [exact Hth | label_fact]).
  assert (Hjdm : "CipCode" ∈ joined_columns ["DEGREE"; "CURRICULUM"]
                   ["Degree"; "Curriculum"] df_dm)
    by (apply joined_column_elem; [exact Hdm | label_fact]).
  assert (Hjcd : "LONG_DESC" ∈ joined_columns ["DEGREE"] ["CODE_VALUE_KEY"]
                   df_code_degree)
    by (apply joined_column_elem; [exact Hcd | label_fact]).
  assert (Hjsl : "STOP_REASON" ∈ joined_columns ["PEOPLE_CODE_ID"]
                   ["PEOPLE_CODE_ID"] df_stoplist)
    by (apply joined_column_elem; [exact Hsl | label_fact]).
  assert (Hhas : forall c,
            c ∈ columns df_td \/ c ∈ columns_added joins ->
            has_column df c = true).
  { intros c Hcc. apply has_column_true. rewrite Hc. now apply elem_of_app. }
  assert (Hadded : forall c,
            c ∈ joined_columns ["PEOPLE_CODE_ID"] ["PEOPLE_CODE_ID"] df_a
            \/ c ∈ joined_columns ["PEOPLE_CODE_ID"; "DEGREE"; "CURRICULUM"]
                   ["PEOPLE_CODE_ID"; "DEGREE"; "CURRICULUM"] df_th
            \/ c ∈ joined_columns ["DEGREE"; "CURRICULUM"]
                   ["Degree"; "Curriculum"] df_dm
            \/ c ∈ joined_columns ["DEGREE"] ["CODE_VALUE_KEY"]
                   df_code_degree
            \/ c ∈ joined_columns ["PEOPLE_CODE_ID"] ["PEOPLE_CODE_ID"]
                   df_stoplist ->
            has_column df c = true).
  { intros c Hcc. apply Hhas. right. now apply columns_added_elem. }
  pose proof Hpr as (_ & _ & _ & Hblock & _ & Hhonors & _ & Hren & _).
  exists t. split; [exact Ht|]. split; [exact Hdeg|].
  rewrite !relabel_row_other by discriminate.
  split.
  { rewrite (prepared_report_cell df m pr "PEOPLE_CODE_ID");
      [exact Hid | exact Hpr | label_fact | label_fact |].
    apply Hhas. left. apply Htd. label_fact. }
  split.
  { rewrite (Hren "START_DATE" "Attendance From Date");
      [|label_fact | apply Hadded; left; apply Hja; label_fact].
    rewrite bool_decide_eq_true_2 by label_fact.
    apply (attached_looked_up _ _ _ _ _ _ _ _ Hata).
    - intros r. rewrite keys_match_singleton. split; congruence.
    - intros Hnan. now rewrite Hnan by (apply Hja; label_fact).
    - intros r Hr. now rewrite Hr by (apply Hja; label_fact). }
  split.
  { rewrite (Hren "END_DATE" "Attendance To Date");
      [|label_fact | apply Hadded; left; apply Hja; label_fact].
    rewrite bool_decide_eq_true_2 by label_fact.
    apply (attached_looked_up _ _ _ _ _ _ _ _ Hata).
    - intros r. rewrite keys_match_singleton. split; congruence.
    - intros Hnan. now rewrite Hnan by (apply Hja; label_fact).
    - intros r Hr. now rewrite Hr by (apply Hja; label_fact). }
  split.
  { rewrite Hhonors by (now apply has_column_false).
    apply (attached_looked_up _ _ _ _ _ _ _ _ Hatth).
    - intros r. rewrite !keys_match_cons. split.
      + intros (H1 & H2 & H3 & _). repeat split; congruence.
      + intros (H1 & H2 & H3). repeat split; try congruence.
        apply keys_match_nil.
    - intros Hnan. now rewrite Hnan by exact Hjth.
    - intros r Hr. now rewrite Hr by exact Hjth. }
  split.
  { rewrite (Hren "CipCode" "NCES CIP Code for Major 1");
      [|label_fact | apply Hadded; tauto].
    rewrite bool_decide_eq_true_2 by label_fact.
    apply (attached_looked_up _ _ _ _ _ _ _ _ Hatdm).
    - intros r. rewrite !keys_match_cons. split.
      + intros (H1 & H2 & _). split; congruence.
      + intros (H1 & H2). repeat split; try congruence.
        apply keys_match_nil.
    - intros Hnan. now rewrite Hnan by exact Hjdm.
    - intros r Hr. now rewrite Hr by exact Hjdm. }
  split.
  { unfold degree_title.
    rewrite (prepared_report_cell df m pr "LONG_DESC");
      [|exact Hpr | label_fact | label_fact | apply Hadded; tauto].
    apply (attached_looked_up _ _ _ _ _ _ _ _ Hatcd).
    - intros r. rewrite keys_match_singleton. split; congruence.
    - intros Hnan. now rewrite Hnan by exact Hjcd.
    - intros r Hr. now rewrite Hr by exact Hjcd. }
  rewrite Hblock.
  apply (attached_looked_up _ _ _ _ _ _ _ _ Hatsl).
  - intros r. rewrite keys_match_singleton. split; congruence.
  - intros Hnan. now rewrite Hnan by exact Hjsl.
  - intros r Hr. now rewrite Hr by exact Hjsl.
Qed.

Lemma tables_lookup_columns :
  Forall (fun c => c ∈ columns Tables.degrees)
    ["PEOPLE_CODE_ID"; "DEGREE"; "CURRICULUM"]
  /\ Forall (fun c => c ∈ columns Tables.attendance)
       ["START_DATE"; "END_DATE"]
  /\ "HONORS" ∈ columns Tables.df_th
  /\ "CipCode" ∈ columns Tables.df_dm
  /\ "LONG_DESC" ∈ columns Tables.code_degrees
  /\ "STOP_REASON" ∈ columns Tables.df_stoplist
  /\ ("Academic Honors"
      ∉ columns Tables.degrees
        ++ columns_added
             (table_joins Tables.attendance Tables.df_p Tables.df_minor
                Tables.df_th Tables.df_dm Tables.code_degrees
                Tables.df_stoplist)).
Proof. repeat split; label_fact. Qed.

Lemma records_looked_up_fields_witness :
  (NoDup (columns Tables.degrees
          ++ columns_added
               (table_joins Tables.attendance Tables.df_p Tables.df_minor
                  Tables.df_th Tables.df_dm Tables.code_degrees
                  Tables.df_stoplist))
   /\ (Forall (fun c => c ∈ columns Tables.degrees)
         ["PEOPLE_CODE_ID"; "DEGREE"; "CURRICULUM"]
       /\ Forall (fun c => c ∈ columns Tables.attendance)
            ["START_DATE"; "END_DATE"]
       /\ "HONORS" ∈ columns Tables.df_th
       /\ "CipCode" ∈ columns Tables.df_dm
       /\ "LONG_DESC" ∈ columns Tables.code_degrees
       /\ "STOP_REASON" ∈ columns Tables.df_stoplist
       /\ ("Academic Honors"
           ∉ columns Tables.degrees
             ++ columns_added
                  (table_joins Tables.attendance Tables.df_p Tables.df_minor
                     Tables.df_th Tables.df_dm Tables.code_degrees
                     Tables.df_stoplist)))
   /\ Tables.records = Ok (frame_of Tables.records))
  /\ forall rec,
       rec ∈ data (frame_of Tables.records) ->
       exists t,
         t ∈ data Tables.degrees
         /\ cell rec "College Student ID" = cell t "PEOPLE_CODE_ID"
         /\ looked_up Tables.code_degrees
              (fun k => cell k "CODE_VALUE_KEY" = cell t "DEGREE")
              (fun k => cell k "LONG_DESC") VNaN (cell rec degree_title)
         /\ looked_up Tables.df_stoplist
              (fun s => cell s "PEOPLE_CODE_ID" = cell t "PEOPLE_CODE_ID")
              (fun s => VStr (financial_block_of (cell s "STOP_REASON")))
              (VStr "N") (cell rec "School Financial Block").
Proof.
  split; [split; [exact tables_apart|];
          split; [exact tables_lookup_columns | exact records_returns]|].
  intros rec Hrec.
  destruct tables_lookup_columns as (H1 & H2 & H3 & H4 & H5 & H6 & H7).
  destruct (records_looked_up_fields Tables.degrees Tables.attendance
              Tables.df_p Tables.df_minor Tables.df_th Tables.df_dm
              Tables.code_degrees Tables.df_stoplist _ tables_apart
              H1 H2 H3 H4 H5 H6 H7 records_returns rec Hrec)
    as (t & Ht & _ & Hid & _ & _ & _ & _ & Htitle & Hblock).
  exists t. auto.
Defined.

(** ** A degree code that the code table lacks *)

Lemma write_rows_fails df specs rows f lw :
  consistent specs ->
  (exists bad, bad ∈ rows /\ ~ row_complete df bad specs) ->
  exists e f', write_rows df rows specs f lw = (Raise e, f').
Proof.
  intros Hc (bad & Hin & Hbad). revert f lw.
  induction rows as [|row rows IH]; intros f lw;
    [now apply elem_of_nil in Hin|].
  simpl. destruct (encode_fields df row specs "") as [line| |e] eqn:He.
  - apply elem_of_cons in Hin as [->|Hin]; [|now apply IH].
    destruct (encode_fields_incomplete df row specs "" Hc Hbad) as [e He'].
    congruence.
  - exfalso. now apply (encode_fields_consistent_not_Return0 df row specs "").
  - eauto.
Qed.

Lemma eligible_record
    df_td df_a df_p df_minor df_th df_dm df_code_degree df_stoplist out t :
  let joins :=
    table_joins df_a df_p df_minor df_th df_dm df_code_degree df_stoplist in
  NoDup (columns df_td ++ columns_added joins) ->
  "PEOPLE_CODE_ID" ∈ columns df_td ->
  "GOVERNMENT_ID" ∈ columns df_p ->
  create_DV_df_from_tables df_td df_a df_p df_minor df_th df_dm
    df_code_degree df_stoplist = Ok out ->
  t ∈ data df_td -> cell t "DEGREE" <> VStr "MINOR" ->
  (exists p, p ∈ data df_p
             /\ cell p "PEOPLE_CODE_ID" = cell t "PEOPLE_CODE_ID") ->
  (forall p, p ∈ data df_p ->
             cell p "PEOPLE_CODE_ID" = cell t "PEOPLE_CODE_ID" ->
             cell p "GOVERNMENT_ID" <> VNaN) ->
  exists df m pr,
    columns df = columns df_td ++ columns_added joins
    /\ extends (columns df_td) joins t m
    /\ prepared df m pr /\ relabel_row pr ∈ data out.
Proof.
  intros joins Hnd Hpc Hgov H Ht Hdeg (p0 & Hp0 & Hp0id) Hall.
  unfold create_DV_df_from_tables in H.
  apply bind_Ok in H as (df & Hdf & Hout).
  destruct (merge_tables_spec _ _ _ _ _ _ _ _ _ Hdf Hnd) as (Hc & _ & Hcov & _).
  fold joins in Hc, Hcov.
  destruct (Hcov t) as (m & Hm & Hagree & Hatt).
  { apply list_elem_of_filter. auto. }
  assert (Hmid : cell m "PEOPLE_CODE_ID" = cell t "PEOPLE_CODE_ID")
    by (now apply Hagree).
  pose proof (people_attached _ _ _ _ _ _ _ _ Hatt) as Hatp.
  assert (Hmgov : cell m "GOVERNMENT_ID" <> VNaN).
  { destruct Hatp as [[Hno _]|(p & Hp & Hkm & Hcells)].
    - exfalso. apply (Hno p0 Hp0). apply keys_match_singleton. congruence.
    - apply keys_match_singleton in Hkm.
      rewrite Hcells by (now apply government_id_joined).
      apply Hall; [exact Hp | congruence]. }
  apply assembled_rows in Hout as (pre & Hdata & Hpre & _).
  assert (Hssn : cell (pre m) "Student SSN" = cell m "GOVERNMENT_ID").
  { apply (prepared_report_cell df); [apply Hpre | label_fact | label_fact|].
    apply has_column_true. rewrite Hc. apply elem_of_app. right.
    unfold joins, table_joins, columns_added. simpl.
    apply elem_of_app. right. apply elem_of_app. left.
    now apply government_id_joined. }
  exists df, m, (pre m). split; [exact Hc|]. split; [now split|].
  split; [apply Hpre|].
  rewrite Hdata, stable_sort_perm. apply list_elem_of_fmap.
  exists (pre m). split; [reflexivity|]. apply list_elem_of_filter.
  split; [congruence|]. apply list_elem_of_fmap. eauto.
Qed.

Lemma no_title_incomplete df rec :
  cell rec degree_title = VNaN -> ~ row_complete df rec dv_col_def.
Proof.
  intros Hcell H. unfold row_complete in H. rewrite Forall_forall in H.
  destruct (H (degree_title, (80, 306, 385))) as (_ & s & Hs).
  - label_fact.
  - reflexivity.
  - simpl in Hs. rewrite Hcell in Hs. discriminate Hs.
Qed.

(** The three writes end with an exception as soon as one record is
    incomplete. *)
Lemma sections_fail fs today_str today_ymd start_date_str end_date_str df :
  (exists row, row ∈ data df /\ ~ row_complete df row dv_col_def) ->
  exists e fs',
    write_DV_sections fs today_str today_ymd start_date_str end_date_str df
    = (Raise e, fs').
Proof.
  intros Hbad. unfold write_DV_sections. fold (upload_file today_str).
  rewrite main_header_written. unfold write_DV_data, write_fw.
  destruct (write_rows_fails df dv_col_def (data df)
              (open_file
                 (<[upload_file today_str :=
                      chunks [main_header today_ymd start_date_str
                                end_date_str]]> fs)
                 (upload_file today_str) mode_a) 0
              (proj1 dv_col_def_layout) Hbad) as (e & f' & ->).
  eauto.
Qed.

(** X27. A degree code that the code table lacks makes the upload fail:
    when the reads and joins of the run give the frame that the eight
    frames merge to, and an eligible degree (not a minor, of a student who
    is among the people with a government ID) has a code without a row in
    the code table, the records are assembled with a missing title in a
    record, and [main] ends with an exception for them. *)
Theorem missing_degree_code_fails `{Runtime}
    df_td df_a df_p df_minor df_th df_dm df_code_degree df_stoplist merged
    out t fs today_str today_ymd start_date_str end_date_str :
  let joins :=
    table_joins df_a df_p df_minor df_th df_dm df_code_degree df_stoplist in
  NoDup (columns df_td ++ columns_added joins) ->
  Forall (fun c => c ∈ columns df_td) ["PEOPLE_CODE_ID"; "DEGREE"] ->
  "GOVERNMENT_ID" ∈ columns df_p ->
  "LONG_DESC" ∈ columns df_code_degree ->
  merge_tables df_td df_a df_p df_minor df_th df_dm df_code_degree
    df_stoplist = Ok merged ->
  joined start_date_str end_date_str merged ->
  create_DV_df merged = Ok out ->
  t ∈ data df_td -> cell t "DEGREE" <> VStr "MINOR" ->
  (exists p, p ∈ data df_p
             /\ cell p "PEOPLE_CODE_ID" = cell t "PEOPLE_CODE_ID") ->
  (forall p, p ∈ data df_p ->
             cell p "PEOPLE_CODE_ID" = cell t "PEOPLE_CODE_ID" ->
             cell p "GOVERNMENT_ID" <> VNaN) ->
  (forall k, k ∈ data df_code_degree ->
             cell k "CODE_VALUE_KEY" <> cell t "DEGREE") ->
  create_DV_df_from_tables df_td df_a df_p df_minor df_th df_dm
    df_code_degree df_stoplist = Ok out
  /\ (exists rec, rec ∈ data out /\ cell rec degree_title = VNaN)
  /\ exists e fs',
       main fs today_str today_ymd start_date_str end_date_str
       = (Raise e, fs').
Proof.
  intros joins Hnd Htd Hgov Hdesc Hm Hjoined Hout Ht Hdeg Hp Hall Hnocode.
  assert (H0 : create_DV_df_from_tables df_td df_a df_p df_minor df_th df_dm
                 df_code_degree df_stoplist = Ok out).
  { unfold create_DV_df_from_tables. now rewrite Hm. }
  split; [exact H0|].
  rewrite Forall_forall in Htd.
  assert (Hpc : "PEOPLE_CODE_ID" ∈ columns df_td) by (apply Htd; label_fact).
  destruct (eligible_record _ _ _ _ _ _ _ _ _ _ Hnd Hpc Hgov H0 Ht Hdeg Hp Hall)
    as (df & m & pr & Hc & [Hagree Hatt] & Hpr & Hrec).
  fold joins in Hc.
  apply table_joins_attached in Hatt as (_ & _ & _ & Hatcd & _).
  assert (Hjcd : "LONG_DESC" ∈ joined_columns ["DEGREE"] ["CODE_VALUE_KEY"]
                   df_code_degree)
    by (apply joined_column_elem; [exact Hdesc | label_fact]).
  assert (Htitle : cell (relabel_row pr) degree_title = VNaN).
  { unfold degree_title. rewrite relabel_row_other by discriminate.
    rewrite (prepared_report_cell df m pr "LONG_DESC");
      [|exact Hpr | label_fact | label_fact |].
    - destruct Hatcd as [[_ Hnan]|(k & Hk & Hkm & _)]; [now apply Hnan|].
      exfalso. apply keys_match_singleton in Hkm. apply (Hnocode k Hk).
      rewrite <- Hkm. apply Hagree, Htd. label_fact.
    - apply has_column_true. rewrite Hc. apply elem_of_app. right.
      apply columns_added_elem. tauto. }
  split; [eauto|].
  rewrite (main_joined _ _ _ _ _ _ _ Hjoined Hout).
  destruct (to_excel _ _ _ _) as [[[]|e] fs1]; [|eauto].
  destruct (sections_fail fs1 today_str today_ymd start_date_str end_date_str
              out) as (e & fs' & ->); [|eauto].
  exists (relabel_row pr). split; [exact Hrec|].
  now apply no_title_incomplete.
Qed.

Lemma merged_without_title_returns :
  Tables.merged_without_title = Ok (frame_of Tables.merged_without_title).
Proof. apply is_ok_frame_of. vm_compute. reflexivity. Qed.

Lemma records_without_title_returns :
  create_DV_df (frame_of Tables.merged_without_title)
  = Ok (frame_of Tables.records_without_title).
Proof.
  assert (H : Tables.records_without_title
              = Ok (frame_of Tables.records_without_title))
    by (apply is_ok_frame_of; vm_compute; reflexivity).
  rewrite <- H.
  exact (eq_sym (bind_Ok_eq Tables.merged_without_title
                   (fun df => create_DV_df df) _
                   merged_without_title_returns)).
Qed.

Lemma merged_without_title_joined :
  @joined (MoreExamples.run_of Tables.merged_without_title)
    "2023-01-01" "2023-12-31" (frame_of Tables.merged_without_title).
Proof.
  exists "2023-01-01", "2023-12-31". split; [reflexivity|].
  split; [reflexivity|]. exact merged_without_title_returns.
Qed.

Lemma tables_without_bs :
  NoDup (columns Tables.degrees
         ++ columns_added
              (table_joins Tables.attendance Tables.df_p Tables.df_minor
                 Tables.df_th Tables.df_dm Tables.codes_without_bs
                 Tables.df_stoplist))
  /\ Forall (fun c => c ∈ columns Tables.degrees) ["PEOPLE_CODE_ID"; "DEGREE"]
  /\ "LONG_DESC" ∈ columns Tables.codes_without_bs
  /\ forall k, k ∈ data Tables.codes_without_bs ->
               cell k "CODE_VALUE_KEY" <> cell Tables.forestry_degree "DEGREE".
Proof.
  split; [label_fact|]. split; [label_fact|]. split; [label_fact|].
  assert (H : Forall (fun k =>
                cell k "CODE_VALUE_KEY"
                <> cell Tables.forestry_degree "DEGREE")
                (data Tables.codes_without_bs)) by label_fact.
  rewrite Forall_forall in H. exact H.
Qed.

Lemma missing_degree_code_fails_witness :
  (NoDup (columns Tables.degrees
          ++ columns_added
               (table_joins Tables.attendance Tables.df_p Tables.df_minor
                  Tables.df_th Tables.df_dm Tables.codes_without_bs
                  Tables.df_stoplist))
   /\ Forall (fun c => c ∈ columns Tables.degrees)
        ["PEOPLE_CODE_ID"; "DEGREE"]
   /\ "GOVERNMENT_ID" ∈ columns Tables.df_p
   /\ "LONG_DESC" ∈ columns Tables.codes_without_bs
   /\ Tables.merged_without_title = Ok (frame_of Tables.merged_without_title)
   /\ @joined (MoreExamples.run_of Tables.merged_without_title)
        "2023-01-01" "2023-12-31" (frame_of Tables.merged_without_title)
   /\ create_DV_df (frame_of Tables.merged_without_title)
      = Ok (frame_of Tables.records_without_title)
   /\ Tables.forestry_degree ∈ data Tables.degrees
   /\ cell Tables.forestry_degree "DEGREE" <> VStr "MINOR"
   /\ (exists p, p ∈ data Tables.df_p
                 /\ cell p "PEOPLE_CODE_ID"
                    = cell Tables.forestry_degree "PEOPLE_CODE_ID")
   /\ (forall p, p ∈ data Tables.df_p ->
                 cell p "PEOPLE_CODE_ID"
                 = cell Tables.forestry_degree "PEOPLE_CODE_ID" ->
                 cell p "GOVERNMENT_ID" <> VNaN)
   /\ forall k, k ∈ data Tables.codes_without_bs ->
                cell k "CODE_VALUE_KEY"
                <> cell Tables.forestry_degree "DEGREE")
  /\ (exists rec, rec ∈ data (frame_of Tables.records_without_title)
                  /\ cell rec degree_title = VNaN)
  /\ exists e fs',
       @main (MoreExamples.run_of Tables.merged_without_title) ∅
         "20240102_0304" "20240102" "2023-01-01" "2023-12-31"
       = (Raise e, fs').
Proof.
  destruct forestry_degree_eligible as (H1 & H2 & H3 & H4).
  destruct tables_without_bs as (G1 & G2 & G3 & G4).
  split.
  { split; [exact G1|]. split; [exact G2|].
    split; [exact people_government_id|]. split; [exact G3|].
    split; [exact merged_without_title_returns|].
    split; [exact merged_without_title_joined|].
    split; [exact records_without_title_returns|]. split; [exact H1|].
    split; [exact H2|]. split; [exact H3|]. split; [exact H4 | exact G4]. }
  exact (proj2 (@missing_degree_code_fails
           (MoreExamples.run_of Tables.merged_without_title)
           Tables.degrees Tables.attendance
           Tables.df_p Tables.df_minor Tables.df_th Tables.df_dm
           Tables.codes_without_bs Tables.df_stoplist _ _
           Tables.forestry_degree ∅ "20240102_0304" "20240102" "2023-01-01"
           "2023-12-31" G1 G2 people_government_id G3
           merged_without_title_returns merged_without_title_joined
           records_without_title_returns H1 H2 H3 H4 G4)).
Defined.
